(** * ggml-vulkan: a shallow embedding of the Vulkan matmul backend

    The development models [src/ggml-vulkan.cpp]: machine integers are [Z]
    with their wrap-around written out, the global pipeline variables are a
    store indexed by their names, command buffers are lists of recorded
    commands, host and device memory are byte maps, and functions that can
    hit [GGML_ASSERT] or [abort()] return a [result]. *)

From Stdlib Require Import ZArith Lia Bool List String.
From stdpp Require Import base numbers list functions.
Import ListNotations.

Local Open Scope Z_scope.

(** ** Machine integers *)

Module CInt.

(** [uint32_t], [size_t]/[uint64_t]: reduction modulo the width. *)
Definition u32 (x : Z) : Z := x mod 2 ^ 32.
Definition u64 (x : Z) : Z := x mod 2 ^ 64.

(** Conversion to [int] (two's complement, 32 bits) and [int64_t]. *)
Definition s32 (x : Z) : Z := (x + 2 ^ 31) mod 2 ^ 32 - 2 ^ 31.
Definition s64 (x : Z) : Z := (x + 2 ^ 63) mod 2 ^ 64 - 2 ^ 63.

Definition SIZE_MAX : Z := 2 ^ 64 - 1.
Definition INT_MAX : Z := 2 ^ 31 - 1.

(** [#define CEIL_DIV(M, N) (((M) + (N)-1) / (N))], at the three operand
    types the source uses it with.  Division by zero is undefined in the
    source; here it yields 0. *)
Definition CEIL_DIV_size_t (M N : Z) : Z := u64 (M + N - 1) / N.
Definition CEIL_DIV_u32 (M N : Z) : Z := u32 (M + N - 1) / N.
Definition CEIL_DIV_int (M N : Z) : Z := Z.quot (s32 (M + N - 1)) N.

(** [ggml_vk_align_size(size_t width, size_t align)] *)
Definition ggml_vk_align_size (width align : Z) : Z :=
  u64 (CEIL_DIV_size_t width align * align).

End CInt.
Import CInt.

(** ** Results of code that may abort *)

(** [Done a]: the call returns.  [Aborted]: a [GGML_ASSERT] fails, [abort()]
    is called or an exception escapes.  [Undefined]: the call leaves defined
    behaviour (an index past the end of a [std::vector]). *)
Inductive result (A : Type) : Type :=
| Done (a : A)
| Aborted
| Undefined.
Arguments Done {A} a.
Arguments Aborted {A}.
Arguments Undefined {A}.

Definition rbind {A B} (r : result A) (k : A -> result B) : result B :=
  match r with
  | Done a => k a
  | Aborted => Aborted
  | Undefined => Undefined
  end.

Global Instance result_ret : MRet result := fun A a => Done a.
Global Instance result_bind : MBind result := fun A B k r => rbind r k.

(** [GGML_ASSERT(c)] *)
Definition GGML_ASSERT (c : bool) : result unit :=
  if c then Done tt else Aborted.

(** ** Tensors as the backend consumes them *)

(** Modelled from the spec: [ggml.h] is not part of the sources; the tensor
    contract lists the type as f32, f16 or a quantized block format, the
    backend as CPU, GPU or GPU_SPLIT.  The integer types stand for the
    non-quantized, non-float remainder of the enumeration. *)
Inductive ggml_type : Type :=
| GGML_TYPE_F32 | GGML_TYPE_F16
| GGML_TYPE_Q4_0 | GGML_TYPE_Q4_1 | GGML_TYPE_Q5_0 | GGML_TYPE_Q5_1
| GGML_TYPE_Q8_0 | GGML_TYPE_Q8_1
| GGML_TYPE_I8 | GGML_TYPE_I16 | GGML_TYPE_I32.

Inductive ggml_backend : Type :=
| GGML_BACKEND_CPU | GGML_BACKEND_GPU | GGML_BACKEND_GPU_SPLIT.

Inductive ggml_op : Type :=
| GGML_OP_NONE | GGML_OP_ADD | GGML_OP_MUL | GGML_OP_MUL_MAT | GGML_OP_CPY.

Inductive ggml_task_type : Type :=
| GGML_TASK_INIT | GGML_TASK_COMPUTE | GGML_TASK_FINALIZE.

Global Instance ggml_type_eq_dec : EqDecision ggml_type.
Proof. solve_decision. Defined.
Global Instance ggml_backend_eq_dec : EqDecision ggml_backend.
Proof. solve_decision. Defined.
Global Instance ggml_op_eq_dec : EqDecision ggml_op.
Proof. solve_decision. Defined.
Global Instance ggml_task_type_eq_dec : EqDecision ggml_task_type.
Proof. solve_decision. Defined.

(** Modelled from the spec: [ggml_is_quantized] lives in [ggml.c]; the
    quantized block formats are the types the spec calls any-quantized. *)
Definition ggml_is_quantized (t : ggml_type) : bool :=
  match t with
  | GGML_TYPE_Q4_0 | GGML_TYPE_Q4_1 | GGML_TYPE_Q5_0 | GGML_TYPE_Q5_1
  | GGML_TYPE_Q8_0 | GGML_TYPE_Q8_1 => true
  | _ => false
  end.

(** ** Vulkan objects *)

Definition VK_QUEUE_FAMILY_IGNORED : Z := 2 ^ 32 - 1.
Definition VK_WHOLE_SIZE : Z := 2 ^ 64 - 1.

(** [vk::MemoryPropertyFlagBits] *)
Definition eDeviceLocal : Z := 1.
Definition eHostVisible : Z := 2.
Definition eHostCoherent : Z := 4.
Definition eHostCached : Z := 8.

(** [vk::AccessFlagBits] *)
Definition eShaderRead : Z := 32.
Definition eShaderWrite : Z := 64.
Definition eTransferRead : Z := 2048.
Definition eTransferWrite : Z := 4096.
Definition eMemoryRead : Z := 32768.
Definition eMemoryWrite : Z := 65536.

(** [flags & bit] used as a condition. *)
Definition has_flag (flags bit : Z) : bool := negb (Z.land flags bit =? 0).

(** [struct vk_buffer].  [buffer] is the device handle, [ptr] the mapped
    host address (0 for [nullptr]); a staging buffer is a child owned by
    its parent. *)
#[local] Unset Elimination Schemes.
Inductive vk_buffer : Type := mk_vk_buffer {
  buffer : Z;
  memory_property_flags : Z;
  ptr : Z;
  size : Z;
  sb_write : option vk_buffer;
  sb_read : option vk_buffer;
  qf_owner : Z
}.
#[local] Set Elimination Schemes.

(** [struct vk_subbuffer] *)
Record vk_subbuffer : Type := mk_vk_subbuffer {
  sub_buffer : vk_buffer;
  sub_offset : Z;
  sub_size : Z
}.

(** [ggml_vk_subbuffer] *)
Definition ggml_vk_subbuffer (buf : vk_buffer) : vk_subbuffer :=
  mk_vk_subbuffer buf 0 (u32 (size buf)).

(** The global pipeline variables [vk_pipeline_*]. *)
Inductive pipeline_var : Type :=
| vk_pipeline_matmul_f32_l | vk_pipeline_matmul_f32_m | vk_pipeline_matmul_f32_s
| vk_pipeline_matmul_f32_aligned_l | vk_pipeline_matmul_f32_aligned_m
| vk_pipeline_matmul_f32_aligned_s
| vk_pipeline_matmul_f16_l | vk_pipeline_matmul_f16_m | vk_pipeline_matmul_f16_s
| vk_pipeline_matmul_f16_aligned_l | vk_pipeline_matmul_f16_aligned_m
| vk_pipeline_matmul_f16_aligned_s
| vk_pipeline_matmul_f16_f32_l | vk_pipeline_matmul_f16_f32_m
| vk_pipeline_matmul_f16_f32_s
| vk_pipeline_matmul_f16_f32_aligned_l | vk_pipeline_matmul_f16_f32_aligned_m
| vk_pipeline_matmul_f16_f32_aligned_s
| vk_pipeline_matmul_split_k_reduce
| vk_pipeline_dequant_mul_mat_vec_f16 | vk_pipeline_dequant_mul_mat_vec_q4_0
| vk_pipeline_dequant_mul_mat_vec_f16_f32 | vk_pipeline_dequant_mul_mat_vec_q4_0_f32
| vk_pipeline_mul_f32
| vk_pipeline_f32_to_f16 | vk_pipeline_dequant_q4_0.

Global Instance pipeline_var_eq_dec : EqDecision pipeline_var.
Proof. solve_decision. Defined.

(** A descriptor pool: how many sets it may hold and how many it holds. *)
Record vk_descriptor_pool : Type := mk_pool {
  max_sets : Z;
  used_sets : Z
}.

(** A descriptor set is named by its pool's position and its rank there. *)
Definition vk_descriptor_set : Type := (nat * Z)%type.

(** [struct vk_pipeline]; the opaque layout and pipeline handles are left
    out. *)
Record vk_pipeline : Type := mk_vk_pipeline {
  name : string;
  descriptor_pools : list vk_descriptor_pool;
  descriptor_sets : list vk_descriptor_set;
  descriptor_set_index : Z;
  push_constant_size : Z;
  parameter_count : Z;
  wg_denoms : Z * Z * Z;
  align : Z
}.

(** A default-constructed [vk_pipeline] global. *)
Definition vk_pipeline_default : vk_pipeline :=
  mk_vk_pipeline EmptyString [] [] 0 0 0 (0, 0, 0) 0.

Abbreviation pipeline_store := (pipeline_var -> vk_pipeline).

(** [struct vk_queue] without its mutex. *)
Record vk_queue : Type := mk_vk_queue {
  queue_family_index : Z;
  queue : Z;
  cmd_buffer_idx : Z;
  cmd_buffers : list Z;
  semaphore_idx : Z;
  semaphores : list Z;
  stage_flags : Z
}.

(** [vk::BufferMemoryBarrier] *)
Record vk_buffer_memory_barrier : Type := mk_barrier {
  srcAccessMask : Z;
  dstAccessMask : Z;
  srcQueueFamilyIndex : Z;
  dstQueueFamilyIndex : Z;
  barrier_buffer : Z;
  barrier_offset : Z;
  barrier_size : Z
}.

(** [vk::BufferCopy] *)
Record vk_buffer_copy : Type := mk_buffer_copy {
  srcOffset : Z;
  dstOffset : Z;
  copy_size : Z
}.

(** The commands the backend records into a command buffer. *)
Inductive vk_cmd : Type :=
| CmdPipelineBarrier (src_stage dst_stage : Z)
    (barriers : list vk_buffer_memory_barrier)
| CmdPushConstants (pc_size : Z) (push_constants : list Z)
| CmdBindPipeline (p : pipeline_var)
| CmdBindDescriptorSets (p : pipeline_var) (set : vk_descriptor_set)
    (infos : list (Z * Z * Z))
| CmdDispatch (wg0 wg1 wg2 : Z)
| CmdFillBuffer (dst : Z) (offset fill_size data : Z)
| CmdCopyBuffer (src dst : Z) (regions : list vk_buffer_copy).

(** [struct vk_submission]: the command buffer handle with what has been
    recorded into it, and its semaphores. *)
Record vk_submission : Type := mk_vk_submission {
  s_buffer : Z;
  s_cmds : list vk_cmd;
  wait_semaphores : list Z;
  signal_semaphores : list Z
}.

Definition vk_sequence : Type := list vk_submission.

Definition record (c : vk_cmd) (s : vk_submission) : vk_submission :=
  mk_vk_submission (s_buffer s) (s_cmds s ++ [c])
                   (wait_semaphores s) (signal_semaphores s).

(** ** Descriptor-pool mode and pipeline construction *)

Definition VK_DEVICE_DESCRIPTOR_POOL_MODE_UNKNOWN : Z := 0.
Definition VK_DEVICE_DESCRIPTOR_POOL_MODE_MULTI : Z := 1.
Definition VK_DEVICE_DESCRIPTOR_POOL_MODE_SINGLE : Z := 2.

(** The part of [vk_device] the pipeline cache reads and writes.
    [multi_sets_ok] is the driver's answer to the trial allocation (false:
    [vk::OutOfPoolMemoryError] is thrown); [trial_allocations] counts how
    often the trial has been run. *)
Record vk_device_state : Type := mk_device {
  descriptor_set_mode : Z;
  fp16 : bool;
  multi_sets_ok : bool;
  minStorageBufferOffsetAlignment : Z;
  trial_allocations : nat
}.

Definition set_mode (dev : vk_device_state) (mode : Z) : vk_device_state :=
  mk_device mode (fp16 dev) (multi_sets_ok dev)
            (minStorageBufferOffsetAlignment dev) (trial_allocations dev).

Definition count_trial (dev : vk_device_state) : vk_device_state :=
  mk_device (descriptor_set_mode dev) (fp16 dev) (multi_sets_ok dev)
            (minStorageBufferOffsetAlignment dev) (S (trial_allocations dev)).

(** [ggml_vk_create_pipeline]; the shader file is taken to exist. *)
Definition ggml_vk_create_pipeline (dev : vk_device_state) (path : string)
    (parameter_count push_constant_size : Z) (wg_denoms : Z * Z * Z)
    (align : Z) : result (vk_pipeline * vk_device_state) :=
  let '(d0, d1, d2) := wg_denoms in
  _ ← GGML_ASSERT (0 <? parameter_count);
  _ ← GGML_ASSERT ((0 <? d0) && (0 <? d1) && (0 <? d2));
  (* Check if device supports multiple descriptors per pool *)
  let dev1 :=
    if descriptor_set_mode dev =? VK_DEVICE_DESCRIPTOR_POOL_MODE_UNKNOWN then
      let dev' := count_trial dev in
      if multi_sets_ok dev' then dev'
      else set_mode dev' VK_DEVICE_DESCRIPTOR_POOL_MODE_SINGLE
    else dev in
  let pools :=
    if descriptor_set_mode dev1 =? VK_DEVICE_DESCRIPTOR_POOL_MODE_MULTI
    then [mk_pool 128 0] else [] in
  Done (mk_vk_pipeline path pools [] 0 push_constant_size parameter_count
                       wg_denoms align, dev1).

(** Allocation of [count] sets from pool [i] of a pipeline: past the end of
    [descriptor_pools] is undefined, past the pool's capacity throws. *)
Definition allocate_from_pool (pools : list vk_descriptor_pool) (i : nat)
    (count : Z) : result (list vk_descriptor_pool * list vk_descriptor_set) :=
  match pools !! i with
  | None => Undefined
  | Some pool =>
      if used_sets pool + count <=? max_sets pool then
        Done (<[i := mk_pool (max_sets pool) (used_sets pool + count)]> pools,
              map (fun k => (i, used_sets pool + Z.of_nat k))
                  (seq 0 (Z.to_nat count)))
      else Aborted
  end.

(** The single-mode loop of [ggml_vk_pipeline_allocate_descriptor_sets]:
    [todo] iterations starting at [i = descriptor_sets.size()]. *)
Fixpoint allocate_single_loop (todo : nat) (pools : list vk_descriptor_pool)
    (sets : list vk_descriptor_set)
    : result (list vk_descriptor_pool * list vk_descriptor_set) :=
  match todo with
  | O => Done (pools, sets)
  | S todo' =>
      let i := length sets in
      '(pools', new) ← allocate_from_pool (pools ++ [mk_pool 1 0]) i 1;
      match new with
      | s0 :: _ => allocate_single_loop todo' pools' (sets ++ [s0])
      | [] => Undefined
      end
  end.

Definition with_descriptors (p : vk_pipeline)
    (pools : list vk_descriptor_pool) (sets : list vk_descriptor_set)
    (idx : Z) : vk_pipeline :=
  mk_vk_pipeline (name p) pools sets idx (push_constant_size p)
                 (parameter_count p) (wg_denoms p) (align p).

(** [ggml_vk_pipeline_allocate_descriptor_sets(pipeline, n)], [n] a
    [uint32_t]. *)
Definition ggml_vk_pipeline_allocate_descriptor_sets (dev : vk_device_state)
    (pipeline : vk_pipeline) (n : Z) : result vk_pipeline :=
  let have := Z.of_nat (length (descriptor_sets pipeline)) in
  if n <=? have then Done pipeline
  else if descriptor_set_mode dev =? VK_DEVICE_DESCRIPTOR_POOL_MODE_MULTI then
    let alloc_count := u32 (n - have) in
    '(pools, new) ← allocate_from_pool (descriptor_pools pipeline) 0 alloc_count;
    Done (with_descriptors pipeline pools (descriptor_sets pipeline ++ new)
                           (descriptor_set_index pipeline))
  else
    '(pools, sets) ← allocate_single_loop (Z.to_nat (n - have))
                        (descriptor_pools pipeline) (descriptor_sets pipeline);
    Done (with_descriptors pipeline pools sets (descriptor_set_index pipeline)).

(** [ggml_vk_pipeline_cleanup] *)
Definition ggml_vk_pipeline_cleanup (pipeline : vk_pipeline) : vk_pipeline :=
  with_descriptors pipeline (descriptor_pools pipeline)
                   (descriptor_sets pipeline) 0.

(** ** Pipelines created by [ggml_vk_init] *)

(** One [ggml_vk_create_pipeline] call of [ggml_vk_init]: the variable
    assigned, the path, parameter count, push-constant size, work-group
    denominators and alignment. *)
Definition pipeline_spec : Type :=
  (pipeline_var * string * Z * Z * (Z * Z * Z) * Z)%type.

Definition matmul_specs (path : string) (l m s : pipeline_var)
    : list pipeline_spec :=
  [ (l, path, 3, 7 * 4, (128, 128, 1), 128);
    (m, path, 3, 7 * 4, (64, 64, 1), 64);
    (s, path, 3, 7 * 4, (32, 32, 1), 32) ].

(** The calls in source order; the fp16 block only on fp16 devices. *)
Definition init_pipeline_specs (fp16 : bool) : list pipeline_spec :=
  matmul_specs "vk_shaders/matmul_f32.spv" vk_pipeline_matmul_f32_l
               vk_pipeline_matmul_f32_m vk_pipeline_matmul_f32_s
  ++ matmul_specs "vk_shaders/matmul_f32_aligned.spv"
       vk_pipeline_matmul_f32_aligned_l vk_pipeline_matmul_f32_aligned_m
       vk_pipeline_matmul_f32_aligned_s
  ++ (if fp16 then
        matmul_specs "vk_shaders/matmul_f16.spv" vk_pipeline_matmul_f16_l
                     vk_pipeline_matmul_f16_m vk_pipeline_matmul_f16_s
        ++ matmul_specs "vk_shaders/matmul_f16_aligned.spv"
             vk_pipeline_matmul_f16_aligned_l vk_pipeline_matmul_f16_aligned_m
             vk_pipeline_matmul_f16_aligned_s
        ++ matmul_specs "vk_shaders/matmul_f16_f32.spv"
             vk_pipeline_matmul_f16_f32_l vk_pipeline_matmul_f16_f32_m
             vk_pipeline_matmul_f16_f32_s
        ++ matmul_specs "vk_shaders/matmul_f16_f32_aligned.spv"
             vk_pipeline_matmul_f16_f32_aligned_l
             vk_pipeline_matmul_f16_f32_aligned_m
             vk_pipeline_matmul_f16_f32_aligned_s
        ++ [ (vk_pipeline_dequant_mul_mat_vec_f16,
              "vk_shaders/dequant_mul_mat_vec_f16.spv"%string, 3, 1 * 4, (1, 1, 1), 1);
             (vk_pipeline_dequant_mul_mat_vec_q4_0,
              "vk_shaders/dequant_mul_mat_vec_q4_0.spv"%string, 3, 1 * 4, (1, 1, 1), 1) ]
      else [])
  ++ [ (vk_pipeline_matmul_split_k_reduce,
        "vk_shaders/matmul_split_k_reduce.spv"%string, 1, 3 * 4, (32, 32, 1), 1);
       (vk_pipeline_f32_to_f16,
        "vk_shaders/f32_to_f16.spv"%string, 2, 4 * 4, (64, 1, 1), 1);
       (vk_pipeline_dequant_q4_0,
        "vk_shaders/dequant_q4_0.spv"%string, 2, 4 * 4, (256 * 32, 1, 1), 1);
       (vk_pipeline_dequant_mul_mat_vec_f16_f32,
        "vk_shaders/dequant_mul_mat_vec_f16_f32.spv"%string, 3, 1 * 4, (1, 1, 1), 1);
       (vk_pipeline_dequant_mul_mat_vec_q4_0_f32,
        "vk_shaders/dequant_mul_mat_vec_q4_0_f32.spv"%string, 3, 1 * 4, (1, 1, 1), 1);
       (vk_pipeline_mul_f32,
        "vk_shaders/mul_f32.spv"%string, 3, 8 * 4, (32, 32, 1), 1) ].

(** Running a list of creations, each assigned to its global. *)
Fixpoint create_pipelines (specs : list pipeline_spec)
    (st : pipeline_store) (dev : vk_device_state)
    : result (pipeline_store * vk_device_state) :=
  match specs with
  | [] => Done (st, dev)
  | (v, path, pcount, pcsize, denoms, al) :: rest =>
      '(p, dev') ← ggml_vk_create_pipeline dev path pcount pcsize denoms al;
      create_pipelines rest (<[v := p]> st) dev'
  end.

(** The pipeline part of [ggml_vk_init]: the mode starts unknown. *)
Definition init_device (fp16 multi_ok : bool) (min_align : Z)
    : vk_device_state :=
  mk_device VK_DEVICE_DESCRIPTOR_POOL_MODE_UNKNOWN fp16 multi_ok min_align 0.

Definition ggml_vk_init (fp16 multi_ok : bool) (min_align : Z)
    : result (pipeline_store * vk_device_state) :=
  create_pipelines (init_pipeline_specs fp16) (fun _ => vk_pipeline_default)
                   (init_device fp16 multi_ok min_align).

(** ** Command recording *)

(** [ggml_vk_create_cmd_buffer]: a command buffer is named by its position
    in the queue's ring. *)
Definition ggml_vk_create_cmd_buffer (q : vk_queue) : Z * vk_queue :=
  if cmd_buffer_idx q <? Z.of_nat (length (cmd_buffers q)) then
    (nth (Z.to_nat (cmd_buffer_idx q)) (cmd_buffers q) 0,
     mk_vk_queue (queue_family_index q) (queue q) (u32 (cmd_buffer_idx q + 1))
                 (cmd_buffers q) (semaphore_idx q) (semaphores q)
                 (stage_flags q))
  else
    let buf := Z.of_nat (length (cmd_buffers q)) in
    (buf,
     mk_vk_queue (queue_family_index q) (queue q) (u32 (cmd_buffer_idx q + 1))
                 (cmd_buffers q ++ [buf]) (semaphore_idx q) (semaphores q)
                 (stage_flags q)).

(** [ggml_vk_begin_submission] *)
Definition ggml_vk_begin_submission (q : vk_queue) : vk_submission * vk_queue :=
  let '(buf, q') := ggml_vk_create_cmd_buffer q in
  (mk_vk_submission buf [] [] [], q').

(** [ggml_vk_end_submission] *)
Definition ggml_vk_end_submission (s : vk_submission)
    (wait signal : list Z) : vk_submission :=
  mk_vk_submission (s_buffer s) (s_cmds s) wait signal.

(** The barriers [ggml_vk_sync_buffers] collects.  The owner update is
    made on the by-value copy inside the argument vector. *)
Definition sync_barriers (buffers : list vk_subbuffer) (q : vk_queue)
    (src_mask dst_mask : Z) (force_sync : bool)
    : list vk_buffer_memory_barrier :=
  flat_map (fun buf =>
    let owner := qf_owner (sub_buffer buf) in
    if negb (owner =? VK_QUEUE_FAMILY_IGNORED)
       && negb (owner =? queue_family_index q) then
      [mk_barrier src_mask dst_mask owner (queue_family_index q)
                  (buffer (sub_buffer buf)) (sub_offset buf) (sub_size buf)]
    else if force_sync then
      [mk_barrier src_mask dst_mask VK_QUEUE_FAMILY_IGNORED
                  VK_QUEUE_FAMILY_IGNORED
                  (buffer (sub_buffer buf)) (sub_offset buf) (sub_size buf)]
    else []) buffers.

(** [ggml_vk_sync_buffers] *)
Definition ggml_vk_sync_buffers (s : vk_submission)
    (buffers : list vk_subbuffer) (q : vk_queue) (src_mask dst_mask : Z)
    (force_sync : bool) : vk_submission :=
  match sync_barriers buffers q src_mask dst_mask force_sync with
  | [] => s
  | bs => record (CmdPipelineBarrier (stage_flags q) (stage_flags q) bs) s
  end.

(** [ggml_vk_dispatch_pipeline] on the global [pv]: reads
    [descriptor_sets[descriptor_set_index++]] and [buffers[i]] for
    [i < parameter_count] unchecked. *)
Definition ggml_vk_dispatch_pipeline (st : pipeline_store)
    (s : vk_submission) (pv : pipeline_var) (buffers : list vk_subbuffer)
    (pc_size : Z) (push_constants : list Z) (elements : Z * Z * Z)
    : result (vk_submission * pipeline_store) :=
  let pipeline := st pv in
  let '(e0, e1, e2) := elements in
  let '(d0, d1, d2) := wg_denoms pipeline in
  let wg0 := CEIL_DIV_u32 e0 d0 in
  let wg1 := CEIL_DIV_u32 e1 d1 in
  let wg2 := CEIL_DIV_u32 e2 d2 in
  match descriptor_sets pipeline !! Z.to_nat (descriptor_set_index pipeline) with
  | None => Undefined
  | Some descriptor_set =>
      let pipeline' :=
        with_descriptors pipeline (descriptor_pools pipeline)
          (descriptor_sets pipeline) (u32 (descriptor_set_index pipeline + 1)) in
      if Z.of_nat (length buffers) <? parameter_count pipeline then Undefined
      else
        let infos :=
          map (fun b => (buffer (sub_buffer b), sub_offset b, sub_size b))
              (take (Z.to_nat (parameter_count pipeline)) buffers) in
        let s1 := record (CmdPushConstants pc_size push_constants) s in
        let s2 := record (CmdBindPipeline pv) s1 in
        let s3 := record (CmdBindDescriptorSets pv descriptor_set infos) s2 in
        let s4 := record (CmdDispatch wg0 wg1 wg2) s3 in
        Done (s4, <[pv := pipeline']> st)
  end.

(** ** Matmul planning *)

(** [ggml_vk_guess_split_k] *)
Definition ggml_vk_guess_split_k (m n k : Z) : Z :=
  if (128 <? k) && ((m <? 128) || (n <? 128)) then 4 else 1.

(** [ggml_vk_guess_matmul_pipeline_align] *)
Definition ggml_vk_guess_matmul_pipeline_align (st : pipeline_store)
    (m n : Z) : Z :=
  if (m <=? 32) || (n <=? 32) then align (st vk_pipeline_matmul_f32_s)
  else if (m <=? 64) || (n <=? 64) then align (st vk_pipeline_matmul_f32_m)
  else align (st vk_pipeline_matmul_f32_l).

(** [ggml_vk_guess_matmul_pipeline] *)
Definition ggml_vk_guess_matmul_pipeline (bit16_x bit16_y : bool) (m n : Z)
    (aligned : bool) : result pipeline_var :=
  if bit16_x && bit16_y then
    if (m <=? 32) || (n <=? 32) then
      Done (if aligned then vk_pipeline_matmul_f16_aligned_s
            else vk_pipeline_matmul_f16_s)
    else if (m <=? 64) || (n <=? 64) then
      Done (if aligned then vk_pipeline_matmul_f16_aligned_m
            else vk_pipeline_matmul_f16_m)
    else
      Done (if aligned then vk_pipeline_matmul_f16_aligned_l
            else vk_pipeline_matmul_f16_l)
  else if bit16_x && negb bit16_y then
    if (m <=? 32) || (n <=? 32) then
      Done (if aligned then vk_pipeline_matmul_f16_f32_aligned_s
            else vk_pipeline_matmul_f16_f32_s)
    else if (m <=? 64) || (n <=? 64) then
      Done (if aligned then vk_pipeline_matmul_f16_f32_aligned_m
            else vk_pipeline_matmul_f16_f32_m)
    else
      Done (if aligned then vk_pipeline_matmul_f16_f32_aligned_l
            else vk_pipeline_matmul_f16_f32_l)
  else
    _ ← GGML_ASSERT (negb (negb bit16_x && bit16_y));
    if (m <=? 32) || (n <=? 32) then
      Done (if aligned then vk_pipeline_matmul_f32_aligned_s
            else vk_pipeline_matmul_f32_s)
    else if (m <=? 64) || (n <=? 64) then
      Done (if aligned then vk_pipeline_matmul_f32_aligned_m
            else vk_pipeline_matmul_f32_m)
    else
      Done (if aligned then vk_pipeline_matmul_f32_aligned_l
            else vk_pipeline_matmul_f32_l).

(** What the three matmul orchestrators compute before their loop, from
    the [int64_t] extents [ne01], [ne11], [ne10] (M, N, K): the split,
    [kpad] and the pipeline ([ggml_vk_mul_mat_f32] passes (false, false),
    [ggml_vk_mul_mat_f16] (true, true), [ggml_vk_mul_mat_q_f16]
    (true, src1 is not f32)). *)
Definition mul_mat_split_k (ne01 ne11 ne10 : Z) : Z :=
  ggml_vk_guess_split_k (s32 ne01) (s32 ne11) (s32 ne10).

Definition mul_mat_kpad (st : pipeline_store) (ne01 ne11 ne10 : Z) : Z :=
  s32 (ggml_vk_align_size (u64 ne10)
         (ggml_vk_guess_matmul_pipeline_align st (s32 ne01) (s32 ne11))).

Definition mul_mat_pipeline (st : pipeline_store) (bit16_x bit16_y : bool)
    (ne01 ne11 ne10 : Z) : result pipeline_var :=
  ggml_vk_guess_matmul_pipeline bit16_x bit16_y (s32 ne01) (s32 ne11)
    (ne10 =? mul_mat_kpad st ne01 ne11 ne10).

(** [d_ne] and [d_sz] of the orchestrators:
    [const int d_ne = ne11 * ne01] and
    [const uint32_t d_sz = ggml_vk_align_size(sizeof(float) * d_ne * split_k,
    minStorageBufferOffsetAlignment)]. *)
Definition mul_mat_d_ne (ne01 ne11 : Z) : Z := s32 (s64 (ne11 * ne01)).

Definition mul_mat_d_sz (dev : vk_device_state) (ne01 ne11 ne10 : Z) : Z :=
  u32 (ggml_vk_align_size
         (u64 (u64 (4 * u64 (mul_mat_d_ne ne01 ne11))
               * u64 (mul_mat_split_k ne01 ne11 ne10)))
         (minStorageBufferOffsetAlignment dev)).

(** [ggml_vk_matmul] *)
Definition ggml_vk_matmul (st : pipeline_store) (pipeline : pipeline_var)
    (a b d : vk_subbuffer) (m n k stride_a stride_b stride_d split_k : Z)
    (q : vk_queue) (wait signal : list Z)
    : result (vk_sequence * pipeline_store * vk_queue) :=
  let '(s, q') := ggml_vk_begin_submission q in
  let s := ggml_vk_sync_buffers s [a; b] q' eMemoryWrite eShaderRead false in
  let s := ggml_vk_sync_buffers s [d] q' eMemoryRead eShaderWrite false in
  if split_k =? 1 then
    let pc := [m; n; k; stride_a; stride_b; stride_d; k] in
    '(s, st) ← ggml_vk_dispatch_pipeline st s pipeline [a; b; d]
                 (Z.of_nat (length pc) * 4) pc (u32 m, u32 n, 1);
    Done ([ggml_vk_end_submission s wait signal], st, q')
  else
    (* Synchronize the two submissions *)
    let pc1 := [m; n; k; stride_a; stride_b; stride_d;
                CEIL_DIV_int stride_a split_k] in
    '(s, st) ← ggml_vk_dispatch_pipeline st s pipeline [a; b; d]
                 (Z.of_nat (length pc1) * 4) pc1
                 (u32 (u32 m * u32 split_k), u32 n, 1);
    let s := ggml_vk_sync_buffers s [d] q' eMemoryWrite
               (Z.lor eShaderRead eShaderWrite) true in
    let pc2 := [m; n; split_k] in
    '(s, st) ← ggml_vk_dispatch_pipeline st s vk_pipeline_matmul_split_k_reduce
                 [d] (Z.of_nat (length pc2) * 4) pc2 (u32 m, u32 n, 1);
    Done ([ggml_vk_end_submission s wait signal], st, q').

(** The store and device [ggml_vk_init] leaves behind. *)
Definition init_store (fp16 multi_ok : bool) (min_align : Z) : pipeline_store :=
  match ggml_vk_init fp16 multi_ok min_align with
  | Done (st, _) => st
  | _ => fun _ => vk_pipeline_default
  end.

Definition init_dev (fp16 multi_ok : bool) (min_align : Z) : vk_device_state :=
  match ggml_vk_init fp16 multi_ok min_align with
  | Done (_, dev) => dev
  | _ => init_device fp16 multi_ok min_align
  end.

(** An orchestrator's
    [ggml_vk_pipeline_allocate_descriptor_sets(<global>, n)]. *)
Definition allocate_in (st : pipeline_store) (dev : vk_device_state)
    (pv : pipeline_var) (n : Z) : result pipeline_store :=
  p ← ggml_vk_pipeline_allocate_descriptor_sets dev (st pv) n;
  Done (<[pv := p]> st).

(** ** The selection rules in the specification's words *)

Inductive spec_tile : Type := TileSmall | TileMedium | TileLarge.
Inductive spec_type_variant : Type := VariantF32 | VariantF16 | VariantF16F32.

(** small if M <= 32 or N <= 32, else medium if M <= 64 or N <= 64, else
    large. *)
Definition spec_choose_tile (M N : Z) : spec_tile :=
  if (M <=? 32) || (N <=? 32) then TileSmall
  else if (M <=? 64) || (N <=? 64) then TileMedium
  else TileLarge.

(** The type variant by the tag (x_is_16, y_is_16); (false, true) is the
    invalid combination. *)
Definition spec_choose_variant (x_is_16 y_is_16 : bool)
    : option spec_type_variant :=
  match x_is_16, y_is_16 with
  | false, false => Some VariantF32
  | true, true => Some VariantF16
  | true, false => Some VariantF16F32
  | false, true => None
  end.

(** The global that holds a given variant. *)
Definition spec_matmul_pipeline (ty : spec_type_variant) (aligned : bool)
    (t : spec_tile) : pipeline_var :=
  match ty, aligned, t with
  | VariantF32, false, TileSmall => vk_pipeline_matmul_f32_s
  | VariantF32, false, TileMedium => vk_pipeline_matmul_f32_m
  | VariantF32, false, TileLarge => vk_pipeline_matmul_f32_l
  | VariantF32, true, TileSmall => vk_pipeline_matmul_f32_aligned_s
  | VariantF32, true, TileMedium => vk_pipeline_matmul_f32_aligned_m
  | VariantF32, true, TileLarge => vk_pipeline_matmul_f32_aligned_l
  | VariantF16, false, TileSmall => vk_pipeline_matmul_f16_s
  | VariantF16, false, TileMedium => vk_pipeline_matmul_f16_m
  | VariantF16, false, TileLarge => vk_pipeline_matmul_f16_l
  | VariantF16, true, TileSmall => vk_pipeline_matmul_f16_aligned_s
  | VariantF16, true, TileMedium => vk_pipeline_matmul_f16_aligned_m
  | VariantF16, true, TileLarge => vk_pipeline_matmul_f16_aligned_l
  | VariantF16F32, false, TileSmall => vk_pipeline_matmul_f16_f32_s
  | VariantF16F32, false, TileMedium => vk_pipeline_matmul_f16_f32_m
  | VariantF16F32, false, TileLarge => vk_pipeline_matmul_f16_f32_l
  | VariantF16F32, true, TileSmall => vk_pipeline_matmul_f16_f32_aligned_s
  | VariantF16F32, true, TileMedium => vk_pipeline_matmul_f16_f32_aligned_m
  | VariantF16F32, true, TileLarge => vk_pipeline_matmul_f16_f32_aligned_l
  end.

(** ceil(x / y) and the padding of the specification. *)
Definition spec_ceil (x y : Z) : Z := (x + y - 1) / y.
Definition spec_pad (width al : Z) : Z := spec_ceil width al * al.

(** split_k = 4 if K > 128 and (M < 128 or N < 128), else 1. *)
Definition spec_split_k (M N K : Z) : Z :=
  if decide (K > 128 /\ (M < 128 \/ N < 128)) then 4 else 1.

(** The grid of section 4.5.6: extents divided, rounding up, by the
    pipeline's work-group denominators. *)
Definition spec_grid (denoms extents : Z * Z * Z) : Z * Z * Z :=
  let '(dx, dy, dz) := denoms in
  let '(e0, e1, e2) := extents in
  (spec_ceil e0 dx, spec_ceil e1 dy, spec_ceil e2 dz).

(** The dispatches recorded in a command buffer, each with the push
    constants and the pipeline bound when it is recorded. *)
Fixpoint dispatches_from (pc : list Z) (p : option pipeline_var)
    (cmds : list vk_cmd) : list (option pipeline_var * list Z * (Z * Z * Z)) :=
  match cmds with
  | [] => []
  | CmdPushConstants _ pc' :: rest => dispatches_from pc' p rest
  | CmdBindPipeline p' :: rest => dispatches_from pc (Some p') rest
  | CmdDispatch wg0 wg1 wg2 :: rest =>
      (p, pc, (wg0, wg1, wg2)) :: dispatches_from pc p rest
  | _ :: rest => dispatches_from pc p rest
  end.

Definition dispatches (cmds : list vk_cmd) := dispatches_from [] None cmds.

(** The buffer barriers recorded strictly between the first and the second
    dispatch of a command buffer. *)
Fixpoint barriers_until_dispatch (cmds : list vk_cmd)
    : list vk_buffer_memory_barrier :=
  match cmds with
  | [] => []
  | CmdDispatch _ _ _ :: _ => []
  | CmdPipelineBarrier _ _ bs :: rest => bs ++ barriers_until_dispatch rest
  | _ :: rest => barriers_until_dispatch rest
  end.

Fixpoint barriers_between_dispatches (cmds : list vk_cmd)
    : list vk_buffer_memory_barrier :=
  match cmds with
  | [] => []
  | CmdDispatch _ _ _ :: rest => barriers_until_dispatch rest
  | _ :: rest => barriers_between_dispatches rest
  end.

(** Extents and work-group denominators for which the [uint32_t]
    ceil-division of a dispatch does not wrap. *)
Definition grid_fits (denoms extents : Z * Z * Z) : Prop :=
  (0 < denoms.1.1 /\ 0 < denoms.1.2 /\ 0 < denoms.2)
  /\ (0 <= extents.1.1 /\ 0 <= extents.1.2 /\ 0 <= extents.2)
  /\ extents.1.1 + denoms.1.1 <= 2 ^ 32
  /\ extents.1.2 + denoms.1.2 <= 2 ^ 32
  /\ extents.2 + denoms.2 <= 2 ^ 32.

(** The pipeline after [descriptor_set_index++]. *)
Definition advance_cursor (p : vk_pipeline) : vk_pipeline :=
  with_descriptors p (descriptor_pools p) (descriptor_sets p)
                   (u32 (descriptor_set_index p + 1)).

(** The four commands one [ggml_vk_dispatch_pipeline] records. *)
Definition dispatch_cmds (st : pipeline_store) (pv : pipeline_var)
    (buffers : list vk_subbuffer) (pc_size : Z) (pc : list Z)
    (elements : Z * Z * Z) (set : vk_descriptor_set) : list vk_cmd :=
  [ CmdPushConstants pc_size pc;
    CmdBindPipeline pv;
    CmdBindDescriptorSets pv set
      (map (fun b => (buffer (sub_buffer b), sub_offset b, sub_size b))
           (take (Z.to_nat (parameter_count (st pv))) buffers));
    CmdDispatch (CEIL_DIV_u32 elements.1.1 (wg_denoms (st pv)).1.1)
                (CEIL_DIV_u32 elements.1.2 (wg_denoms (st pv)).1.2)
                (CEIL_DIV_u32 elements.2 (wg_denoms (st pv)).2) ].

Definition only_barriers (cmds : list vk_cmd) : Prop :=
  Forall (fun c => exists a b bs, c = CmdPipelineBarrier a b bs) cmds.

(** A queue, three device-local buffers and a store with one descriptor
    set for the medium aligned f32 pipeline and the reduction, used as a
    concrete instance. *)
Definition example_queue : vk_queue := mk_vk_queue 0 0 0 [] 0 [] 2048.

Definition example_buffer (handle : Z) : vk_buffer :=
  mk_vk_buffer handle eDeviceLocal 0 65536 None None VK_QUEUE_FAMILY_IGNORED.

Definition example_store : result pipeline_store :=
  st1 ← allocate_in (init_store true true 16) (init_dev true true 16)
          vk_pipeline_matmul_f32_aligned_m 1;
  allocate_in st1 (init_dev true true 16) vk_pipeline_matmul_split_k_reduce 1.

Definition example_store_or_default : pipeline_store :=
  match example_store with
  | Done st => st
  | _ => fun _ => vk_pipeline_default
  end.

(** ** Life of one pipeline's descriptor sets *)

(** What orchestrators do with a pipeline global: pre-size, dispatch,
    clean up. *)
Inductive pipeline_op : Type :=
| OpAllocate (n : Z)
| OpDispatch (buffers : list vk_subbuffer) (pc_size : Z) (pc : list Z)
    (elements : Z * Z * Z)
| OpCleanup.

Definition run_op (dev : vk_device_state) (pv : pipeline_var)
    (op : pipeline_op) (state : pipeline_store * vk_submission)
    : result (pipeline_store * vk_submission) :=
  let '(st, s) := state in
  match op with
  | OpAllocate n =>
      st' ← allocate_in st dev pv n; Done (st', s)
  | OpDispatch buffers pc_size pc elements =>
      '(s', st') ← ggml_vk_dispatch_pipeline st s pv buffers pc_size pc elements;
      Done (st', s')
  | OpCleanup =>
      Done (<[pv := ggml_vk_pipeline_cleanup (st pv)]> st, s)
  end.

Fixpoint run_ops (dev : vk_device_state) (pv : pipeline_var)
    (ops : list pipeline_op) (state : pipeline_store * vk_submission)
    : result (pipeline_store * vk_submission) :=
  match ops with
  | [] => Done state
  | op :: rest => state' ← run_op dev pv op state; run_ops dev pv rest state'
  end.

(** The orchestrators' discipline: every dispatch is covered by an earlier
    pre-sizing.  [used] counts the dispatches since the last cleanup, [hw]
    is the largest count asked for so far, [pcount] the pipeline's
    parameter count (a dispatch passes at least that many buffers). *)
Fixpoint presized (pcount used hw : Z) (ops : list pipeline_op) : Prop :=
  match ops with
  | [] => True
  | OpAllocate n :: rest =>
      0 <= n < 2 ^ 32 /\ presized pcount used (Z.max hw n) rest
  | OpDispatch buffers _ _ _ :: rest =>
      used < hw /\ pcount <= Z.of_nat (length buffers)
      /\ presized pcount (used + 1) hw rest
  | OpCleanup :: rest => presized pcount 0 hw rest
  end.

(** The facts about one pipeline global that pre-sizing maintains outside
    multi mode: one pool per set, the cursor equal to the number of
    dispatches since the last cleanup and below the largest count asked
    for, which the sets cover. *)
Definition cursor_invariant (st : pipeline_store) (pv : pipeline_var)
    (pcount used hw : Z) : Prop :=
  length (descriptor_pools (st pv)) = length (descriptor_sets (st pv))
  /\ descriptor_set_index (st pv) = used
  /\ 0 <= used <= hw
  /\ hw <= Z.of_nat (length (descriptor_sets (st pv)))
  /\ hw < 2 ^ 32
  /\ parameter_count (st pv) = pcount.

(** ** Host and device memory *)

(** The memory the backend reads and writes.  [host_mem] is the host
    address space, bytes by address; the memory of a host-visible buffer is
    the part of it at the buffer's mapped address.  [dev_mem] holds the
    memory of the other buffers, by handle and offset.  [mapped] gives the
    mapped address of a host-visible buffer, [buffer_size] the size a
    buffer was created with; [live] lists the handles of the buffers that
    exist.  Fresh handles and fresh mapped addresses are handed out in
    increasing order. *)
Record vk_world : Type := mk_world {
  host_mem : Z -> Z;
  dev_mem : Z -> Z -> Z;
  mapped : Z -> option Z;
  buffer_size : Z -> Z;
  live : list Z;
  next_handle : Z;
  next_addr : Z
}.

(** [ggml_vk_create_buffer]; a memory type that fits is taken to exist. *)
Definition ggml_vk_create_buffer (w : vk_world) (sz : Z) (req_flags : Z)
    : vk_buffer * vk_world :=
  let h := next_handle w in
  if has_flag req_flags eHostVisible then
    let p := next_addr w in
    (mk_vk_buffer h req_flags p sz None None VK_QUEUE_FAMILY_IGNORED,
     mk_world (host_mem w) (dev_mem w) (<[h := Some p]> (mapped w))
              (<[h := sz]> (buffer_size w)) (live w ++ [h]) (h + 1) (p + sz))
  else
    (mk_vk_buffer h req_flags 0 sz None None VK_QUEUE_FAMILY_IGNORED,
     mk_world (host_mem w) (dev_mem w) (<[h := None]> (mapped w))
              (<[h := sz]> (buffer_size w)) (live w ++ [h]) (h + 1)
              (next_addr w)).

Definition remove_handle (h : Z) (hs : list Z) : list Z :=
  filter (fun x => x <> h) hs.

Definition free_handle (w : vk_world) (h : Z) : vk_world :=
  mk_world (host_mem w) (dev_mem w) (mapped w) (buffer_size w)
           (remove_handle h (live w)) (next_handle w) (next_addr w).

Definition free_staging (w : vk_world) (sb : option vk_buffer) : vk_world :=
  match sb with
  | Some b => free_handle w (buffer b)
  | None => w
  end.

(** [ggml_vk_destroy_buffer(buf)]: the buffer as the call leaves it, and
    the world without it and its staging buffers. *)
Definition ggml_vk_destroy_buffer (w : vk_world) (buf : vk_buffer)
    : vk_buffer * vk_world :=
  (mk_vk_buffer (buffer buf) (memory_property_flags buf) (ptr buf) 0
                None None (qf_owner buf),
   free_staging (free_staging (free_handle w (buffer buf)) (sb_write buf))
                (sb_read buf)).

(** ** Buffer pool *)

Definition MAX_VK_BUFFERS : Z := 256.

(** A zero-initialised slot of [g_vk_buffer_pool]. *)
Definition empty_slot : vk_buffer := mk_vk_buffer 0 0 0 0 None None 0.

Definition with_size (b : vk_buffer) (sz : Z) : vk_buffer :=
  mk_vk_buffer (buffer b) (memory_property_flags b) (ptr b) sz
               (sb_write b) (sb_read b) (qf_owner b).

Definition with_qf_owner (b : vk_buffer) (owner : Z) : vk_buffer :=
  mk_vk_buffer (buffer b) (memory_property_flags b) (ptr b) (size b)
               (sb_write b) (sb_read b) owner.

(** The four locals of the scan in [ggml_vk_pool_malloc]. *)
Record pool_scan_state : Type := mk_scan {
  best_i : Z;
  best_size : Z;
  worst_i : Z;
  worst_size : Z
}.

Definition pool_scan_init : pool_scan_state := mk_scan (-1) SIZE_MAX (-1) 0.

(** One iteration of [for (int i = 0; i < MAX_VK_BUFFERS; ++i)]. *)
Definition pool_scan_step (sz : Z) (i : Z) (b : vk_buffer)
    (s : pool_scan_state) : pool_scan_state :=
  let s1 :=
    if (0 <? size b) && (sz <=? size b) && (size b <? best_size s)
    then mk_scan i (size b) (worst_i s) (worst_size s) else s in
  if (0 <? size b) && (worst_size s1 <? size b)
  then mk_scan (best_i s1) (best_size s1) i (size b) else s1.

Fixpoint pool_scan (sz : Z) (i : Z) (slots : list vk_buffer)
    (s : pool_scan_state) : pool_scan_state :=
  match slots with
  | [] => s
  | b :: rest => pool_scan sz (i + 1) rest (pool_scan_step sz i b s)
  end.

(** [ggml_vk_pool_malloc(size, buf, alloc_flags)] on the pool array: the
    buffer written to [*buf], the pool and the world afterwards. *)
Definition ggml_vk_pool_malloc (w : vk_world) (pool : list vk_buffer)
    (sz : Z) (alloc_flags : Z) : vk_buffer * list vk_buffer * vk_world :=
  let s := pool_scan sz 0 (take (Z.to_nat MAX_VK_BUFFERS) pool)
                     pool_scan_init in
  if negb (best_i s =? -1) then
    (* found the smallest buffer that fits our needs *)
    let b := nth (Z.to_nat (best_i s)) pool empty_slot in
    (b, <[Z.to_nat (best_i s) := with_size b 0]> pool, w)
  else
    let '(pool1, w1) :=
      if negb (worst_i s =? -1) then
        (* no buffer that fits our needs, resize largest one to save memory *)
        let b := nth (Z.to_nat (worst_i s)) pool empty_slot in
        let '(b', w') := ggml_vk_destroy_buffer w b in
        (<[Z.to_nat (worst_i s) := b']> pool, w')
      else (pool, w) in
    let '(buf, w2) :=
      ggml_vk_create_buffer w1 sz (Z.lor eDeviceLocal alloc_flags) in
    (buf, pool1, w2).

(** The first empty slot, as the loop of [ggml_vk_pool_free] finds it. *)
Fixpoint first_empty_slot (i : nat) (slots : list vk_buffer) : option nat :=
  match slots with
  | [] => None
  | b :: rest => if size b =? 0 then Some i else first_empty_slot (S i) rest
  end.

(** [ggml_vk_pool_free(buffer)] *)
Definition ggml_vk_pool_free (w : vk_world) (pool : list vk_buffer)
    (buf : vk_buffer) : list vk_buffer * vk_world :=
  match first_empty_slot 0 (take (Z.to_nat MAX_VK_BUFFERS) pool) with
  | Some i => (<[i := with_qf_owner buf VK_QUEUE_FAMILY_IGNORED]> pool, w)
  | None => (pool, snd (ggml_vk_destroy_buffer w buf))
  end.

(** The pool's vocabulary in the specification's words. *)
Definition slot_free (b : vk_buffer) : Prop := 0 < size b.
Definition slot_fits (sz : Z) (b : vk_buffer) : Prop :=
  0 < size b /\ sz <= size b.
Definition pool_full (pool : list vk_buffer) : Prop :=
  Forall slot_free pool.

(** Slots hold sizes a buffer can have: below [SIZE_MAX]. *)
Definition pool_wf (pool : list vk_buffer) : Prop :=
  length pool = Z.to_nat MAX_VK_BUFFERS
  /\ Forall (fun b => 0 <= size b < SIZE_MAX) pool.

(** An empty world, and a pool holding a single free buffer of 10 bytes in
    slot 0. *)
Definition empty_world : vk_world :=
  mk_world (fun _ => 0) (fun _ _ => 0) (fun _ => None) (fun _ => 0) [] 1 4096.

Definition example_pool_world : vk_buffer * vk_world :=
  ggml_vk_create_buffer empty_world 10 eDeviceLocal.

Definition example_pool : list vk_buffer :=
  fst example_pool_world :: replicate 255 empty_slot.

(** What the scan knows after the slots [seen]: the best and the worst
    candidates among them. *)
Definition best_ok (sz : Z) (seen : list vk_buffer) (s : pool_scan_state)
    : Prop :=
  (best_i s = -1 /\ best_size s = SIZE_MAX
   /\ forall j b, seen !! j = Some b -> ~ slot_fits sz b)
  \/ (exists b, 0 <= best_i s
        /\ seen !! Z.to_nat (best_i s) = Some b
        /\ slot_fits sz b /\ best_size s = size b
        /\ forall j b', seen !! j = Some b' -> slot_fits sz b' ->
                        size b <= size b').

Definition worst_ok (seen : list vk_buffer) (s : pool_scan_state) : Prop :=
  (worst_i s = -1 /\ worst_size s = 0
   /\ forall j b, seen !! j = Some b -> ~ slot_free b)
  \/ (exists b, 0 <= worst_i s
        /\ seen !! Z.to_nat (worst_i s) = Some b
        /\ slot_free b /\ worst_size s = size b
        /\ forall j b', seen !! j = Some b' -> size b' <= size b).

(** ** Pinned host memory *)

(** An entry of [vk_pinned_memory]: host pointer, size, buffer. *)
Definition pinned_entry : Type := (Z * Z * vk_buffer)%type.

Definition pinned_addr (e : pinned_entry) : Z := e.1.1.
Definition pinned_size (e : pinned_entry) : Z := e.1.2.
Definition pinned_buffer (e : pinned_entry) : vk_buffer := e.2.

(** [ptr >= addr && ptr < endr] with [endr = addr + size]. *)
Definition in_pinned_range (p : Z) (e : pinned_entry) : bool :=
  (pinned_addr e <=? p) && (p <? pinned_addr e + pinned_size e).

(** The registry scan shared by [ggml_vk_host_free] and the transfer
    routines: position and entry of the first range that holds [p]. *)
Fixpoint find_pinned (p : Z) (i : nat) (entries : list pinned_entry)
    : option (nat * pinned_entry) :=
  match entries with
  | [] => None
  | e :: rest =>
      if in_pinned_range p e then Some (i, e)
      else find_pinned p (S i) rest
  end.

(** [ggml_vk_host_malloc(size)]; [no_pinned] tells whether
    [GGML_VK_NO_PINNED] is set.  The returned pointer is 0 for [nullptr]. *)
Definition ggml_vk_host_malloc (no_pinned : bool) (w : vk_world)
    (pinned : list pinned_entry) (sz : Z)
    : Z * vk_world * list pinned_entry :=
  if no_pinned then (0, w, pinned)
  else
    let '(buf, w') :=
      ggml_vk_create_buffer w sz
        (Z.lor (Z.lor eHostVisible eHostCoherent) eHostCached) in
    if negb (has_flag (memory_property_flags buf) eHostVisible) then
      (0, free_handle w' (buffer buf), pinned)
    else (ptr buf, w', pinned ++ [(ptr buf, sz, buf)]).

(** What [ggml_vk_host_free] leaves: the world, the registry, and whether
    the warning was printed. *)
Record host_free_result : Type := mk_host_free_result {
  hf_world : vk_world;
  hf_pinned : list pinned_entry;
  hf_warned : bool
}.

(** [ggml_vk_host_free(ptr)] *)
Definition ggml_vk_host_free (w : vk_world) (pinned : list pinned_entry)
    (p : Z) : host_free_result :=
  match find_pinned p 0 pinned with
  | None => mk_host_free_result w pinned true
  | Some (index, e) =>
      mk_host_free_result
        (snd (ggml_vk_destroy_buffer w (pinned_buffer e)))
        (delete index pinned) false
  end.

(** Two pinned allocations of 64 and 32 bytes in the empty world. *)
Definition example_pinned : vk_world * list pinned_entry :=
  let '(_, w1, reg1) := ggml_vk_host_malloc false empty_world [] 64 in
  let '(_, w2, reg2) := ggml_vk_host_malloc false w1 reg1 32 in
  (w2, reg2).

(** ** Operator dispatcher *)

(** The [data] pointer of a tensor: a host address, or the heap-allocated
    [vk_buffer] that [ggml_vk_transform_tensor] leaves there. *)
Inductive tensor_data : Type :=
| HostData (addr : Z)
| DeviceHandle (buf : vk_buffer).

(** [struct ggml_tensor] as far as the backend reads it: [ne] and [nb] are
    the four extents and byte strides, [src0] and [src1] are the operands
    ([None] for [nullptr]). *)
#[local] Unset Elimination Schemes.
Inductive ggml_tensor : Type := mk_ggml_tensor {
  type : ggml_type;
  backend : ggml_backend;
  op : ggml_op;
  ne : Z * Z * Z * Z;
  nb : Z * Z * Z * Z;
  data : tensor_data;
  src0 : option ggml_tensor;
  src1 : option ggml_tensor
}.
#[local] Set Elimination Schemes.

Definition ne0 (t : ggml_tensor) : Z := (ne t).1.1.1.
Definition ne1 (t : ggml_tensor) : Z := (ne t).1.1.2.
Definition ne2 (t : ggml_tensor) : Z := (ne t).1.2.
Definition ne3 (t : ggml_tensor) : Z := (ne t).2.
Definition nb0 (t : ggml_tensor) : Z := (nb t).1.1.1.
Definition nb1 (t : ggml_tensor) : Z := (nb t).1.1.2.
Definition nb2 (t : ggml_tensor) : Z := (nb t).1.2.
Definition nb3 (t : ggml_tensor) : Z := (nb t).2.

(** [struct ggml_compute_params] *)
Record ggml_compute_params : Type := mk_params {
  task_type : ggml_task_type;
  ith : Z
}.

Definition type_ok (t : ggml_type) : bool :=
  bool_decide (t = GGML_TYPE_F32) || bool_decide (t = GGML_TYPE_F16)
  || ggml_is_quantized t.

(** [ggml_vk_can_mul_mat]; the first test only prints. *)
Definition ggml_vk_can_mul_mat (src0 src1 dst : ggml_tensor) : bool :=
  let ne10 := ne0 src1 in
  let ne0 := ne0 dst in
  let ne1 := ne1 dst in
  if type_ok (type src0) && type_ok (type src1)
     && bool_decide (type dst = GGML_TYPE_F32)
     && (((32 <=? ne0) && (32 <=? ne1) && (32 <=? ne10))
         || bool_decide (backend src0 = GGML_BACKEND_GPU))
  then true else false.

Section Dispatcher.

(** The orchestrators, by what matters to the dispatcher: whether they
    return or abort on the given operands. *)
Variable ggml_vk_mul_mat_f32 : ggml_tensor -> ggml_tensor -> ggml_tensor -> result unit.
Variable ggml_vk_mul_mat_vec_q_f16 : ggml_tensor -> ggml_tensor -> ggml_tensor -> result unit.
Variable ggml_vk_mul_mat_q_f16 : ggml_tensor -> ggml_tensor -> ggml_tensor -> result unit.
Variable ggml_vk_mul_f32 : ggml_tensor -> ggml_tensor -> ggml_tensor -> result unit.

(** [ggml_vk_mul_mat] *)
Definition ggml_vk_mul_mat (src0 src1 dst : ggml_tensor) : result unit :=
  _ ← GGML_ASSERT (ggml_vk_can_mul_mat src0 src1 dst);
  if bool_decide (type src0 = GGML_TYPE_F32)
     && bool_decide (type src1 = GGML_TYPE_F32) then
    ggml_vk_mul_mat_f32 src0 src1 dst
  else if (ne1 src1 =? 1)
          && (bool_decide (type src0 = GGML_TYPE_F16)
              || ggml_is_quantized (type src0)) then
    ggml_vk_mul_mat_vec_q_f16 src0 src1 dst
  else
    ggml_vk_mul_mat_q_f16 src0 src1 dst.

(** [ggml_vk_mul] *)
Definition ggml_vk_mul (src0 src1 dst : ggml_tensor) : result unit :=
  _ ← GGML_ASSERT (bool_decide (type src0 = GGML_TYPE_F32)
                   && bool_decide (type src1 = GGML_TYPE_F32)
                   && bool_decide (type dst = GGML_TYPE_F32));
  ggml_vk_mul_f32 src0 src1 dst.

(** Dereferencing an operand pointer. *)
Definition deref (t : option ggml_tensor) : result ggml_tensor :=
  match t with
  | Some x => Done x
  | None => Undefined
  end.

Definition any_on_device (tensor : ggml_tensor) : bool :=
  bool_decide (backend tensor = GGML_BACKEND_GPU)
  || match src0 tensor with
     | Some s => bool_decide (backend s = GGML_BACKEND_GPU)
                 || bool_decide (backend s = GGML_BACKEND_GPU_SPLIT)
     | None => false
     end
  || match src1 tensor with
     | Some s => bool_decide (backend s = GGML_BACKEND_GPU)
     | None => false
     end.

(** The tail of [ggml_vk_compute_forward] once [func] is chosen. *)
Definition run_func (params : ggml_compute_params) (tensor : ggml_tensor)
    (func : ggml_tensor -> ggml_tensor -> ggml_tensor -> result unit)
    : result bool :=
  if negb (ith params =? 0) then Done true
  else if bool_decide (task_type params = GGML_TASK_INIT)
          || bool_decide (task_type params = GGML_TASK_FINALIZE)
  then Done true
  else
    s0 ← deref (src0 tensor);
    s1 ← deref (src1 tensor);
    _ ← func s0 s1 tensor;
    Done true.

(** [ggml_vk_compute_forward] *)
Definition ggml_vk_compute_forward (params : ggml_compute_params)
    (tensor : ggml_tensor) : result bool :=
  match op tensor with
  | GGML_OP_MUL =>
      if negb (any_on_device tensor) then Done false
      else run_func params tensor ggml_vk_mul
  | GGML_OP_MUL_MAT =>
      if negb (any_on_device tensor) then
        s0 ← deref (src0 tensor);
        s1 ← deref (src1 tensor);
        if negb (ggml_vk_can_mul_mat s0 s1 tensor) then Done false
        else run_func params tensor ggml_vk_mul_mat
      else run_func params tensor ggml_vk_mul_mat
  | _ => Done false
  end.

End Dispatcher.

(** The acceptance condition in the specification's words, with
    M = dst.ne[0], N = dst.ne[1], K = src1.ne[0]. *)
Definition spec_type_supported (t : ggml_type) : Prop :=
  t = GGML_TYPE_F32 \/ t = GGML_TYPE_F16 \/ ggml_is_quantized t = true.

Definition spec_mul_mat_accept (s0 s1 dst : ggml_tensor) : Prop :=
  spec_type_supported (type s0) /\ spec_type_supported (type s1)
  /\ type dst = GGML_TYPE_F32
  /\ ((ne0 dst >= 32 /\ ne1 dst >= 32 /\ ne0 s1 >= 32)
      \/ backend s0 = GGML_BACKEND_GPU).

(** Some tensor of the node lives on the device. *)
Definition spec_on_device (s0 s1 dst : ggml_tensor) : Prop :=
  backend dst = GGML_BACKEND_GPU
  \/ backend s0 = GGML_BACKEND_GPU \/ backend s0 = GGML_BACKEND_GPU_SPLIT
  \/ backend s1 = GGML_BACKEND_GPU.

(** Example tensors: 1x1 f32 operands, the second one on the GPU, and the
    MUL_MAT node over them; orchestrators that always return. *)
Definition example_operand (b : ggml_backend) : ggml_tensor :=
  mk_ggml_tensor GGML_TYPE_F32 b GGML_OP_NONE (1, 1, 1, 1) (4, 4, 4, 4)
                 (HostData 0)
                 None None.

Definition example_mul_mat_node : ggml_tensor :=
  mk_ggml_tensor GGML_TYPE_F32 GGML_BACKEND_CPU GGML_OP_MUL_MAT (1, 1, 1, 1)
                 (4, 4, 4, 4) (HostData 0)
                 (Some (example_operand GGML_BACKEND_CPU))
                 (Some (example_operand GGML_BACKEND_GPU)).

Definition orchestrator_returns (s0 s1 dst : ggml_tensor) : result unit :=
  Done tt.

(** ** Queues: submissions, waits and cleanups of the orchestrators *)

(** [ggml_vk_queue_cleanup]: both cursors return to zero (and the command
    pool is reset). *)
Definition ggml_vk_queue_cleanup (q : vk_queue) : vk_queue :=
  mk_vk_queue (queue_family_index q) (queue q) 0 (cmd_buffers q)
              0 (semaphores q) (stage_flags q).

(** The queues of [vk_device]. *)
Inductive queue_var : Type :=
| compute_queue | transfer_queue_0 | transfer_queue_1.

Global Instance queue_var_eq_dec : EqDecision queue_var.
Proof. solve_decision. Defined.

(** What an orchestrator does to the queues, in program order:
    [q.queue.submit] of a number of sequences, [q.queue.waitIdle()],
    [ggml_vk_queue_cleanup(q)]. *)
Inductive queue_event : Type :=
| EvSubmit (q : queue_var) (sequences : nat)
| EvWaitIdle (q : queue_var)
| EvQueueCleanup (q : queue_var).

(** [ggml_vk_submit(q, sequences, fence)] on a vector holding [pending]
    sequences: nothing when it is empty; the vector is cleared. *)
Definition ggml_vk_submit (q : queue_var) (pending : nat) : list queue_event :=
  match pending with
  | O => []
  | S _ => [EvSubmit q pending]
  end.

(** A loop over the batches [(i03, i02)], by iteration index. *)
Fixpoint batches {St : Type} (n : nat) (it_idx : nat)
    (body : nat -> St -> list queue_event * St) (s : St)
    : list queue_event * St :=
  match n with
  | O => ([], s)
  | S n' =>
      let '(ev, s1) := body it_idx s in
      let '(evs, s2) := batches n' (S it_idx) body s1 in
      (ev ++ evs, s2)
  end.

Definition batch_count (ne02 ne03 : Z) : nat :=
  (Z.to_nat ne03 * Z.to_nat ne02)%nat.

Definition VK_SUBMIT_BATCH : nat := 3.

(** [ggml_vk_mul_mat_f32]: the state is the length of [transfer_0_seqs],
    [transfer_1_seqs] and [compute_seqs]. *)
Definition mul_mat_f32_batch (load_x : bool) (it_idx : nat)
    (s : nat * nat * nat) : list queue_event * (nat * nat * nat) :=
  let '(t0, t1, c) := s in
  let t0 := if load_x then S t0 else t0 in
  let e1 := ggml_vk_submit transfer_queue_0 t0 in
  let t1 := S t1 in
  let c := S c in
  let t0 := 1%nat in
  let e2 := ggml_vk_submit transfer_queue_1 t1 in
  let e3 := ggml_vk_submit compute_queue c in
  (e1 ++ e2 ++ e3, (t0, O, O)).

Definition mul_mat_f32_events (load_x : bool) (ne02 ne03 : Z)
    : list queue_event :=
  let '(evs, (t0, _, _)) :=
    batches (batch_count ne02 ne03) 0 (mul_mat_f32_batch load_x) (O, O, O) in
  evs ++ ggml_vk_submit transfer_queue_0 t0
      ++ [ EvWaitIdle transfer_queue_0;
           EvQueueCleanup transfer_queue_0;
           EvQueueCleanup transfer_queue_1;
           EvQueueCleanup compute_queue ].

(** [ggml_vk_mul_mat_f16]: as above, with the submit and wait of its
    per-batch check. *)
Definition mul_mat_f16_batch (load_x : bool) (it_idx : nat)
    (s : nat * nat * nat) : list queue_event * (nat * nat * nat) :=
  let '(t0, t1, c) := s in
  let t0 := if load_x then S t0 else t0 in
  let e1 := ggml_vk_submit transfer_queue_0 t0 in
  let t1 := S t1 in
  let c := S c in
  let t0 := 1%nat in
  let e2 := ggml_vk_submit transfer_queue_1 t1 in
  let e3 := ggml_vk_submit compute_queue c in
  let e4 := ggml_vk_submit transfer_queue_0 t0 in
  (e1 ++ e2 ++ e3 ++ e4 ++ [EvWaitIdle transfer_queue_0], (O, O, O)).

Definition mul_mat_f16_events (load_x : bool) (ne02 ne03 : Z)
    : list queue_event :=
  let '(evs, (t0, _, _)) :=
    batches (batch_count ne02 ne03) 0 (mul_mat_f16_batch load_x) (O, O, O) in
  evs ++ ggml_vk_submit transfer_queue_0 t0
      ++ [ EvWaitIdle transfer_queue_0;
           EvQueueCleanup transfer_queue_0;
           EvQueueCleanup transfer_queue_1;
           EvQueueCleanup compute_queue ].

(** [ggml_vk_mul_mat_q_f16]: the state is [submit_counter] and the length
    of [transfer_0_seqs], [transfer_1_seqs], [compute_seqs] and
    [transfer_2_seqs]. *)
Definition mul_mat_q_f16_batch (load_x load_y dq : bool) (it_idx : nat)
    (s : nat * nat * nat * nat * nat)
    : list queue_event * (nat * nat * nat * nat * nat) :=
  let '(submit_counter, t0, t1, c, t2) := s in
  let submit_counter := S submit_counter in
  let flush := (it_idx =? 0)%nat || (VK_SUBMIT_BATCH <=? submit_counter)%nat in
  let t0 := if load_x then S t0 else t0 in
  let e1 := if flush then ggml_vk_submit transfer_queue_0 t0 else [] in
  let t0 := if flush then O else t0 in
  let t1 := if load_y then S t1 else t1 in
  let e2 := if flush then ggml_vk_submit transfer_queue_1 t1 else [] in
  let t1 := if flush then O else t1 in
  let c := if dq then S c else c in
  let c := S c in
  let e3 := if flush then ggml_vk_submit compute_queue c else [] in
  let c := if flush then O else c in
  let t2 := S t2 in
  let e4 := if flush then ggml_vk_submit transfer_queue_0 t2 else [] in
  let t2 := if flush then O else t2 in
  let submit_counter := if flush then O else submit_counter in
  (e1 ++ e2 ++ e3 ++ e4, (submit_counter, t0, t1, c, t2)).

Definition mul_mat_q_f16_events (load_x load_y dq : bool) (ne02 ne03 : Z)
    : list queue_event :=
  let '(evs, (_, t0, t1, c, t2)) :=
    batches (batch_count ne02 ne03) 0 (mul_mat_q_f16_batch load_x load_y dq)
            (O, O, O, O, O) in
  evs ++ ggml_vk_submit transfer_queue_0 t0
      ++ ggml_vk_submit transfer_queue_1 t1
      ++ ggml_vk_submit compute_queue c
      ++ ggml_vk_submit transfer_queue_0 t2
      ++ [ EvWaitIdle transfer_queue_0;
           EvQueueCleanup transfer_queue_0;
           EvQueueCleanup transfer_queue_1;
           EvQueueCleanup compute_queue ].

(** [ggml_vk_mul_mat_vec_q_f16]: [submit_counter] and the length of
    [seqs]. *)
Definition mul_mat_vec_q_f16_batch (it_idx : nat) (s : nat * nat)
    : list queue_event * (nat * nat) :=
  let '(submit_counter, seqs) := s in
  let submit_counter := S submit_counter in
  let seqs := S seqs in
  if (it_idx =? 0)%nat || (VK_SUBMIT_BATCH <=? submit_counter)%nat then
    (ggml_vk_submit compute_queue seqs, (O, O))
  else ([], (submit_counter, seqs)).

Definition mul_mat_vec_q_f16_events (ne02 ne03 : Z) : list queue_event :=
  let '(evs, (_, seqs)) :=
    batches (batch_count ne02 ne03) 0 mul_mat_vec_q_f16_batch (O, O) in
  evs ++ ggml_vk_submit compute_queue seqs
      ++ [ EvWaitIdle compute_queue; EvQueueCleanup compute_queue ].

(** [ggml_vk_mul_f32]: the three-queue path for several batches, the
    single-queue path for one. *)
Definition mul_f32_batch (many : bool) (it_idx : nat) (s : nat * nat * nat)
    : list queue_event * (nat * nat * nat) :=
  let '(t0, t1, c) := s in
  if many then
    let e1 := ggml_vk_submit transfer_queue_0 (S t0) in
    let e2 := ggml_vk_submit compute_queue (S c) in
    let e3 := ggml_vk_submit transfer_queue_1 (S t1) in
    (e1 ++ e2 ++ e3, (O, O, O))
  else
    (ggml_vk_submit compute_queue (S c), (t0, t1, O)).

Definition mul_f32_events (ne02 ne03 : Z) : list queue_event :=
  let many := (1 <? ne03) || (1 <? ne02) in
  let '(evs, _) :=
    batches (batch_count ne02 ne03) 0 (mul_f32_batch many) (O, O, O) in
  evs ++ (if many then
            [ EvWaitIdle transfer_queue_1;
              EvQueueCleanup transfer_queue_0;
              EvQueueCleanup transfer_queue_1;
              EvQueueCleanup compute_queue ]
          else [ EvWaitIdle compute_queue; EvQueueCleanup compute_queue ]).

(** The invariant in the specification's words: looking back from a
    cleanup of [q], a [q.wait_idle()] is met before any submission on
    [q]. *)
Fixpoint waited_since_submit_on (q : queue_var) (past : list queue_event)
    : bool :=
  match past with
  | [] => true
  | EvWaitIdle q' :: rest =>
      if decide (q' = q) then true else waited_since_submit_on q rest
  | EvSubmit q' _ :: rest =>
      if decide (q' = q) then false else waited_since_submit_on q rest
  | EvQueueCleanup _ :: rest => waited_since_submit_on q rest
  end.

Definition spec_cleanup_after_own_wait (trace : list queue_event) : Prop :=
  forall pre q post,
    trace = pre ++ EvQueueCleanup q :: post ->
    waited_since_submit_on q (rev pre) = true.

(** What the orchestrators do instead: looking back from a cleanup, a
    wait for idle on [waited] is met before any submission on any queue. *)
Fixpoint idle_since_any_submit (waited : queue_var) (past : list queue_event)
    : bool :=
  match past with
  | [] => false
  | EvWaitIdle q' :: _ => bool_decide (q' = waited)
  | EvSubmit _ _ :: _ => false
  | EvQueueCleanup _ :: rest => idle_since_any_submit waited rest
  end.

Definition cleanup_after_final_wait (waited : queue_var)
    (trace : list queue_event) : Prop :=
  forall pre q post,
    trace = pre ++ EvQueueCleanup q :: post ->
    idle_since_any_submit waited (rev pre) = true.

Definition no_cleanup (evs : list queue_event) : Prop :=
  Forall (fun e => forall q, e <> EvQueueCleanup q) evs.

Definition all_cleanup (evs : list queue_event) : Prop :=
  Forall (fun e => exists q, e = EvQueueCleanup q) evs.

(** ** Transfer engine *)

(** A byte of a buffer: in host memory when the buffer is mapped, in
    device memory otherwise. *)
Definition buffer_byte (w : vk_world) (h o : Z) : Z :=
  match mapped w h with
  | Some base => host_mem w (base + o)
  | None => dev_mem w h o
  end.

Definition in_range (lo n a : Z) : bool := (lo <=? a) && (a <? lo + n).

Definition with_host_mem (w : vk_world) (m : Z -> Z) : vk_world :=
  mk_world m (dev_mem w) (mapped w) (buffer_size w) (live w)
           (next_handle w) (next_addr w).

Definition with_dev_mem (w : vk_world) (m : Z -> Z -> Z) : vk_world :=
  mk_world (host_mem w) m (mapped w) (buffer_size w) (live w)
           (next_handle w) (next_addr w).

(** Bytes [off .. off + n) of buffer [h] become [f 0 .. f (n - 1)]. *)
Definition write_range (w : vk_world) (h off n : Z) (f : Z -> Z) : vk_world :=
  match mapped w h with
  | Some base =>
      with_host_mem w (fun a =>
        if in_range (base + off) n a then f (a - (base + off))
        else host_mem w a)
  | None =>
      with_dev_mem w (fun h' o =>
        if (h' =? h) && in_range off n o then f (o - off)
        else dev_mem w h' o)
  end.

(** One region of [vkCmdCopyBuffer]. *)
Definition copy_region (src dst : Z) (w : vk_world) (r : vk_buffer_copy)
    : vk_world :=
  write_range w dst (dstOffset r) (copy_size r)
              (fun k => buffer_byte w src (srcOffset r + k)).

(** Byte [k] of the repeated 32-bit word of [vkCmdFillBuffer]. *)
Definition fill_byte (data k : Z) : Z := (data / 2 ^ (8 * (k mod 4))) mod 256.

(** The range [vkCmdFillBuffer] fills: with [VK_WHOLE_SIZE], up to the
    end of the buffer rounded down to a multiple of 4. *)
Definition fill_length (w : vk_world) (dst offset fill_size : Z) : Z :=
  if fill_size =? VK_WHOLE_SIZE then (buffer_size w dst - offset) / 4 * 4
  else fill_size.

(** The effect of a recorded command on memory when the device executes
    it.  What a dispatched shader writes is outside the model. *)
Definition exec_cmd (w : vk_world) (c : vk_cmd) : option vk_world :=
  match c with
  | CmdPipelineBarrier _ _ _ => Some w
  | CmdPushConstants _ _ => Some w
  | CmdBindPipeline _ => Some w
  | CmdBindDescriptorSets _ _ _ => Some w
  | CmdDispatch _ _ _ => None
  | CmdFillBuffer dst offset fill_size data =>
      Some (write_range w dst offset (fill_length w dst offset fill_size)
                        (fill_byte data))
  | CmdCopyBuffer src dst regions =>
      Some (fold_left (copy_region src dst) regions w)
  end.

Fixpoint exec_cmds (w : vk_world) (cmds : list vk_cmd) : option vk_world :=
  match cmds with
  | [] => Some w
  | c :: rest =>
      match exec_cmd w c with
      | Some w' => exec_cmds w' rest
      | None => None
      end
  end.

(** Submitting a sequence and waiting for it. *)
Fixpoint exec_sequence (w : vk_world) (seq : vk_sequence) : option vk_world :=
  match seq with
  | [] => Some w
  | s :: rest =>
      match exec_cmds w (s_cmds s) with
      | Some w' => exec_sequence w' rest
      | None => None
      end
  end.

(** [memcpy(dst, src, n)] and [memset(dst, v, n)] on host memory. *)
Definition host_memcpy (m : Z -> Z) (dst src n : Z) : Z -> Z :=
  fun a => if in_range dst n a then m (src + (a - dst)) else m a.

Definition host_memset (m : Z -> Z) (dst v n : Z) : Z -> Z :=
  fun a => if in_range dst n a then v else m a.

(** [ggml_vk_create_submission] *)
Definition ggml_vk_create_submission (q : vk_queue) (wait signal : list Z)
    : vk_submission * vk_queue :=
  let '(buf, q') := ggml_vk_create_cmd_buffer q in
  (mk_vk_submission buf [] wait signal, q').

(** [if (s == nullptr) { submission = ggml_vk_create_submission(...); ... }] *)
Definition submission_or_new (s : option vk_submission) (q : vk_queue)
    (wait signal : list Z) : vk_submission * vk_queue :=
  match s with
  | Some s0 => (s0, q)
  | None => ggml_vk_create_submission q wait signal
  end.

Definition with_sb_write (b : vk_buffer) (sb : vk_buffer) : vk_buffer :=
  mk_vk_buffer (buffer b) (memory_property_flags b) (ptr b) (size b)
               (Some sb) (sb_read b) (qf_owner b).

(** [if (dst->sb_write == nullptr) { dst->sb_write = new vk_buffer; ... }] *)
Definition staging_or_new (w : vk_world) (dst : vk_buffer)
    : vk_buffer * vk_buffer * vk_world :=
  match sb_write dst with
  | Some sb => (sb, dst, w)
  | None =>
      let '(sb, w') :=
        ggml_vk_create_buffer w (size dst) (Z.lor eHostVisible eHostCoherent) in
      (sb, with_sb_write dst sb, w')
  end.

(** The per-row slices of the pinned path, rows [0 .. n): row [i] goes
    from [buf_offset + i * spitch] to [offset + i * pitch]. *)
Fixpoint row_slices (n : nat) (buf_offset offset spitch pitch width : Z)
    : list vk_buffer_copy :=
  match n with
  | O => []
  | S n' =>
      row_slices n' buf_offset offset spitch pitch width
      ++ [mk_buffer_copy (u64 (buf_offset + u64 (Z.of_nat n' * spitch)))
                         (u64 (offset + u64 (Z.of_nat n' * pitch)))
                         width]
  end.

(** The row loop of the staging path of the zero-padding write, rows
    [0 .. n): [memcpy] of the row, [memset] of the padding. *)
Fixpoint zeropad_rows (n : nat) (m : Z -> Z)
    (sb_ptr src spitch padded_width width zeropad : Z) : Z -> Z :=
  match n with
  | O => m
  | S n' =>
      let m1 := zeropad_rows n' m sb_ptr src spitch padded_width width zeropad in
      let m2 := host_memcpy m1 (sb_ptr + u64 (Z.of_nat n' * padded_width))
                            (src + u64 (Z.of_nat n' * spitch)) width in
      host_memset m2 (sb_ptr + u64 (Z.of_nat n' * padded_width) + width)
                  0 zeropad
  end.

(** [ggml_vk_buffer_write_2d_async_zeropad].  [dst] is passed by pointer:
    the buffer as the call leaves it is returned. *)
Definition ggml_vk_buffer_write_2d_async_zeropad (w : vk_world)
    (pinned : list pinned_entry) (dst : vk_buffer)
    (offset src spitch width height align : Z) (q : vk_queue)
    (wait signal : list Z) (s : option vk_submission)
    : result (vk_sequence * vk_buffer * vk_world * vk_queue) :=
  (* Buffer is already mapped *)
  _ ← GGML_ASSERT (negb (has_flag (memory_property_flags dst) eHostVisible));
  (* Align slices to the value of align *)
  let padded_width := u32 (ggml_vk_align_size width align) in
  let '(sub, q') := submission_or_new s q wait signal in
  match find_pinned src 0 pinned with
  | Some (_, e) =>
      let buf := pinned_buffer e in
      let buf_offset := src - pinned_addr e in
      let slices :=
        if (width =? padded_width) && (width =? spitch) then
          (* Only do single write if no padding happens *)
          [mk_buffer_copy buf_offset offset (u64 (width * height))]
        else
          row_slices (Z.to_nat height) buf_offset offset spitch padded_width
                     width in
      let sub := ggml_vk_sync_buffers sub [ggml_vk_subbuffer dst] q'
                   eMemoryRead eMemoryWrite false in
      let sub := if width <? padded_width
                 then record (CmdFillBuffer (buffer dst) 0 VK_WHOLE_SIZE 0) sub
                 else sub in
      let sub := record (CmdPipelineBarrier (stage_flags q') (stage_flags q')
                           [mk_barrier eMemoryWrite eMemoryWrite
                              VK_QUEUE_FAMILY_IGNORED VK_QUEUE_FAMILY_IGNORED
                              (buffer dst) 0 VK_WHOLE_SIZE]) sub in
      let sub := record (CmdCopyBuffer (buffer buf) (buffer dst) slices) sub in
      Done ([sub], dst, w, q')
  | None =>
      (* Staging buffer required, malloc because of async transfer *)
      let '(sb, dst', w1) := staging_or_new w dst in
      let buf_copy := mk_buffer_copy 0 offset (u64 (padded_width * height)) in
      let sub := ggml_vk_sync_buffers sub [ggml_vk_subbuffer dst'] q'
                   eMemoryRead eTransferWrite false in
      let sub := record (CmdCopyBuffer (buffer sb) (buffer dst) [buf_copy])
                        sub in
      let zeropad := u64 (padded_width - width) in
      let m :=
        if (width =? padded_width) && (width =? spitch) then
          host_memcpy (host_mem w1) (ptr sb) src (u64 (width * height))
        else
          zeropad_rows (Z.to_nat height) (host_mem w1) (ptr sb) src spitch
                       padded_width width zeropad in
      Done ([sub], dst', with_host_mem w1 m, q')
  end.



Definition nothing_recorded (s : option vk_submission) : Prop :=
  match s with
  | Some s0 => s_cmds s0 = []
  | None => True
  end.

(** The source is pinned: the first registry entry holding [src] is a
    mapped buffer of the world, and every byte of every source row (byte
    [c] of row [r]) lies inside it. *)
Definition pinned_source (w : vk_world) (pinned : list pinned_entry)
    (dst : vk_buffer) (src spitch width height : Z) : Prop :=
  exists i e,
    find_pinned src 0 pinned = Some (i, e)
    /\ mapped w (buffer (pinned_buffer e)) = Some (pinned_addr e)
    /\ (forall r c, 0 <= r < height -> 0 <= c < width ->
          src - pinned_addr e + r * spitch + c < pinned_size e)
    /\ pinned_size e < 2 ^ 63.

(** Every byte of the [height] source rows of [width] bytes, [spitch]
    apart from [src], lies below [limit]. *)
Definition rows_below (src spitch width height limit : Z) : Prop :=
  forall r c, 0 <= r < height -> 0 <= c < width ->
    src + r * spitch + c < limit.

(** The source is not pinned: the staging buffer of [dst] (the one it has,
    or the one created at the next free address) is mapped, large enough
    for the padded rows, and does not overlap the source rows. *)
Definition staged_source (w : vk_world) (pinned : list pinned_entry)
    (dst : vk_buffer) (src spitch width height align : Z) : Prop :=
  find_pinned src 0 pinned = None
  /\ match sb_write dst with
     | Some sb =>
         mapped w (buffer sb) = Some (ptr sb) /\ buffer sb <> buffer dst
         /\ spec_pad width align * height <= size sb
         /\ (rows_below src spitch width height (ptr sb)
             \/ ptr sb + spec_pad width align * height <= src)
     | None =>
         buffer dst <> next_handle w
         /\ spec_pad width align * height <= size dst
         /\ rows_below src spitch width height (next_addr w)
     end.

(** Two concrete settings: host memory holding [a mod 251] at address
    [a]; a device-local destination of 64 bytes; in the second setting a
    pinned allocation of 64 bytes made first. *)
Definition example_host_world : vk_world :=
  mk_world (fun a => a mod 251) (fun _ _ => 7) (fun _ => None) (fun _ => 0)
           [] 1 4096.

Definition example_staged_dst : vk_buffer * vk_world :=
  ggml_vk_create_buffer example_host_world 64 eDeviceLocal.

Definition example_pinned_setting
    : list pinned_entry * (vk_buffer * vk_world) :=
  let '(_, w1, reg) := ggml_vk_host_malloc false example_host_world [] 64 in
  (reg, ggml_vk_create_buffer w1 64 eDeviceLocal).

(** A third setting: the pinned allocation has exactly the 6 bytes of two
    source rows of 3 bytes. *)
Definition example_exact_pinned_setting
    : list pinned_entry * (vk_buffer * vk_world) :=
  let '(_, w1, reg) := ggml_vk_host_malloc false example_host_world [] 6 in
  (reg, ggml_vk_create_buffer w1 64 eDeviceLocal).

(** The bytes [off .. off + n) of a buffer, as a read of the buffer
    returns them. *)
Definition buffer_bytes (w : vk_world) (h off : Z) (n : nat) : list Z :=
  map (fun k => buffer_byte w h (off + Z.of_nat k)) (seq 0 n).

(** The row loop of the staging path of [ggml_vk_buffer_write_2d_async],
    rows [0 .. n). *)
Fixpoint write_rows (n : nat) (m : Z -> Z) (sb_ptr offset src spitch width : Z)
    : Z -> Z :=
  match n with
  | O => m
  | S n' =>
      host_memcpy (write_rows n' m sb_ptr offset src spitch width)
                  (sb_ptr + offset + u64 (Z.of_nat n' * width))
                  (src + u64 (Z.of_nat n' * spitch)) width
  end.

(** [ggml_vk_buffer_write_2d_async] *)
Definition ggml_vk_buffer_write_2d_async (w : vk_world)
    (pinned : list pinned_entry) (dst : vk_buffer)
    (offset src spitch width height : Z) (q : vk_queue)
    (wait signal : list Z) (s : option vk_submission)
    : result (vk_sequence * vk_buffer * vk_world * vk_queue) :=
  (* Buffer is already mapped *)
  _ ← GGML_ASSERT (negb (has_flag (memory_property_flags dst) eHostVisible));
  let '(sub, q') := submission_or_new s q wait signal in
  match find_pinned src 0 pinned with
  | Some (_, e) =>
      (* Memory is pinned, use as staging buffer *)
      let buf := pinned_buffer e in
      let buf_offset := src - pinned_addr e in
      let slices :=
        if width =? spitch then
          (* Only do single write if stride is equal *)
          [mk_buffer_copy buf_offset offset (u64 (width * height))]
        else
          row_slices (Z.to_nat height) buf_offset offset spitch width width in
      let sub := ggml_vk_sync_buffers sub [ggml_vk_subbuffer dst] q'
                   eMemoryRead eMemoryWrite false in
      let sub := record (CmdCopyBuffer (buffer buf) (buffer dst) slices) sub in
      Done ([sub], dst, w, q')
  | None =>
      (* Staging buffer required, malloc because of async transfer *)
      let '(sb, dst', w1) := staging_or_new w dst in
      let buf_copy := mk_buffer_copy 0 offset (u64 (width * height)) in
      let sub := ggml_vk_sync_buffers sub [ggml_vk_subbuffer dst'] q'
                   eMemoryRead eMemoryWrite false in
      let sub := record (CmdCopyBuffer (buffer sb) (buffer dst) [buf_copy])
                        sub in
      let m :=
        if width =? spitch then
          host_memcpy (host_mem w1) (ptr sb) src (u64 (width * height))
        else
          write_rows (Z.to_nat height) (host_mem w1) (ptr sb) offset src
                     spitch width in
      Done ([sub], dst', with_host_mem w1 m, q')
  end.

(** [ggml_vk_buffer_write_async] *)
Definition ggml_vk_buffer_write_async (w : vk_world)
    (pinned : list pinned_entry) (dst : vk_buffer) (offset src sz : Z)
    (q : vk_queue) (wait signal : list Z) (s : option vk_submission)
    : result (vk_sequence * vk_buffer * vk_world * vk_queue) :=
  ggml_vk_buffer_write_2d_async w pinned dst offset src 0 sz 1 q wait signal s.

Definition with_data (t : ggml_tensor) (d : tensor_data) : ggml_tensor :=
  mk_ggml_tensor (type t) (backend t) (op t) (ne t) (nb t) d
                 (src0 t) (src1 t).

Section Tensors.

(** [ggml_type_size] and [ggml_blck_size] of [ggml.c]: bytes per block and
    elements per block of a type. *)
Variable ggml_type_size : ggml_type -> Z.
Variable ggml_blck_size : ggml_type -> Z.

(** [row_length = ts*ne0/bs] *)
Definition row_length (t : ggml_tensor) : Z :=
  u64 (ggml_type_size (type t) * u64 (ne0 t)) / ggml_blck_size (type t).

(** [ggml_vk_h2d_tensor_2d]; the code after its [GGML_ASSERT(false)] is
    never reached. *)
Definition ggml_vk_h2d_tensor_2d (w : vk_world) (pinned : list pinned_entry)
    (dst : vk_buffer) (offset : Z) (src : ggml_tensor) (i3 i2 : Z)
    (q : vk_queue) (wait signal : list Z) (s : option vk_submission)
    : result (vk_sequence * vk_buffer * vk_world * vk_queue) :=
  match data src with
  | DeviceHandle _ => Undefined
  | HostData addr =>
      let ne1 := u64 (ne1 src) in
      let ts := ggml_type_size (type src) in
      let x := addr + u64 (i2 * nb2 src) + u64 (i3 * nb3 src) in
      if (nb0 src =? ts) && (nb1 src =? row_length src) then
        ggml_vk_buffer_write_async w pinned dst offset x
          (u64 (ne1 * nb1 src)) q wait signal s
      else if nb0 src =? ts then
        ggml_vk_buffer_write_2d_async w pinned dst offset x (nb1 src)
          (row_length src) ne1 q wait signal s
      else Aborted
  end.

(** [ggml_vk_transform_tensor(data, tensor)]: the tensor as the call
    leaves it, the world once transfer queue 0 is idle, and that queue. *)
Definition ggml_vk_transform_tensor (w : vk_world)
    (pinned : list pinned_entry) (host_data : Z) (tensor : ggml_tensor)
    (tr0 : vk_queue) : result (ggml_tensor * vk_world * vk_queue) :=
  _ ← GGML_ASSERT ((ne2 tensor =? 1) && (ne3 tensor =? 1));
  let q_sz :=
    u64 (ggml_type_size (type tensor) * u64 (ne0 tensor) * u64 (ne1 tensor)
         * u64 (ne2 tensor) * u64 (ne3 tensor))
    / ggml_blck_size (type tensor) in
  let '(dst, w1) := ggml_vk_create_buffer w q_sz eDeviceLocal in
  let tensor := with_data tensor (HostData host_data) in
  (* copy tensor to device *)
  '(seqs, dst, w2, tr0) ←
    ggml_vk_h2d_tensor_2d w1 pinned dst 0 tensor 0 0 tr0 [] [] None;
  w3 ← match exec_sequence w2 seqs with
       | Some w3 => Done w3
       | None => Undefined
       end;
  let tensor := with_data tensor (DeviceHandle dst) in
  _ ← GGML_ASSERT (bool_decide (backend tensor = GGML_BACKEND_GPU));
  Done (tensor, w3, tr0).

(** The sizes of a tensor are within their C types: positive type and
    block size, extents and strides that do not wrap. *)
Definition tensor_sizes_fit (tensor : ggml_tensor) : Prop :=
  0 < ggml_type_size (type tensor) /\ 0 < ggml_blck_size (type tensor)
  /\ 0 <= ne0 tensor < 2 ^ 63 /\ 0 <= ne1 tensor < 2 ^ 63
  /\ 0 <= nb1 tensor
  /\ ggml_type_size (type tensor) * ne0 tensor * ne1 tensor < 2 ^ 63
  /\ ggml_type_size (type tensor) * ne0 tensor < 2 ^ 63
  /\ nb1 tensor * ne1 tensor < 2 ^ 63.

(** Where the host data of an upload lies: every byte of its [ne1] rows
    of [row_length] bytes, [nb1] apart, is inside the first pinned buffer
    that holds [host_data], a mapped buffer of the world, or, unpinned,
    below the next free mapped address. *)
Definition host_data_placed (w : vk_world) (pinned : list pinned_entry)
    (host_data : Z) (tensor : ggml_tensor) : Prop :=
  0 <= host_data
  /\ match find_pinned host_data 0 pinned with
     | Some (_, e) =>
         mapped w (buffer (pinned_buffer e)) = Some (pinned_addr e)
         /\ buffer (pinned_buffer e) <> next_handle w
         /\ (forall r c, 0 <= r < ne1 tensor -> 0 <= c < row_length tensor ->
               host_data - pinned_addr e + r * nb1 tensor + c
               < pinned_size e)
         /\ pinned_size e < 2 ^ 63
     | None =>
         rows_below host_data (nb1 tensor) (row_length tensor) (ne1 tensor)
                    (next_addr w)
     end.

End Tensors.

(** A 2 x 3 f32 tensor marked for the GPU, with contiguous rows, and the
    same tensor left on the CPU; a type table with 4-byte elements. *)
Definition example_type_size (t : ggml_type) : Z := 4.
Definition example_blck_size (t : ggml_type) : Z := 1.

Definition example_weight (b : ggml_backend) : ggml_tensor :=
  mk_ggml_tensor GGML_TYPE_F32 b GGML_OP_NONE (3, 2, 1, 1) (4, 12, 24, 24)
                 (HostData 0) None None.

(** A pinned allocation of exactly the 24 bytes of that tensor. *)
Definition example_pinned_weight_setting : list pinned_entry * vk_world :=
  let '(_, w1, reg) := ggml_vk_host_malloc false example_host_world [] 24 in
  (reg, w1).

(** ** Queue families and the queues of [ggml_vk_init] *)

(** [vk::QueueFamilyProperties] as far as the backend reads it; both
    fields are [uint32_t]. *)
Record vk_queue_family_properties : Type := mk_queue_family {
  queueCount : Z;
  queueFlags : Z
}.

(** [vk::QueueFlagBits] *)
Definition eGraphics : Z := 1.
Definition eCompute : Z := 2.
Definition eTransfer : Z := 4.
Definition eProtected : Z := 16.
Definition eVideoDecodeKHR : Z := 32.
Definition eOpticalFlowNV : Z := 256.

(** [vk::PipelineStageFlagBits] *)
Definition eStageComputeShader : Z := 2048.
Definition eStageTransfer : Z := 4096.

(** One of the four [for] loops of [ggml_vk_find_queue_family_index]: the
    first index, counting from [i], whose family passes the test. *)
Fixpoint find_family (ok : Z -> vk_queue_family_properties -> bool) (i : Z)
    (props : list vk_queue_family_properties) : option Z :=
  match props with
  | [] => None
  | p :: rest => if ok i p then Some i else find_family ok (i + 1) rest
  end.

(** The four tests, in the order the loops apply them.  [compute_index] is
    an [int32_t], compared as [(uint32_t) compute_index]. *)
Definition family_enough (min_num_queues : Z)
    (p : vk_queue_family_properties) : bool :=
  min_num_queues <=? queueCount p.

Definition family_other (compute_index i : Z) : bool :=
  (compute_index <? 0) || negb (i =? u32 compute_index).

Definition family_preferred (required avoid compute_index min_num_queues : Z)
    (i : Z) (p : vk_queue_family_properties) : bool :=
  family_enough min_num_queues p && family_other compute_index i
  && has_flag (queueFlags p) required
  && negb (has_flag (queueFlags p) avoid).

Definition family_required (required compute_index min_num_queues : Z)
    (i : Z) (p : vk_queue_family_properties) : bool :=
  family_enough min_num_queues p && family_other compute_index i
  && has_flag (queueFlags p) required.

Definition family_shared (required min_num_queues : Z)
    (i : Z) (p : vk_queue_family_properties) : bool :=
  family_enough min_num_queues p && has_flag (queueFlags p) required.

Definition family_any (required : Z)
    (i : Z) (p : vk_queue_family_properties) : bool :=
  has_flag (queueFlags p) required.

(** [ggml_vk_find_queue_family_index]; the vector holds fewer than 2^32
    families, as Vulkan counts them in a [uint32_t]. *)
Definition ggml_vk_find_queue_family_index
    (queue_family_props : list vk_queue_family_properties)
    (required avoid compute_index min_num_queues : Z) : result Z :=
  (* Try with avoid preferences first *)
  match find_family (family_preferred required avoid compute_index
                                      min_num_queues) 0 queue_family_props with
  | Some i => Done i
  | None =>
  (* Fall back to only required *)
  match find_family (family_required required compute_index min_num_queues)
                    0 queue_family_props with
  | Some i => Done i
  | None =>
  (* Fall back to reusing compute queue *)
  match find_family (family_shared required min_num_queues)
                    0 queue_family_props with
  | Some i => Done i
  | None =>
  (* Fall back to ignoring min_num_queries *)
  match find_family (family_any required) 0 queue_family_props with
  | Some i => Done i
  | None => Aborted
  end end end end.

(** [vk_device.device.getQueue(family, index)]: a device queue is named by
    its family and its index there. *)
Definition vk_getQueue (family index : Z) : Z := family * 2 ^ 32 + index.

(** [ggml_vk_create_queue] *)
Definition ggml_vk_create_queue (queue_family_index queue_index : Z)
    (stage_flags : Z) : vk_queue :=
  mk_vk_queue queue_family_index (vk_getQueue queue_family_index queue_index)
              0 [] 0 [] stage_flags.

Definition VK_TRANSFER_QUEUE_COUNT : Z := 2.

(** What the queue part of [ggml_vk_init] leaves: the entries of
    [device_queue_create_infos] (family, number of queues) and the queues of
    [vk_device]. *)
Record vk_device_queues : Type := mk_device_queues {
  device_queue_create_infos : list (Z * Z);
  dq_compute_queue : vk_queue;
  dq_transfer_queues : list vk_queue
}.

(** [queue_family_props[i].queueCount], read unchecked. *)
Definition family_queue_count (props : list vk_queue_family_properties)
    (i : Z) : result Z :=
  match props !! Z.to_nat i with
  | Some p => Done (queueCount p)
  | None => Undefined
  end.

(** The queue part of [ggml_vk_init]: the two family searches, the number
    of transfer queues, the device's queue requests and the three queues. *)
Definition ggml_vk_init_queues
    (queue_family_props : list vk_queue_family_properties)
    : result vk_device_queues :=
  (* Try to find a non-graphics compute queue and transfer-focused queues *)
  compute_queue_family_index ←
    ggml_vk_find_queue_family_index queue_family_props eCompute eGraphics
                                    (-1) 1;
  transfer_queue_family_index ←
    ggml_vk_find_queue_family_index queue_family_props eTransfer
      (Z.lor eCompute (Z.lor eGraphics (Z.lor eVideoDecodeKHR
         (Z.lor eProtected eOpticalFlowNV))))
      (s32 compute_queue_family_index) 2;
  available ← family_queue_count queue_family_props
                                 transfer_queue_family_index;
  let transfer_queue_count :=
    (* If not enough transfer queues are available *)
    if available <? VK_TRANSFER_QUEUE_COUNT then
      (* If compute and transfer queues are same family *)
      if compute_queue_family_index =? transfer_queue_family_index
      then u32 (available - 1) else available
    else VK_TRANSFER_QUEUE_COUNT in
  infos ←
    (if negb (compute_queue_family_index =? transfer_queue_family_index) then
       _ ← GGML_ASSERT (0 <? transfer_queue_count);
       Done [(compute_queue_family_index, 1);
             (transfer_queue_family_index, transfer_queue_count)]
     else
       Done [(transfer_queue_family_index, u32 (1 + transfer_queue_count))]);
  (* Queues *)
  let queue_index_offset :=
    if compute_queue_family_index =? transfer_queue_family_index
    then 1 else 0 in
  let compute_queue :=
    ggml_vk_create_queue compute_queue_family_index 0
      (Z.lor eStageComputeShader eStageTransfer) in
  let transfer_queue (i : Z) :=
    if 0 <? transfer_queue_count then
      ggml_vk_create_queue transfer_queue_family_index
        (u32 (queue_index_offset + i) mod transfer_queue_count)
        eStageTransfer
    else compute_queue in
  Done (mk_device_queues infos compute_queue
                         [transfer_queue 0; transfer_queue 1]).

(** The index a queue was obtained with. *)
Definition queue_index (q : vk_queue) : Z :=
  queue q - queue_family_index q * 2 ^ 32.

(** Families as Vulkan reports them: at least one queue each, counts
    within [uint32_t], fewer than 2^31 families. *)
Definition families_wf (props : list vk_queue_family_properties) : Prop :=
  Z.of_nat (length props) < 2 ^ 31
  /\ Forall (fun p => 1 <= queueCount p < 2 ^ 32) props.

(** Example devices: one family with everything and a single queue; a
    graphics family, a compute family and a transfer family with two
    queues; one family with two queues. *)
Definition example_single_family : list vk_queue_family_properties :=
  [mk_queue_family 1 7].

Definition example_three_families : list vk_queue_family_properties :=
  [mk_queue_family 16 7; mk_queue_family 8 6; mk_queue_family 2 4].

Definition example_two_queues : list vk_queue_family_properties :=
  [mk_queue_family 2 7].

(** A family with everything and two queues, and a transfer family with a
    single queue. *)
Definition example_shared_families : list vk_queue_family_properties :=
  [mk_queue_family 2 7; mk_queue_family 1 4].

(** ** Pipelines by tensor type *)

(** [ggml_vk_get_to_fp16]; [None] for [nullptr]. *)
Definition ggml_vk_get_to_fp16 (t : ggml_type) : option pipeline_var :=
  match t with
  | GGML_TYPE_Q4_0 => Some vk_pipeline_dequant_q4_0
  | GGML_TYPE_F32 => Some vk_pipeline_f32_to_f16
  | _ => None
  end.

(** [ggml_vk_get_dequantize_mul_mat_vec] *)
Definition ggml_vk_get_dequantize_mul_mat_vec (t : ggml_type) (f16_y : bool)
    : option pipeline_var :=
  match t with
  | GGML_TYPE_Q4_0 =>
      Some (if f16_y then vk_pipeline_dequant_mul_mat_vec_q4_0
            else vk_pipeline_dequant_mul_mat_vec_q4_0_f32)
  | GGML_TYPE_F16 =>
      Some (if f16_y then vk_pipeline_dequant_mul_mat_vec_f16
            else vk_pipeline_dequant_mul_mat_vec_f16_f32)
  | _ => None
  end.

(** A pipeline that [ggml_vk_create_pipeline] has returned, as opposed to
    a default-constructed global: it has a name, parameters and non-zero
    work-group denominators. *)
Definition pipeline_created (p : vk_pipeline) : Prop :=
  name p <> EmptyString /\ 1 <= parameter_count p
  /\ 0 < (wg_denoms p).1.1 /\ 0 < (wg_denoms p).1.2 /\ 0 < (wg_denoms p).2.

(** ** Command buffers and semaphores of a queue *)

(** [ggml_vk_create_semaphore]: as a command buffer, a semaphore is named
    by its position in the queue's vector. *)
Definition ggml_vk_create_semaphore (q : vk_queue) : Z * vk_queue :=
  if semaphore_idx q <? Z.of_nat (length (semaphores q)) then
    (* Reuse semaphore *)
    (nth (Z.to_nat (semaphore_idx q)) (semaphores q) 0,
     mk_vk_queue (queue_family_index q) (queue q) (cmd_buffer_idx q)
                 (cmd_buffers q) (u32 (semaphore_idx q + 1)) (semaphores q)
                 (stage_flags q))
  else
    let semaphore := Z.of_nat (length (semaphores q)) in
    (semaphore,
     mk_vk_queue (queue_family_index q) (queue q) (cmd_buffer_idx q)
                 (cmd_buffers q) (u32 (semaphore_idx q + 1))
                 (semaphores q ++ [semaphore]) (stage_flags q)).

(** [k] calls in a row, with what they return. *)
Fixpoint create_cmd_buffers (k : nat) (q : vk_queue) : list Z * vk_queue :=
  match k with
  | O => ([], q)
  | S k' =>
      let '(buf, q1) := ggml_vk_create_cmd_buffer q in
      let '(bufs, q2) := create_cmd_buffers k' q1 in
      (buf :: bufs, q2)
  end.

Fixpoint create_semaphores (k : nat) (q : vk_queue) : list Z * vk_queue :=
  match k with
  | O => ([], q)
  | S k' =>
      let '(sem, q1) := ggml_vk_create_semaphore q in
      let '(sems, q2) := create_semaphores k' q1 in
      (sem :: sems, q2)
  end.

(** The semaphores of a queue as the calls above leave them: named by
    position, the cursor within the vector. *)
Definition semaphores_wf (q : vk_queue) : Prop :=
  semaphores q = map Z.of_nat (seq 0 (length (semaphores q)))
  /\ 0 <= semaphore_idx q <= Z.of_nat (length (semaphores q)).

(** ** Buffers in use *)

(** A world whose live buffers were all handed out by
    [ggml_vk_create_buffer]: their handles lie below the next one. *)
Definition world_wf (w : vk_world) : Prop :=
  Forall (fun h => h < next_handle w) (live w).

(** The buffers parked in the pool are buffers of the world, each parked
    once. *)
Definition pool_handles_wf (w : vk_world) (pool : list vk_buffer) : Prop :=
  (forall i b, pool !! i = Some b -> 0 < size b -> buffer b < next_handle w)
  /\ (forall i j b b',
        i <> j -> pool !! i = Some b -> pool !! j = Some b' ->
        0 < size b -> 0 < size b' -> buffer b <> buffer b').

(** The registered pinned ranges were mapped by [ggml_vk_create_buffer]:
    they end below the next mapped address. *)
Definition pinned_below (w : vk_world) (pinned : list pinned_entry) : Prop :=
  Forall (fun e => pinned_addr e + pinned_size e <= next_addr w) pinned.

(** A pool of 256 empty slots. *)
Definition empty_pool : list vk_buffer := replicate 256 empty_slot.

(** ** Synchronous transfers and reads *)

(** [ggml_vk_create_sequence_1] *)
Definition ggml_vk_create_sequence_1 (q : vk_queue) (wait signal : list Z)
    : vk_sequence * vk_queue :=
  let '(s, q') := ggml_vk_create_submission q wait signal in
  ([s], q').

(** Submitting sequences with a fence and waiting for the fence: the
    device has executed them.  A dispatch, whose effect is outside the
    model, is not expected here. *)
Definition submit_and_wait (w : vk_world) (seq : vk_sequence)
    : result vk_world :=
  match exec_sequence w seq with
  | Some w' => Done w'
  | None => Undefined
  end.

(** [ggml_vk_buffer_write_2d] *)
Definition ggml_vk_buffer_write_2d (w : vk_world)
    (pinned : list pinned_entry) (dst : vk_buffer)
    (offset src spitch width height : Z) (q : vk_queue)
    : result (vk_buffer * vk_world * vk_queue) :=
  (* Buffer is already mapped *)
  if has_flag (memory_property_flags dst) eHostVisible then
    _ ← GGML_ASSERT (has_flag (memory_property_flags dst) eHostCoherent);
    Done (dst,
          with_host_mem w
            (write_rows (Z.to_nat height) (host_mem w) (ptr dst) offset src
                        spitch width),
          q)
  else
    '(seq, dst', w1, q') ←
      ggml_vk_buffer_write_2d_async w pinned dst offset src spitch width
                                    height q [] [] None;
    w2 ← submit_and_wait w1 seq;
    Done (dst', w2, q').

(** [ggml_vk_buffer_write] *)
Definition ggml_vk_buffer_write (w : vk_world) (pinned : list pinned_entry)
    (dst : vk_buffer) (offset src sz : Z) (q : vk_queue)
    : result (vk_buffer * vk_world * vk_queue) :=
  ggml_vk_buffer_write_2d w pinned dst offset src 0 sz 1 q.

(** [ggml_vk_buffer_read_async]: the destination must be pinned. *)
Definition ggml_vk_buffer_read_async (pinned : list pinned_entry)
    (src : vk_buffer) (offset dst sz : Z) (q : vk_queue)
    (wait signal : list Z) (s : option vk_submission)
    : result (vk_sequence * vk_queue) :=
  (* Check if dst is pinned memory *)
  match find_pinned dst 0 pinned with
  | None => Aborted
  | Some (_, e) =>
      (* Memory is pinned, use as staging buffer *)
      let buf := pinned_buffer e in
      let buf_offset := dst - pinned_addr e in
      let buf_copy := mk_buffer_copy offset buf_offset sz in
      let '(sub, q') := submission_or_new s q wait signal in
      let sub := ggml_vk_sync_buffers sub [ggml_vk_subbuffer src] q'
                   eMemoryWrite eMemoryRead false in
      let sub := record (CmdCopyBuffer (buffer src) (buffer buf) [buf_copy])
                        sub in
      Done ([sub], q')
  end.

Definition with_sb_read (b : vk_buffer) (sb : vk_buffer) : vk_buffer :=
  mk_vk_buffer (buffer b) (memory_property_flags b) (ptr b) (size b)
               (sb_write b) (Some sb) (qf_owner b).

(** [if (src->sb_read == nullptr) { src->sb_read = new vk_buffer; ... }] *)
Definition staging_read_or_new (w : vk_world) (src : vk_buffer)
    : vk_buffer * vk_buffer * vk_world :=
  match sb_read src with
  | Some sb => (sb, src, w)
  | None =>
      let '(sb, w') :=
        ggml_vk_create_buffer w (size src)
          (Z.lor (Z.lor eHostVisible eHostCoherent) eHostCached) in
      (sb, with_sb_read src sb, w')
  end.

(** [ggml_vk_buffer_read]: the buffer as the call leaves it, the world
    once the fence is signalled and the bytes are copied, and the queue. *)
Definition ggml_vk_buffer_read (w : vk_world) (pinned : list pinned_entry)
    (src : vk_buffer) (offset dst sz : Z) (q : vk_queue)
    : result (vk_buffer * vk_world * vk_queue) :=
  if has_flag (memory_property_flags src) eHostVisible then
    _ ← GGML_ASSERT (has_flag (memory_property_flags src) eHostCoherent);
    Done (src,
          with_host_mem w (host_memcpy (host_mem w) dst (ptr src + offset) sz),
          q)
  else
    (* Check if dst is pinned memory *)
    match find_pinned dst 0 pinned with
    | Some (_, e) =>
        (* Memory is pinned, use as staging buffer *)
        let buf := pinned_buffer e in
        let buf_copy := mk_buffer_copy offset (dst - pinned_addr e) sz in
        let '(s, q') := ggml_vk_create_sequence_1 q [] [] in
        let s := map (fun s00 =>
                   record (CmdCopyBuffer (buffer src) (buffer buf) [buf_copy])
                     (ggml_vk_sync_buffers s00 [ggml_vk_subbuffer src] q'
                        eMemoryWrite eTransferRead false)) s in
        w' ← submit_and_wait w s;
        Done (src, w', q')
    | None =>
        let '(sb, src', w1) := staging_read_or_new w src in
        let buf_copy := mk_buffer_copy offset 0 sz in
        let '(cmd_buffer, q') := ggml_vk_create_cmd_buffer q in
        let s := mk_vk_submission cmd_buffer [] [] [] in
        let s := ggml_vk_sync_buffers s [ggml_vk_subbuffer src'] q'
                   eMemoryWrite eTransferRead false in
        let s := record (CmdCopyBuffer (buffer src) (buffer sb) [buf_copy])
                        s in
        w2 ← submit_and_wait w1 [s];
        Done (src',
              with_host_mem w2 (host_memcpy (host_mem w2) dst (ptr sb) sz),
              q')
    end.

(** The three situations of a read: the buffer is mapped; the destination
    is pinned; neither, and the read goes through the read staging buffer
    (the one the buffer has, or the one created at the next free
    address). *)
Definition read_mapped (w : vk_world) (src : vk_buffer)
    (offset dst sz : Z) : Prop :=
  has_flag (memory_property_flags src) eHostVisible = true
  /\ has_flag (memory_property_flags src) eHostCoherent = true
  /\ mapped w (buffer src) = Some (ptr src)
  /\ (dst + sz <= ptr src + offset \/ ptr src + offset + sz <= dst).

Definition read_pinned (w : vk_world) (pinned : list pinned_entry)
    (src : vk_buffer) (dst : Z) : Prop :=
  has_flag (memory_property_flags src) eHostVisible = false
  /\ exists i e,
       find_pinned dst 0 pinned = Some (i, e)
       /\ mapped w (buffer (pinned_buffer e)) = Some (pinned_addr e).

Definition read_staged (w : vk_world) (pinned : list pinned_entry)
    (src : vk_buffer) (dst sz : Z) : Prop :=
  has_flag (memory_property_flags src) eHostVisible = false
  /\ find_pinned dst 0 pinned = None
  /\ mapped w (buffer src) = None
  /\ match sb_read src with
     | Some sb =>
         mapped w (buffer sb) = Some (ptr sb) /\ buffer sb <> buffer src
         /\ (dst + sz <= ptr sb \/ ptr sb + sz <= dst)
     | None => buffer src <> next_handle w /\ dst + sz <= next_addr w
     end.

(** The address of the write staging buffer of [dst] once a transfer has
    made sure there is one. *)
Definition staging_ptr (w : vk_world) (dst : vk_buffer) : Z :=
  match sb_write dst with
  | Some sb => ptr sb
  | None => next_addr w
  end.

(** A mapped, coherent buffer of 64 bytes in the example world. *)
Definition example_mapped_buffer : vk_buffer * vk_world :=
  ggml_vk_create_buffer example_host_world 64
                        (Z.lor eHostVisible eHostCoherent).

(** [ggml_vk_free_data]: nothing for a tensor that is not on the GPU;
    otherwise the buffer behind [data] is destroyed. *)
Definition ggml_vk_free_data (w : vk_world) (tensor : ggml_tensor)
    : result vk_world :=
  if negb (bool_decide (backend tensor = GGML_BACKEND_GPU)) then Done w
  else
    match data tensor with
    | DeviceHandle buf => Done (snd (ggml_vk_destroy_buffer w buf))
    | HostData _ => Undefined
    end.

(** The write staging buffer of [dst], present or about to be created, is
    a mapped buffer other than [dst]. *)
Definition staging_ready (w : vk_world) (dst : vk_buffer) : Prop :=
  match sb_write dst with
  | Some sb => mapped w (buffer sb) = Some (ptr sb) /\ buffer sb <> buffer dst
  | None => buffer dst <> next_handle w
  end.

(** ** More on the dispatcher and the orchestrators *)

(** A MUL node over two 1x1 f32 operands, the second one on the GPU. *)
Definition example_mul_node : ggml_tensor :=
  mk_ggml_tensor GGML_TYPE_F32 GGML_BACKEND_CPU GGML_OP_MUL (1, 1, 1, 1)
                 (4, 4, 4, 4) (HostData 0)
                 (Some (example_operand GGML_BACKEND_CPU))
                 (Some (example_operand GGML_BACKEND_GPU)).

(** The number of sequences handed to [q.queue.submit] in a trace. *)
Fixpoint submitted (q : queue_var) (evs : list queue_event) : nat :=
  match evs with
  | [] => O
  | EvSubmit q' n :: rest =>
      ((if decide (q' = q) then n else O) + submitted q rest)%nat
  | _ :: rest => submitted q rest
  end.

Section OrchestratorChecks.

Variable ggml_type_size : ggml_type -> Z.
Variable ggml_blck_size : ggml_type -> Z.
Variable st : pipeline_store.
Variable dev : vk_device_state.

(** [ggml_vk_align_size(ggml_type_size(t) * ne / ggml_blck_size(t), ...)]
    assigned to a [uint32_t]; [ne] is an [int]. *)
Definition q_sz (t : ggml_type) (ne : Z) : Z :=
  u32 (ggml_vk_align_size
         (u64 (ggml_type_size t * u64 ne) / ggml_blck_size t)
         (minStorageBufferOffsetAlignment dev)).

(** [ggml_vk_align_size(sizeof(T) * ne, ...)] for an element size of
    [bytes]. *)
Definition f_sz (bytes ne : Z) : Z :=
  u32 (ggml_vk_align_size (u64 (bytes * u64 ne))
                          (minStorageBufferOffsetAlignment dev)).

(** What [ggml_vk_mul_mat_q_f16] checks before it records anything: the
    pipeline guess, the two size assertions and the two assertions on the
    conversion pipelines.  The pool allocations in between are left out;
    they assert nothing.  The call returns the matmul pipeline and the two
    conversion pipelines. *)
Definition mul_mat_q_f16_checks (src0 src1 : ggml_tensor)
    : result (pipeline_var * option pipeline_var * option pipeline_var) :=
  let ne00 := ne0 src0 in
  let ne01 := ne1 src0 in
  let ne10 := ne0 src1 in
  let ne11 := ne1 src1 in
  let f16_f32_kernel := bool_decide (type src1 = GGML_TYPE_F32) in
  let qx_needs_dequant := negb (bool_decide (type src0 = GGML_TYPE_F16)) in
  let qy_needs_dequant :=
    negb (bool_decide (type src1 = GGML_TYPE_F16)) && negb f16_f32_kernel in
  let x_ne := s32 (s64 (ne01 * ne00)) in
  let y_ne := s32 (s64 (ne11 * ne10)) in
  pipeline ← mul_mat_pipeline st true (negb f16_f32_kernel) ne01 ne11 ne10;
  let qx_sz := q_sz (type src0) x_ne in
  let qy_sz := q_sz (type src1) y_ne in
  let x_sz := f_sz 2 x_ne in
  let y_sz := if f16_f32_kernel then f_sz 4 y_ne else f_sz 2 y_ne in
  _ ← (if qx_needs_dequant then Done tt else GGML_ASSERT (qx_sz =? x_sz));
  _ ← (if qy_needs_dequant then Done tt else GGML_ASSERT (qy_sz =? y_sz));
  let to_fp16_vk_0 := ggml_vk_get_to_fp16 (type src0) in
  let to_fp16_vk_1 := ggml_vk_get_to_fp16 (type src1) in
  _ ← GGML_ASSERT (negb qx_needs_dequant || bool_decide (is_Some to_fp16_vk_0));
  _ ← GGML_ASSERT (negb qy_needs_dequant || bool_decide (is_Some to_fp16_vk_1));
  Done (pipeline, to_fp16_vk_0, to_fp16_vk_1).

(** The same for [ggml_vk_mul_mat_vec_q_f16]: the assertion on [ne11],
    the size assertion and the assertions on the two pipelines. *)
Definition mul_mat_vec_q_f16_checks (src0 src1 : ggml_tensor)
    : result (option pipeline_var * pipeline_var) :=
  let ne10 := ne0 src1 in
  let ne11 := ne1 src1 in
  _ ← GGML_ASSERT (ne11 =? 1);
  let f16_f32_kernel := bool_decide (type src1 = GGML_TYPE_F32) in
  let qy_needs_dequant :=
    negb (bool_decide (type src1 = GGML_TYPE_F16)) && negb f16_f32_kernel in
  let y_ne := s32 (s64 (ne11 * ne10)) in
  let qy_sz := q_sz (type src1) y_ne in
  let y_sz := if f16_f32_kernel then f_sz 4 y_ne else f_sz 2 y_ne in
  _ ← (if qy_needs_dequant then Done tt else GGML_ASSERT (qy_sz =? y_sz));
  let to_fp16_vk_1 := ggml_vk_get_to_fp16 (type src1) in
  let dmmv :=
    ggml_vk_get_dequantize_mul_mat_vec (type src0) (negb f16_f32_kernel) in
  _ ← GGML_ASSERT (negb qy_needs_dequant || bool_decide (is_Some to_fp16_vk_1));
  match dmmv with
  | Some p => Done (to_fp16_vk_1, p)
  | None => Aborted
  end.

End OrchestratorChecks.

(** A Q5_0 weight on the GPU and an f32 activation with more than one
    row, and the MUL_MAT node over them. *)
Definition example_q5_weight : ggml_tensor :=
  mk_ggml_tensor GGML_TYPE_Q5_0 GGML_BACKEND_GPU GGML_OP_NONE (64, 64, 1, 1)
                 (22, 44, 2816, 2816) (HostData 0) None None.

Definition example_activation : ggml_tensor :=
  mk_ggml_tensor GGML_TYPE_F32 GGML_BACKEND_CPU GGML_OP_NONE (64, 2, 1, 1)
                 (4, 256, 512, 512) (HostData 0) None None.

Definition example_q5_node : ggml_tensor :=
  mk_ggml_tensor GGML_TYPE_F32 GGML_BACKEND_CPU GGML_OP_MUL_MAT (64, 2, 1, 1)
                 (4, 256, 512, 512) (HostData 0)
                 (Some example_q5_weight) (Some example_activation).

(** ** Queue-family owners of pooled buffers *)

(** Every buffer parked in the pool has the owner that
    [ggml_vk_pool_free] gave it. *)
Definition pool_owners_ignored (pool : list vk_buffer) : Prop :=
  forall i b,
    pool !! i = Some b -> 0 < size b ->
    qf_owner b = VK_QUEUE_FAMILY_IGNORED.

(** ** The conversion pipelines of [ggml_vk_mul_mat_q_f16] *)

(** The operations on [*target] that a statement guarded by [cond] makes,
    seen from the pipeline global [pv]. *)
Definition ops_on (pv : pipeline_var) (target : option pipeline_var)
    (cond : bool) (ops : list pipeline_op) : list pipeline_op :=
  if cond && bool_decide (target = Some pv) then ops else [].

(** What [ggml_vk_mul_mat_q_f16] does, in program order, to the conversion
    pipeline global [pv] ([vk_pipeline_dequant_q4_0] or
    [vk_pipeline_f32_to_f16]; the matmul pipelines are other globals):
    the pre-sizing for [to_fp16_vk_0] and [to_fp16_vk_1], the dispatches
    of every batch, the cleanups.  [Qx], [X], [Qy] and [Y] give the
    sub-buffers of batch [it_idx]. *)
Definition mul_mat_q_f16_conversion_ops (pv : pipeline_var)
    (src0 src1 : ggml_tensor) (Qx X Qy Y : nat -> vk_subbuffer)
    : list pipeline_op :=
  let ne00 := ne0 src0 in
  let ne01 := ne1 src0 in
  let ne02 := ne2 src0 in
  let ne03 := ne3 src0 in
  let ne10 := ne0 src1 in
  let ne11 := ne1 src1 in
  let f16_f32_kernel := bool_decide (type src1 = GGML_TYPE_F32) in
  let qx_needs_dequant := negb (bool_decide (type src0 = GGML_TYPE_F16)) in
  let qy_needs_dequant :=
    negb (bool_decide (type src1 = GGML_TYPE_F16)) && negb f16_f32_kernel in
  let x_ne := s32 (s64 (ne01 * ne00)) in
  let y_ne := s32 (s64 (ne11 * ne10)) in
  let to_fp16_vk_0 := ggml_vk_get_to_fp16 (type src0) in
  let to_fp16_vk_1 := ggml_vk_get_to_fp16 (type src1) in
  ops_on pv to_fp16_vk_0 qx_needs_dequant [OpAllocate (u32 (ne02 * ne03))]
  ++ ops_on pv to_fp16_vk_1 qy_needs_dequant [OpAllocate (u32 (ne02 * ne03))]
  ++ flat_map
       (fun it_idx =>
          ops_on pv to_fp16_vk_0 qx_needs_dequant
            [OpDispatch [Qx it_idx; X it_idx] (4 * 4)
               [s32 ne01; s32 ne10; s32 ne10; s32 ne10] (u32 x_ne, 1, 1)]
          ++ ops_on pv to_fp16_vk_1 qy_needs_dequant
               [OpDispatch [Qy it_idx; Y it_idx] (4 * 4)
                  [s32 ne11; s32 ne10; s32 ne10; s32 ne10] (u32 y_ne, 1, 1)])
       (seq 0 (batch_count ne02 ne03))
  ++ ops_on pv to_fp16_vk_0 qx_needs_dequant [OpCleanup]
  ++ ops_on pv to_fp16_vk_1 qy_needs_dequant [OpCleanup].

(** The operation is a [ggml_vk_dispatch_pipeline]. *)
Definition is_dispatch (op : pipeline_op) : Prop :=
  match op with
  | OpDispatch _ _ _ _ => True
  | _ => False
  end.

(** A Q4_0 weight and a Q4_0 activation of two rows, with sub-buffers of
    the example buffers for every batch. *)
Definition example_q4_weight : ggml_tensor :=
  mk_ggml_tensor GGML_TYPE_Q4_0 GGML_BACKEND_GPU GGML_OP_NONE (64, 64, 1, 1)
                 (18, 36, 2304, 2304) (HostData 0) None None.

Definition example_q4_activation : ggml_tensor :=
  mk_ggml_tensor GGML_TYPE_Q4_0 GGML_BACKEND_CPU GGML_OP_NONE (64, 2, 1, 1)
                 (18, 36, 72, 72) (HostData 0) None None.


Definition example_subbuffer (handle : Z) (it_idx : nat) : vk_subbuffer :=
  ggml_vk_subbuffer (example_buffer handle).

(** * Properties *)

(** ** Machine-integer facts *)

Lemma u32_small x : 0 <= x < 2 ^ 32 -> u32 x = x.
Proof. intros H. unfold u32. apply Z.mod_small. exact H. Qed.

Lemma u64_small x : 0 <= x < 2 ^ 64 -> u64 x = x.
Proof. intros H. unfold u64. apply Z.mod_small. exact H. Qed.

Lemma s32_small x : - 2 ^ 31 <= x < 2 ^ 31 -> s32 x = x.
Proof. intros H. unfold s32. rewrite Z.mod_small; lia. Qed.

Lemma s64_small x : - 2 ^ 63 <= x < 2 ^ 63 -> s64 x = x.
Proof. intros H. unfold s64. rewrite Z.mod_small; lia. Qed.

Lemma s32_high x : 2 ^ 31 <= x < 2 ^ 32 -> s32 x = x - 2 ^ 32.
Proof.
  intros H. unfold s32.
  replace (x + 2 ^ 31) with ((x - 2 ^ 31) + 1 * 2 ^ 32) by lia.
  rewrite Z.mod_add by lia. rewrite Z.mod_small; lia.
Qed.

Lemma spec_ceil_bounds x y :
  0 < y -> 0 <= x -> x <= spec_ceil x y * y < x + y.
Proof.
  intros Hy Hx. unfold spec_ceil.
  pose proof (Z.div_mod (x + y - 1) y ltac:(lia)) as Hd.
  pose proof (Z.mod_pos_bound (x + y - 1) y Hy) as Hm.
  nia.
Qed.

Lemma spec_ceil_nonneg x y : 0 < y -> 0 <= x -> 0 <= spec_ceil x y.
Proof.
  intros Hy Hx. unfold spec_ceil. apply Z.div_pos; lia.
Qed.

Lemma CEIL_DIV_size_t_spec x y :
  0 < y -> 0 <= x -> x + y <= 2 ^ 64 -> CEIL_DIV_size_t x y = spec_ceil x y.
Proof.
  intros Hy Hx Hb. unfold CEIL_DIV_size_t, spec_ceil.
  rewrite u64_small by lia. reflexivity.
Qed.

Lemma CEIL_DIV_u32_spec x y :
  0 < y -> 0 <= x -> x + y <= 2 ^ 32 -> CEIL_DIV_u32 x y = spec_ceil x y.
Proof.
  intros Hy Hx Hb. unfold CEIL_DIV_u32, spec_ceil.
  rewrite u32_small by lia. reflexivity.
Qed.

Lemma CEIL_DIV_int_spec x y :
  0 < y -> 0 <= x -> x + y <= 2 ^ 31 -> CEIL_DIV_int x y = spec_ceil x y.
Proof.
  intros Hy Hx Hb. unfold CEIL_DIV_int, spec_ceil.
  rewrite s32_small by lia. apply Z.quot_div_nonneg; lia.
Qed.

Lemma ggml_vk_align_size_spec width al :
  0 < al -> 0 <= width -> width + al <= 2 ^ 64 ->
  ggml_vk_align_size width al = spec_pad width al.
Proof.
  intros Ha Hw Hb. unfold ggml_vk_align_size, spec_pad.
  rewrite CEIL_DIV_size_t_spec by lia.
  pose proof (spec_ceil_bounds width al Ha Hw).
  apply u64_small. lia.
Qed.

(** ** Pipelines after initialisation *)

Lemma ggml_vk_init_done fp16 multi_ok min_align :
  ggml_vk_init fp16 multi_ok min_align
  = Done (init_store fp16 multi_ok min_align, init_dev fp16 multi_ok min_align).
Proof. destruct fp16, multi_ok; vm_compute; reflexivity. Qed.

Lemma init_store_f32_align fp16 multi_ok min_align t :
  align (init_store fp16 multi_ok min_align
           (spec_matmul_pipeline VariantF32 false t))
  = match t with TileSmall => 32 | TileMedium => 64 | TileLarge => 128 end.
Proof. destruct fp16, multi_ok, t; vm_compute; reflexivity. Qed.

Lemma guess_align_spec fp16 multi_ok min_align m n :
  ggml_vk_guess_matmul_pipeline_align (init_store fp16 multi_ok min_align) m n
  = align (init_store fp16 multi_ok min_align
             (spec_matmul_pipeline VariantF32 false (spec_choose_tile m n))).
Proof.
  unfold ggml_vk_guess_matmul_pipeline_align, spec_choose_tile.
  destruct ((m <=? 32) || (n <=? 32)); [reflexivity|].
  destruct ((m <=? 64) || (n <=? 64)); reflexivity.
Qed.

Lemma guess_pipeline_spec x16 y16 m n aligned :
  ggml_vk_guess_matmul_pipeline x16 y16 m n aligned
  = match spec_choose_variant x16 y16 with
    | Some ty => Done (spec_matmul_pipeline ty aligned (spec_choose_tile m n))
    | None => Aborted
    end.
Proof.
  unfold ggml_vk_guess_matmul_pipeline, spec_choose_tile.
  destruct x16, y16, aligned; simpl;
    destruct ((m <=? 32) || (n <=? 32)); try reflexivity;
    destruct ((m <=? 64) || (n <=? 64)); reflexivity.
Qed.

Lemma kpad_aligned_iff K a :
  0 <= K < 2 ^ 31 -> 0 < a <= 128 ->
  (K =? s32 (ggml_vk_align_size (u64 K) a)) = (K =? spec_pad K a).
Proof.
  intros HK Ha.
  rewrite u64_small by lia.
  rewrite ggml_vk_align_size_spec by lia.
  pose proof (spec_ceil_bounds K a ltac:(lia) ltac:(lia)) as Hb.
  fold (spec_pad K a) in Hb.
  destruct (Z_lt_ge_dec (spec_pad K a) (2 ^ 31)) as [Hlt|Hge].
  - rewrite s32_small by lia. reflexivity.
  - rewrite s32_high by lia.
    rewrite (proj2 (Z.eqb_neq _ _)) by lia.
    rewrite (proj2 (Z.eqb_neq _ _)) by lia.
    reflexivity.
Qed.

(** C2: on the pipelines [ggml_vk_init] creates, a matmul of shape
    (M, N, K) selects the small tile when M <= 32 or N <= 32, else the
    medium one when M <= 64 or N <= 64, else the large one; the aligned
    variant exactly when K = ceil(K / tile.align) * tile.align, where
    tile.align is the [align] field of the tile's pipeline; the type variant
    by (x_is_16, y_is_16), and (false, true) ends in the fatal assertion. *)
Theorem matmul_pipeline_selection :
  forall (fp16 multi_ok : bool) (min_align : Z) (x_is_16 y_is_16 : bool)
         (M N K : Z),
    0 <= M < 2 ^ 31 -> 0 <= N < 2 ^ 31 -> 0 <= K < 2 ^ 31 ->
    let st := init_store fp16 multi_ok min_align in
    let tile := spec_choose_tile M N in
    let tile_align := align (st (spec_matmul_pipeline VariantF32 false tile)) in
    mul_mat_pipeline st x_is_16 y_is_16 M N K
    = match spec_choose_variant x_is_16 y_is_16 with
      | Some ty =>
          Done (spec_matmul_pipeline ty (K =? spec_ceil K tile_align * tile_align)
                                     tile)
      | None => Aborted
      end.
Proof.
  intros fp16 multi_ok min_align x16 y16 M N K HM HN HK st tile tile_align.
  unfold mul_mat_pipeline, mul_mat_kpad.
  rewrite !s32_small by lia.
  rewrite guess_pipeline_spec.
  subst st. rewrite guess_align_spec. fold tile. fold tile_align.
  assert (Ha : 0 < tile_align <= 128).
  { subst tile_align. rewrite init_store_f32_align. destruct tile; lia. }
  rewrite kpad_aligned_iff by assumption.
  reflexivity.
Qed.

Lemma matmul_pipeline_selection_witness :
  mul_mat_pipeline (init_store true true 16) false false 128 110 622
  = Done vk_pipeline_matmul_f32_l
  /\ mul_mat_pipeline (init_store true true 16) true false 64 512 512
     = Done vk_pipeline_matmul_f16_f32_aligned_m
  /\ mul_mat_pipeline (init_store true true 16) false true 64 512 512
     = Aborted.
Proof.
  split; [|split].
  - etransitivity;
      [ apply (matmul_pipeline_selection true true 16 false false 128 110 622);
        lia
      | vm_compute; reflexivity ].
  - etransitivity;
      [ apply (matmul_pipeline_selection true true 16 true false 64 512 512);
        lia
      | vm_compute; reflexivity ].
  - etransitivity;
      [ apply (matmul_pipeline_selection true true 16 false true 64 512 512);
        lia
      | vm_compute; reflexivity ].
Defined.

(** ** Recording a dispatch *)

Lemma dispatch_pipeline_done st s pv buffers pc_size pc elements set :
  descriptor_sets (st pv) !! Z.to_nat (descriptor_set_index (st pv)) = Some set ->
  parameter_count (st pv) <= Z.of_nat (length buffers) ->
  ggml_vk_dispatch_pipeline st s pv buffers pc_size pc elements
  = Done (mk_vk_submission (s_buffer s)
            (s_cmds s ++ dispatch_cmds st pv buffers pc_size pc elements set)
            (wait_semaphores s) (signal_semaphores s),
          <[pv := advance_cursor (st pv)]> st).
Proof.
  intros Hset Hpar. unfold ggml_vk_dispatch_pipeline, dispatch_cmds.
  destruct elements as [[e0 e1] e2].
  destruct (wg_denoms (st pv)) as [[d0 d1] d2] eqn:Hd.
  rewrite Hset.
  rewrite (proj2 (Z.ltb_ge _ _)) by lia.
  unfold record, advance_cursor. simpl.
  rewrite <- !app_assoc. simpl. reflexivity.
Qed.

Lemma dispatch_pipeline_out_of_range st s pv buffers pc_size pc elements :
  descriptor_sets (st pv) !! Z.to_nat (descriptor_set_index (st pv)) = None ->
  ggml_vk_dispatch_pipeline st s pv buffers pc_size pc elements = Undefined.
Proof.
  intros Hset. unfold ggml_vk_dispatch_pipeline.
  destruct elements as [[e0 e1] e2].
  destruct (wg_denoms (st pv)) as [[d0 d1] d2].
  rewrite Hset. reflexivity.
Qed.

(** ** Barriers and dispatches of a command list *)

Lemma dispatches_from_skip pc p pre rest :
  only_barriers pre ->
  dispatches_from pc p (pre ++ rest) = dispatches_from pc p rest.
Proof.
  induction 1 as [|c pre (a & b & bs & ->) _ IH]; simpl; auto.
Qed.

Lemma barriers_between_skip pre rest :
  only_barriers pre ->
  barriers_between_dispatches (pre ++ rest) = barriers_between_dispatches rest.
Proof.
  induction 1 as [|c pre (a & b & bs & ->) _ IH]; simpl; auto.
Qed.

Lemma sync_buffers_cmds s buffers q src_mask dst_mask force :
  exists pre,
    ggml_vk_sync_buffers s buffers q src_mask dst_mask force
    = mk_vk_submission (s_buffer s) (s_cmds s ++ pre)
                       (wait_semaphores s) (signal_semaphores s)
    /\ only_barriers pre
    /\ (pre = []
        \/ pre = [CmdPipelineBarrier (stage_flags q) (stage_flags q)
                    (sync_barriers buffers q src_mask dst_mask force)]).
Proof.
  unfold ggml_vk_sync_buffers.
  destruct (sync_barriers buffers q src_mask dst_mask force) as [|b0 bs] eqn:E.
  - exists []. rewrite app_nil_r. destruct s; simpl. repeat split; auto.
    constructor.
  - eexists. split; [reflexivity|]. split; [|right; reflexivity].
    constructor; [eauto | constructor].
Qed.

Lemma sync_barriers_forced d q src_mask dst_mask :
  exists bar,
    sync_barriers [d] q src_mask dst_mask true = [bar]
    /\ barrier_buffer bar = buffer (sub_buffer d)
    /\ barrier_offset bar = sub_offset d
    /\ barrier_size bar = sub_size d
    /\ srcAccessMask bar = src_mask
    /\ dstAccessMask bar = dst_mask.
Proof.
  unfold sync_barriers. simpl.
  destruct (negb (qf_owner (sub_buffer d) =? VK_QUEUE_FAMILY_IGNORED)
            && negb (qf_owner (sub_buffer d) =? queue_family_index q));
    simpl; eexists; (split; [reflexivity|]); simpl; auto.
Qed.

Lemma begin_submission_empty q :
  exists buf q', ggml_vk_begin_submission q = (mk_vk_submission buf [] [] [], q')
                 /\ stage_flags q' = stage_flags q
                 /\ queue_family_index q' = queue_family_index q.
Proof.
  unfold ggml_vk_begin_submission, ggml_vk_create_cmd_buffer.
  destruct (cmd_buffer_idx q <? Z.of_nat (length (cmd_buffers q)));
    eexists _, _; (split; [reflexivity|]); simpl; auto.
Qed.

(** ** Split-K *)

Lemma guess_split_k_spec M N K :
  ggml_vk_guess_split_k M N K = spec_split_k M N K.
Proof.
  unfold ggml_vk_guess_split_k, spec_split_k.
  destruct (decide (K > 128 /\ (M < 128 \/ N < 128))) as [H|H].
  - replace (128 <? K) with true by (symmetry; apply Z.ltb_lt; lia).
    destruct H as [_ [H|H]].
    + replace (M <? 128) with true by (symmetry; apply Z.ltb_lt; lia).
      reflexivity.
    + replace (N <? 128) with true by (symmetry; apply Z.ltb_lt; lia).
      rewrite orb_true_r. reflexivity.
  - destruct (128 <? K) eqn:EK; [|reflexivity].
    destruct (M <? 128) eqn:EM; [exfalso; apply H; lia|].
    destruct (N <? 128) eqn:EN; [exfalso; apply H; lia|].
    reflexivity.
Qed.

Lemma guess_split_k_cases M N K :
  ggml_vk_guess_split_k M N K = 1 \/ ggml_vk_guess_split_k M N K = 4.
Proof.
  unfold ggml_vk_guess_split_k.
  destruct ((128 <? K) && ((M <? 128) || (N <? 128))); auto.
Qed.

Lemma mul_mat_d_sz_holds dev M N K :
  0 <= M -> 0 <= N -> 0 <= K < 2 ^ 31 -> M * N < 2 ^ 31 ->
  M < 2 ^ 31 -> N < 2 ^ 31 ->
  0 < minStorageBufferOffsetAlignment dev ->
  4 * M * N * spec_split_k M N K + minStorageBufferOffsetAlignment dev <= 2 ^ 32 ->
  4 * M * N * spec_split_k M N K <= mul_mat_d_sz dev M N K.
Proof.
  intros HM HN HK HMN HM' HN' Ha Hb.
  unfold mul_mat_d_sz, mul_mat_d_ne, mul_mat_split_k.
  rewrite !(s32_small M), !(s32_small N), !(s32_small K) by lia.
  rewrite guess_split_k_spec.
  assert (Hs : spec_split_k M N K = 1 \/ spec_split_k M N K = 4).
  { rewrite <- guess_split_k_spec. apply guess_split_k_cases. }
  rewrite s64_small by nia. rewrite s32_small by nia.
  rewrite (u64_small (N * M)) by nia.
  rewrite (u64_small (4 * (N * M))) by nia.
  rewrite (u64_small (spec_split_k M N K)) by lia.
  rewrite u64_small by nia.
  rewrite ggml_vk_align_size_spec by nia.
  pose proof (spec_ceil_bounds (4 * (N * M) * spec_split_k M N K)
                (minStorageBufferOffsetAlignment dev) Ha ltac:(nia)) as Hc.
  unfold spec_pad. rewrite u32_small by nia. nia.
Qed.

Lemma grid_fits_dispatch denoms extents :
  grid_fits denoms extents ->
  (CEIL_DIV_u32 extents.1.1 denoms.1.1,
   CEIL_DIV_u32 extents.1.2 denoms.1.2,
   CEIL_DIV_u32 extents.2 denoms.2) = spec_grid denoms extents.
Proof.
  destruct denoms as [[d0 d1] d2], extents as [[e0 e1] e2].
  unfold grid_fits, spec_grid. simpl. intros (Hd & He & H0 & H1 & H2).
  rewrite !CEIL_DIV_u32_spec by lia. reflexivity.
Qed.

#[local] Arguments ggml_vk_dispatch_pipeline : simpl never.
#[local] Arguments ggml_vk_sync_buffers : simpl never.
#[local] Arguments u32 : simpl never.
#[local] Arguments CEIL_DIV_u32 : simpl never.
#[local] Arguments CEIL_DIV_int : simpl never.

(** C1 (as amended): for extents inside the code's 32-bit ranges (M, N, K
    and M*N fit [int], and the [uint32_t] size of the destination does not
    wrap), the split is 4 exactly when K > 128 and (M < 128 or N < 128),
    else 1; the destination sub-buffer holds M*N*split_k floats; and when
    split_k > 1, each pipeline having a descriptor set at its cursor, the
    command buffer of [ggml_vk_matmul] holds two dispatches: the matmul
    pipeline with push constants ending in ceil(K / split_k) over the
    extents (M*split_k, N, 1), and [split_k_reduce] with push constants
    (M, N, split_k) over the extents (M, N, 1), each grid being the
    extents divided, rounding up, by the pipeline's work-group
    denominators, with exactly one buffer barrier between them, covering
    the destination sub-buffer. *)
Theorem matmul_split_k_plan :
  forall (st : pipeline_store) (dev : vk_device_state) (pv : pipeline_var)
         (a b d : vk_subbuffer) (M N K : Z) (q : vk_queue)
         (wait signal : list Z) (set1 set2 : vk_descriptor_set),
    0 <= M < 2 ^ 30 -> 0 <= N < 2 ^ 31 -> 0 <= K < 2 ^ 31 - 4 ->
    M * N < 2 ^ 31 ->
    0 < minStorageBufferOffsetAlignment dev ->
    4 * M * N * spec_split_k M N K + minStorageBufferOffsetAlignment dev
      <= 2 ^ 32 ->
    pv <> vk_pipeline_matmul_split_k_reduce ->
    descriptor_sets (st pv) !! Z.to_nat (descriptor_set_index (st pv))
      = Some set1 ->
    descriptor_sets (st vk_pipeline_matmul_split_k_reduce)
      !! Z.to_nat (descriptor_set_index (st vk_pipeline_matmul_split_k_reduce))
      = Some set2 ->
    parameter_count (st pv) <= 3 ->
    parameter_count (st vk_pipeline_matmul_split_k_reduce) <= 1 ->
    grid_fits (wg_denoms (st pv)) (M * 4, N, 1) ->
    grid_fits (wg_denoms (st vk_pipeline_matmul_split_k_reduce)) (M, N, 1) ->
    let split_k := mul_mat_split_k M N K in
    split_k = spec_split_k M N K
    /\ 4 * M * N * split_k <= mul_mat_d_sz dev M N K
    /\ (1 < split_k ->
        exists s st' q',
          ggml_vk_matmul st pv a b d M N K K K M split_k q wait signal
          = Done ([s], st', q')
          /\ dispatches (s_cmds s)
             = [ (Some pv, [M; N; K; K; K; M; spec_ceil K split_k],
                  spec_grid (wg_denoms (st pv)) (M * split_k, N, 1));
                 (Some vk_pipeline_matmul_split_k_reduce, [M; N; split_k],
                  spec_grid (wg_denoms (st vk_pipeline_matmul_split_k_reduce))
                            (M, N, 1)) ]
          /\ exists bar,
               barriers_between_dispatches (s_cmds s) = [bar]
               /\ barrier_buffer bar = buffer (sub_buffer d)
               /\ barrier_offset bar = sub_offset d
               /\ barrier_size bar = sub_size d
               /\ srcAccessMask bar = eMemoryWrite
               /\ dstAccessMask bar = Z.lor eShaderRead eShaderWrite).
Proof.
  intros st dev pv a b d M N K q wait signal set1 set2
         HM HN HK HMN Ha Hsz Hpv Hs1 Hs2 Hp1 Hp2 Hg1 Hg2 split_k.
  assert (Hsk : split_k = spec_split_k M N K).
  { subst split_k. unfold mul_mat_split_k. rewrite !s32_small by lia.
    apply guess_split_k_spec. }
  split; [exact Hsk|]. split.
  { rewrite Hsk. apply mul_mat_d_sz_holds; lia. }
  intros Hgt.
  assert (H4 : split_k = 4).
  { rewrite Hsk in *. rewrite <- guess_split_k_spec in *.
    destruct (guess_split_k_cases M N K) as [E|E]; rewrite E in *; lia. }
  rewrite H4. clear Hsk Hgt.
  unfold ggml_vk_matmul.
  destruct (begin_submission_empty q) as (buf & q' & Eb & Hsf & Hqf).
  rewrite Eb.
  destruct (sync_buffers_cmds (mk_vk_submission buf [] [] []) [a; b] q'
              eMemoryWrite eShaderRead false) as (pre1 & E1 & Hpre1 & _).
  rewrite E1. simpl s_cmds.
  match goal with
  | |- context [ggml_vk_sync_buffers ?s [d] q' eMemoryRead eShaderWrite false] =>
      destruct (sync_buffers_cmds s [d] q' eMemoryRead eShaderWrite false)
        as (pre2 & E2 & Hpre2 & _)
  end.
  rewrite E2. simpl.
  erewrite dispatch_pipeline_done; [|exact Hs1|simpl; lia].
  cbn [mbind result_bind rbind]. simpl s_cmds.
  match goal with
  | |- context [ggml_vk_sync_buffers ?s [d] q' ?sm ?dm true] =>
      destruct (sync_buffers_cmds s [d] q' sm dm true)
        as (pre3 & E3 & Hpre3 & Hforce)
  end.
  rewrite E3.
  destruct (sync_barriers_forced d q' eMemoryWrite
              (Z.lor eShaderRead eShaderWrite))
    as (bar & Ebar & Hb1 & Hb2 & Hb3 & Hb4 & Hb5).
  rewrite Ebar in Hforce.
  destruct Hforce as [->| ->].
  { exfalso. unfold ggml_vk_sync_buffers in E3. rewrite Ebar in E3.
    unfold record in E3. simpl in E3. injection E3 as E3.
    rewrite app_nil_r in E3.
    apply (f_equal (@length vk_cmd)) in E3. rewrite !length_app in E3.
    simpl in E3. lia. }
  erewrite dispatch_pipeline_done;
    [ | rewrite fn_lookup_insert_ne by congruence; exact Hs2
      | rewrite fn_lookup_insert_ne by congruence; simpl; lia ].
  cbn [mbind result_bind rbind].
  eexists _, _, _. split; [reflexivity|].
  unfold ggml_vk_end_submission. simpl s_cmds.
  unfold dispatch_cmds.
  rewrite fn_lookup_insert_ne by congruence.
  destruct (wg_denoms (st pv)) as [[d0 d1] d2] eqn:Ed.
  destruct (wg_denoms (st vk_pipeline_matmul_split_k_reduce))
    as [[r0 r1] r2] eqn:Er.
  pose proof (grid_fits_dispatch _ _ Hg1) as G1.
  pose proof (grid_fits_dispatch _ _ Hg2) as G2.
  unfold spec_grid in G1, G2. simpl in G1, G2.
  injection G1 as G10 G11 G12. injection G2 as G20 G21 G22.
  rewrite (u32_small M), (u32_small N), (u32_small 4) by lia.
  rewrite (u32_small (M * 4)) by lia.
  rewrite CEIL_DIV_int_spec by lia.
  split.
  - unfold dispatches. rewrite <- !app_assoc.
    rewrite dispatches_from_skip by exact Hpre1.
    rewrite dispatches_from_skip by exact Hpre2.
    simpl. rewrite G10, G11, G12, G20, G21, G22. reflexivity.
  - exists bar. split; [|auto].
    rewrite <- !app_assoc.
    rewrite barriers_between_skip by exact Hpre1.
    rewrite barriers_between_skip by exact Hpre2.
    simpl. reflexivity.
Qed.

(** Closes a hypothesis of a concrete instance by evaluation. *)
Ltac by_evaluation :=
  first
    [ lia
    | vm_compute; reflexivity
    | vm_compute; congruence
    | vm_compute; repeat split; first [reflexivity | intro; discriminate] ].

Lemma matmul_split_k_plan_witness :
  let st := example_store_or_default in
  let pv := vk_pipeline_matmul_f32_aligned_m in
  let d := mk_vk_subbuffer (example_buffer 3) 0 65536 in
  mul_mat_split_k 64 64 256 = spec_split_k 64 64 256
  /\ 4 * 64 * 64 * mul_mat_split_k 64 64 256
     <= mul_mat_d_sz (init_dev true true 16) 64 64 256
  /\ (1 < mul_mat_split_k 64 64 256 ->
      exists s st' q',
        ggml_vk_matmul st pv (mk_vk_subbuffer (example_buffer 1) 0 65536)
          (mk_vk_subbuffer (example_buffer 2) 0 65536) d
          64 64 256 256 256 64 (mul_mat_split_k 64 64 256) example_queue [] []
        = Done ([s], st', q')
        /\ dispatches (s_cmds s)
           = [ (Some pv, [64; 64; 256; 256; 256; 64;
                          spec_ceil 256 (mul_mat_split_k 64 64 256)],
                spec_grid (wg_denoms (st pv))
                          (64 * mul_mat_split_k 64 64 256, 64, 1));
               (Some vk_pipeline_matmul_split_k_reduce,
                [64; 64; mul_mat_split_k 64 64 256],
                spec_grid (wg_denoms (st vk_pipeline_matmul_split_k_reduce))
                          (64, 64, 1)) ]
        /\ exists bar,
             barriers_between_dispatches (s_cmds s) = [bar]
             /\ barrier_buffer bar = buffer (sub_buffer d)
             /\ barrier_offset bar = sub_offset d
             /\ barrier_size bar = sub_size d
             /\ srcAccessMask bar = eMemoryWrite
             /\ dstAccessMask bar = Z.lor eShaderRead eShaderWrite).
Proof.
  intros st pv d.
  apply (matmul_split_k_plan st (init_dev true true 16) pv
           (mk_vk_subbuffer (example_buffer 1) 0 65536)
           (mk_vk_subbuffer (example_buffer 2) 0 65536) d
           64 64 256 example_queue [] [] (0%nat, 0) (0%nat, 0));
    by_evaluation.
Defined.

(** C1, counterexample: for M = N = 64, K = 256 the split is 4 and the
    selected pipeline is the aligned medium f32 one; the two dispatches are
    recorded with work-group grids (4, 1, 1) and (2, 2, 1), not
    (M*split_k, N, 1) = (256, 64, 1) and (M, N, 1) = (64, 64, 1).  And
    for M = 64, N = 4194304, K = 256, extents that fit the code's [int]
    and give a split of 4, the [uint32_t] size of the destination wraps:
    it is 0, not the 2^32 bytes that M*N*split_k floats take. *)
Lemma matmul_split_k_grid_counterexample :
  (mul_mat_split_k 64 64 256 = 4
   /\ mul_mat_pipeline example_store_or_default false false 64 64 256
      = Done vk_pipeline_matmul_f32_aligned_m
   /\ exists s st' q',
        ggml_vk_matmul example_store_or_default
          vk_pipeline_matmul_f32_aligned_m
          (mk_vk_subbuffer (example_buffer 1) 0 65536)
          (mk_vk_subbuffer (example_buffer 2) 0 65536)
          (mk_vk_subbuffer (example_buffer 3) 0 65536)
          64 64 256 256 256 64 4 example_queue [] []
        = Done ([s], st', q')
        /\ map snd (dispatches (s_cmds s)) = [(4, 1, 1); (2, 2, 1)]
        /\ (4, 1, 1) <> (64 * 4, 64, 1)
        /\ (2, 2, 1) <> (64, 64, 1))
  /\ (mul_mat_split_k 64 4194304 256 = 4
      /\ mul_mat_d_ne 64 4194304 = 64 * 4194304
      /\ mul_mat_d_sz (init_dev true true 16) 64 4194304 256 = 0
      /\ 4 * 64 * 4194304 * 4 = 2 ^ 32).
Proof.
  split.
  - split; [vm_compute; reflexivity|].
    split; [vm_compute; reflexivity|].
    eexists _, _, _.
    split; [vm_compute; reflexivity|].
    split; [vm_compute; reflexivity|].
    split; intros E; discriminate E.
  - repeat split; vm_compute; reflexivity.
Qed.

(** ** Descriptor-pool mode *)

Lemma create_pipeline_never_multi dev path pcount pcsize denoms al p dev' :
  descriptor_set_mode dev <> VK_DEVICE_DESCRIPTOR_POOL_MODE_MULTI ->
  ggml_vk_create_pipeline dev path pcount pcsize denoms al = Done (p, dev') ->
  descriptor_set_mode dev' <> VK_DEVICE_DESCRIPTOR_POOL_MODE_MULTI
  /\ descriptor_pools p = [] /\ descriptor_sets p = []
  /\ descriptor_set_index p = 0.
Proof.
  intros Hm. unfold ggml_vk_create_pipeline.
  destruct denoms as [[d0 d1] d2].
  destruct (0 <? pcount); [|discriminate].
  destruct ((0 <? d0) && (0 <? d1) && (0 <? d2)); [|discriminate].
  cbn [mbind result_bind rbind GGML_ASSERT].
  set (dev1 := if descriptor_set_mode dev
                  =? VK_DEVICE_DESCRIPTOR_POOL_MODE_UNKNOWN
               then _ else dev).
  assert (H1 : descriptor_set_mode dev1
               <> VK_DEVICE_DESCRIPTOR_POOL_MODE_MULTI).
  { subst dev1.
    destruct (descriptor_set_mode dev
              =? VK_DEVICE_DESCRIPTOR_POOL_MODE_UNKNOWN); [|exact Hm].
    destruct (multi_sets_ok (count_trial dev)); simpl; [exact Hm|].
    unfold VK_DEVICE_DESCRIPTOR_POOL_MODE_SINGLE,
      VK_DEVICE_DESCRIPTOR_POOL_MODE_MULTI. lia. }
  intros E. injection E as <- <-. simpl.
  rewrite (proj2 (Z.eqb_neq _ _) H1). auto.
Qed.

Lemma create_pipelines_never_multi specs :
  forall st dev st' dev',
    descriptor_set_mode dev <> VK_DEVICE_DESCRIPTOR_POOL_MODE_MULTI ->
    create_pipelines specs st dev = Done (st', dev') ->
    descriptor_set_mode dev' <> VK_DEVICE_DESCRIPTOR_POOL_MODE_MULTI.
Proof.
  induction specs as [|[[[[[v path] pcount] pcsize] denoms] al] rest IH];
    intros st dev st' dev' Hm E; simpl in E.
  - injection E as <- <-. exact Hm.
  - destruct (ggml_vk_create_pipeline dev path pcount pcsize denoms al)
      as [[p dev1]| |] eqn:Ec; try discriminate.
    cbn [mbind result_bind rbind] in E.
    apply create_pipeline_never_multi in Ec; [|exact Hm].
    eapply IH; [|exact E]. apply Ec.
Qed.

(** No run of [ggml_vk_init] ends in multi mode. *)
Lemma init_never_multi fp16 multi_ok min_align :
  descriptor_set_mode (init_dev fp16 multi_ok min_align)
  <> VK_DEVICE_DESCRIPTOR_POOL_MODE_MULTI.
Proof.
  eapply create_pipelines_never_multi; [|apply ggml_vk_init_done].
  simpl. unfold VK_DEVICE_DESCRIPTOR_POOL_MODE_UNKNOWN,
    VK_DEVICE_DESCRIPTOR_POOL_MODE_MULTI. lia.
Qed.

(** The half of the probe that works: when the trial allocation throws,
    the mode is single after the first creation and the trial is run
    once. *)
Lemma probe_failure_switches_to_single fp16 min_align :
  descriptor_set_mode (init_dev fp16 false min_align)
  = VK_DEVICE_DESCRIPTOR_POOL_MODE_SINGLE
  /\ trial_allocations (init_dev fp16 false min_align) = 1%nat.
Proof. destruct fp16; vm_compute; split; reflexivity. Qed.

(** C6, the code at the failing input: on a device whose trial allocation
    succeeds the mode is still unknown after [ggml_vk_init], the trial has
    been run once per created pipeline (26 times with fp16, 12 without), no
    pipeline owns a 128-set pool, and pre-sizing a pipeline to two sets
    creates two one-set pools. *)
Theorem probe_success_leaves_mode_unknown :
  forall (fp16 : bool) (min_align : Z),
    let dev := init_dev fp16 true min_align in
    let st := init_store fp16 true min_align in
    descriptor_set_mode dev = VK_DEVICE_DESCRIPTOR_POOL_MODE_UNKNOWN
    /\ trial_allocations dev = length (init_pipeline_specs fp16)
    /\ trial_allocations dev = (if fp16 then 26%nat else 12%nat)
    /\ (forall pv, descriptor_pools (st pv) = [])
    /\ (forall pv,
          (p ← ggml_vk_pipeline_allocate_descriptor_sets dev (st pv) 2;
           Done (descriptor_pools p, descriptor_sets p))
          = Done ([mk_pool 1 1; mk_pool 1 1], [(0%nat, 0); (1%nat, 0)])).
Proof.
  intros fp16 min_align dev st. subst dev st.
  destruct fp16.
  - split; [vm_compute; reflexivity|].
    split; [vm_compute; reflexivity|].
    split; [vm_compute; reflexivity|].
    split; intros pv; destruct pv; vm_compute; reflexivity.
  - split; [vm_compute; reflexivity|].
    split; [vm_compute; reflexivity|].
    split; [vm_compute; reflexivity|].
    split; intros pv; destruct pv; vm_compute; reflexivity.
Qed.

(** ** Descriptor-set vending *)

Lemma allocate_from_fresh_pool pools i :
  length pools = i ->
  allocate_from_pool (pools ++ [mk_pool 1 0]) i 1
  = Done (pools ++ [mk_pool 1 1], [(i, 0)]).
Proof.
  intros <-. unfold allocate_from_pool.
  rewrite lookup_app_r by lia. rewrite Nat.sub_diag. simpl.
  f_equal. f_equal.
  replace (length pools) with (length pools + 0)%nat at 1 by lia.
  rewrite insert_app_r. reflexivity.
Qed.

Lemma allocate_single_loop_done todo :
  forall pools sets,
    length pools = length sets ->
    exists pools' sets',
      allocate_single_loop todo pools sets = Done (pools', sets')
      /\ length sets' = (length sets + todo)%nat
      /\ length pools' = length sets'.
Proof.
  induction todo as [|todo IH]; intros pools sets Hlen; simpl.
  - exists pools, sets. repeat split; auto.
  - rewrite allocate_from_fresh_pool by exact Hlen.
    cbn [mbind result_bind rbind].
    destruct (IH (pools ++ [mk_pool 1 1]) (sets ++ [(length sets, 0)]))
      as (pools' & sets' & E & Hs & Hp).
    { rewrite !length_app. simpl. lia. }
    exists pools', sets'. split; [exact E|]. split; [|exact Hp].
    rewrite Hs, length_app. simpl. lia.
Qed.

(** Outside multi mode [ggml_vk_pipeline_allocate_descriptor_sets(p, n)]
    returns with at least [n] sets, touching nothing but the pools and
    sets. *)
Lemma allocate_descriptor_sets_done dev p n :
  descriptor_set_mode dev <> VK_DEVICE_DESCRIPTOR_POOL_MODE_MULTI ->
  length (descriptor_pools p) = length (descriptor_sets p) ->
  exists p',
    ggml_vk_pipeline_allocate_descriptor_sets dev p n = Done p'
    /\ n <= Z.of_nat (length (descriptor_sets p'))
    /\ (length (descriptor_sets p) <= length (descriptor_sets p'))%nat
    /\ length (descriptor_pools p') = length (descriptor_sets p')
    /\ descriptor_set_index p' = descriptor_set_index p
    /\ parameter_count p' = parameter_count p.
Proof.
  intros Hm Hlen. unfold ggml_vk_pipeline_allocate_descriptor_sets.
  destruct (n <=? Z.of_nat (length (descriptor_sets p))) eqn:En.
  - exists p. apply Z.leb_le in En. repeat split; auto.
  - apply Z.leb_gt in En.
    rewrite (proj2 (Z.eqb_neq _ _) Hm).
    destruct (allocate_single_loop_done
                (Z.to_nat (n - Z.of_nat (length (descriptor_sets p))))
                (descriptor_pools p) (descriptor_sets p) Hlen)
      as (pools' & sets' & E & Hs & Hp).
    rewrite E. cbn [mbind result_bind rbind].
    eexists. split; [reflexivity|]. simpl. repeat split; auto; lia.
Qed.


Lemma run_ops_app dev pv pre post state :
  run_ops dev pv (pre ++ post) state
  = (state' ← run_ops dev pv pre state; run_ops dev pv post state').
Proof.
  revert state. induction pre as [|op pre IH]; intros state; simpl.
  - reflexivity.
  - destruct (run_op dev pv op state) as [state'| |]; simpl; auto.
Qed.

Lemma run_op_invariant dev pv op st s pcount used hw rest :
  descriptor_set_mode dev <> VK_DEVICE_DESCRIPTOR_POOL_MODE_MULTI ->
  cursor_invariant st pv pcount used hw ->
  presized pcount used hw (op :: rest) ->
  exists st' s' used' hw',
    run_op dev pv op (st, s) = Done (st', s')
    /\ cursor_invariant st' pv pcount used' hw'
    /\ presized pcount used' hw' rest.
Proof.
  intros Hm (Hlen & Hidx & Hused & Hhw & Hb & Hpc) Hpre.
  destruct op as [n|buffers pc_size pc elements|]; simpl in Hpre.
  - destruct Hpre as [Hn Hrest].
    destruct (allocate_descriptor_sets_done dev (st pv) n Hm Hlen)
      as (p' & E & Hn' & Hmono & Hlen' & Hidx' & Hpc').
    unfold run_op, allocate_in. rewrite E. cbn [mbind result_bind rbind].
    eexists _, _, used, (Z.max hw n). split; [reflexivity|].
    split; [|exact Hrest].
    unfold cursor_invariant. rewrite !fn_lookup_insert.
    repeat split; auto; try lia; congruence.
  - destruct Hpre as (Hlt & Hbuf & Hrest).
    destruct (lookup_lt_is_Some_2 (descriptor_sets (st pv))
                (Z.to_nat (descriptor_set_index (st pv)))) as [set Hset].
    { lia. }
    unfold run_op.
    rewrite (dispatch_pipeline_done _ _ _ _ _ _ _ set) by (auto; lia).
    cbn [mbind result_bind rbind].
    eexists _, _, (used + 1), hw. split; [reflexivity|].
    split; [|exact Hrest].
    unfold cursor_invariant. rewrite !fn_lookup_insert.
    unfold advance_cursor. simpl.
    rewrite u32_small by lia. repeat split; auto; try lia.
  - unfold run_op.
    eexists _, _, 0, hw. split; [reflexivity|].
    split; [|exact Hpre].
    unfold cursor_invariant. rewrite !fn_lookup_insert. simpl.
    repeat split; auto; lia.
Qed.

Lemma run_ops_invariant dev pv pcount pre :
  forall post st s used hw,
    descriptor_set_mode dev <> VK_DEVICE_DESCRIPTOR_POOL_MODE_MULTI ->
    cursor_invariant st pv pcount used hw ->
    presized pcount used hw (pre ++ post) ->
    exists st' s' used' hw',
      run_ops dev pv pre (st, s) = Done (st', s')
      /\ cursor_invariant st' pv pcount used' hw'
      /\ presized pcount used' hw' post.
Proof.
  induction pre as [|op pre IH]; intros post st s used hw Hm Hinv Hpre.
  - exists st, s, used, hw.
    split; [reflexivity|]. split; [exact Hinv | exact Hpre].
  - simpl in Hpre.
    destruct (run_op_invariant dev pv op st s pcount used hw (pre ++ post)
                Hm Hinv Hpre)
      as (st1 & s1 & used1 & hw1 & E1 & Hinv1 & Hpre1).
    destruct (IH post st1 s1 used1 hw1 Hm Hinv1 Hpre1)
      as (st2 & s2 & used2 & hw2 & E2 & Hinv2 & Hpre2).
    exists st2, s2, used2, hw2. split; [|auto].
    cbn [run_ops]. rewrite E1. cbn [mbind result_bind rbind]. exact E2.
Qed.





(** The run of the witness, evaluated: the two dispatches bind two
    different sets and the cleanup brings the cursor back to zero. *)
Example descriptor_sets_example_run :
  let D := OpDispatch [ggml_vk_subbuffer (example_buffer 3)] 12 [64; 64; 4]
                      (64, 64, 1) in
  let pv := vk_pipeline_matmul_split_k_reduce in
  match run_ops (init_dev true true 16) pv [OpAllocate 2; D; D; OpCleanup]
                (init_store true true 16, mk_vk_submission 0 [] [] []) with
  | Done (st', s') =>
      descriptor_set_index (st' pv) = 0
      /\ length (descriptor_sets (st' pv)) = 2%nat
      /\ omap (fun c => match c with
                        | CmdBindDescriptorSets _ set _ => Some set
                        | _ => None
                        end) (s_cmds s')
         = [(0%nat, 0); (1%nat, 0)]
  | _ => False
  end.
Proof. vm_compute. repeat split; reflexivity. Qed.


(** ** Buffer pool *)

Lemma lookup_snoc_cases {A} (l : list A) (x : A) j y :
  (l ++ [x]) !! j = Some y ->
  l !! j = Some y \/ (j = length l /\ y = x).
Proof.
  intros H. destruct (decide (j < length l)%nat) as [Hlt|Hge].
  - left. rewrite lookup_app_l in H by exact Hlt. exact H.
  - right. rewrite lookup_app_r in H by lia.
    destruct (j - length l)%nat as [|k] eqn:Ek; simpl in H.
    + split; [lia | congruence].
    + destruct k; discriminate.
Qed.

Lemma pool_scan_step_best sz seen b s :
  0 <= size b < SIZE_MAX ->
  best_ok sz seen s ->
  best_ok sz (seen ++ [b])
          (pool_scan_step sz (Z.of_nat (length seen)) b s).
Proof.
  intros Hb Hbest. unfold pool_scan_step.
  assert (Hkeep : forall s1,
    best_i (if (0 <? size b) && (worst_size s1 <? size b)
            then mk_scan (best_i s1) (best_size s1)
                         (Z.of_nat (length seen)) (size b) else s1)
    = best_i s1
    /\ best_size (if (0 <? size b) && (worst_size s1 <? size b)
                  then mk_scan (best_i s1) (best_size s1)
                               (Z.of_nat (length seen)) (size b) else s1)
       = best_size s1).
  { intros s1. destruct ((0 <? size b) && (worst_size s1 <? size b)); auto. }
  unfold best_ok. rewrite !(proj1 (Hkeep _)), !(proj2 (Hkeep _)).
  clear Hkeep.
  destruct ((0 <? size b) && (sz <=? size b) && (size b <? best_size s))
    eqn:Etake.
  - (* the slot becomes the best candidate *)
    apply andb_prop in Etake as [Etake E3].
    apply andb_prop in Etake as [E1 E2].
    apply Z.ltb_lt in E1, E3. apply Z.leb_le in E2.
    right. exists b. simpl.
    split; [lia|]. rewrite Nat2Z.id.
    split; [rewrite lookup_app_r by lia; rewrite Nat.sub_diag; reflexivity|].
    split; [split; lia|]. split; [reflexivity|].
    intros j b' Hj Hfit.
    apply lookup_snoc_cases in Hj as [Hj|[_ ->]]; [|lia].
    destruct Hbest as [(_ & _ & Hnone)|(b0 & _ & _ & _ & Hsz & Hmin)].
    + exfalso. exact (Hnone j b' Hj Hfit).
    + specialize (Hmin j b' Hj Hfit). lia.
  - (* the candidate stays *)
    destruct Hbest as [(Hi & Hsz & Hnone)|(b0 & Hi & Hlk & Hfit0 & Hsz & Hmin)].
    + left. split; [exact Hi|]. split; [exact Hsz|].
      intros j b' Hj Hfit.
      apply lookup_snoc_cases in Hj as [Hj|[_ ->]];
        [exact (Hnone j b' Hj Hfit)|].
      destruct Hfit as [Hf1 Hf2].
      rewrite Hsz in Etake.
      rewrite (proj2 (Z.ltb_lt _ _) Hf1), (proj2 (Z.leb_le _ _) Hf2) in Etake.
      rewrite (proj2 (Z.ltb_lt _ _)) in Etake by lia. discriminate.
    + right. exists b0. split; [exact Hi|].
      split; [apply lookup_app_l_Some; exact Hlk|].
      split; [exact Hfit0|]. split; [exact Hsz|].
      intros j b' Hj Hfit.
      apply lookup_snoc_cases in Hj as [Hj|[_ ->]];
        [exact (Hmin j b' Hj Hfit)|].
      destruct Hfit as [Hf1 Hf2].
      rewrite (proj2 (Z.ltb_lt _ _) Hf1), (proj2 (Z.leb_le _ _) Hf2) in Etake.
      simpl in Etake. apply Z.ltb_ge in Etake. lia.
Qed.

Lemma pool_scan_step_worst sz seen b s :
  0 <= size b < SIZE_MAX ->
  worst_ok seen s ->
  worst_ok (seen ++ [b])
           (pool_scan_step sz (Z.of_nat (length seen)) b s).
Proof.
  intros Hb Hworst. unfold pool_scan_step.
  set (s1 := if (0 <? size b) && (sz <=? size b) && (size b <? best_size s)
             then _ else s).
  assert (Hs1 : worst_i s1 = worst_i s /\ worst_size s1 = worst_size s).
  { subst s1.
    destruct ((0 <? size b) && (sz <=? size b) && (size b <? best_size s));
      auto. }
  destruct Hs1 as [Hwi Hws]. rewrite Hws.
  destruct ((0 <? size b) && (worst_size s <? size b)) eqn:Etake.
  - apply andb_prop in Etake as [E1 E2]. apply Z.ltb_lt in E1, E2.
    right. exists b. simpl.
    split; [lia|]. rewrite Nat2Z.id.
    split; [rewrite lookup_app_r by lia; rewrite Nat.sub_diag; reflexivity|].
    split; [exact E1|]. split; [reflexivity|].
    intros j b' Hj.
    apply lookup_snoc_cases in Hj as [Hj|[_ ->]]; [|lia].
    destruct Hworst as [(_ & Hsz & Hnone)|(b0 & _ & _ & _ & Hsz & Hmax)].
    + pose proof (Hnone j b' Hj) as Hn. unfold slot_free in Hn. lia.
    + specialize (Hmax j b' Hj). lia.
  - unfold worst_ok. rewrite Hwi, Hws.
    destruct Hworst as [(Hi & Hsz & Hnone)|(b0 & Hi & Hlk & Hfree & Hsz & Hmax)].
    + left. split; [exact Hi|]. split; [exact Hsz|].
      intros j b' Hj Hfree.
      apply lookup_snoc_cases in Hj as [Hj|[_ ->]];
        [exact (Hnone j b' Hj Hfree)|].
      unfold slot_free in Hfree. rewrite Hsz in Etake.
      rewrite !(proj2 (Z.ltb_lt _ _) Hfree) in Etake. discriminate.
    + right. exists b0. split; [exact Hi|].
      split; [apply lookup_app_l_Some; exact Hlk|].
      split; [exact Hfree|]. split; [exact Hsz|].
      intros j b' Hj.
      apply lookup_snoc_cases in Hj as [Hj|[_ ->]]; [exact (Hmax j b' Hj)|].
      apply andb_false_iff in Etake as [E|E].
      * apply Z.ltb_ge in E. unfold slot_free in Hfree. lia.
      * apply Z.ltb_ge in E. lia.
Qed.

Lemma pool_scan_inv sz rest :
  forall seen s,
    Forall (fun b => 0 <= size b < SIZE_MAX) rest ->
    best_ok sz seen s -> worst_ok seen s ->
    best_ok sz (seen ++ rest)
            (pool_scan sz (Z.of_nat (length seen)) rest s)
    /\ worst_ok (seen ++ rest)
                (pool_scan sz (Z.of_nat (length seen)) rest s).
Proof.
  induction rest as [|b rest IH]; intros seen s Hwf Hb Hw; simpl.
  - rewrite app_nil_r. auto.
  - inversion Hwf as [|? ? Hb0 Hrest]; subst.
    replace (seen ++ b :: rest) with ((seen ++ [b]) ++ rest)
      by (rewrite <- app_assoc; reflexivity).
    replace (Z.of_nat (length seen) + 1)
      with (Z.of_nat (length (seen ++ [b])))
      by (rewrite length_app; simpl; lia).
    apply IH; [exact Hrest| |].
    + apply pool_scan_step_best; assumption.
    + apply pool_scan_step_worst; assumption.
Qed.

Lemma pool_scan_whole sz pool :
  pool_wf pool ->
  let s := pool_scan sz 0 (take (Z.to_nat MAX_VK_BUFFERS) pool)
                     pool_scan_init in
  best_ok sz pool s /\ worst_ok pool s.
Proof.
  intros [Hlen Hwf] s. subst s.
  rewrite firstn_all2 by lia.
  apply (pool_scan_inv sz pool [] pool_scan_init Hwf).
  - left. repeat split. intros j b Hj. destruct j; discriminate.
  - left. repeat split. intros j b Hj. destruct j; discriminate.
Qed.

Lemma nth_lookup_Some {A} (l : list A) i d x :
  l !! i = Some x -> nth i l d = x.
Proof.
  revert i. induction l as [|a l IH]; intros [|i] H; simpl in *;
    try discriminate; [congruence | auto].
Qed.

(** C5 (as amended): [ggml_vk_pool_malloc] returns the smallest free pool
    buffer whose size is at least the request and zeroes the size of its
    slot, creating and destroying nothing; when no free buffer fits, the
    largest free buffer, if there is one, is destroyed whether or not the
    pool is full, and then a fresh buffer of the requested size is created
    with the device-local flag OR'd with the caller's flags. *)
Theorem pool_malloc_best_fit_or_fresh :
  forall (w : vk_world) (pool : list vk_buffer) (sz alloc_flags : Z)
         (buf : vk_buffer) (pool' : list vk_buffer) (w' : vk_world),
    pool_wf pool ->
    ggml_vk_pool_malloc w pool sz alloc_flags = (buf, pool', w') ->
    ((exists i b, pool !! i = Some b /\ slot_fits sz b) ->
     exists i b,
       pool !! i = Some b /\ slot_fits sz b
       /\ (forall j b', pool !! j = Some b' -> slot_fits sz b' ->
                        size b <= size b')
       /\ buf = b /\ pool' = <[i := with_size b 0]> pool /\ w' = w)
    /\ (~ (exists i b, pool !! i = Some b /\ slot_fits sz b) ->
        exists w1,
          ((forall j b, pool !! j = Some b -> ~ slot_free b)
             /\ pool' = pool /\ w1 = w
           \/ exists i b,
                pool !! i = Some b /\ slot_free b
                /\ (forall j b', pool !! j = Some b' -> size b' <= size b)
                /\ pool' = <[i := fst (ggml_vk_destroy_buffer w b)]> pool
                /\ w1 = snd (ggml_vk_destroy_buffer w b))
          /\ (buf, w')
             = ggml_vk_create_buffer w1 sz (Z.lor eDeviceLocal alloc_flags)
          /\ memory_property_flags buf = Z.lor eDeviceLocal alloc_flags
          /\ size buf = sz).
Proof.
  intros w pool sz alloc_flags buf pool' w' Hwf E.
  destruct (pool_scan_whole sz pool Hwf) as [Hbest Hworst].
  unfold ggml_vk_pool_malloc in E.
  set (s := pool_scan sz 0 (take (Z.to_nat MAX_VK_BUFFERS) pool)
                      pool_scan_init) in *.
  split.
  - intros (i0 & b0 & Hi0 & Hfit0).
    destruct Hbest as [(_ & _ & Hnone)|(b & Hi & Hlk & Hfit & _ & Hmin)].
    { exfalso. exact (Hnone i0 b0 Hi0 Hfit0). }
    rewrite (proj2 (Z.eqb_neq (best_i s) (-1))) in E by lia.
    simpl in E. rewrite (nth_lookup_Some _ _ _ _ Hlk) in E.
    injection E as <- <- <-.
    exists (Z.to_nat (best_i s)), b. repeat split; auto; apply Hfit.
  - intros Hnofit.
    destruct Hbest as [(Hbi & _ & _)|(b & _ & Hlk & Hfit & _)];
      [|exfalso; apply Hnofit; eauto].
    rewrite Hbi in E. simpl in E.
    destruct Hworst as [(Hwi & _ & Hnone)|(b & Hi & Hlk & Hfree & _ & Hmax)].
    + rewrite Hwi in E. simpl in E.
      destruct (ggml_vk_create_buffer w sz (Z.lor eDeviceLocal alloc_flags))
        as [buf0 w0] eqn:Ec.
      injection E as <- <- <-.
      exists w. split; [left; auto|]. split; [symmetry; exact Ec|].
      unfold ggml_vk_create_buffer in Ec.
      destruct (has_flag (Z.lor eDeviceLocal alloc_flags) eHostVisible);
        injection Ec as <- _; auto.
    + rewrite (proj2 (Z.eqb_neq (worst_i s) (-1))) in E by lia.
      simpl in E. rewrite (nth_lookup_Some _ _ _ _ Hlk) in E.
      set (w1 := free_staging _ _) in E.
      destruct (ggml_vk_create_buffer w1 sz (Z.lor eDeviceLocal alloc_flags))
        as [buf0 w0] eqn:Ec.
      injection E as <- <- <-.
      exists w1. split.
      { right. exists (Z.to_nat (worst_i s)), b. repeat split; auto. }
      split; [symmetry; exact Ec|].
      unfold ggml_vk_create_buffer in Ec.
      destruct (has_flag (Z.lor eDeviceLocal alloc_flags) eHostVisible);
        injection Ec as <- _; auto.
Qed.

Lemma example_pool_wf : pool_wf example_pool.
Proof.
  split; [reflexivity|].
  unfold example_pool. constructor.
  - vm_compute. split; [discriminate | reflexivity].
  - apply Forall_replicate. vm_compute. split; [discriminate | reflexivity].
Qed.

Lemma pool_malloc_best_fit_or_fresh_witness :
  (exists i b, example_pool !! i = Some b /\ slot_fits 8 b)
  /\ exists i b,
       example_pool !! i = Some b /\ slot_fits 8 b
       /\ (forall j b', example_pool !! j = Some b' -> slot_fits 8 b' ->
                        size b <= size b')
       /\ fst (fst (ggml_vk_pool_malloc (snd example_pool_world)
                      example_pool 8 0)) = b.
Proof.
  assert (Hfit : exists i b, example_pool !! i = Some b /\ slot_fits 8 b).
  { exists 0%nat, (fst example_pool_world).
    split; [reflexivity|]. vm_compute. split; reflexivity || discriminate. }
  split; [exact Hfit|].
  destruct (ggml_vk_pool_malloc (snd example_pool_world) example_pool 8 0)
    as [[buf pool'] w'] eqn:E.
  destruct (pool_malloc_best_fit_or_fresh (snd example_pool_world)
              example_pool 8 0 buf pool' w' example_pool_wf E) as [Hhit _].
  destruct (Hhit Hfit) as (i & b & Hi & Hb & Hmin & Hbuf & _).
  exists i, b. simpl. auto.
Defined.

(** C5, counterexample: a pool whose slot 0 holds a free buffer of 10 bytes
    and whose other 255 slots are empty is not full; a request for 20 bytes
    still destroys that buffer (handle 1 leaves the live set, slot 0 is
    zeroed) before the fresh buffer (handle 2) is created. *)
Lemma pool_malloc_destroys_when_not_full :
  ~ pool_full example_pool
  /\ live (snd example_pool_world) = [1]
  /\ (let '(buf, pool', w') :=
        ggml_vk_pool_malloc (snd example_pool_world) example_pool 20 0 in
      live w' = [2] /\ buffer buf = 2
      /\ option_map size (pool' !! 0%nat) = Some 0
      /\ option_map size (example_pool !! 0%nat) = Some 10).
Proof.
  split.
  - intros Hfull. unfold pool_full in Hfull.
    rewrite Forall_lookup in Hfull.
    specialize (Hfull 1%nat empty_slot eq_refl).
    unfold slot_free in Hfull. simpl in Hfull. lia.
  - vm_compute. repeat split.
Qed.

(** ** Pinned registry *)

Lemma find_pinned_none p entries :
  forall i,
    find_pinned p i entries = None
    <-> (forall j e, entries !! j = Some e -> in_pinned_range p e = false).
Proof.
  induction entries as [|e0 rest IH]; intros i; simpl.
  - split; [intros _ j e Hj; destruct j; discriminate | reflexivity].
  - destruct (in_pinned_range p e0) eqn:E0.
    + split; [discriminate|].
      intros H. specialize (H 0%nat e0 eq_refl). congruence.
    + rewrite IH. split.
      * intros H [|j] e Hj; simpl in Hj; [congruence | eauto].
      * intros H j e Hj. exact (H (S j) e Hj).
Qed.

Lemma find_pinned_first p entries :
  forall base i e,
    entries !! i = Some e ->
    in_pinned_range p e = true ->
    (forall j e', (j < i)%nat -> entries !! j = Some e' ->
                  in_pinned_range p e' = false) ->
    find_pinned p base entries = Some ((base + i)%nat, e).
Proof.
  induction entries as [|e0 rest IH]; intros base i e Hi Hin Hfirst.
  - destruct i; discriminate.
  - destruct i as [|i]; simpl in *.
    + injection Hi as ->. rewrite Hin. rewrite Nat.add_0_r. reflexivity.
    + rewrite (Hfirst 0%nat e0 ltac:(lia) eq_refl).
      rewrite (IH (S base) i e Hi Hin).
      * f_equal. f_equal. lia.
      * intros j e' Hj Hlk. apply (Hfirst (S j) e'); [lia | exact Hlk].
Qed.

(** C10: a pointer outside every registered range makes
    [ggml_vk_host_free] print its warning and leave the world and the
    registry as they are; a pointer anywhere inside a registered range
    (the first one that holds it, when ranges overlap) destroys that entry's
    buffer and erases exactly that entry. *)
Theorem host_free_registry :
  forall (w : vk_world) (pinned : list pinned_entry) (p : Z),
    ((forall j e, pinned !! j = Some e -> in_pinned_range p e = false) ->
     ggml_vk_host_free w pinned p = mk_host_free_result w pinned true)
    /\ (forall i e,
          pinned !! i = Some e ->
          in_pinned_range p e = true ->
          (forall j e', (j < i)%nat -> pinned !! j = Some e' ->
                        in_pinned_range p e' = false) ->
          ggml_vk_host_free w pinned p
          = mk_host_free_result
              (snd (ggml_vk_destroy_buffer w (pinned_buffer e)))
              (delete i pinned) false
          /\ length (delete i pinned) = (length pinned - 1)%nat
          /\ (forall j, (j < i)%nat -> delete i pinned !! j = pinned !! j)
          /\ (forall j, (i <= j)%nat ->
                        delete i pinned !! j = pinned !! (S j))
          /\ ~ In (buffer (pinned_buffer e))
                  (live (snd (ggml_vk_destroy_buffer w (pinned_buffer e))))).
Proof.
  intros w pinned p. split.
  - intros Hnone. unfold ggml_vk_host_free.
    rewrite (proj2 (find_pinned_none p pinned 0) Hnone). reflexivity.
  - intros i e Hi Hin Hfirst. unfold ggml_vk_host_free.
    rewrite (find_pinned_first p pinned 0 i e Hi Hin Hfirst). simpl.
    split; [reflexivity|].
    split; [apply length_delete; eauto|].
    split; [intros j Hj; apply list_lookup_delete_lt; exact Hj|].
    split; [intros j Hj; apply list_lookup_delete_ge; exact Hj|].
    destruct (sb_read (pinned_buffer e)), (sb_write (pinned_buffer e));
      simpl; unfold remove_handle;
      rewrite <- !list_elem_of_In, ?list_elem_of_filter; intros H;
      repeat (destruct H as [? H]); congruence.
Qed.

Lemma host_free_registry_witness :
  let w := fst example_pinned in
  let pinned := snd example_pinned in
  ggml_vk_host_free w pinned 20000 = mk_host_free_result w pinned true
  /\ length (hf_pinned (ggml_vk_host_free w pinned 4100)) = 1%nat
  /\ length (hf_pinned (ggml_vk_host_free w pinned 4170)) = 1%nat.
Proof.
  intros w pinned.
  destruct (host_free_registry w pinned 20000) as [Hout _].
  destruct (host_free_registry w pinned 4100) as [_ Hin0].
  destruct (host_free_registry w pinned 4170) as [_ Hin1].
  split; [|split].
  - apply Hout. intros [|[|j]] e Hj; vm_compute in Hj;
      [injection Hj as <-; reflexivity | injection Hj as <-; reflexivity
      | discriminate].
  - destruct (Hin0 0%nat (4096, 64, mk_vk_buffer 1 14 4096 64 None None
                                     VK_QUEUE_FAMILY_IGNORED))
      as (E & Hlen & _); [reflexivity | reflexivity | intros; lia |].
    rewrite E. exact Hlen.
  - destruct (Hin1 1%nat (4160, 32, mk_vk_buffer 2 14 4160 32 None None
                                     VK_QUEUE_FAMILY_IGNORED))
      as (E & Hlen & _); [reflexivity | reflexivity | |].
    + intros [|j] e' Hj Hlk; [|lia].
      vm_compute in Hlk. injection Hlk as <-. reflexivity.
    + rewrite E. exact Hlen.
Defined.

(** ** Operator dispatcher *)

Lemma type_ok_spec t : type_ok t = true <-> spec_type_supported t.
Proof.
  unfold type_ok, spec_type_supported.
  rewrite !orb_true_iff, !bool_decide_eq_true. tauto.
Qed.

Lemma can_mul_mat_spec s0 s1 dst :
  ggml_vk_can_mul_mat s0 s1 dst = true <-> spec_mul_mat_accept s0 s1 dst.
Proof.
  unfold ggml_vk_can_mul_mat, spec_mul_mat_accept.
  match goal with |- (if ?c then true else false) = true <-> _ =>
    replace (if c then true else false) with c by (destruct c; reflexivity)
  end.
  rewrite !andb_true_iff, orb_true_iff, !andb_true_iff.
  rewrite !type_ok_spec, !bool_decide_eq_true, !Z.leb_le.
  split.
  - intros [[[H0 H1] Hd] [[[Ha Hb] Hc]|Hg]]; repeat split; auto.
    left. lia.
  - intros (H0 & H1 & Hd & [(Ha & Hb & Hc)|Hg]); repeat split; auto.
    left. lia.
Qed.

Lemma any_on_device_spec tensor s0 s1 :
  src0 tensor = Some s0 -> src1 tensor = Some s1 ->
  any_on_device tensor = true <-> spec_on_device s0 s1 tensor.
Proof.
  intros E0 E1. unfold any_on_device, spec_on_device. rewrite E0, E1.
  rewrite !orb_true_iff, !bool_decide_eq_true. tauto.
Qed.

(** C3 (as amended): for a MUL_MAT node during the COMPUTE phase on the
    primary worker, the dispatcher returns false exactly when no tensor of
    the node is on the device and the acceptance condition (both operand
    types in f32, f16 or quantized, destination f32, and M, N, K all at
    least 32 or src0 on the GPU) fails; it returns true exactly when the
    condition holds and the orchestrator it routes to returns; and when some
    tensor is on the device while the condition fails, the assertion of
    [ggml_vk_mul_mat] aborts instead of falling back. *)
Theorem mul_mat_dispatch :
  forall (mul_mat_f32 mul_mat_vec_q_f16 mul_mat_q_f16 mul_f32 :
            ggml_tensor -> ggml_tensor -> ggml_tensor -> result unit)
         (params : ggml_compute_params) (tensor s0 s1 : ggml_tensor),
    op tensor = GGML_OP_MUL_MAT ->
    src0 tensor = Some s0 -> src1 tensor = Some s1 ->
    task_type params = GGML_TASK_COMPUTE -> ith params = 0 ->
    let forward :=
      ggml_vk_compute_forward mul_mat_f32 mul_mat_vec_q_f16 mul_mat_q_f16
                              mul_f32 params tensor in
    let handled :=
      ggml_vk_mul_mat mul_mat_f32 mul_mat_vec_q_f16 mul_mat_q_f16
                      s0 s1 tensor in
    (forward = Done false
     <-> ~ spec_on_device s0 s1 tensor /\ ~ spec_mul_mat_accept s0 s1 tensor)
    /\ (forward = Done true
        <-> spec_mul_mat_accept s0 s1 tensor /\ handled = Done tt)
    /\ (spec_on_device s0 s1 tensor -> ~ spec_mul_mat_accept s0 s1 tensor ->
        forward = Aborted).
Proof.
  intros f32 vec qf16 mulf32 params tensor s0 s1 Hop E0 E1 Htask Hith
         forward handled.
  pose proof (can_mul_mat_spec s0 s1 tensor) as Hcan.
  pose proof (any_on_device_spec tensor s0 s1 E0 E1) as Hdev.
  assert (Hrun : run_func params tensor
                   (ggml_vk_mul_mat f32 vec qf16)
                 = (_ ← handled; Done true)).
  { unfold run_func. rewrite Hith, Htask, E0, E1. reflexivity. }
  assert (Hfw : forward
                = if negb (any_on_device tensor)
                     && negb (ggml_vk_can_mul_mat s0 s1 tensor)
                  then Done false else (_ ← handled; Done true)).
  { subst forward. unfold ggml_vk_compute_forward.
    rewrite Hop, Hrun, E0, E1. simpl.
    destruct (any_on_device tensor); simpl; [reflexivity|].
    destruct (ggml_vk_can_mul_mat s0 s1 tensor); reflexivity. }
  assert (Hh : ggml_vk_can_mul_mat s0 s1 tensor = false -> handled = Aborted).
  { intros Hc. subst handled. unfold ggml_vk_mul_mat. rewrite Hc.
    reflexivity. }
  rewrite Hfw. clear Hfw Hrun.
  destruct (any_on_device tensor) eqn:Ea;
    destruct (ggml_vk_can_mul_mat s0 s1 tensor) eqn:Ec; simpl.
  - (* on device, accepted *)
    assert (Hacc : spec_mul_mat_accept s0 s1 tensor) by (apply Hcan; auto).
    split; [|split].
    + split; [|tauto]. destruct handled as [[]| |]; discriminate.
    + split.
      * destruct handled as [[]| |]; simpl; [auto | discriminate..].
      * intros [_ ->]. reflexivity.
    + tauto.
  - (* on device, refused: the assertion fails *)
    rewrite (Hh eq_refl). simpl.
    assert (Hacc : ~ spec_mul_mat_accept s0 s1 tensor).
    { intros H. apply Hcan in H. discriminate. }
    split; [|split].
    + split; [discriminate|]. intros [Hn _]. exfalso. apply Hn, Hdev. auto.
    + split; [discriminate | tauto].
    + reflexivity.
  - (* off device, accepted *)
    assert (Hacc : spec_mul_mat_accept s0 s1 tensor) by (apply Hcan; auto).
    split; [|split].
    + split; [|tauto]. destruct handled as [[]| |]; discriminate.
    + split.
      * destruct handled as [[]| |]; simpl; [auto | discriminate..].
      * intros [_ ->]. reflexivity.
    + tauto.
  - (* off device, refused: fall back to the CPU *)
    assert (Hacc : ~ spec_mul_mat_accept s0 s1 tensor).
    { intros H. apply Hcan in H. discriminate. }
    assert (Hoff : ~ spec_on_device s0 s1 tensor).
    { intros H. apply Hdev in H. discriminate. }
    split; [|split].
    + tauto.
    + split; [discriminate | tauto].
    + tauto.
Qed.

Lemma mul_mat_dispatch_witness :
  ggml_vk_compute_forward orchestrator_returns orchestrator_returns
    orchestrator_returns orchestrator_returns
    (mk_params GGML_TASK_COMPUTE 0) example_mul_mat_node = Aborted.
Proof.
  destruct (mul_mat_dispatch orchestrator_returns orchestrator_returns
              orchestrator_returns orchestrator_returns
              (mk_params GGML_TASK_COMPUTE 0) example_mul_mat_node
              (example_operand GGML_BACKEND_CPU)
              (example_operand GGML_BACKEND_GPU)
              eq_refl eq_refl eq_refl eq_refl eq_refl) as (_ & _ & Habort).
  apply Habort.
  - right. right. right. reflexivity.
  - intros (_ & _ & _ & [(H & _)|H]); [vm_compute in H; congruence|].
    discriminate H.
Defined.

(** C3, counterexample: a MUL_MAT node over two 1x1 f32 operands with src1
    on the GPU and src0 on the CPU does not meet the acceptance condition,
    yet the dispatcher does not return false: the assertion of
    [ggml_vk_mul_mat] aborts. *)
Lemma mul_mat_dispatch_aborts_instead_of_false :
  ~ spec_mul_mat_accept (example_operand GGML_BACKEND_CPU)
      (example_operand GGML_BACKEND_GPU) example_mul_mat_node
  /\ ggml_vk_compute_forward orchestrator_returns orchestrator_returns
       orchestrator_returns orchestrator_returns
       (mk_params GGML_TASK_COMPUTE 0) example_mul_mat_node = Aborted
  /\ ggml_vk_compute_forward orchestrator_returns orchestrator_returns
       orchestrator_returns orchestrator_returns
       (mk_params GGML_TASK_COMPUTE 0) example_mul_mat_node <> Done false.
Proof.
  split; [|split].
  - intros (_ & _ & _ & [(H & _)|H]); [vm_compute in H; congruence|].
    discriminate H.
  - vm_compute. reflexivity.
  - vm_compute. discriminate.
Qed.

(** ** Queue cleanup *)

Lemma submit_no_cleanup q pending : no_cleanup (ggml_vk_submit q pending).
Proof.
  destruct pending; simpl; [constructor|].
  constructor; [intros q' H; discriminate H | constructor].
Qed.

Lemma no_cleanup_app a b : no_cleanup a -> no_cleanup b -> no_cleanup (a ++ b).
Proof. intros Ha Hb. apply Forall_app. split; assumption. Qed.

Lemma batches_no_cleanup {St : Type}
    (body : nat -> St -> list queue_event * St) :
  (forall i s, no_cleanup (fst (body i s))) ->
  forall n i s, no_cleanup (fst (batches n i body s)).
Proof.
  intros Hbody. induction n as [|n IH]; intros i s; simpl.
  - constructor.
  - pose proof (Hbody i s) as H1.
    destruct (body i s) as [ev s1].
    pose proof (IH (S i) s1) as H2.
    destruct (batches n (S i) body s1) as [evs s2].
    simpl in *. apply no_cleanup_app; assumption.
Qed.

#[local] Arguments ggml_vk_submit : simpl never.

Ltac no_cleanup_tac :=
  unfold no_cleanup in *;
  repeat first
    [ assumption
    | apply Forall_app_2
    | apply submit_no_cleanup
    | apply Forall_nil_2
    | apply Forall_cons_2; [intros ? H; discriminate H|]
    | match goal with
      | |- Forall _ (if ?c then _ else _) => destruct c
      end ].

Lemma idle_skip_cleanups waited cs rest :
  all_cleanup cs ->
  idle_since_any_submit waited (cs ++ rest)
  = idle_since_any_submit waited rest.
Proof.
  induction 1 as [|e cs [q ->] _ IH]; simpl; auto.
Qed.

(** A trace that ends in one wait followed by cleanups only, with no
    cleanup before that wait. *)
Lemma wait_then_cleanups body waited cs :
  no_cleanup body -> all_cleanup cs ->
  cleanup_after_final_wait waited (body ++ EvWaitIdle waited :: cs).
Proof.
  intros Hbody Hcs pre q post E.
  apply app_eq_app in E as [l [[E1 E2]|[E1 E2]]].
  - (* the cleanup would lie in the body *)
    exfalso. rewrite E1 in Hbody.
    destruct l as [|e l]; simpl in E2.
    + discriminate E2.
    + injection E2 as <- _.
      apply Forall_app in Hbody as [_ Hl].
      inversion Hl as [|? ? Hx _]. exact (Hx q eq_refl).
  - destruct l as [|e l]; simpl in E2.
    + discriminate E2.
    + injection E2 as <- E2. subst pre.
      assert (Hl : all_cleanup l).
      { rewrite E2 in Hcs. apply Forall_app in Hcs as [Hl _]. exact Hl. }
      rewrite rev_app_distr. simpl. rewrite <- app_assoc.
      rewrite idle_skip_cleanups.
      * simpl. apply bool_decide_eq_true. reflexivity.
      * apply Forall_rev. exact Hl.
Qed.

Ltac all_cleanup_tac :=
  repeat (constructor; [eexists; reflexivity|]); constructor.

Lemma mul_mat_f32_cleanup load_x ne02 ne03 :
  cleanup_after_final_wait transfer_queue_0
    (mul_mat_f32_events load_x ne02 ne03).
Proof.
  unfold mul_mat_f32_events.
  pose proof (batches_no_cleanup (mul_mat_f32_batch load_x)) as Hb.
  specialize (Hb ltac:(intros i [[t0 t1] c]; simpl; no_cleanup_tac)
                 (batch_count ne02 ne03) 0%nat (0, 0, 0)%nat).
  destruct (batches _ _ _ _) as [evs [[t0 t1] c]]. simpl in Hb.
  rewrite app_assoc.
  apply wait_then_cleanups; [no_cleanup_tac; exact Hb | all_cleanup_tac].
Qed.

Lemma mul_mat_f16_cleanup load_x ne02 ne03 :
  cleanup_after_final_wait transfer_queue_0
    (mul_mat_f16_events load_x ne02 ne03).
Proof.
  unfold mul_mat_f16_events.
  pose proof (batches_no_cleanup (mul_mat_f16_batch load_x)) as Hb.
  specialize (Hb ltac:(intros i [[t0 t1] c]; simpl; no_cleanup_tac)
                 (batch_count ne02 ne03) 0%nat (0, 0, 0)%nat).
  destruct (batches _ _ _ _) as [evs [[t0 t1] c]]. simpl in Hb.
  rewrite app_assoc.
  apply wait_then_cleanups; [no_cleanup_tac; exact Hb | all_cleanup_tac].
Qed.

Lemma mul_mat_q_f16_cleanup load_x load_y dq ne02 ne03 :
  cleanup_after_final_wait transfer_queue_0
    (mul_mat_q_f16_events load_x load_y dq ne02 ne03).
Proof.
  unfold mul_mat_q_f16_events.
  pose proof (batches_no_cleanup (mul_mat_q_f16_batch load_x load_y dq)) as Hb.
  specialize (Hb ltac:(intros i [[[[sc t0] t1] c] t2];
                       unfold mul_mat_q_f16_batch; simpl fst;
                       no_cleanup_tac)
                 (batch_count ne02 ne03) 0%nat (0, 0, 0, 0, 0)%nat).
  destruct (batches _ _ _ _) as [evs [[[[sc t0] t1] c] t2]]. simpl in Hb.
  rewrite !app_assoc.
  apply wait_then_cleanups; [no_cleanup_tac; exact Hb | all_cleanup_tac].
Qed.

Lemma mul_mat_vec_q_f16_cleanup ne02 ne03 :
  cleanup_after_final_wait compute_queue
    (mul_mat_vec_q_f16_events ne02 ne03).
Proof.
  unfold mul_mat_vec_q_f16_events.
  pose proof (batches_no_cleanup mul_mat_vec_q_f16_batch) as Hb.
  specialize (Hb ltac:(intros i [sc seqs]; unfold mul_mat_vec_q_f16_batch;
                       destruct ((i =? 0)%nat || _); simpl fst;
                       no_cleanup_tac)
                 (batch_count ne02 ne03) 0%nat (0, 0)%nat).
  destruct (batches _ _ _ _) as [evs [sc seqs]]. simpl in Hb.
  rewrite app_assoc.
  apply wait_then_cleanups; [no_cleanup_tac; exact Hb | all_cleanup_tac].
Qed.

Lemma mul_f32_cleanup ne02 ne03 :
  cleanup_after_final_wait
    (if (1 <? ne03) || (1 <? ne02) then transfer_queue_1 else compute_queue)
    (mul_f32_events ne02 ne03).
Proof.
  unfold mul_f32_events.
  set (many := (1 <? ne03) || (1 <? ne02)).
  pose proof (batches_no_cleanup (mul_f32_batch many)) as Hb.
  specialize (Hb ltac:(intros i [[t0 t1] c]; unfold mul_f32_batch;
                       destruct many; simpl fst; no_cleanup_tac)
                 (batch_count ne02 ne03) 0%nat (0, 0, 0)%nat).
  destruct (batches _ _ _ _) as [evs s]. simpl in Hb.
  destruct many;
    (apply wait_then_cleanups; [exact Hb | all_cleanup_tac]).
Qed.

(** C9 (as amended): [ggml_vk_queue_cleanup] resets both cursors of its
    queue, and every orchestrator calls it, on each queue it cleans up,
    only after a wait for idle that follows the last submission on every
    queue; that wait is on transfer queue 0 in the three matmul
    orchestrators, on the compute queue in the matrix-vector one and in
    the single-batch MUL, on transfer queue 1 in the batched MUL, and the
    other queues are cleaned up without a wait of their own. *)
Theorem queue_cleanup_after_final_wait :
  (forall q, cmd_buffer_idx (ggml_vk_queue_cleanup q) = 0
             /\ semaphore_idx (ggml_vk_queue_cleanup q) = 0)
  /\ (forall load_x ne02 ne03,
        cleanup_after_final_wait transfer_queue_0
          (mul_mat_f32_events load_x ne02 ne03))
  /\ (forall load_x ne02 ne03,
        cleanup_after_final_wait transfer_queue_0
          (mul_mat_f16_events load_x ne02 ne03))
  /\ (forall load_x load_y dq ne02 ne03,
        cleanup_after_final_wait transfer_queue_0
          (mul_mat_q_f16_events load_x load_y dq ne02 ne03))
  /\ (forall ne02 ne03,
        cleanup_after_final_wait compute_queue
          (mul_mat_vec_q_f16_events ne02 ne03))
  /\ (forall ne02 ne03,
        cleanup_after_final_wait
          (if (1 <? ne03) || (1 <? ne02) then transfer_queue_1
           else compute_queue)
          (mul_f32_events ne02 ne03)).
Proof.
  split; [intros q; split; reflexivity|].
  split; [exact mul_mat_f32_cleanup|].
  split; [exact mul_mat_f16_cleanup|].
  split; [exact mul_mat_q_f16_cleanup|].
  split; [exact mul_mat_vec_q_f16_cleanup | exact mul_f32_cleanup].
Qed.

(** C9, counterexample: for one batch with src0 on the host,
    [ggml_vk_mul_mat_f32] submits on all three queues, waits for transfer
    queue 0 only, and then cleans up transfer queue 1 and the compute queue,
    on which no wait for idle was called. *)
Lemma mul_mat_f32_cleans_unwaited_queue :
  mul_mat_f32_events true 1 1
  = [ EvSubmit transfer_queue_0 1; EvSubmit transfer_queue_1 1;
      EvSubmit compute_queue 1; EvSubmit transfer_queue_0 1;
      EvWaitIdle transfer_queue_0;
      EvQueueCleanup transfer_queue_0; EvQueueCleanup transfer_queue_1;
      EvQueueCleanup compute_queue ]
  /\ ~ spec_cleanup_after_own_wait (mul_mat_f32_events true 1 1).
Proof.
  split; [reflexivity|].
  intros H.
  specialize (H [ EvSubmit transfer_queue_0 1; EvSubmit transfer_queue_1 1;
                  EvSubmit compute_queue 1; EvSubmit transfer_queue_0 1;
                  EvWaitIdle transfer_queue_0;
                  EvQueueCleanup transfer_queue_0 ]
                transfer_queue_1 [EvQueueCleanup compute_queue] eq_refl).
  vm_compute in H. discriminate H.
Qed.

(** ** Memory effects of transfers *)

Lemma in_range_true lo n a : lo <= a < lo + n -> in_range lo n a = true.
Proof.
  intros H. unfold in_range.
  rewrite (proj2 (Z.leb_le _ _)), (proj2 (Z.ltb_lt _ _)) by lia. reflexivity.
Qed.

Lemma in_range_false lo n a : a < lo \/ lo + n <= a -> in_range lo n a = false.
Proof.
  intros H. unfold in_range.
  destruct (lo <=? a) eqn:E1; [|reflexivity].
  apply Z.leb_le in E1. simpl. apply Z.ltb_ge. lia.
Qed.

(** Writing a device-local buffer touches that buffer only. *)
Lemma write_range_device w h off n f :
  mapped w h = None ->
  let w' := write_range w h off n f in
  host_mem w' = host_mem w /\ mapped w' = mapped w
  /\ buffer_size w' = buffer_size w
  /\ (forall o, buffer_byte w' h o
                = if in_range off n o then f (o - off) else buffer_byte w h o)
  /\ (forall h' o, h' <> h -> buffer_byte w' h' o = buffer_byte w h' o).
Proof.
  intros Hm w'. subst w'. unfold write_range. rewrite Hm.
  repeat split.
  - intros o. unfold buffer_byte. simpl. rewrite Hm.
    rewrite Z.eqb_refl. reflexivity.
  - intros h' o Hne. unfold buffer_byte. simpl.
    destruct (mapped w h'); [reflexivity|].
    rewrite (proj2 (Z.eqb_neq h' h) Hne). reflexivity.
Qed.

Lemma exec_cmds_app w a b :
  exec_cmds w (a ++ b)
  = match exec_cmds w a with
    | Some w' => exec_cmds w' b
    | None => None
    end.
Proof.
  revert w. induction a as [|c a IH]; intros w; simpl; [reflexivity|].
  destruct (exec_cmd w c); [apply IH | reflexivity].
Qed.

Lemma exec_only_barriers w pre :
  only_barriers pre -> exec_cmds w pre = Some w.
Proof.
  induction 1 as [|c pre (a & b & bs & ->) _ IH]; simpl; auto.
Qed.

(** The rows copied by the pinned path. *)
Lemma row_slices_exec (w : vk_world) (src_h dst_h base : Z)
    (buf_offset offset spitch pitch width : Z) (n : nat) :
  mapped w dst_h = None -> mapped w src_h = Some base ->
  0 <= buf_offset < 2 ^ 63 -> 0 <= offset -> 0 <= spitch ->
  0 <= width <= pitch ->
  spitch * Z.of_nat n < 2 ^ 63 ->
  offset + pitch * Z.of_nat n < 2 ^ 63 ->
  let w' := fold_left (copy_region src_h dst_h)
              (row_slices n buf_offset offset spitch pitch width) w in
  host_mem w' = host_mem w /\ mapped w' = mapped w
  /\ (forall i j, 0 <= i < Z.of_nat n -> 0 <= j < width ->
        buffer_byte w' dst_h (offset + i * pitch + j)
        = host_mem w (base + buf_offset + i * spitch + j))
  /\ (forall o,
        (forall i, 0 <= i < Z.of_nat n ->
                   o < offset + i * pitch \/ offset + i * pitch + width <= o) ->
        buffer_byte w' dst_h o = buffer_byte w dst_h o).
Proof.
  intros Hd Hs Hbo Hoff Hsp Hw.
  induction n as [|n IH]; intros Hb1 Hb2 w'.
  - subst w'. simpl. repeat split; auto. intros i j Hi. lia.
  - subst w'. cbn [row_slices]. rewrite fold_left_app. cbn [fold_left].
    destruct IH as (IHh & IHm & IHrow & IHout); [nia | nia |].
    set (w1 := fold_left (copy_region src_h dst_h)
                 (row_slices n buf_offset offset spitch pitch width) w) in *.
    assert (Hd1 : mapped w1 dst_h = None) by (rewrite IHm; exact Hd).
    unfold copy_region. cbn [srcOffset dstOffset copy_size].
    rewrite (u64_small (Z.of_nat n * spitch)) by nia.
    rewrite (u64_small (Z.of_nat n * pitch)) by nia.
    rewrite (u64_small (buf_offset + _)) by nia.
    rewrite (u64_small (offset + _)) by nia.
    destruct (write_range_device w1 dst_h (offset + Z.of_nat n * pitch) width
                (fun k => buffer_byte w1 src_h
                            (buf_offset + Z.of_nat n * spitch + k)) Hd1)
      as (Wh & Wm & _ & Wsame & _).
    split; [rewrite Wh; exact IHh|].
    split; [rewrite Wm; exact IHm|].
    split.
    + intros i j Hi Hj. rewrite Wsame.
      destruct (Z.eq_dec i (Z.of_nat n)) as [->|Hne].
      * rewrite in_range_true by lia.
        unfold buffer_byte. rewrite IHm, Hs, IHh. f_equal. lia.
      * rewrite in_range_false by nia.
        apply IHrow; lia.
    + intros o Hout. rewrite Wsame.
      rewrite in_range_false by (specialize (Hout (Z.of_nat n)); lia).
      apply IHout. intros i Hi. apply Hout. lia.
Qed.

Lemma rows_below_fewer src spitch width n k limit :
  k <= n -> rows_below src spitch width n limit ->
  rows_below src spitch width k limit.
Proof.
  intros Hk H r c Hr Hc. apply H; lia.
Qed.

(** Rows that end a pitch below [limit] are below it. *)
Lemma rows_below_slack src spitch width height limit :
  0 <= spitch ->
  src + spitch * height + width <= limit ->
  rows_below src spitch width height limit.
Proof.
  intros Hsp H r c Hr Hc.
  assert (r * spitch <= spitch * height) by nia. lia.
Qed.


Lemma find_pinned_in_range p entries :
  forall base k e,
    find_pinned p base entries = Some (k, e) -> in_pinned_range p e = true.
Proof.
  induction entries as [|e0 rest IH]; intros base k e H; simpl in H.
  - discriminate.
  - destruct (in_pinned_range p e0) eqn:E0.
    + injection H as _ <-. exact E0.
    + eapply IH. exact H.
Qed.

Lemma submission_or_new_empty s q wait signal :
  nothing_recorded s ->
  exists sub q',
    submission_or_new s q wait signal = (sub, q') /\ s_cmds sub = [].
Proof.
  intros Hs. destruct s as [s0|]; simpl.
  - exists s0, q. auto.
  - unfold ggml_vk_create_submission, ggml_vk_create_cmd_buffer.
    destruct (cmd_buffer_idx q <? Z.of_nat (length (cmd_buffers q)));
      eexists _, _; split; reflexivity.
Qed.

Lemma staging_or_new_spec w pinned dst src spitch width height align :
  mapped w (buffer dst) = None ->
  staged_source w pinned dst src spitch width height align ->
  exists sb dst' w1,
    staging_or_new w dst = (sb, dst', w1)
    /\ buffer dst' = buffer dst
    /\ mapped w1 (buffer sb) = Some (ptr sb)
    /\ mapped w1 (buffer dst) = None
    /\ host_mem w1 = host_mem w
    /\ buffer_size w1 (buffer dst) = buffer_size w (buffer dst)
    /\ (rows_below src spitch width height (ptr sb)
        \/ ptr sb + spec_pad width align * height <= src).
Proof.
  intros Hd [_ Hst]. unfold staging_or_new.
  destruct (sb_write dst) as [sb|].
  - destruct Hst as (Hm & Hne & _ & Hdisj).
    exists sb, dst, w. repeat split; auto.
  - destruct Hst as (Hne & _ & Hsrc).
    unfold ggml_vk_create_buffer.
    replace (has_flag (Z.lor eHostVisible eHostCoherent) eHostVisible)
      with true by reflexivity.
    eexists _, _, _. split; [reflexivity|]. simpl.
    rewrite fn_lookup_insert.
    rewrite !fn_lookup_insert_ne by congruence.
    repeat split; auto.
Qed.

#[local] Arguments ggml_vk_align_size : simpl never.
#[local] Arguments u64 : simpl never.
#[local] Arguments exec_cmds : simpl never.
#[local] Arguments has_flag : simpl never.
#[local] Arguments find_pinned : simpl never.
#[local] Arguments row_slices : simpl never.
#[local] Arguments zeropad_rows : simpl never.





(** The source of the second setting fills its pinned allocation exactly:
    the 6 pinned bytes are the two rows, and the write delivers them with
    their padding. *)
Example zeropad_exact_pinned_bytes :
  map (fun e => (pinned_addr e, pinned_size e))
      (fst example_exact_pinned_setting) = [(4096, 6)]
  /\ match ggml_vk_buffer_write_2d_async_zeropad
            (snd (snd example_exact_pinned_setting))
            (fst example_exact_pinned_setting)
            (fst (snd example_exact_pinned_setting)) 0 4096 3 3 2 4
            example_queue [] [] None with
     | Done (sq, dst', w1, _) =>
         option_map (fun w2 => buffer_bytes w2 (buffer dst') 0 8)
                    (exec_sequence w1 sq)
         = Some [80; 81; 82; 0; 83; 84; 85; 0]
     | _ => False
     end.
Proof. split; vm_compute; reflexivity. Qed.

(** ** Plain 2-D writes and tensor upload *)

Lemma spec_pad_1 width : spec_pad width 1 = width.
Proof.
  unfold spec_pad, spec_ceil. rewrite Z.div_1_r. lia.
Qed.

Lemma write_rows_spec (m : Z -> Z) (sb_ptr src spitch width : Z) (n : nat) :
  0 <= spitch -> 0 <= width ->
  spitch * Z.of_nat n < 2 ^ 63 -> width * Z.of_nat n < 2 ^ 63 ->
  (rows_below src spitch width (Z.of_nat n) sb_ptr
   \/ sb_ptr + width * Z.of_nat n <= src) ->
  let m' := write_rows n m sb_ptr 0 src spitch width in
  (forall i j, 0 <= i < Z.of_nat n -> 0 <= j < width ->
     m' (sb_ptr + i * width + j) = m (src + i * spitch + j))
  /\ (forall a, a < sb_ptr \/ sb_ptr + width * Z.of_nat n <= a -> m' a = m a).
Proof.
  intros Hsp Hw.
  induction n as [|n IH]; intros Hb1 Hb2 Hdisj m'.
  - subst m'. unfold write_rows. split; auto. intros i j Hi. lia.
  - subst m'. cbn [write_rows].
    assert (Hread : forall j, 0 <= j < width ->
              src + Z.of_nat n * spitch + j < sb_ptr
              \/ sb_ptr + width * Z.of_nat n
                 <= src + Z.of_nat n * spitch + j).
    { intros j Hj. destruct Hdisj as [Hbelow|Habove].
      - left. apply Hbelow; lia.
      - right. nia. }
    destruct IH as (IHrow & IHout); [nia | nia | |].
    { destruct Hdisj as [Hbelow|Habove].
      - left. apply (rows_below_fewer _ _ _ (Z.of_nat (S n))); [lia|].
        exact Hbelow.
      - right. nia. }
    set (m1 := write_rows n m sb_ptr 0 src spitch width) in *.
    rewrite (u64_small (Z.of_nat n * width)) by nia.
    rewrite (u64_small (Z.of_nat n * spitch)) by nia.
    unfold host_memcpy.
    split.
    + intros i j Hi Hj.
      destruct (Z.eq_dec i (Z.of_nat n)) as [->|Hne].
      * rewrite in_range_true by lia.
        rewrite IHout by (specialize (Hread j Hj); lia). f_equal. lia.
      * rewrite in_range_false by nia. apply IHrow; lia.
    + intros a Ha.
      rewrite in_range_false by nia.
      apply IHout. nia.
Qed.

#[local] Arguments write_rows : simpl never.

(** A plain 2-D write at offset 0 followed by the execution of the
    recorded commands: row [i] of the destination, rows being [width]
    bytes apart, holds source row [i]. *)
Lemma write_2d_async_then_read w pinned dst src spitch width height
      q wait signal s :
  has_flag (memory_property_flags dst) eHostVisible = false ->
  0 <= width -> 0 <= height -> 0 <= spitch ->
  width * height < 2 ^ 63 -> spitch * height < 2 ^ 63 ->
  mapped w (buffer dst) = None ->
  nothing_recorded s ->
  pinned_source w pinned dst src spitch width height
  \/ staged_source w pinned dst src spitch width height 1 ->
  exists sub dst' w1 q' w2,
    ggml_vk_buffer_write_2d_async w pinned dst 0 src spitch width height
      q wait signal s = Done ([sub], dst', w1, q')
    /\ buffer dst' = buffer dst
    /\ memory_property_flags dst' = memory_property_flags dst
    /\ size dst' = size dst
    /\ exec_sequence w1 [sub] = Some w2
    /\ forall i j, 0 <= i < height -> 0 <= j < width ->
         buffer_byte w2 (buffer dst) (i * width + j)
         = host_mem w (src + i * spitch + j).
Proof.
  intros Hflag Hw Hh Hsp Hb1 Hb2 Hmd Hs Hsource.
  unfold ggml_vk_buffer_write_2d_async.
  rewrite Hflag. cbn [negb GGML_ASSERT mbind result_bind rbind].
  destruct (submission_or_new_empty s q wait signal Hs)
    as (sub0 & q' & Esub & Hempty).
  rewrite Esub.
  assert (Hrowb : forall i j, 0 <= i < height -> 0 <= j < width ->
                    0 <= i * width + j < width * height).
  { intros i j Hi Hj.
    assert (width * (i + 1) <= width * height)
      by (apply Z.mul_le_mono_nonneg_l; lia).
    assert (0 <= i * width) by (apply Z.mul_nonneg_nonneg; lia).
    lia. }
  destruct Hsource as [(k & e & Hfind & Hme & Hrows & Hsz)|Hst].
  - (* pinned source *)
    pose proof (find_pinned_in_range _ _ _ _ _ Hfind) as Hin.
    unfold in_pinned_range in Hin. apply andb_prop in Hin as [Hlo Hhi].
    apply Z.leb_le in Hlo. apply Z.ltb_lt in Hhi.
    rewrite Hfind.
    destruct (sync_buffers_cmds sub0 [ggml_vk_subbuffer dst] q'
                eMemoryRead eMemoryWrite false) as (pre & Esync & Hpre & _).
    rewrite Esync, Hempty. cbn [app].
    eexists _, _, _, _, _. split; [reflexivity|].
    split; [reflexivity|]. split; [reflexivity|]. split; [reflexivity|].
    unfold exec_sequence, record. cbn [s_cmds].
    rewrite exec_cmds_app.
    rewrite (exec_only_barriers w pre Hpre).
    unfold exec_cmds, exec_cmd.
    split; [reflexivity|].
    intros i j Hi Hj. specialize (Hrowb i j Hi Hj).
    destruct (width =? spitch) eqn:Esingle.
    + apply Z.eqb_eq in Esingle. cbn [fold_left].
      unfold copy_region. cbn [srcOffset dstOffset copy_size].
      rewrite (u64_small (width * height)) by nia.
      destruct (write_range_device w (buffer dst) 0 (width * height)
                  (fun k0 => buffer_byte w (buffer (pinned_buffer e))
                               (src - pinned_addr e + k0)) Hmd)
        as (_ & _ & _ & Wsame & _).
      rewrite Wsame. rewrite in_range_true by lia.
      unfold buffer_byte. rewrite Hme. f_equal. subst spitch. lia.
    + destruct (row_slices_exec w (buffer (pinned_buffer e)) (buffer dst)
                  (pinned_addr e) (src - pinned_addr e) 0 spitch width
                  width (Z.to_nat height))
        as (_ & _ & Rrow & _);
        [ exact Hmd | exact Hme | lia | lia | lia | lia
        | rewrite Z2Nat.id by lia; nia | rewrite Z2Nat.id by lia; nia | ].
      rewrite Z2Nat.id in Rrow by lia.
      specialize (Rrow i j Hi Hj). rewrite Z.add_0_l in Rrow.
      rewrite Rrow. f_equal. lia.
  - (* staged source *)
    destruct (staging_or_new_spec w pinned dst src spitch width height 1
                Hmd Hst)
      as (sb & dst' & w1 & Est & Hbuf & Hmsb & Hmd1 & Hhost & _ & Hdisj).
    rewrite spec_pad_1 in Hdisj.
    assert (Hkeep : memory_property_flags dst' = memory_property_flags dst
                    /\ size dst' = size dst).
    { unfold staging_or_new in Est. destruct (sb_write dst).
      - injection Est as _ <- _. auto.
      - destruct (ggml_vk_create_buffer w (size dst) _).
        injection Est as _ <- _. auto. }
    destruct Hst as [Hfind _].
    rewrite Hfind, Est.
    destruct (sync_buffers_cmds sub0 [ggml_vk_subbuffer dst'] q'
                eMemoryRead eMemoryWrite false) as (pre & Esync & Hpre & _).
    rewrite Esync, Hempty. cbn [app].
    rewrite (u64_small (width * height)) by nia.
    set (m := if width =? spitch then _ else _).
    eexists _, _, _, _, _. split; [reflexivity|].
    split; [exact Hbuf|]. split; [apply Hkeep|]. split; [apply Hkeep|].
    unfold exec_sequence, record. cbn [s_cmds].
    rewrite exec_cmds_app.
    rewrite (exec_only_barriers _ pre Hpre).
    unfold exec_cmds, exec_cmd. cbn [fold_left].
    split; [reflexivity|].
    unfold copy_region. cbn [srcOffset dstOffset copy_size].
    set (w1m := with_host_mem w1 m).
    assert (Hmd1m : mapped w1m (buffer dst) = None) by exact Hmd1.
    destruct (write_range_device w1m (buffer dst) 0 (width * height)
                (fun k0 => buffer_byte w1m (buffer sb) (0 + k0)) Hmd1m)
      as (_ & _ & _ & Wsame & _).
    intros i j Hi Hj. specialize (Hrowb i j Hi Hj).
    rewrite Wsame. rewrite in_range_true by lia.
    unfold buffer_byte. subst w1m. cbn [mapped with_host_mem host_mem].
    rewrite Hmsb. subst m.
    destruct (width =? spitch) eqn:Esingle.
    + apply Z.eqb_eq in Esingle.
      unfold host_memcpy. rewrite in_range_true by lia.
      rewrite Hhost. f_equal. subst spitch. lia.
    + destruct (write_rows_spec (host_mem w1) (ptr sb) src spitch width
                  (Z.to_nat height))
        as (Zrow & _);
        [ lia | lia | rewrite Z2Nat.id by lia; lia
        | rewrite Z2Nat.id by lia; lia
        | rewrite Z2Nat.id by lia; exact Hdisj | ].
      rewrite Z2Nat.id in Zrow by lia.
      replace (ptr sb + (0 + (i * width + j - 0)))
        with (ptr sb + i * width + j) by lia.
      rewrite Zrow by lia. rewrite Hhost. reflexivity.
Qed.

Lemma create_device_local w sz :
  ggml_vk_create_buffer w sz eDeviceLocal
  = (mk_vk_buffer (next_handle w) eDeviceLocal 0 sz None None
                  VK_QUEUE_FAMILY_IGNORED,
     mk_world (host_mem w) (dev_mem w) (<[next_handle w := None]> (mapped w))
              (<[next_handle w := sz]> (buffer_size w))
              (live w ++ [next_handle w]) (next_handle w + 1) (next_addr w)).
Proof. reflexivity. Qed.

#[local] Arguments ggml_vk_create_buffer : simpl never.
#[local] Arguments ggml_vk_buffer_write_2d_async : simpl never.
#[local] Arguments exec_sequence : simpl never.

(** A property of every byte of [n] contiguous rows of [rl] bytes holds
    of every byte of the block they form. *)
Lemma rows_flatten (P : Z -> Prop) (rl n : Z) :
  0 <= rl ->
  (forall r c, 0 <= r < n -> 0 <= c < rl -> P (r * rl + c)) ->
  forall k, 0 <= k < n * rl -> P k.
Proof.
  intros Hrl H k Hk.
  assert (Hpos : 0 < rl).
  { destruct (Z.eq_dec rl 0) as [E|E]; [|lia].
    rewrite E, Z.mul_0_r in Hk. lia. }
  pose proof (Z.div_mod k rl ltac:(lia)) as Hdm.
  pose proof (Z.mod_pos_bound k rl Hpos) as Hm.
  assert (Hq0 : 0 <= k / rl) by (apply Z.div_pos; lia).
  assert (Hq1 : k / rl < n) by (apply Z.div_lt_upper_bound; nia).
  replace k with (k / rl * rl + k mod rl) by lia.
  apply H; lia.
Qed.

(** C7 (as amended): a tensor with ne2 <> 1 or ne3 <> 1 makes
    [ggml_vk_transform_tensor] abort; so does a tensor whose elements are
    not contiguous (nb0 is not the type size), in [ggml_vk_h2d_tensor_2d];
    so does, after the upload, a tensor whose backend is not already GPU,
    for the backend is asserted, not set.  For a tensor with ne2 = ne3 = 1
    and contiguous elements whose backend is GPU the call returns: the
    data field is the handle of a buffer created by the call,
    device-local, of the tensor's byte size, row [i] of which holds the
    [row_length] bytes of row [i] of the host data; the backend is still
    GPU. *)
Theorem transform_tensor_uploads :
  forall (ggml_type_size ggml_blck_size : ggml_type -> Z) (w : vk_world)
         (pinned : list pinned_entry) (host_data : Z) (tensor : ggml_tensor)
         (tr0 : vk_queue),
    (ne2 tensor <> 1 \/ ne3 tensor <> 1 ->
     ggml_vk_transform_tensor ggml_type_size ggml_blck_size w pinned
       host_data tensor tr0 = Aborted)
    /\ (ne2 tensor = 1 -> ne3 tensor = 1 ->
        0 < ggml_blck_size (type tensor) ->
        nb0 tensor <> ggml_type_size (type tensor) ->
        ggml_vk_transform_tensor ggml_type_size ggml_blck_size w pinned
          host_data tensor tr0 = Aborted)
    /\ (ne2 tensor = 1 -> ne3 tensor = 1 ->
        nb0 tensor = ggml_type_size (type tensor) ->
        tensor_sizes_fit ggml_type_size ggml_blck_size tensor ->
        host_data_placed ggml_type_size ggml_blck_size w pinned host_data
                         tensor ->
        (backend tensor <> GGML_BACKEND_GPU ->
         ggml_vk_transform_tensor ggml_type_size ggml_blck_size w pinned
           host_data tensor tr0 = Aborted)
        /\ (backend tensor = GGML_BACKEND_GPU ->
            exists tensor' w' tr0' dst,
              ggml_vk_transform_tensor ggml_type_size ggml_blck_size w pinned
                host_data tensor tr0 = Done (tensor', w', tr0')
              /\ data tensor' = DeviceHandle dst
              /\ backend tensor' = GGML_BACKEND_GPU
              /\ buffer dst = next_handle w
              /\ memory_property_flags dst = eDeviceLocal
              /\ size dst
                 = ggml_type_size (type tensor) * ne0 tensor * ne1 tensor
                   / ggml_blck_size (type tensor)
              /\ forall i j,
                   0 <= i < ne1 tensor ->
                   0 <= j < row_length ggml_type_size ggml_blck_size tensor ->
                   buffer_byte w' (buffer dst)
                     (i * row_length ggml_type_size ggml_blck_size tensor + j)
                   = host_mem w (host_data + i * nb1 tensor + j))).
Proof.
  intros ts bs w pinned host_data tensor tr0. split; [|split].
  { (* higher-rank tensors *)
    intros Hrank. unfold ggml_vk_transform_tensor.
    replace ((ne2 tensor =? 1) && (ne3 tensor =? 1)) with false; [reflexivity|].
    symmetry. apply andb_false_iff.
    destruct Hrank as [H|H]; [left | right]; apply Z.eqb_neq; exact H. }
  { (* elements that are not contiguous *)
    intros H2 H3 _ Hnb0. unfold ggml_vk_transform_tensor.
    rewrite H2, H3. cbn [Z.eqb Pos.eqb andb GGML_ASSERT mbind result_bind rbind].
    destruct (ggml_vk_create_buffer w _ eDeviceLocal) as [dst w1].
    unfold ggml_vk_h2d_tensor_2d. cbn [data with_data type].
    change (nb0 (with_data tensor (HostData host_data))) with (nb0 tensor).
    rewrite (proj2 (Z.eqb_neq _ _) Hnb0). reflexivity. }
  intros H2 H3 Hnb0 (Hts & Hbs & Hne0 & Hne1 & Hnb1 & Hb1 & Hb2 & Hb3)
         (Hdata & Hplace).
  set (rl := row_length ts bs tensor) in *.
  assert (Erl : rl = ts (type tensor) * ne0 tensor / bs (type tensor)).
  { subst rl. unfold row_length.
    rewrite (u64_small (ne0 tensor)) by nia. rewrite u64_small by nia.
    reflexivity. }
  assert (Hrl0 : 0 <= rl).
  { rewrite Erl. apply Z.div_pos; nia. }
  assert (Hrl1 : rl <= ts (type tensor) * ne0 tensor).
  { rewrite Erl. apply Z.div_le_upper_bound; nia. }
  assert (Hqsz : rl * ne1 tensor
                 <= ts (type tensor) * ne0 tensor * ne1 tensor
                    / bs (type tensor)).
  { rewrite Erl.
    rewrite (Z.mul_comm (ts (type tensor) * ne0 tensor / bs (type tensor))).
    rewrite (Z.mul_comm (ts (type tensor) * ne0 tensor) (ne1 tensor)).
    apply Z.div_mul_le; nia. }
  (* what the upload does, whatever the backend *)
  assert (Hupload :
    exists sub dst' w2 q' w3,
      ggml_vk_h2d_tensor_2d ts bs
        (snd (ggml_vk_create_buffer w
                (ts (type tensor) * ne0 tensor * ne1 tensor / bs (type tensor))
                eDeviceLocal))
        pinned
        (fst (ggml_vk_create_buffer w
                (ts (type tensor) * ne0 tensor * ne1 tensor / bs (type tensor))
                eDeviceLocal))
        0 (with_data tensor (HostData host_data)) 0 0 tr0 [] [] None
      = Done ([sub], dst', w2, q')
      /\ buffer dst' = next_handle w
      /\ memory_property_flags dst' = eDeviceLocal
      /\ size dst'
         = ts (type tensor) * ne0 tensor * ne1 tensor / bs (type tensor)
      /\ exec_sequence w2 [sub] = Some w3
      /\ forall i j, 0 <= i < ne1 tensor -> 0 <= j < rl ->
           buffer_byte w3 (next_handle w) (i * rl + j)
           = host_mem w (host_data + i * nb1 tensor + j)).
  { rewrite create_device_local. cbn [fst snd].
    set (q_sz := ts (type tensor) * ne0 tensor * ne1 tensor / bs (type tensor)).
    set (dst := mk_vk_buffer (next_handle w) eDeviceLocal 0 q_sz None None
                             VK_QUEUE_FAMILY_IGNORED).
    set (w1 := mk_world _ _ _ _ _ _ _).
    assert (Hmd : mapped w1 (buffer dst) = None).
    { subst w1 dst. cbn [mapped buffer]. apply fn_lookup_insert. }
    assert (Hhost1 : host_mem w1 = host_mem w) by reflexivity.
    unfold ggml_vk_h2d_tensor_2d.
    cbn [data with_data type nb ne].
    change (nb0 (with_data tensor (HostData host_data))) with (nb0 tensor).
    change (nb1 (with_data tensor (HostData host_data))) with (nb1 tensor).
    change (nb2 (with_data tensor (HostData host_data))) with (nb2 tensor).
    change (nb3 (with_data tensor (HostData host_data))) with (nb3 tensor).
    change (ne1 (with_data tensor (HostData host_data))) with (ne1 tensor).
    change (row_length ts bs (with_data tensor (HostData host_data)))
      with rl.
    rewrite !Z.mul_0_l. change (u64 0) with 0. rewrite !Z.add_0_r.
    rewrite (u64_small (ne1 tensor)) by nia.
    rewrite Hnb0, Z.eqb_refl. cbn [andb].
    (* where the source lies, for a write of [height] rows of [width]
       whose bytes are bytes of the tensor's rows *)
    assert (Hsource : forall spitch width height,
              width * height <= q_sz ->
              (forall P : Z -> Prop,
                  (forall r c, 0 <= r < ne1 tensor -> 0 <= c < rl ->
                               P (r * nb1 tensor + c)) ->
                  forall r c, 0 <= r < height -> 0 <= c < width ->
                              P (r * spitch + c)) ->
              pinned_source w1 pinned dst host_data spitch width height
              \/ staged_source w1 pinned dst host_data spitch width height 1).
    { intros spitch width height Hfit Hbytes.
      destruct (find_pinned host_data 0 pinned) as [[k e]|] eqn:Hfind.
      - left. destruct Hplace as (Hme & Hfresh & Hin & Hsz).
        exists k, e. split; [exact Hfind|].
        split; [|split; [|exact Hsz]].
        + subst w1. cbn [mapped].
          rewrite fn_lookup_insert_ne by congruence. exact Hme.
        + intros r c Hr Hc.
          assert (Hx : host_data - pinned_addr e + (r * spitch + c)
                       < pinned_size e).
          { apply (Hbytes (fun o => host_data - pinned_addr e + o
                                    < pinned_size e));
              [|exact Hr|exact Hc].
            intros r' c' Hr' Hc'. specialize (Hin r' c' Hr' Hc'). lia. }
          lia.
      - right. split; [exact Hfind|].
        subst dst w1. cbn [sb_write buffer next_handle size next_addr].
        rewrite spec_pad_1. split; [lia|]. split; [lia|].
        intros r c Hr Hc.
        assert (Hx : host_data + (r * spitch + c) < next_addr w).
        { apply (Hbytes (fun o => host_data + o < next_addr w));
            [|exact Hr|exact Hc].
          intros r' c' Hr' Hc'. specialize (Hplace r' c' Hr' Hc'). lia. }
        lia. }
    destruct (nb1 tensor =? rl) eqn:Econt.
    - (* contiguous rows: one write of ne1 * nb1 bytes *)
      apply Z.eqb_eq in Econt.
      unfold ggml_vk_buffer_write_async.
      rewrite (u64_small (ne1 tensor * nb1 tensor)) by nia.
      destruct (write_2d_async_then_read w1 pinned dst host_data 0
                  (ne1 tensor * nb1 tensor) 1 tr0 [] [] None)
        as (sub & dst' & w2 & q' & w3 & E & Hb & Hf & Hs & Hex & Hbytes);
        [ reflexivity | nia | lia | lia | nia | lia | exact Hmd | exact I
        | apply Hsource; [nia|] | ].
      { intros P HP r c Hr Hc.
        replace (r * 0 + c) with c by lia.
        apply (rows_flatten P rl (ne1 tensor) Hrl0); [|rewrite <- Econt; lia].
        intros r' c' Hr' Hc'. rewrite <- Econt at 1.
        apply HP; assumption. }
      exists sub, dst', w2, q', w3.
      split; [exact E|]. split; [exact Hb|]. split; [exact Hf|].
      split; [exact Hs|]. split; [exact Hex|].
      intros i j Hi Hj.
      assert (Hk : 0 <= i * rl + j < ne1 tensor * nb1 tensor).
      { rewrite Econt.
        assert (rl * (i + 1) <= rl * ne1 tensor)
          by (apply Z.mul_le_mono_nonneg_l; lia).
        assert (0 <= i * rl) by (apply Z.mul_nonneg_nonneg; lia).
        lia. }
      specialize (Hbytes 0 (i * rl + j) ltac:(lia) Hk).
      change (buffer dst) with (next_handle w) in Hbytes.
      rewrite Z.mul_0_l, Z.add_0_l in Hbytes. rewrite Hbytes.
      rewrite Hhost1. f_equal. rewrite Econt. lia.
    - (* strided rows *)
      destruct (write_2d_async_then_read w1 pinned dst host_data
                  (nb1 tensor) rl (ne1 tensor) tr0 [] [] None)
        as (sub & dst' & w2 & q' & w3 & E & Hb & Hf & Hs & Hex & Hbytes);
        [ reflexivity | lia | lia | lia | nia | lia | exact Hmd | exact I
        | apply Hsource; [nia|] | ].
      { intros P HP r c Hr Hc. apply HP; assumption. }
      exists sub, dst', w2, q', w3.
      split; [exact E|]. split; [exact Hb|]. split; [exact Hf|].
      split; [exact Hs|]. split; [exact Hex|].
      intros i j Hi Hj.
      specialize (Hbytes i j Hi Hj).
      change (buffer dst) with (next_handle w) in Hbytes.
      rewrite Hbytes, Hhost1. reflexivity. }
  destruct Hupload as (sub & dst' & w2 & q' & w3 & E & Hb & Hf & Hsz & Hex
                       & Hbytes).
  assert (Hrun :
    ggml_vk_transform_tensor ts bs w pinned host_data tensor tr0
    = (_ ← GGML_ASSERT (bool_decide (backend tensor = GGML_BACKEND_GPU));
       Done (with_data (with_data tensor (HostData host_data))
                       (DeviceHandle dst'), w3, q'))).
  { unfold ggml_vk_transform_tensor.
    rewrite H2, H3. cbn [Z.eqb Pos.eqb andb GGML_ASSERT mbind result_bind rbind].
    rewrite (u64_small 1) by lia. rewrite !Z.mul_1_r.
    rewrite (u64_small (ne0 tensor)), (u64_small (ne1 tensor)) by nia.
    rewrite u64_small by nia.
    destruct (ggml_vk_create_buffer w _ eDeviceLocal) as [dst w1] eqn:Ec.
    cbn [fst snd] in E. rewrite E.
    cbn [mbind result_bind rbind]. rewrite Hex. reflexivity. }
  rewrite Hrun. split.
  - intros Hcpu. rewrite bool_decide_eq_false_2 by exact Hcpu. reflexivity.
  - intros Hgpu. rewrite bool_decide_eq_true_2 by exact Hgpu.
    exists (with_data (with_data tensor (HostData host_data))
                      (DeviceHandle dst')), w3, q', dst'.
    split; [reflexivity|]. split; [reflexivity|]. split; [exact Hgpu|].
    split; [exact Hb|]. split; [exact Hf|]. split; [exact Hsz|].
    intros i j Hi Hj. rewrite Hb. apply Hbytes; assumption.
Qed.

Lemma transform_tensor_uploads_witness :
  (exists tensor' w' tr0' dst,
     ggml_vk_transform_tensor example_type_size example_blck_size
       example_host_world [] 100 (example_weight GGML_BACKEND_GPU)
       example_queue = Done (tensor', w', tr0')
     /\ data tensor' = DeviceHandle dst
     /\ backend tensor' = GGML_BACKEND_GPU
     /\ buffer dst = next_handle example_host_world
     /\ memory_property_flags dst = eDeviceLocal
     /\ size dst = 4 * 3 * 2 / 1
     /\ forall i j,
          0 <= i < 2 ->
          0 <= j < row_length example_type_size example_blck_size
                     (example_weight GGML_BACKEND_GPU) ->
          buffer_byte w' (buffer dst)
            (i * row_length example_type_size example_blck_size
                   (example_weight GGML_BACKEND_GPU) + j)
          = host_mem example_host_world (100 + i * 12 + j))
  /\ (exists tensor' w' tr0' dst,
        ggml_vk_transform_tensor example_type_size example_blck_size
          (snd example_pinned_weight_setting)
          (fst example_pinned_weight_setting) 4096
          (example_weight GGML_BACKEND_GPU) example_queue
        = Done (tensor', w', tr0')
        /\ data tensor' = DeviceHandle dst
        /\ backend tensor' = GGML_BACKEND_GPU
        /\ buffer dst = next_handle (snd example_pinned_weight_setting)
        /\ memory_property_flags dst = eDeviceLocal
        /\ size dst = 4 * 3 * 2 / 1
        /\ forall i j,
             0 <= i < 2 ->
             0 <= j < row_length example_type_size example_blck_size
                        (example_weight GGML_BACKEND_GPU) ->
             buffer_byte w' (buffer dst)
               (i * row_length example_type_size example_blck_size
                      (example_weight GGML_BACKEND_GPU) + j)
             = host_mem (snd example_pinned_weight_setting)
                        (4096 + i * 12 + j)).
Proof.
  split.
  - destruct (transform_tensor_uploads example_type_size example_blck_size
                example_host_world [] 100 (example_weight GGML_BACKEND_GPU)
                example_queue) as (_ & _ & H).
    destruct (H eq_refl eq_refl eq_refl) as [_ Hgpu].
    + unfold tensor_sizes_fit.
      repeat split; try lia; try reflexivity; vm_compute; congruence.
    + split; [lia|]. intros r c Hr Hc.
      change (100 + r * 12 + c < 4096).
      change (0 <= r < 2) in Hr. change (0 <= c < 12) in Hc. lia.
    + exact (Hgpu eq_refl).
  - destruct (transform_tensor_uploads example_type_size example_blck_size
                (snd example_pinned_weight_setting)
                (fst example_pinned_weight_setting) 4096
                (example_weight GGML_BACKEND_GPU) example_queue)
      as (_ & _ & H).
    destruct (H eq_refl eq_refl eq_refl) as [_ Hgpu].
    + unfold tensor_sizes_fit.
      repeat split; try lia; try reflexivity; vm_compute; congruence.
    + split; [lia|].
      split; [reflexivity|]. split; [vm_compute; congruence|].
      split; [|vm_compute; reflexivity].
      intros r c Hr Hc.
      change (4096 - 4096 + r * 12 + c < 24).
      change (0 <= r < 2) in Hr. change (0 <= c < 12) in Hc. lia.
    + exact (Hgpu eq_refl).
Defined.

(** The upload of the example tensor, evaluated: the 24 bytes at host
    address 100 arrive in the new buffer. *)
Example transform_tensor_example_bytes :
  match ggml_vk_transform_tensor example_type_size example_blck_size
          example_host_world [] 100 (example_weight GGML_BACKEND_GPU)
          example_queue with
  | Done (tensor', w', _) =>
      match data tensor' with
      | DeviceHandle dst =>
          buffer_bytes w' (buffer dst) 0 24
          = map (fun k => 100 + Z.of_nat k) (seq 0 24)
      | HostData _ => False
      end
  | _ => False
  end.
Proof. vm_compute. reflexivity. Qed.

(** The zero-padding write of two rows of three bytes with alignment 4,
    evaluated on the staging path. *)
Example zeropad_example_bytes :
  match ggml_vk_buffer_write_2d_async_zeropad (snd example_staged_dst) []
          (fst example_staged_dst) 0 100 5 3 2 4 example_queue [] [] None with
  | Done (seq, dst', w1, _) =>
      option_map (fun w2 => buffer_bytes w2 (buffer dst') 0 8)
                 (exec_sequence w1 seq)
      = Some [100; 101; 102; 0; 105; 106; 107; 0]
  | _ => False
  end.
Proof. vm_compute. reflexivity. Qed.

(** C7, counterexample: a 2 x 3 f32 tensor with ne2 = ne3 = 1 whose backend
    is CPU is uploaded, and then the call aborts on its closing assertion
    instead of returning with the backend set to GPU. *)
Lemma transform_tensor_asserts_backend :
  ne2 (example_weight GGML_BACKEND_CPU) = 1
  /\ ne3 (example_weight GGML_BACKEND_CPU) = 1
  /\ ggml_vk_transform_tensor example_type_size example_blck_size
       example_host_world [] 100 (example_weight GGML_BACKEND_CPU)
       example_queue = Aborted.
Proof.
  split; [reflexivity|]. split; [reflexivity|]. vm_compute. reflexivity.
Qed.

(** ** Queue family search *)

Lemma find_family_Some ok props :
  forall s i,
    find_family ok s props = Some i ->
    exists k p,
      i = s + Z.of_nat k /\ props !! k = Some p /\ ok i p = true
      /\ forall j p', (j < k)%nat -> props !! j = Some p' ->
                      ok (s + Z.of_nat j) p' = false.
Proof.
  induction props as [|p rest IH]; intros s i H; simpl in H; [discriminate|].
  destruct (ok s p) eqn:Hok.
  - inversion H; subst i. exists 0%nat, p.
    split; [lia|]. split; [reflexivity|]. split; [exact Hok|].
    intros j p' Hj; lia.
  - destruct (IH _ _ H) as (k & p0 & Hi & Hk & Hokk & Hbefore).
    exists (S k), p0.
    split; [lia|]. split; [exact Hk|]. split; [exact Hokk|].
    intros [|j] p' Hj Hl.
    + simpl in Hl. inversion Hl; subst p'. rewrite Z.add_0_r. exact Hok.
    + simpl in Hl.
      replace (s + Z.of_nat (S j)) with (s + 1 + Z.of_nat j) by lia.
      apply Hbefore; [lia | exact Hl].
Qed.

Lemma find_family_None ok props :
  forall s,
    find_family ok s props = None
    <-> forall k p, props !! k = Some p -> ok (s + Z.of_nat k) p = false.
Proof.
  induction props as [|p rest IH]; intros s; simpl.
  - split; [intros _ k p H; destruct k; discriminate | reflexivity].
  - destruct (ok s p) eqn:Hok.
    + split; [discriminate|]. intros H.
      specialize (H 0%nat p eq_refl). rewrite Z.add_0_r in H. congruence.
    + rewrite IH. split.
      * intros H [|k] q Hq; simpl in Hq.
        -- inversion Hq; subst q. rewrite Z.add_0_r. exact Hok.
        -- replace (s + Z.of_nat (S k)) with (s + 1 + Z.of_nat k) by lia.
           apply H; exact Hq.
      * intros H k q Hq.
        replace (s + 1 + Z.of_nat k) with (s + Z.of_nat (S k)) by lia.
        apply H; exact Hq.
Qed.

(** The search returns the result of the first loop that finds a family. *)
Lemma find_queue_family_index_cases props required avoid ci mnq :
  let r := ggml_vk_find_queue_family_index props required avoid ci mnq in
  (exists i,
     r = Done i
     /\ (find_family (family_preferred required avoid ci mnq) 0 props = Some i
         \/ (find_family (family_preferred required avoid ci mnq) 0 props = None
             /\ find_family (family_required required ci mnq) 0 props = Some i)
         \/ (find_family (family_preferred required avoid ci mnq) 0 props = None
             /\ find_family (family_required required ci mnq) 0 props = None
             /\ find_family (family_shared required mnq) 0 props = Some i)
         \/ (find_family (family_preferred required avoid ci mnq) 0 props = None
             /\ find_family (family_required required ci mnq) 0 props = None
             /\ find_family (family_shared required mnq) 0 props = None
             /\ find_family (family_any required) 0 props = Some i)))
  \/ (r = Aborted
      /\ find_family (family_preferred required avoid ci mnq) 0 props = None
      /\ find_family (family_required required ci mnq) 0 props = None
      /\ find_family (family_shared required mnq) 0 props = None
      /\ find_family (family_any required) 0 props = None).
Proof.
  unfold ggml_vk_find_queue_family_index.
  destruct (find_family (family_preferred _ _ _ _) 0 props) eqn:H1;
    [left; eauto 10|].
  destruct (find_family (family_required _ _ _) 0 props) eqn:H2;
    [left; eauto 10|].
  destruct (find_family (family_shared _ _) 0 props) eqn:H3;
    [left; eauto 10|].
  destruct (find_family (family_any _) 0 props) eqn:H4;
    [left; eauto 12|].
  right. auto.
Qed.

Lemma family_preferred_required required avoid ci mnq i p :
  family_preferred required avoid ci mnq i p = true ->
  family_required required ci mnq i p = true.
Proof.
  unfold family_preferred, family_required.
  rewrite !andb_true_iff. tauto.
Qed.

Lemma family_required_shared required ci mnq i p :
  family_required required ci mnq i p = true ->
  family_shared required mnq i p = true.
Proof.
  unfold family_required, family_shared.
  rewrite !andb_true_iff. tauto.
Qed.

Lemma family_shared_any required mnq i p :
  family_shared required mnq i p = true -> family_any required i p = true.
Proof.
  unfold family_shared, family_any.
  rewrite !andb_true_iff. tauto.
Qed.

Lemma find_queue_family_index_done props required avoid ci mnq i :
  ggml_vk_find_queue_family_index props required avoid ci mnq = Done i ->
  exists k p, i = Z.of_nat k /\ props !! k = Some p
              /\ family_any required i p = true.
Proof.
  intros Hi.
  destruct (find_queue_family_index_cases props required avoid ci mnq)
    as [(i' & Hr & Hc)|(Hr & _)]; [|congruence].
  assert (i' = i) by congruence. subst i'.
  destruct Hc as [H|[[_ H]|[(_ & _ & H)|(_ & _ & _ & H)]]];
    apply find_family_Some in H;
    destruct H as (k & p & Hk & Hp & Hok & _);
    exists k, p; (split; [lia|]); (split; [exact Hp|]).
  - apply family_shared_any with (mnq := mnq).
    apply family_required_shared with (ci := ci).
    eapply family_preferred_required; exact Hok.
  - apply family_shared_any with (mnq := mnq).
    eapply family_required_shared; exact Hok.
  - eapply family_shared_any; exact Hok.
  - exact Hok.
Qed.

(** X1: [ggml_vk_find_queue_family_index] returns the index of a family of
    the vector that has one of the required flags; it aborts exactly when
    no family has a required flag, whatever the other arguments; it never
    reads past the vector. *)
Theorem find_queue_family_index_valid :
  forall (props : list vk_queue_family_properties)
         (required avoid compute_index min_num_queues : Z),
    let r := ggml_vk_find_queue_family_index props required avoid
               compute_index min_num_queues in
    (forall i, r = Done i ->
       0 <= i < Z.of_nat (length props)
       /\ exists p, props !! Z.to_nat i = Some p
                    /\ has_flag (queueFlags p) required = true)
    /\ (r = Aborted
        <-> forall k p, props !! k = Some p ->
                        has_flag (queueFlags p) required = false)
    /\ r <> Undefined.
Proof.
  intros props required avoid ci mnq r. subst r.
  pose proof (find_queue_family_index_done props required avoid ci mnq)
    as Hany.
  split; [|split].
  - intros i Hi. destruct (Hany i Hi) as (k & p & Hk & Hp & Hok).
    subst i. split.
    + apply lookup_lt_Some in Hp. lia.
    + exists p. rewrite Nat2Z.id. split; [exact Hp | exact Hok].
  - split.
    + intros Hr.
      destruct (find_queue_family_index_cases props required avoid ci mnq)
        as [(i & Hr' & _)|(_ & _ & _ & _ & H4)];
        [congruence|].
      intros k p Hp.
      apply (proj1 (find_family_None _ _ 0) H4 k p Hp).
    + intros Hnone.
      destruct (find_queue_family_index_cases props required avoid ci mnq)
        as [(i & Hr' & _)|(Hr' & _)]; [|exact Hr'].
      destruct (Hany i Hr') as (k & p & _ & Hp & Hok).
      unfold family_any in Hok. rewrite (Hnone k p Hp) in Hok. discriminate.
  - destruct (find_queue_family_index_cases props required avoid ci mnq)
      as [(i & Hr' & _)|(Hr' & _)]; congruence.
Qed.

(** X2: when some family has enough queues, is not the compute family, has
    a required flag and none of the flags to avoid, the search returns the
    first such family. *)
Theorem find_queue_family_index_prefers :
  forall (props : list vk_queue_family_properties)
         (required avoid compute_index min_num_queues : Z)
         (k : nat) (p : vk_queue_family_properties),
    props !! k = Some p ->
    family_preferred required avoid compute_index min_num_queues
                     (Z.of_nat k) p = true ->
    (forall j p', (j < k)%nat -> props !! j = Some p' ->
       family_preferred required avoid compute_index min_num_queues
                        (Z.of_nat j) p' = false) ->
    ggml_vk_find_queue_family_index props required avoid compute_index
                                    min_num_queues = Done (Z.of_nat k)
    /\ min_num_queues <= queueCount p
    /\ (0 <= compute_index -> Z.of_nat k <> u32 compute_index)
    /\ Z.land (queueFlags p) required <> 0
    /\ Z.land (queueFlags p) avoid = 0.
Proof.
  intros props required avoid ci mnq k p Hp Hok Hfirst.
  split.
  - unfold ggml_vk_find_queue_family_index.
    destruct (find_family (family_preferred required avoid ci mnq) 0 props)
      as [i|] eqn:H1.
    + apply find_family_Some in H1.
      destruct H1 as (k' & p' & Hi & Hp' & Hok' & Hbefore).
      rewrite Z.add_0_l in Hi. subst i.
      destruct (Nat.lt_trichotomy k k') as [Hlt|[Heq|Hgt]].
      * specialize (Hbefore k p Hlt Hp). rewrite Z.add_0_l in Hbefore.
        congruence.
      * subst k'. reflexivity.
      * specialize (Hfirst k' p' Hgt Hp'). congruence.
    + pose proof (proj1 (find_family_None _ _ 0) H1 k p Hp) as Hn.
      rewrite Z.add_0_l in Hn. congruence.
  - unfold family_preferred, family_enough, family_other, has_flag in Hok.
    rewrite !andb_true_iff, !negb_true_iff, orb_true_iff in Hok.
    destruct Hok as (((He & Ho) & Hr) & Ha).
    rewrite negb_false_iff in Ha.
    split; [lia|]. split; [|split; lia].
    intros Hci Heq. destruct Ho as [Ho|Ho]; [lia|].
    rewrite negb_true_iff in Ho. lia.
Qed.

Lemma find_queue_family_index_prefers_witness :
  ggml_vk_find_queue_family_index example_three_families eTransfer
    (Z.lor eCompute eGraphics) 1 2 = Done (Z.of_nat 2)
  /\ 2 <= queueCount (mk_queue_family 2 4)
  /\ (0 <= 1 -> Z.of_nat 2 <> u32 1)
  /\ Z.land (queueFlags (mk_queue_family 2 4)) eTransfer <> 0
  /\ Z.land (queueFlags (mk_queue_family 2 4)) (Z.lor eCompute eGraphics) = 0.
Proof.
  apply (find_queue_family_index_prefers example_three_families eTransfer
           (Z.lor eCompute eGraphics) 1 2 2%nat (mk_queue_family 2 4)).
  - reflexivity.
  - vm_compute. reflexivity.
  - intros [|[|j]] p' Hj Hp'; [| |lia];
      vm_compute in Hp'; inversion Hp'; subst p'; vm_compute; reflexivity.
Defined.

(** X3: the search degrades step by step.  It returns the compute family
    only when no other family with a required flag has enough queues, and
    a family with too few queues only when no family with a required flag
    has enough. *)
Theorem find_queue_family_index_last_resort :
  forall (props : list vk_queue_family_properties)
         (required avoid compute_index min_num_queues i : Z),
    ggml_vk_find_queue_family_index props required avoid compute_index
                                    min_num_queues = Done i ->
    (0 <= compute_index -> i = u32 compute_index ->
     forall k p, props !! k = Some p -> Z.of_nat k <> i ->
                 has_flag (queueFlags p) required = true ->
                 queueCount p < min_num_queues)
    /\ (forall p, props !! Z.to_nat i = Some p ->
          queueCount p < min_num_queues ->
          forall k p', props !! k = Some p' ->
                       has_flag (queueFlags p') required = true ->
                       queueCount p' < min_num_queues).
Proof.
  intros props required avoid ci mnq i Hr.
  destruct (find_queue_family_index_cases props required avoid ci mnq)
    as [(i' & Hr' & Hc)|(Hr' & _)]; [|congruence].
  assert (i' = i) by congruence. subst i'. clear Hr'.
  split.
  - intros Hci Hi k p Hp Hne Hflag.
    assert (Hn2 : find_family (family_required required ci mnq) 0 props
                  = None).
    { destruct Hc as [H|[[_ H]|[(_ & H & _)|(_ & H & _)]]]; try exact H.
      - apply find_family_Some in H.
        destruct H as (k' & p' & _ & _ & Hok & _).
        apply family_preferred_required in Hok.
        unfold family_required, family_other in Hok.
        rewrite !andb_true_iff, orb_true_iff, negb_true_iff in Hok.
        destruct Hok as ((_ & [Ho|Ho]) & _); lia.
      - apply find_family_Some in H.
        destruct H as (k' & p' & _ & _ & Hok & _).
        unfold family_required, family_other in Hok.
        rewrite !andb_true_iff, orb_true_iff, negb_true_iff in Hok.
        destruct Hok as ((_ & [Ho|Ho]) & _); lia. }
    pose proof (proj1 (find_family_None _ _ 0) Hn2 k p Hp) as Hf.
    rewrite Z.add_0_l in Hf. unfold family_required, family_enough, family_other in Hf.
    rewrite Hflag, andb_true_r in Hf.
    assert (Ho : (ci <? 0) || negb (Z.of_nat k =? u32 ci) = true).
    { rewrite orb_true_iff, negb_true_iff. right. lia. }
    rewrite Ho, andb_true_r in Hf. lia.
  - intros p Hp Hfew k p' Hp' Hflag.
    assert (Hn3 : find_family (family_shared required mnq) 0 props = None).
    { assert (Hcontra : forall ok,
                (forall j q, ok j q = true -> family_enough mnq q = true) ->
                find_family ok 0 props = Some i -> False).
      { intros ok Hen H. apply find_family_Some in H.
        destruct H as (k' & q & Hi & Hq & Hok & _).
        rewrite Z.add_0_l in Hi. subst i. rewrite Nat2Z.id in Hp.
        assert (q = p) by congruence. subst q.
        apply Hen in Hok. unfold family_enough in Hok. lia. }
      destruct Hc as [H|[[_ H]|[(_ & _ & H)|(_ & _ & H & _)]]];
        try exact H; exfalso; eapply Hcontra; try exact H.
      - intros j q Hq. unfold family_preferred in Hq.
        rewrite !andb_true_iff in Hq. tauto.
      - intros j q Hq. unfold family_required in Hq.
        rewrite !andb_true_iff in Hq. tauto.
      - intros j q Hq. unfold family_shared in Hq.
        rewrite !andb_true_iff in Hq. tauto. }
    pose proof (proj1 (find_family_None _ _ 0) Hn3 k p' Hp') as Hf.
    unfold family_shared, family_enough in Hf.
    rewrite Hflag, andb_true_r in Hf. lia.
Qed.

Lemma find_queue_family_index_last_resort_witness :
  (0 <= 0 -> 0 = u32 0 ->
   forall k p, example_shared_families !! k = Some p -> Z.of_nat k <> 0 ->
               has_flag (queueFlags p) eTransfer = true ->
               queueCount p < 2)
  /\ (forall p, example_shared_families !! Z.to_nat 0 = Some p ->
        queueCount p < 2 ->
        forall k p', example_shared_families !! k = Some p' ->
                     has_flag (queueFlags p') eTransfer = true ->
                     queueCount p' < 2).
Proof.
  apply (find_queue_family_index_last_resort example_shared_families eTransfer
           (Z.lor eCompute eGraphics) 0 2 0).
  vm_compute. reflexivity.
Defined.

(** ** The queues of [ggml_vk_init] *)

Lemma queue_index_create family index flags :
  queue_index (ggml_vk_create_queue family index flags) = index
  /\ queue_family_index (ggml_vk_create_queue family index flags) = family.
Proof.
  unfold queue_index, ggml_vk_create_queue, vk_getQueue. simpl. lia.
Qed.

(** The shape of a returning [ggml_vk_init_queues]: the two families, the
    number of queues of the transfer family and what follows from them. *)
Lemma init_queues_done props plan :
  families_wf props ->
  ggml_vk_init_queues props = Done plan ->
  exists c t pt,
    0 <= c < Z.of_nat (length props) /\ 0 <= t
    /\ props !! Z.to_nat t = Some pt /\ 1 <= queueCount pt < 2 ^ 32
    /\ dq_compute_queue plan
       = ggml_vk_create_queue c 0 (Z.lor eStageComputeShader eStageTransfer)
    /\ ((c = t /\ queueCount pt = 1
         /\ device_queue_create_infos plan = [(t, 1)]
         /\ dq_transfer_queues plan
            = [dq_compute_queue plan; dq_compute_queue plan])
        \/ (c = t /\ 2 <= queueCount pt
            /\ device_queue_create_infos plan = [(t, 3)]
            /\ dq_transfer_queues plan
               = [ggml_vk_create_queue t 1 eStageTransfer;
                  ggml_vk_create_queue t 0 eStageTransfer])
        \/ (c <> t /\ queueCount pt = 1
            /\ device_queue_create_infos plan = [(c, 1); (t, 1)]
            /\ dq_transfer_queues plan
               = [ggml_vk_create_queue t 0 eStageTransfer;
                  ggml_vk_create_queue t 0 eStageTransfer])
        \/ (c <> t /\ 2 <= queueCount pt
            /\ device_queue_create_infos plan = [(c, 1); (t, 2)]
            /\ dq_transfer_queues plan
               = [ggml_vk_create_queue t 0 eStageTransfer;
                  ggml_vk_create_queue t 1 eStageTransfer])).
Proof.
  intros [Hlen Hwf] Hrun. unfold ggml_vk_init_queues in Hrun.
  destruct (ggml_vk_find_queue_family_index props eCompute eGraphics (-1) 1)
    as [c| |] eqn:Hc; try discriminate.
  cbn [mbind result_bind rbind] in Hrun.
  destruct (ggml_vk_find_queue_family_index props eTransfer _ (s32 c) 2)
    as [t| |] eqn:Ht; try discriminate.
  cbn [mbind result_bind rbind] in Hrun.
  apply find_queue_family_index_done in Hc.
  destruct Hc as (kc & pc & Hkc & Hpc & _).
  apply find_queue_family_index_done in Ht.
  destruct Ht as (kt & pt & Hkt & Hpt & _).
  unfold family_queue_count in Hrun.
  subst t. rewrite Nat2Z.id in Hrun. rewrite Hpt in Hrun.
  cbn [mbind result_bind rbind] in Hrun.
  pose proof (proj1 (Forall_lookup _ _) Hwf kt pt Hpt) as Hcount.
  simpl in Hcount.
  exists c, (Z.of_nat kt), pt. rewrite Nat2Z.id.
  split; [subst c; apply lookup_lt_Some in Hpc; lia|].
  split; [lia|].
  split; [exact Hpt|]. split; [exact Hcount|].
  unfold VK_TRANSFER_QUEUE_COUNT in Hrun.
  destruct (c =? Z.of_nat kt) eqn:Hsame;
    destruct (queueCount pt <? 2) eqn:Hfew;
    cbn [negb] in Hrun.
  - assert (Hone : queueCount pt = 1) by lia. rewrite Hone in Hrun.
    vm_compute (u32 (1 - 1)) in Hrun.
    cbn [mbind result_bind rbind] in Hrun.
    change (0 <? 0) with false in Hrun.
    inversion Hrun; subst plan; clear Hrun. cbn.
    split; [reflexivity|]. left.
    split; [lia|]. split; [exact Hone|]. split; reflexivity.
  - cbn [mbind result_bind rbind] in Hrun.
    change (0 <? 2) with true in Hrun.
    inversion Hrun; subst plan; clear Hrun. cbn.
    split; [reflexivity|]. right; left.
    split; [lia|]. split; [lia|]. split; reflexivity.
  - assert (Hone : queueCount pt = 1) by lia. rewrite Hone in Hrun.
    change (GGML_ASSERT (0 <? 1)) with (Done tt) in Hrun.
    cbn [mbind result_bind rbind] in Hrun.
    change (0 <? 1) with true in Hrun.
    inversion Hrun; subst plan; clear Hrun. cbn.
    split; [reflexivity|]. right; right; left.
    split; [lia|]. split; [exact Hone|]. split; reflexivity.
  - change (GGML_ASSERT (0 <? 2)) with (Done tt) in Hrun.
    cbn [mbind result_bind rbind] in Hrun.
    change (0 <? 2) with true in Hrun.
    inversion Hrun; subst plan; clear Hrun. cbn.
    split; [reflexivity|]. right; right; right.
    split; [lia|]. split; [lia|]. split; reflexivity.
Qed.

(** X4: every queue that [ggml_vk_init] obtains from the device (the
    compute queue and the two transfer queues) has an index below the
    number of queues requested for its family when the device is
    created. *)
Theorem init_queues_indices_requested :
  forall (props : list vk_queue_family_properties) (plan : vk_device_queues),
    families_wf props ->
    ggml_vk_init_queues props = Done plan ->
    Forall (fun q =>
              exists count,
                In (queue_family_index q, count)
                   (device_queue_create_infos plan)
                /\ 0 <= queue_index q < count)
           (dq_compute_queue plan :: dq_transfer_queues plan).
Proof.
  intros props plan Hwf Hrun.
  destruct (init_queues_done props plan Hwf Hrun)
    as (c & t & pt & Hc & Ht & Hpt & Hcount & Hcq & Hcases).
  assert (Hq : forall f i fl count,
             In (f, count) (device_queue_create_infos plan) ->
             0 <= i < count ->
             exists count',
               In (queue_family_index (ggml_vk_create_queue f i fl), count')
                  (device_queue_create_infos plan)
               /\ 0 <= queue_index (ggml_vk_create_queue f i fl) < count').
  { intros f i fl count Hin Hi. exists count.
    destruct (queue_index_create f i fl) as [-> ->]. auto. }
  destruct Hcases as [(-> & _ & Hinfos & Htq)|[(-> & _ & Hinfos & Htq)
                     |[(_ & _ & Hinfos & Htq)|(_ & _ & Hinfos & Htq)]]];
    rewrite Htq, Hcq; repeat apply Forall_cons_2; try apply Forall_nil_2;
    (eapply Hq; [rewrite Hinfos; simpl; eauto | lia]).
Qed.

Lemma init_queues_indices_requested_witness :
  Forall (fun q =>
            exists count,
              In (queue_family_index q, count) [(1, 1); (2, 2)]
              /\ 0 <= queue_index q < count)
         [ggml_vk_create_queue 1 0 (Z.lor eStageComputeShader eStageTransfer);
          ggml_vk_create_queue 2 0 eStageTransfer;
          ggml_vk_create_queue 2 1 eStageTransfer].
Proof.
  apply (init_queues_indices_requested example_three_families
           (mk_device_queues [(1, 1); (2, 2)]
              (ggml_vk_create_queue 1 0
                 (Z.lor eStageComputeShader eStageTransfer))
              [ggml_vk_create_queue 2 0 eStageTransfer;
               ggml_vk_create_queue 2 1 eStageTransfer])).
  - split; [vm_compute; reflexivity|].
    repeat constructor; vm_compute; congruence.
  - vm_compute. reflexivity.
Defined.

(** X5: when the compute queue and the transfer queues come from the same
    family, the second transfer queue is the compute queue: the same
    device queue (family and index 0), whether the family has one queue or
    more. *)
Theorem init_queues_shared_family_aliases :
  forall (props : list vk_queue_family_properties) (plan : vk_device_queues),
    families_wf props ->
    ggml_vk_init_queues props = Done plan ->
    exists t0 t1,
      dq_transfer_queues plan = [t0; t1]
      /\ (queue_family_index t1 = queue_family_index (dq_compute_queue plan) ->
          queue t1 = queue (dq_compute_queue plan))
      /\ (queue_family_index t1 <> queue_family_index (dq_compute_queue plan) ->
          queue t1 <> queue (dq_compute_queue plan)
          /\ queue t0 <> queue (dq_compute_queue plan)).
Proof.
  intros props plan Hwf Hrun.
  destruct (init_queues_done props plan Hwf Hrun)
    as (c & t & pt & Hc & Ht & Hpt & Hcount & Hcq & Hcases).
  destruct Hcases as [(-> & _ & _ & Htq)|[(-> & _ & _ & Htq)
                     |[(Hne & _ & _ & Htq)|(Hne & _ & _ & Htq)]]];
    rewrite Htq; eexists _, _; (split; [reflexivity|]); rewrite Hcq;
    unfold ggml_vk_create_queue, vk_getQueue; cbn [queue queue_family_index];
    split; intros H; try reflexivity; try congruence; try lia.
Qed.

Lemma init_queues_shared_family_aliases_witness :
  exists t0 t1,
    [ggml_vk_create_queue 0 1 eStageTransfer;
     ggml_vk_create_queue 0 0 eStageTransfer] = [t0; t1]
    /\ (queue_family_index t1 = 0 -> queue t1 = vk_getQueue 0 0)
    /\ (queue_family_index t1 <> 0 ->
        queue t1 <> vk_getQueue 0 0 /\ queue t0 <> vk_getQueue 0 0).
Proof.
  apply (init_queues_shared_family_aliases example_two_queues
           (mk_device_queues [(0, 3)]
              (ggml_vk_create_queue 0 0
                 (Z.lor eStageComputeShader eStageTransfer))
              [ggml_vk_create_queue 0 1 eStageTransfer;
               ggml_vk_create_queue 0 0 eStageTransfer])).
  - split; [vm_compute; reflexivity|].
    repeat constructor; vm_compute; congruence.
  - vm_compute. reflexivity.
Defined.

(** X6: the queues [ggml_vk_init] requests of the device.  With separate
    families: one compute queue and as many transfer queues as the
    transfer family has, at most two.  With a shared family: one queue
    when the family has a single queue, and three whenever it has two or
    more; so a shared family of exactly two queues is asked for three. *)
Theorem init_queues_requests :
  forall (props : list vk_queue_family_properties) (plan : vk_device_queues),
    families_wf props ->
    ggml_vk_init_queues props = Done plan ->
    exists t pt,
      props !! Z.to_nat t = Some pt
      /\ Forall (fun q => queue_family_index q = t
                          \/ q = dq_compute_queue plan)
                (dq_transfer_queues plan)
      /\ device_queue_create_infos plan
         = if queue_family_index (dq_compute_queue plan) =? t then
             [(t, if queueCount pt =? 1 then 1 else 3)]
           else
             [(queue_family_index (dq_compute_queue plan), 1);
              (t, Z.min 2 (queueCount pt))].
Proof.
  intros props plan Hwf Hrun.
  destruct (init_queues_done props plan Hwf Hrun)
    as (c & t & pt & Hc & Ht & Hpt & Hcount & Hcq & Hcases).
  exists t, pt. split; [exact Hpt|].
  assert (Hfam : queue_family_index (dq_compute_queue plan) = c).
  { rewrite Hcq. reflexivity. }
  rewrite Hfam.
  destruct Hcases as [(-> & Hn & Hinfos & Htq)|[(-> & Hn & Hinfos & Htq)
                     |[(Hne & Hn & Hinfos & Htq)|(Hne & Hn & Hinfos & Htq)]]];
    rewrite Htq, Hinfos.
  - split; [repeat constructor; right; reflexivity|].
    rewrite Z.eqb_refl, Hn. reflexivity.
  - split; [repeat constructor; left; reflexivity|].
    rewrite Z.eqb_refl.
    destruct (queueCount pt =? 1) eqn:E; [lia | reflexivity].
  - split; [repeat constructor; left; reflexivity|].
    destruct (c =? t) eqn:E; [lia|]. rewrite Hn. reflexivity.
  - split; [repeat constructor; left; reflexivity|].
    destruct (c =? t) eqn:E; [lia|].
    rewrite Z.min_l by lia. reflexivity.
Qed.

Lemma init_queues_requests_witness :
  exists t pt,
    example_two_queues !! Z.to_nat t = Some pt
    /\ Forall (fun q => queue_family_index q = t
                        \/ q = ggml_vk_create_queue 0 0
                                 (Z.lor eStageComputeShader eStageTransfer))
              [ggml_vk_create_queue 0 1 eStageTransfer;
               ggml_vk_create_queue 0 0 eStageTransfer]
    /\ [(0, 3)]
       = if 0 =? t then [(t, if queueCount pt =? 1 then 1 else 3)]
         else [(0, 1); (t, Z.min 2 (queueCount pt))].
Proof.
  apply (init_queues_requests example_two_queues
           (mk_device_queues [(0, 3)]
              (ggml_vk_create_queue 0 0
                 (Z.lor eStageComputeShader eStageTransfer))
              [ggml_vk_create_queue 0 1 eStageTransfer;
               ggml_vk_create_queue 0 0 eStageTransfer])).
  - split; [vm_compute; reflexivity|].
    repeat constructor; vm_compute; congruence.
  - vm_compute. reflexivity.
Defined.

(** ** Pipelines that exist after [ggml_vk_init] *)

(** X7: on a device without fp16 support [ggml_vk_init] creates none of
    the f16 pipelines, yet the selection functions still return them:
    every pipeline [ggml_vk_guess_matmul_pipeline] chooses for a 16-bit
    first operand, and every pipeline
    [ggml_vk_get_dequantize_mul_mat_vec] returns for an f16 second operand,
    is a default-constructed global. *)
Theorem init_without_fp16_leaves_f16_pipelines_default :
  forall (multi_ok : bool) (min_align : Z),
    let st := init_store false multi_ok min_align in
    (forall bit16_y m n aligned pv,
        ggml_vk_guess_matmul_pipeline true bit16_y m n aligned = Done pv ->
        st pv = vk_pipeline_default)
    /\ (forall t pv,
          ggml_vk_get_dequantize_mul_mat_vec t true = Some pv ->
          st pv = vk_pipeline_default).
Proof.
  intros multi_ok min_align st. subst st. split.
  - intros y m n aligned pv H.
    unfold ggml_vk_guess_matmul_pipeline in H.
    destruct y, aligned, ((m <=? 32) || (n <=? 32)),
      ((m <=? 64) || (n <=? 64)); simpl in H;
      inversion H; subst pv; destruct multi_ok; vm_compute; reflexivity.
  - intros t pv H.
    destruct t; simpl in H; inversion H; subst pv;
      destruct multi_ok; vm_compute; reflexivity.
Qed.

(** X8: whatever the device supports, [ggml_vk_init] creates every
    pipeline that the selection functions return for f32 operands: the
    matmul pipeline chosen for two 32-bit operands, every pipeline of
    [ggml_vk_get_to_fp16], every pipeline of
    [ggml_vk_get_dequantize_mul_mat_vec] for an f32 second operand, and
    the split-k reduction; with fp16 support it creates all pipelines. *)
Theorem init_creates_selected_pipelines :
  forall (fp16 multi_ok : bool) (min_align : Z),
    let st := init_store fp16 multi_ok min_align in
    (forall m n aligned pv,
        ggml_vk_guess_matmul_pipeline false false m n aligned = Done pv ->
        pipeline_created (st pv) /\ parameter_count (st pv) = 3)
    /\ (forall t pv,
          ggml_vk_get_to_fp16 t = Some pv ->
          pipeline_created (st pv) /\ parameter_count (st pv) = 2)
    /\ (forall t pv,
          ggml_vk_get_dequantize_mul_mat_vec t false = Some pv ->
          pipeline_created (st pv) /\ parameter_count (st pv) = 3)
    /\ (pipeline_created (st vk_pipeline_matmul_split_k_reduce)
        /\ parameter_count (st vk_pipeline_matmul_split_k_reduce) = 1)
    /\ (fp16 = true -> forall pv, pipeline_created (st pv)).
Proof.
  intros fp16 multi_ok min_align st. subst st.
  assert (Hev : forall pv k,
             (let p := init_store fp16 multi_ok min_align pv in
              negb (String.eqb (name p) EmptyString)
              && (parameter_count p =? k)
              && (1 <=? k)
              && (0 <? (wg_denoms p).1.1) && (0 <? (wg_denoms p).1.2)
              && (0 <? (wg_denoms p).2)) = true ->
             pipeline_created (init_store fp16 multi_ok min_align pv)
             /\ parameter_count (init_store fp16 multi_ok min_align pv) = k).
  { intros pv k H. cbv zeta in H.
    rewrite !andb_true_iff, negb_true_iff, String.eqb_neq in H.
    unfold pipeline_created. repeat split; try tauto; lia. }
  split; [|split; [|split; [|split]]].
  - intros m n aligned pv H.
    unfold ggml_vk_guess_matmul_pipeline in H.
    destruct aligned, ((m <=? 32) || (n <=? 32)),
      ((m <=? 64) || (n <=? 64)); simpl in H;
      inversion H; subst pv; apply Hev;
      destruct fp16, multi_ok; vm_compute; reflexivity.
  - intros t pv H.
    destruct t; simpl in H; inversion H; subst pv; apply Hev;
      destruct fp16, multi_ok; vm_compute; reflexivity.
  - intros t pv H.
    destruct t; simpl in H; inversion H; subst pv; apply Hev;
      destruct fp16, multi_ok; vm_compute; reflexivity.
  - apply Hev. destruct fp16, multi_ok; vm_compute; reflexivity.
  - intros -> pv.
    assert (Hk : exists k,
               (let p := init_store true multi_ok min_align pv in
                negb (String.eqb (name p) EmptyString)
                && (parameter_count p =? k)
                && (1 <=? k)
                && (0 <? (wg_denoms p).1.1) && (0 <? (wg_denoms p).1.2)
                && (0 <? (wg_denoms p).2)) = true).
    { destruct pv, multi_ok;
        first [ exists 3; vm_compute; reflexivity
              | exists 2; vm_compute; reflexivity
              | exists 1; vm_compute; reflexivity ]. }
    destruct Hk as (k & Hk). apply (Hev pv k Hk).
Qed.

(** ** Command buffers and semaphores *)

Lemma create_cmd_buffer_reuse q :
  0 <= cmd_buffer_idx q < Z.of_nat (length (cmd_buffers q)) ->
  Z.of_nat (length (cmd_buffers q)) < 2 ^ 32 ->
  ggml_vk_create_cmd_buffer q
  = (nth (Z.to_nat (cmd_buffer_idx q)) (cmd_buffers q) 0,
     mk_vk_queue (queue_family_index q) (queue q) (cmd_buffer_idx q + 1)
                 (cmd_buffers q) (semaphore_idx q) (semaphores q)
                 (stage_flags q)).
Proof.
  intros Hidx Hlen. unfold ggml_vk_create_cmd_buffer.
  destruct (cmd_buffer_idx q <? Z.of_nat (length (cmd_buffers q))) eqn:E;
    [|lia].
  rewrite u32_small by lia. reflexivity.
Qed.

Lemma create_cmd_buffers_reuse k :
  forall q,
    0 <= cmd_buffer_idx q ->
    cmd_buffer_idx q + Z.of_nat k <= Z.of_nat (length (cmd_buffers q)) ->
    Z.of_nat (length (cmd_buffers q)) < 2 ^ 32 ->
    create_cmd_buffers k q
    = (take k (drop (Z.to_nat (cmd_buffer_idx q)) (cmd_buffers q)),
       mk_vk_queue (queue_family_index q) (queue q)
                   (cmd_buffer_idx q + Z.of_nat k)
                   (cmd_buffers q) (semaphore_idx q) (semaphores q)
                   (stage_flags q)).
Proof.
  induction k as [|k IH]; intros q Hidx Hk Hlen.
  - simpl. rewrite Z.add_0_r. destruct q; reflexivity.
  - cbn [create_cmd_buffers].
    rewrite create_cmd_buffer_reuse by lia.
    rewrite IH; cbn [cmd_buffer_idx cmd_buffers queue_family_index queue
                     semaphore_idx semaphores stage_flags]; try lia.
    f_equal.
    + assert (Hlt : (Z.to_nat (cmd_buffer_idx q) < length (cmd_buffers q))%nat)
        by lia.
      destruct (lookup_lt_is_Some_2 _ _ Hlt) as [x Hx].
      rewrite (nth_lookup_Some _ _ 0 _ Hx).
      rewrite (drop_S _ _ _ Hx). cbn [take].
      replace (Z.to_nat (cmd_buffer_idx q + 1))
        with (S (Z.to_nat (cmd_buffer_idx q))) by lia.
      reflexivity.
    + f_equal. lia.
Qed.

(** X9: after [ggml_vk_queue_cleanup], the next [k] calls of
    [ggml_vk_create_cmd_buffer], for [k] up to the number of command
    buffers the queue holds, return the queue's first [k] command buffers
    in order and allocate none. *)
Theorem cmd_buffers_reused_after_cleanup :
  forall (q : vk_queue) (k : nat),
    (k <= length (cmd_buffers q))%nat ->
    Z.of_nat (length (cmd_buffers q)) < 2 ^ 32 ->
    let '(bufs, q') := create_cmd_buffers k (ggml_vk_queue_cleanup q) in
    bufs = take k (cmd_buffers q)
    /\ cmd_buffers q' = cmd_buffers q
    /\ cmd_buffer_idx q' = Z.of_nat k.
Proof.
  intros q k Hk Hlen.
  rewrite create_cmd_buffers_reuse;
    cbn [ggml_vk_queue_cleanup cmd_buffer_idx cmd_buffers]; try lia.
  cbn [Z.to_nat drop]. split; [reflexivity|]. split; [reflexivity|]. lia.
Qed.

Lemma cmd_buffers_reused_after_cleanup_witness :
  let '(bufs, q') :=
    create_cmd_buffers 2
      (ggml_vk_queue_cleanup (snd (create_cmd_buffers 3 example_queue))) in
  bufs = take 2 (cmd_buffers (snd (create_cmd_buffers 3 example_queue)))
  /\ cmd_buffers q' = cmd_buffers (snd (create_cmd_buffers 3 example_queue))
  /\ cmd_buffer_idx q' = Z.of_nat 2.
Proof.
  apply (cmd_buffers_reused_after_cleanup
           (snd (create_cmd_buffers 3 example_queue)) 2).
  - vm_compute. lia.
  - vm_compute. reflexivity.
Defined.

Lemma seq_snoc_map (n : nat) :
  map Z.of_nat (seq 0 n) ++ [Z.of_nat n] = map Z.of_nat (seq 0 (S n)).
Proof.
  rewrite seq_S, map_app. reflexivity.
Qed.

Lemma create_semaphore_wf q :
  semaphores_wf q ->
  Z.of_nat (length (semaphores q)) < 2 ^ 32 - 1 ->
  let '(sem, q') := ggml_vk_create_semaphore q in
  sem = semaphore_idx q
  /\ semaphores_wf q'
  /\ semaphore_idx q' = semaphore_idx q + 1
  /\ length (semaphores q')
     = Nat.max (length (semaphores q)) (Z.to_nat (semaphore_idx q + 1))
  /\ cmd_buffers q' = cmd_buffers q /\ cmd_buffer_idx q' = cmd_buffer_idx q.
Proof.
  intros [Hnamed Hidx] Hlen. unfold ggml_vk_create_semaphore.
  destruct (semaphore_idx q <? Z.of_nat (length (semaphores q))) eqn:E.
  - rewrite u32_small by lia.
    split.
    + rewrite Hnamed.
      assert (Hlt : (Z.to_nat (semaphore_idx q)
                     < length (semaphores q))%nat) by lia.
      change 0 with (Z.of_nat 0) at 1.
      rewrite map_nth. rewrite seq_nth by exact Hlt. lia.
    + unfold semaphores_wf.
      split; [|split; [|split; [|split]]]; cbn; try reflexivity; try lia.
      split; [exact Hnamed | lia].
  - assert (Heq : semaphore_idx q = Z.of_nat (length (semaphores q))) by lia.
    rewrite u32_small by lia.
    split; [lia|]. unfold semaphores_wf.
    split; [|split; [|split; [|split]]];
      cbn [semaphores semaphore_idx cmd_buffers cmd_buffer_idx];
      try reflexivity; try lia.
    + split.
      * rewrite length_app. cbn [length].
        rewrite Nat.add_1_r, <- seq_snoc_map, <- Hnamed. reflexivity.
      * rewrite length_app. cbn [length]. lia.
    + rewrite length_app. cbn [length]. lia.
Qed.

Lemma create_semaphores_wf k :
  forall q,
    semaphores_wf q ->
    Z.of_nat (length (semaphores q)) + Z.of_nat k < 2 ^ 32 ->
    let '(sems, q') := create_semaphores k q in
    sems = map (fun i => semaphore_idx q + Z.of_nat i) (seq 0 k)
    /\ semaphores_wf q'
    /\ semaphore_idx q' = semaphore_idx q + Z.of_nat k
    /\ length (semaphores q')
       = Nat.max (length (semaphores q))
                 (Z.to_nat (semaphore_idx q + Z.of_nat k)).
Proof.
  induction k as [|k IH]; intros q Hwf Hlen.
  - cbn [create_semaphores seq map]. destruct Hwf as [Hn Hi].
    split; [reflexivity|]. split; [split; assumption|].
    split; [lia|]. lia.
  - cbn [create_semaphores].
    pose proof (create_semaphore_wf q Hwf) as H1.
    destruct (ggml_vk_create_semaphore q) as [sem q1].
    destruct H1 as (Hsem & Hwf1 & Hidx1 & Hlen1 & _); [lia|].
    specialize (IH q1 Hwf1).
    destruct (create_semaphores k q1) as [sems q2].
    destruct Hwf as [Hn Hi].
    destruct IH as (Hsems & Hwf2 & Hidx2 & Hlen2); [lia|].
    split.
    + rewrite Hsems, Hsem. cbn [seq map]. rewrite Z.add_0_r. f_equal.
      rewrite <- seq_shift, map_map. apply map_ext. intros i. lia.
    + split; [exact Hwf2|]. split; [lia|]. lia.
Qed.

(** X10: between two cleanups the semaphores handed out by
    [ggml_vk_create_semaphore] are pairwise distinct, and the queue's
    vector grows only as far as the number handed out exceeds what it
    already holds. *)
Theorem semaphores_distinct_until_cleanup :
  forall (q : vk_queue) (k : nat),
    semaphores_wf q ->
    Z.of_nat (length (semaphores q)) + Z.of_nat k < 2 ^ 32 ->
    let '(sems, q') := create_semaphores k (ggml_vk_queue_cleanup q) in
    NoDup sems
    /\ length sems = k
    /\ length (semaphores q') = Nat.max (length (semaphores q)) k
    /\ semaphores_wf q'.
Proof.
  intros q k [Hn Hi] Hlen.
  pose proof (create_semaphores_wf k (ggml_vk_queue_cleanup q)) as H.
  destruct (create_semaphores k (ggml_vk_queue_cleanup q)) as [sems q'].
  unfold semaphores_wf at 1 in H.
  cbn [ggml_vk_queue_cleanup semaphores semaphore_idx] in H.
  destruct H as (Hsems & Hwf & _ & Hlen'); [split; [exact Hn | lia] | lia |].
  split; [|split; [|split]].
  - rewrite Hsems. apply NoDup_fmap_2; [|apply NoDup_seq].
    intros a b Hab. lia.
  - rewrite Hsems, length_map, length_seq. reflexivity.
  - rewrite Hlen'. f_equal. lia.
  - exact Hwf.
Qed.

Lemma semaphores_distinct_until_cleanup_witness :
  let '(sems, q') :=
    create_semaphores 3
      (ggml_vk_queue_cleanup (snd (create_semaphores 2 example_queue))) in
  NoDup sems
  /\ length sems = 3%nat
  /\ length (semaphores q')
     = Nat.max (length (semaphores (snd (create_semaphores 2 example_queue))))
               3
  /\ semaphores_wf q'.
Proof.
  apply (semaphores_distinct_until_cleanup
           (snd (create_semaphores 2 example_queue)) 3).
  - split; vm_compute; [reflexivity | split; congruence].
  - vm_compute. reflexivity.
Defined.

(** ** More on the buffer pool *)

Lemma first_empty_slot_Some slots :
  forall base i,
    first_empty_slot base slots = Some i ->
    exists k b,
      i = (base + k)%nat /\ slots !! k = Some b /\ size b = 0
      /\ forall j b', (j < k)%nat -> slots !! j = Some b' -> size b' <> 0.
Proof.
  induction slots as [|b rest IH]; intros base i H; simpl in H;
    [discriminate|].
  destruct (size b =? 0) eqn:E.
  - inversion H; subst i. exists 0%nat, b.
    split; [lia|]. split; [reflexivity|]. split; [lia|].
    intros j b' Hj; lia.
  - destruct (IH _ _ H) as (k & b0 & Hi & Hk & Hz & Hbefore).
    exists (S k), b0.
    split; [lia|]. split; [exact Hk|]. split; [exact Hz|].
    intros [|j] b' Hj Hl; simpl in Hl.
    + inversion Hl; subst b'. lia.
    + apply (Hbefore j b'); [lia | exact Hl].
Qed.

Lemma first_empty_slot_None slots :
  forall base,
    first_empty_slot base slots = None
    <-> forall k b, slots !! k = Some b -> size b <> 0.
Proof.
  induction slots as [|b rest IH]; intros base; simpl.
  - split; [intros _ k b H; destruct k; discriminate | reflexivity].
  - destruct (size b =? 0) eqn:E.
    + split; [discriminate|]. intros H.
      specialize (H 0%nat b eq_refl). lia.
    + rewrite IH. split.
      * intros H [|k] q Hq; simpl in Hq.
        -- inversion Hq; subst q. lia.
        -- apply (H k q Hq).
      * intros H k q Hq. apply (H (S k) q Hq).
Qed.

Lemma pool_take_all (pool : list vk_buffer) :
  length pool = Z.to_nat MAX_VK_BUFFERS ->
  take (Z.to_nat MAX_VK_BUFFERS) pool = pool.
Proof.
  intros H. apply take_ge. lia.
Qed.

Lemma destroy_buffer_live w buf :
  ~ In (buffer buf) (live (snd (ggml_vk_destroy_buffer w buf)))
  /\ next_handle (snd (ggml_vk_destroy_buffer w buf)) = next_handle w
  /\ next_addr (snd (ggml_vk_destroy_buffer w buf)) = next_addr w
  /\ size (fst (ggml_vk_destroy_buffer w buf)) = 0
  /\ buffer (fst (ggml_vk_destroy_buffer w buf)) = buffer buf.
Proof.
  unfold ggml_vk_destroy_buffer. cbn [fst snd size buffer].
  assert (Hfs : forall w0 sb,
             (forall x, In x (live (free_staging w0 sb)) -> In x (live w0))
             /\ next_handle (free_staging w0 sb) = next_handle w0
             /\ next_addr (free_staging w0 sb) = next_addr w0).
  { intros w0 [b|]; cbn; [|tauto].
    split; [|split; reflexivity].
    intros x Hx. unfold remove_handle in Hx.
    apply list_elem_of_In, list_elem_of_filter in Hx.
    apply list_elem_of_In. tauto. }
  destruct (Hfs (free_staging (free_handle w (buffer buf)) (sb_write buf))
                (sb_read buf)) as (H1 & H2 & H3).
  destruct (Hfs (free_handle w (buffer buf)) (sb_write buf))
    as (H4 & H5 & H6).
  split; [|split; [|split; [|split]]]; try reflexivity.
  - intros Hin. apply H1, H4 in Hin. cbn in Hin. unfold remove_handle in Hin.
    apply list_elem_of_In, list_elem_of_filter in Hin. tauto.
  - rewrite H2, H5. reflexivity.
  - rewrite H3, H6. reflexivity.
Qed.

(** X11: [ggml_vk_pool_free] parks the buffer in the first empty slot of
    the pool, with its owning queue family reset to
    [VK_QUEUE_FAMILY_IGNORED], and leaves the device untouched; when no
    slot is empty it destroys the buffer instead and leaves the pool as it
    was. *)
Theorem pool_free_parks_or_destroys :
  forall (w : vk_world) (pool : list vk_buffer) (buf : vk_buffer),
    length pool = Z.to_nat MAX_VK_BUFFERS ->
    (forall i b,
        pool !! i = Some b -> size b = 0 ->
        (forall j b', (j < i)%nat -> pool !! j = Some b' -> size b' <> 0) ->
        ggml_vk_pool_free w pool buf
        = (<[i := with_qf_owner buf VK_QUEUE_FAMILY_IGNORED]> pool, w))
    /\ ((forall j b, pool !! j = Some b -> size b <> 0) ->
        ggml_vk_pool_free w pool buf
        = (pool, snd (ggml_vk_destroy_buffer w buf))
        /\ ~ In (buffer buf) (live (snd (ggml_vk_pool_free w pool buf)))).
Proof.
  intros w pool buf Hlen. unfold ggml_vk_pool_free.
  rewrite (pool_take_all pool Hlen). split.
  - intros i b Hi Hz Hbefore.
    destruct (first_empty_slot 0 pool) as [i'|] eqn:E.
    + apply first_empty_slot_Some in E.
      destruct E as (k & b0 & -> & Hk & Hz0 & Hb0). cbn [Nat.add].
      destruct (Nat.lt_trichotomy i k) as [Hlt|[->|Hgt]].
      * exfalso. apply (Hb0 i b Hlt Hi Hz).
      * reflexivity.
      * exfalso. apply (Hbefore k b0 Hgt Hk Hz0).
    + exfalso. apply (proj1 (first_empty_slot_None pool 0%nat) E i b Hi Hz).
  - intros Hfull.
    destruct (first_empty_slot 0 pool) as [i'|] eqn:E.
    + apply first_empty_slot_Some in E.
      destruct E as (k & b0 & _ & Hk & Hz0 & _).
      exfalso. apply (Hfull k b0 Hk Hz0).
    + split; [reflexivity|]. cbn [snd]. apply destroy_buffer_live.
Qed.

Lemma pool_free_parks_or_destroys_witness :
  (forall i b,
      empty_pool !! i = Some b -> size b = 0 ->
      (forall j b', (j < i)%nat -> empty_pool !! j = Some b' ->
                    size b' <> 0) ->
      ggml_vk_pool_free (snd example_pool_world) empty_pool
                        (fst example_pool_world)
      = (<[i := with_qf_owner (fst example_pool_world)
                              VK_QUEUE_FAMILY_IGNORED]> empty_pool,
         snd example_pool_world))
  /\ ((forall j b, empty_pool !! j = Some b -> size b <> 0) ->
      ggml_vk_pool_free (snd example_pool_world) empty_pool
                        (fst example_pool_world)
      = (empty_pool,
         snd (ggml_vk_destroy_buffer (snd example_pool_world)
                                     (fst example_pool_world)))
      /\ ~ In (buffer (fst example_pool_world))
              (live (snd (ggml_vk_pool_free (snd example_pool_world)
                            empty_pool (fst example_pool_world))))).
Proof.
  apply (pool_free_parks_or_destroys (snd example_pool_world) empty_pool
           (fst example_pool_world)).
  vm_compute. reflexivity.
Defined.

(** The two ways [ggml_vk_pool_malloc] returns: the best-fitting parked
    buffer, or a fresh buffer after the largest parked one, if any, has
    been destroyed. *)
Lemma pool_malloc_cases w pool sz alloc_flags :
  pool_wf pool ->
  (exists i b,
     pool !! i = Some b /\ slot_fits sz b
     /\ (forall j b', pool !! j = Some b' -> slot_fits sz b' ->
                      size b <= size b')
     /\ ggml_vk_pool_malloc w pool sz alloc_flags
        = (b, <[i := with_size b 0]> pool, w))
  \/ ((forall j b, pool !! j = Some b -> ~ slot_fits sz b)
      /\ exists pool1 w1,
           ((pool1 = pool /\ w1 = w)
            \/ exists i b,
                 pool !! i = Some b /\ slot_free b
                 /\ pool1 = <[i := fst (ggml_vk_destroy_buffer w b)]> pool
                 /\ w1 = snd (ggml_vk_destroy_buffer w b))
           /\ ggml_vk_pool_malloc w pool sz alloc_flags
              = (fst (ggml_vk_create_buffer w1 sz
                        (Z.lor eDeviceLocal alloc_flags)),
                 pool1,
                 snd (ggml_vk_create_buffer w1 sz
                        (Z.lor eDeviceLocal alloc_flags)))).
Proof.
  intros Hwf.
  destruct (pool_scan_whole sz pool Hwf) as [Hbest Hworst].
  unfold ggml_vk_pool_malloc.
  set (s := pool_scan sz 0 (take (Z.to_nat MAX_VK_BUFFERS) pool)
                      pool_scan_init) in *.
  destruct Hbest as [(Hbi & _ & Hnone)|(b & Hi & Hlk & Hfit & _ & Hmin)].
  - right. split; [exact Hnone|].
    rewrite Hbi, Z.eqb_refl. cbn [negb].
    destruct Hworst as [(Hwi & _ & _)|(b & Hi & Hlk & Hfree & _ & _)].
    + rewrite Hwi, Z.eqb_refl. cbn [negb].
      exists pool, w. split; [left; split; reflexivity|].
      destruct (ggml_vk_create_buffer w sz (Z.lor eDeviceLocal alloc_flags));
        reflexivity.
    + rewrite (proj2 (Z.eqb_neq (worst_i s) (-1))) by lia. cbn [negb].
      rewrite (nth_lookup_Some _ _ _ _ Hlk).
      exists (<[Z.to_nat (worst_i s) := fst (ggml_vk_destroy_buffer w b)]> pool),
             (snd (ggml_vk_destroy_buffer w b)).
      split.
      * right. exists (Z.to_nat (worst_i s)), b.
        split; [exact Hlk|]. split; [exact Hfree|]. split; reflexivity.
      * destruct (ggml_vk_destroy_buffer w b) as [b' w'] eqn:Ed.
        cbn [fst snd].
        destruct (ggml_vk_create_buffer w' sz
                    (Z.lor eDeviceLocal alloc_flags)); reflexivity.
  - left. exists (Z.to_nat (best_i s)), b.
    split; [exact Hlk|]. split; [exact Hfit|]. split; [exact Hmin|].
    rewrite (proj2 (Z.eqb_neq (best_i s) (-1))) by lia. cbn [negb].
    rewrite (nth_lookup_Some _ _ _ _ Hlk). reflexivity.
Qed.

Lemma create_buffer_facts w sz flags :
  buffer (fst (ggml_vk_create_buffer w sz flags)) = next_handle w
  /\ size (fst (ggml_vk_create_buffer w sz flags)) = sz
  /\ memory_property_flags (fst (ggml_vk_create_buffer w sz flags)) = flags
  /\ qf_owner (fst (ggml_vk_create_buffer w sz flags))
     = VK_QUEUE_FAMILY_IGNORED
  /\ sb_write (fst (ggml_vk_create_buffer w sz flags)) = None
  /\ sb_read (fst (ggml_vk_create_buffer w sz flags)) = None
  /\ next_handle (snd (ggml_vk_create_buffer w sz flags)) = next_handle w + 1
  /\ live (snd (ggml_vk_create_buffer w sz flags))
     = live w ++ [next_handle w]
  /\ host_mem (snd (ggml_vk_create_buffer w sz flags)) = host_mem w.
Proof.
  unfold ggml_vk_create_buffer.
  destruct (has_flag flags eHostVisible); cbn; repeat split; reflexivity.
Qed.

Lemma pool_wf_insert pool i b :
  pool_wf pool -> 0 <= size b < SIZE_MAX -> pool_wf (<[i := b]> pool).
Proof.
  intros [Hlen Hall] Hb. split.
  - rewrite length_insert. exact Hlen.
  - apply Forall_insert; assumption.
Qed.

(** X12: when the pool has an empty slot, a buffer given back with
    [ggml_vk_pool_free] serves the next [ggml_vk_pool_malloc] that it
    fits: the request is answered from the pool, by a buffer at least as
    large as asked and no larger than the one given back, without any
    buffer being created or destroyed; when no other parked buffer fits,
    the buffer returned is the one given back, its owner reset. *)
Theorem pool_free_then_malloc_reuses :
  forall (w : vk_world) (pool : list vk_buffer) (buf : vk_buffer)
         (sz alloc_flags : Z),
    pool_wf pool ->
    (exists i b, pool !! i = Some b /\ size b = 0) ->
    0 < size buf < SIZE_MAX -> sz <= size buf ->
    let '(pool1, w1) := ggml_vk_pool_free w pool buf in
    let '(got, pool2, w2) := ggml_vk_pool_malloc w1 pool1 sz alloc_flags in
    w2 = w
    /\ sz <= size got <= size buf
    /\ length pool2 = length pool
    /\ ((forall j b, pool !! j = Some b -> ~ slot_fits sz b) ->
        got = with_qf_owner buf VK_QUEUE_FAMILY_IGNORED).
Proof.
  intros w pool buf sz alloc_flags Hwf (i0 & b0 & Hi0 & Hz0) Hsize Hsz.
  pose proof Hwf as [Hlen Hall].
  unfold ggml_vk_pool_free. rewrite (pool_take_all pool Hlen).
  destruct (first_empty_slot 0 pool) as [i|] eqn:E;
    [|exfalso; apply (proj1 (first_empty_slot_None pool 0%nat) E i0 b0 Hi0 Hz0)].
  apply first_empty_slot_Some in E.
  destruct E as (k & bk & -> & Hk & Hzk & _). cbn [Nat.add].
  set (parked := with_qf_owner buf VK_QUEUE_FAMILY_IGNORED).
  set (pool1 := <[k := parked]> pool).
  assert (Hwf1 : pool_wf pool1)
    by (apply pool_wf_insert; [exact Hwf | cbn; lia]).
  assert (Hparked : pool1 !! k = Some parked).
  { apply list_lookup_insert_eq. apply lookup_lt_Some in Hk. exact Hk. }
  assert (Hfitp : slot_fits sz parked) by (split; cbn; lia).
  destruct (pool_malloc_cases w pool1 sz alloc_flags Hwf1)
    as [(i & b & Hi & Hfit & Hmin & ->)|(Hnone & _)];
    [|exfalso; apply (Hnone k parked Hparked Hfitp)].
  split; [reflexivity|].
  split; [split; [apply Hfit | apply (Hmin k parked Hparked Hfitp)]|].
  split; [unfold pool1; rewrite !length_insert; reflexivity|].
  intros Hother.
  destruct (decide (i = k)) as [->|Hne]; [congruence|].
  exfalso. unfold pool1 in Hi.
  rewrite list_lookup_insert_ne in Hi by congruence.
  apply (Hother i b Hi Hfit).
Qed.

Lemma pool_free_then_malloc_reuses_witness :
  let '(pool1, w1) :=
    ggml_vk_pool_free (snd example_pool_world) empty_pool
                      (fst example_pool_world) in
  let '(got, pool2, w2) := ggml_vk_pool_malloc w1 pool1 8 0 in
  w2 = snd example_pool_world
  /\ 8 <= size got <= size (fst example_pool_world)
  /\ length pool2 = length empty_pool
  /\ ((forall j b, empty_pool !! j = Some b -> ~ slot_fits 8 b) ->
      got = with_qf_owner (fst example_pool_world) VK_QUEUE_FAMILY_IGNORED).
Proof.
  apply (pool_free_then_malloc_reuses (snd example_pool_world) empty_pool
           (fst example_pool_world) 8 0).
  - split; [vm_compute; reflexivity|].
    apply Forall_replicate. vm_compute. split; congruence.
  - exists 0%nat, empty_slot. split; reflexivity.
  - vm_compute. split; reflexivity.
  - vm_compute. congruence.
Defined.

Lemma handles_wf_insert_empty w w' pool i b :
  pool_handles_wf w pool -> size b = 0 ->
  next_handle w <= next_handle w' ->
  pool_handles_wf w' (<[i := b]> pool)
  /\ forall j b', <[i := b]> pool !! j = Some b' -> 0 < size b' ->
                  j <> i /\ pool !! j = Some b'.
Proof.
  intros [Hbelow Hdist] Hz Hnext.
  assert (Hold : forall j b', <[i := b]> pool !! j = Some b' -> 0 < size b' ->
                              j <> i /\ pool !! j = Some b').
  { intros j b' Hj Hpos.
    destruct (decide (j = i)) as [->|Hne].
    - exfalso.
      assert (Hlt : (i < length pool)%nat).
      { apply lookup_lt_Some in Hj. rewrite length_insert in Hj. exact Hj. }
      rewrite list_lookup_insert_eq in Hj by exact Hlt.
      inversion Hj; subst b'. lia.
    - rewrite list_lookup_insert_ne in Hj by congruence. auto. }
  split; [|exact Hold]. split.
  - intros j b' Hj Hpos. destruct (Hold j b' Hj Hpos) as [_ Hj'].
    specialize (Hbelow j b' Hj' Hpos). lia.
  - intros j1 j2 b1 b2 Hne H1 H2 Hp1 Hp2.
    destruct (Hold j1 b1 H1 Hp1) as [_ H1'].
    destruct (Hold j2 b2 H2 Hp2) as [_ H2'].
    exact (Hdist j1 j2 b1 b2 Hne H1' H2' Hp1 Hp2).
Qed.

(** What one [ggml_vk_pool_malloc] keeps: the pool stays well formed, and
    the buffer returned is a buffer of the device that is no longer
    parked. *)
Lemma pool_malloc_keeps_handles w pool sz alloc_flags :
  pool_wf pool -> pool_handles_wf w pool ->
  let '(b, pool', w') := ggml_vk_pool_malloc w pool sz alloc_flags in
  pool_wf pool' /\ pool_handles_wf w' pool'
  /\ buffer b < next_handle w'
  /\ (forall j b', pool' !! j = Some b' -> 0 < size b' ->
                   buffer b' <> buffer b).
Proof.
  intros Hwf Hh.
  destruct (pool_malloc_cases w pool sz alloc_flags Hwf)
    as [(i & b & Hi & Hfit & _ & ->)
       |(_ & pool1 & w1 & Hpre & ->)].
  - destruct Hfit as [Hpos _].
    destruct (handles_wf_insert_empty w w pool i (with_size b 0) Hh eq_refl
                (Z.le_refl _)) as [Hh' Hold].
    split; [apply pool_wf_insert; [exact Hwf | cbn; unfold SIZE_MAX; lia]|].
    split; [exact Hh'|].
    destruct Hh as [Hbelow Hdist].
    split; [apply (Hbelow i b Hi Hpos)|].
    intros j b' Hj Hp. destruct (Hold j b' Hj Hp) as [Hne Hj'].
    apply (Hdist j i b' b Hne Hj' Hi Hp Hpos).
  - destruct (create_buffer_facts w1 sz (Z.lor eDeviceLocal alloc_flags))
      as (Hb & _ & _ & _ & _ & _ & Hnext & _).
    rewrite Hb, Hnext.
    destruct Hpre as [[-> ->]|(i & b & Hi & Hfree & -> & ->)].
    + split; [exact Hwf|].
      destruct Hh as [Hbelow Hdist].
      split; [split|split].
      * intros j b' Hj Hp. specialize (Hbelow j b' Hj Hp). lia.
      * exact Hdist.
      * lia.
      * intros j b' Hj Hp. specialize (Hbelow j b' Hj Hp). lia.
    + destruct (destroy_buffer_live w b) as (_ & Hn & _ & Hz & _).
      rewrite Hn.
      destruct (handles_wf_insert_empty w
                  (snd (ggml_vk_create_buffer
                          (snd (ggml_vk_destroy_buffer w b)) sz
                          (Z.lor eDeviceLocal alloc_flags)))
                  pool i (fst (ggml_vk_destroy_buffer w b)) Hh Hz)
        as [Hh' Hold]; [rewrite Hnext, Hn; lia|].
      split; [apply pool_wf_insert;
              [exact Hwf | rewrite Hz; unfold SIZE_MAX; lia]|].
      split; [exact Hh'|]. split; [lia|].
      intros j b' Hj Hp. destruct (Hold j b' Hj Hp) as [_ Hj'].
      destruct Hh as [Hbelow _]. specialize (Hbelow j b' Hj' Hp). lia.
Qed.

(** X13: [ggml_vk_pool_malloc] never hands a buffer out twice: the buffer
    it returns is no longer among the parked buffers of the pool, and the
    next [ggml_vk_pool_malloc], whatever its size, returns a different
    buffer. *)
Theorem pool_malloc_twice_distinct :
  forall (w : vk_world) (pool : list vk_buffer) (sz1 sz2 flags1 flags2 : Z),
    pool_wf pool -> pool_handles_wf w pool ->
    let '(b1, pool1, w1) := ggml_vk_pool_malloc w pool sz1 flags1 in
    let '(b2, pool2, w2) := ggml_vk_pool_malloc w1 pool1 sz2 flags2 in
    buffer b1 <> buffer b2
    /\ (forall j b', pool1 !! j = Some b' -> 0 < size b' ->
                     buffer b' <> buffer b1)
    /\ pool_wf pool2 /\ pool_handles_wf w2 pool2.
Proof.
  intros w pool sz1 sz2 flags1 flags2 Hwf Hh.
  pose proof (pool_malloc_keeps_handles w pool sz1 flags1 Hwf Hh) as H1.
  destruct (ggml_vk_pool_malloc w pool sz1 flags1) as [[b1 pool1] w1].
  destruct H1 as (Hwf1 & Hh1 & Hb1 & Hnot1).
  pose proof (pool_malloc_keeps_handles w1 pool1 sz2 flags2 Hwf1 Hh1) as H2.
  destruct (pool_malloc_cases w1 pool1 sz2 flags2 Hwf1)
    as [(i & b & Hi & Hfit & _ & E)
       |(_ & pool1' & w1' & Hpre & E)];
    rewrite E in H2 |- *; destruct H2 as (Hwf2 & Hh2 & _ & _).
  - split; [|auto]. destruct Hfit as [Hpos _].
    intros Heq. apply (Hnot1 i b Hi Hpos). congruence.
  - split; [|auto].
    destruct (create_buffer_facts w1' sz2 (Z.lor eDeviceLocal flags2))
      as (Hb & _).
    rewrite Hb.
    assert (Hn : next_handle w1' = next_handle w1).
    { destruct Hpre as [[_ ->]|(i & b & _ & _ & _ & ->)]; [reflexivity|].
      apply destroy_buffer_live. }
    lia.
Qed.

Lemma pool_malloc_twice_distinct_witness :
  let '(b1, pool1, w1) :=
    ggml_vk_pool_malloc (snd example_pool_world) example_pool 8 0 in
  let '(b2, pool2, w2) := ggml_vk_pool_malloc w1 pool1 8 0 in
  buffer b1 <> buffer b2
  /\ (forall j b', pool1 !! j = Some b' -> 0 < size b' ->
                   buffer b' <> buffer b1)
  /\ pool_wf pool2 /\ pool_handles_wf w2 pool2.
Proof.
  apply (pool_malloc_twice_distinct (snd example_pool_world) example_pool
           8 8 0 0).
  - exact example_pool_wf.
  - split.
    + intros [|i] b Hb Hpos.
      * vm_compute in Hb. inversion Hb; subst b. vm_compute. reflexivity.
      * exfalso. change (replicate 255 empty_slot !! i = Some b) in Hb.
        apply lookup_replicate in Hb. destruct Hb as [-> _].
        vm_compute in Hpos. discriminate.
    + intros [|i] [|j] b b' Hne Hb Hb' Hpos Hpos'; try congruence; exfalso.
      * change (replicate 255 empty_slot !! j = Some b') in Hb'.
        apply lookup_replicate in Hb'. destruct Hb' as [-> _].
        vm_compute in Hpos'. discriminate.
      * change (replicate 255 empty_slot !! i = Some b) in Hb.
        apply lookup_replicate in Hb. destruct Hb as [-> _].
        vm_compute in Hpos. discriminate.
      * change (replicate 255 empty_slot !! i = Some b) in Hb.
        apply lookup_replicate in Hb. destruct Hb as [-> _].
        vm_compute in Hpos. discriminate.
Defined.

(** ** More on pinned host memory *)

Lemma create_host_visible w sz flags :
  has_flag flags eHostVisible = true ->
  ggml_vk_create_buffer w sz flags
  = (mk_vk_buffer (next_handle w) flags (next_addr w) sz None None
                  VK_QUEUE_FAMILY_IGNORED,
     mk_world (host_mem w) (dev_mem w)
              (<[next_handle w := Some (next_addr w)]> (mapped w))
              (<[next_handle w := sz]> (buffer_size w))
              (live w ++ [next_handle w]) (next_handle w + 1)
              (next_addr w + sz)).
Proof.
  intros H. unfold ggml_vk_create_buffer. rewrite H. reflexivity.
Qed.

Lemma pinned_flags_host_visible :
  has_flag (Z.lor (Z.lor eHostVisible eHostCoherent) eHostCached)
           eHostVisible = true.
Proof. vm_compute. reflexivity. Qed.

(** [ggml_vk_host_malloc] without GGML_VK_NO_PINNED, spelled out. *)
Lemma host_malloc_registers w pinned sz :
  ggml_vk_host_malloc false w pinned sz
  = (next_addr w,
     snd (ggml_vk_create_buffer w sz
            (Z.lor (Z.lor eHostVisible eHostCoherent) eHostCached)),
     pinned ++ [(next_addr w, sz,
                 fst (ggml_vk_create_buffer w sz
                        (Z.lor (Z.lor eHostVisible eHostCoherent)
                               eHostCached)))]).
Proof.
  unfold ggml_vk_host_malloc.
  rewrite (create_host_visible _ _ _ pinned_flags_host_visible).
  cbn [memory_property_flags ptr fst snd].
  rewrite pinned_flags_host_visible. reflexivity.
Qed.

Lemma pinned_below_misses w pinned p :
  pinned_below w pinned -> next_addr w <= p ->
  forall j e, pinned !! j = Some e -> in_pinned_range p e = false.
Proof.
  intros Hbelow Hp j e Hj.
  pose proof (proj1 (Forall_lookup _ _) Hbelow j e Hj) as He.
  simpl in He. unfold in_pinned_range.
  apply andb_false_iff.
  destruct (pinned_addr e <=? p) eqn:E; [right; lia | left; reflexivity].
Qed.

Lemma remove_fresh_handle (hs : list Z) (h : Z) :
  Forall (fun x => x < h) hs -> remove_handle h (hs ++ [h]) = hs.
Proof.
  intros H. unfold remove_handle. rewrite list.filter_app.
  rewrite list.filter_cons_False, list.filter_nil, app_nil_r
    by tauto.
  induction H as [|x l Hx Hl IH]; [reflexivity|].
  rewrite list.filter_cons_True by lia. rewrite IH. reflexivity.
Qed.

(** X14: memory returned by [ggml_vk_host_malloc] is recognised as pinned:
    for every address inside the allocation the registry scan of the
    transfer routines finds the new entry, whose buffer is mapped at the
    returned pointer, so that the offset into the buffer is the offset
    into the allocation. *)
Theorem host_malloc_is_pinned :
  forall (w : vk_world) (pinned : list pinned_entry) (sz : Z),
    pinned_below w pinned -> 0 < sz ->
    let '(p, w', pinned') := ggml_vk_host_malloc false w pinned sz in
    p = next_addr w
    /\ pinned_below w' pinned'
    /\ forall o, 0 <= o < sz ->
         exists buf,
           find_pinned (p + o) 0 pinned'
           = Some (length pinned, (p, sz, buf))
           /\ mapped w' (buffer buf) = Some p
           /\ size buf = sz
           /\ has_flag (memory_property_flags buf) eHostVisible = true
           /\ (p + o) - pinned_addr (p, sz, buf) = o.
Proof.
  intros w pinned sz Hbelow Hsz.
  rewrite host_malloc_registers.
  rewrite (create_host_visible _ _ _ pinned_flags_host_visible).
  cbn [fst snd].
  split; [reflexivity|]. split.
  - unfold pinned_below. cbn [next_addr].
    apply Forall_app. split.
    + eapply Forall_impl; [|exact Hbelow]. intros e He. simpl in *. lia.
    + repeat constructor. cbn. lia.
  - intros o Ho. eexists. split; [|split; [|split; [|split]]].
    + change (length pinned) with (0 + length pinned)%nat.
      apply find_pinned_first.
      * rewrite lookup_app_r by lia. rewrite Nat.sub_diag. reflexivity.
      * unfold in_pinned_range. cbn. apply andb_true_iff. split; lia.
      * intros j e' Hj He'. rewrite lookup_app_l in He' by exact Hj.
        eapply pinned_below_misses; [exact Hbelow | | exact He']. lia.
    + cbn [mapped buffer]. apply fn_lookup_insert.
    + reflexivity.
    + exact pinned_flags_host_visible.
    + cbn. lia.
Qed.

Lemma host_malloc_is_pinned_witness :
  let '(p, w', pinned') :=
    ggml_vk_host_malloc false (fst example_pinned) (snd example_pinned) 16 in
  p = next_addr (fst example_pinned)
  /\ pinned_below w' pinned'
  /\ forall o, 0 <= o < 16 ->
       exists buf,
         find_pinned (p + o) 0 pinned'
         = Some (length (snd example_pinned), (p, 16, buf))
         /\ mapped w' (buffer buf) = Some p
         /\ size buf = 16
         /\ has_flag (memory_property_flags buf) eHostVisible = true
         /\ (p + o) - pinned_addr (p, 16, buf) = o.
Proof.
  apply (host_malloc_is_pinned (fst example_pinned) (snd example_pinned) 16).
  - repeat constructor; vm_compute; congruence.
  - lia.
Defined.

(** X15: [ggml_vk_host_free] of the pointer that [ggml_vk_host_malloc] has
    just returned undoes the allocation: the registry is what it was, no
    warning is printed, and the buffers that exist are those that existed
    before. *)
Theorem host_malloc_then_free :
  forall (w : vk_world) (pinned : list pinned_entry) (sz : Z),
    pinned_below w pinned -> world_wf w -> 0 < sz ->
    let '(p, w', pinned') := ggml_vk_host_malloc false w pinned sz in
    let r := ggml_vk_host_free w' pinned' p in
    hf_pinned r = pinned /\ hf_warned r = false
    /\ live (hf_world r) = live w.
Proof.
  intros w pinned sz Hbelow Hw Hsz.
  rewrite host_malloc_registers.
  rewrite (create_host_visible _ _ _ pinned_flags_host_visible).
  cbn [fst snd]. cbv zeta.
  unfold ggml_vk_host_free.
  match goal with
  | |- context [pinned ++ [?e]] =>
      rewrite (find_pinned_first (next_addr w) (pinned ++ [e]) 0
                 (length pinned) e)
  end.
  - cbn [hf_pinned hf_warned hf_world Nat.add].
    split; [|split; [reflexivity|]].
    + rewrite delete_middle. apply app_nil_r.
    + unfold ggml_vk_destroy_buffer, pinned_buffer.
      cbn [snd sb_write sb_read free_staging free_handle live buffer].
      apply remove_fresh_handle. exact Hw.
  - rewrite lookup_app_r by lia. rewrite Nat.sub_diag. reflexivity.
  - unfold in_pinned_range. cbn. apply andb_true_iff. split; lia.
  - intros j e' Hj He'. rewrite lookup_app_l in He' by exact Hj.
    eapply pinned_below_misses; [exact Hbelow | | exact He']. lia.
Qed.

Lemma host_malloc_then_free_witness :
  let '(p, w', pinned') :=
    ggml_vk_host_malloc false (fst example_pinned) (snd example_pinned) 16 in
  let r := ggml_vk_host_free w' pinned' p in
  hf_pinned r = snd example_pinned /\ hf_warned r = false
  /\ live (hf_world r) = live (fst example_pinned).
Proof.
  apply (host_malloc_then_free (fst example_pinned) (snd example_pinned) 16).
  - repeat constructor; vm_compute; congruence.
  - repeat constructor; vm_compute; reflexivity.
  - lia.
Defined.

(** X16: an allocation of zero bytes is registered with an empty range,
    which holds no pointer: [ggml_vk_host_free] of the pointer returned
    prints the warning and frees nothing, so that the entry and its buffer
    stay. *)
Theorem host_malloc_zero_is_never_freed :
  forall (w : vk_world) (pinned : list pinned_entry),
    pinned_below w pinned ->
    let '(p, w', pinned') := ggml_vk_host_malloc false w pinned 0 in
    length pinned' = S (length pinned)
    /\ In (next_handle w) (live w')
    /\ ggml_vk_host_free w' pinned' p = mk_host_free_result w' pinned' true.
Proof.
  intros w pinned Hbelow.
  rewrite host_malloc_registers.
  rewrite (create_host_visible _ _ _ pinned_flags_host_visible).
  cbn [fst snd].
  split; [rewrite length_app; cbn [length]; lia|].
  split; [cbn [live]; apply in_or_app; right; left; reflexivity|].
  unfold ggml_vk_host_free.
  rewrite (proj2 (find_pinned_none (next_addr w) _ 0%nat)); [reflexivity|].
  intros j e Hj.
  apply lookup_snoc_cases in Hj. destruct Hj as [Hj|[_ ->]].
  - eapply pinned_below_misses; [exact Hbelow | | exact Hj]. lia.
  - unfold in_pinned_range. cbn. apply andb_false_iff. right. lia.
Qed.

Lemma host_malloc_zero_is_never_freed_witness :
  let '(p, w', pinned') :=
    ggml_vk_host_malloc false (fst example_pinned) (snd example_pinned) 0 in
  length pinned' = S (length (snd example_pinned))
  /\ In (next_handle (fst example_pinned)) (live w')
  /\ ggml_vk_host_free w' pinned' p = mk_host_free_result w' pinned' true.
Proof.
  apply (host_malloc_zero_is_never_freed (fst example_pinned)
           (snd example_pinned)).
  repeat constructor; vm_compute; congruence.
Defined.

(** ** Reads and synchronous writes *)

Lemma exec_sequence_single w s :
  exec_sequence w [s] = exec_cmds w (s_cmds s).
Proof.
  unfold exec_sequence. destruct (exec_cmds w (s_cmds s)); reflexivity.
Qed.

(** Executing what a transfer records after its barriers: one copy. *)
Lemma exec_sync_then_copy w sub buffers q src_mask dst_mask force
      src_h dst_h region :
  s_cmds sub = [] ->
  exec_cmds w
    (s_cmds (record (CmdCopyBuffer src_h dst_h [region])
               (ggml_vk_sync_buffers sub buffers q src_mask dst_mask force)))
  = Some (copy_region src_h dst_h w region).
Proof.
  intros Hempty.
  destruct (sync_buffers_cmds sub buffers q src_mask dst_mask force)
    as (pre & -> & Hpre & _).
  unfold record. cbn [s_cmds]. rewrite Hempty. cbn [app].
  rewrite exec_cmds_app, (exec_only_barriers w pre Hpre).
  reflexivity.
Qed.

(** A copy into a mapped buffer writes host memory at the mapped
    address. *)
Lemma copy_region_mapped w src_h dst_h base r :
  mapped w dst_h = Some base ->
  let w' := copy_region src_h dst_h w r in
  (forall k, 0 <= k < copy_size r ->
     host_mem w' (base + dstOffset r + k)
     = buffer_byte w src_h (srcOffset r + k))
  /\ (forall a, a < base + dstOffset r
                \/ base + dstOffset r + copy_size r <= a ->
                host_mem w' a = host_mem w a)
  /\ mapped w' = mapped w /\ dev_mem w' = dev_mem w
  /\ live w' = live w /\ next_handle w' = next_handle w
  /\ next_addr w' = next_addr w.
Proof.
  intros Hm. unfold copy_region, write_range. rewrite Hm.
  cbn [with_host_mem host_mem mapped dev_mem live next_handle next_addr].
  split; [|split; [|repeat split]].
  - intros k Hk. rewrite in_range_true by lia. f_equal. lia.
  - intros a Ha. rewrite in_range_false by lia. reflexivity.
Qed.

(** X17: [ggml_vk_buffer_read_async] aborts when the destination is not in
    pinned memory.  When it is, the call records one copy, and once the
    device has executed it the [sz] bytes at the destination are the bytes
    of the buffer from [offset] on, and host memory is unchanged
    elsewhere. *)
Theorem buffer_read_async_delivers :
  forall (w : vk_world) (pinned : list pinned_entry) (src : vk_buffer)
         (offset dst sz : Z) (q : vk_queue) (wait signal : list Z)
         (s : option vk_submission),
    (find_pinned dst 0 pinned = None ->
     ggml_vk_buffer_read_async pinned src offset dst sz q wait signal s
     = Aborted)
    /\ (forall i e,
          find_pinned dst 0 pinned = Some (i, e) ->
          mapped w (buffer (pinned_buffer e)) = Some (pinned_addr e) ->
          nothing_recorded s ->
          exists sub q' w2,
            ggml_vk_buffer_read_async pinned src offset dst sz q wait signal s
            = Done ([sub], q')
            /\ exec_sequence w [sub] = Some w2
            /\ (forall k, 0 <= k < sz ->
                  host_mem w2 (dst + k)
                  = buffer_byte w (buffer src) (offset + k))
            /\ (forall a, a < dst \/ dst + sz <= a ->
                  host_mem w2 a = host_mem w a)).
Proof.
  intros w pinned src offset dst sz q wait signal s. split.
  - intros Hnone. unfold ggml_vk_buffer_read_async. rewrite Hnone.
    reflexivity.
  - intros i e Hfind Hmap Hs. unfold ggml_vk_buffer_read_async.
    rewrite Hfind.
    destruct (submission_or_new_empty s q wait signal Hs)
      as (sub0 & q' & -> & Hempty).
    eexists _, _, _. split; [reflexivity|].
    rewrite exec_sequence_single.
    rewrite (exec_sync_then_copy w sub0 _ _ _ _ _ _ _ _ Hempty).
    split; [reflexivity|].
    destruct (copy_region_mapped w (buffer src) (buffer (pinned_buffer e))
                (pinned_addr e)
                (mk_buffer_copy offset (dst - pinned_addr e) sz) Hmap)
      as (Hin & Hout & _).
    cbn [dstOffset srcOffset copy_size] in Hin, Hout.
    split.
    + intros k Hk. rewrite <- (Hin k Hk). f_equal. lia.
    + intros a Ha. apply Hout. lia.
Qed.

Lemma buffer_read_async_delivers_witness :
  exists sub q' w2,
    ggml_vk_buffer_read_async (fst example_pinned_setting)
      (fst (snd example_pinned_setting)) 8 4100 16 example_queue [] [] None
    = Done ([sub], q')
    /\ exec_sequence (snd (snd example_pinned_setting)) [sub] = Some w2
    /\ (forall k, 0 <= k < 16 ->
          host_mem w2 (4100 + k)
          = buffer_byte (snd (snd example_pinned_setting))
              (buffer (fst (snd example_pinned_setting))) (8 + k))
    /\ (forall a, a < 4100 \/ 4100 + 16 <= a ->
          host_mem w2 a = host_mem (snd (snd example_pinned_setting)) a).
Proof.
  refine (proj2 (buffer_read_async_delivers
                   (snd (snd example_pinned_setting))
                   (fst example_pinned_setting)
                   (fst (snd example_pinned_setting)) 8 4100 16
                   example_queue [] [] None) 0%nat _ _ _ _).
  - vm_compute. reflexivity.
  - vm_compute. reflexivity.
  - exact I.
Defined.

Lemma staging_read_or_new_spec w pinned src dst sz :
  read_staged w pinned src dst sz ->
  exists sb src' w1,
    staging_read_or_new w src = (sb, src', w1)
    /\ buffer src' = buffer src
    /\ mapped w1 (buffer sb) = Some (ptr sb)
    /\ mapped w1 (buffer src) = None
    /\ host_mem w1 = host_mem w /\ dev_mem w1 = dev_mem w
    /\ (dst + sz <= ptr sb \/ ptr sb + sz <= dst).
Proof.
  intros (_ & _ & Hms & Hsb). unfold staging_read_or_new.
  destruct (sb_read src) as [sb|].
  - destruct Hsb as (Hm & Hne & Hdisj).
    exists sb, src, w. repeat split; auto.
  - destruct Hsb as (Hne & Hdisj).
    rewrite (create_host_visible _ _ _ pinned_flags_host_visible).
    eexists _, _, _. split; [reflexivity|].
    cbn [buffer with_sb_read mapped host_mem dev_mem ptr].
    split; [reflexivity|].
    split; [apply fn_lookup_insert|].
    split; [rewrite fn_lookup_insert_ne by congruence; exact Hms|].
    split; [reflexivity|]. split; [reflexivity|]. left. exact Hdisj.
Qed.

Lemma buffer_read_mapped w pinned src offset dst sz q :
  read_mapped w src offset dst sz ->
  exists src' w' q',
    ggml_vk_buffer_read w pinned src offset dst sz q = Done (src', w', q')
    /\ buffer src' = buffer src
    /\ forall k, 0 <= k < sz ->
         host_mem w' (dst + k) = buffer_byte w (buffer src) (offset + k).
Proof.
  intros (Hv & Hc & Hm & _). unfold ggml_vk_buffer_read.
  rewrite Hv, Hc. cbn [GGML_ASSERT mbind result_bind rbind].
  eexists _, _, _. split; [reflexivity|]. split; [reflexivity|].
  intros k Hk. cbn [with_host_mem host_mem]. unfold host_memcpy, buffer_byte.
  rewrite in_range_true by lia. rewrite Hm. f_equal. lia.
Qed.

Lemma buffer_read_pinned w pinned src offset dst sz q :
  read_pinned w pinned src dst ->
  exists src' w' q',
    ggml_vk_buffer_read w pinned src offset dst sz q = Done (src', w', q')
    /\ buffer src' = buffer src
    /\ forall k, 0 <= k < sz ->
         host_mem w' (dst + k) = buffer_byte w (buffer src) (offset + k).
Proof.
  intros (Hv & i & e & Hfind & Hmap). unfold ggml_vk_buffer_read.
  rewrite Hv, Hfind.
  unfold ggml_vk_create_sequence_1, ggml_vk_create_submission.
  destruct (ggml_vk_create_cmd_buffer q) as [cb q'].
  cbn [map]. unfold submit_and_wait.
  rewrite exec_sequence_single.
  rewrite (exec_sync_then_copy w (mk_vk_submission cb [] [] []) _ _ _ _ _
             _ _ _ eq_refl).
  cbn [mbind result_bind rbind].
  eexists _, _, _. split; [reflexivity|]. split; [reflexivity|].
  destruct (copy_region_mapped w (buffer src) (buffer (pinned_buffer e))
              (pinned_addr e)
              (mk_buffer_copy offset (dst - pinned_addr e) sz) Hmap)
    as (Hin & _).
  cbn [dstOffset srcOffset copy_size] in Hin.
  intros k Hk. rewrite <- (Hin k Hk). f_equal. lia.
Qed.

Lemma buffer_read_staged w pinned src offset dst sz q :
  read_staged w pinned src dst sz ->
  exists src' w' q',
    ggml_vk_buffer_read w pinned src offset dst sz q = Done (src', w', q')
    /\ buffer src' = buffer src
    /\ forall k, 0 <= k < sz ->
         host_mem w' (dst + k) = buffer_byte w (buffer src) (offset + k).
Proof.
  intros Hst.
  destruct (staging_read_or_new_spec w pinned src dst sz Hst)
    as (sb & src' & w1 & Est & Hbuf & Hmsb & Hms1 & Hhost & Hdev & Hdisj).
  destruct Hst as (Hv & Hfind & Hms & _).
  unfold ggml_vk_buffer_read. rewrite Hv, Hfind, Est.
  destruct (ggml_vk_create_cmd_buffer q) as [cb q'].
  unfold submit_and_wait.
  rewrite exec_sequence_single.
  rewrite (exec_sync_then_copy w1 (mk_vk_submission cb [] [] []) _ _ _ _ _
             _ _ _ eq_refl).
  cbn [mbind result_bind rbind].
  eexists _, _, _. split; [reflexivity|]. split; [exact Hbuf|].
  destruct (copy_region_mapped w1 (buffer src) (buffer sb) (ptr sb)
              (mk_buffer_copy offset 0 sz) Hmsb) as (Hin & _).
  cbn [dstOffset srcOffset copy_size] in Hin.
  intros k Hk. cbn [with_host_mem host_mem]. unfold host_memcpy.
  rewrite in_range_true by lia.
  replace (ptr sb + (dst + k - dst)) with (ptr sb + 0 + k) by lia.
  rewrite (Hin k Hk). unfold buffer_byte. rewrite Hms1, Hms, Hdev.
  reflexivity.
Qed.

(** X18: [ggml_vk_buffer_read] delivers the bytes of the buffer on each of
    its three paths: from a mapped, coherent buffer by [memcpy]; into
    pinned memory by a copy into the pinned buffer; and otherwise through
    the read staging buffer of the source, created on first use.  In each
    case the [sz] bytes at the destination are afterwards the bytes of the
    buffer from [offset] on. *)
Theorem buffer_read_delivers :
  forall (w : vk_world) (pinned : list pinned_entry) (src : vk_buffer)
         (offset dst sz : Z) (q : vk_queue),
    read_mapped w src offset dst sz
    \/ read_pinned w pinned src dst
    \/ read_staged w pinned src dst sz ->
    exists src' w' q',
      ggml_vk_buffer_read w pinned src offset dst sz q = Done (src', w', q')
      /\ buffer src' = buffer src
      /\ forall k, 0 <= k < sz ->
           host_mem w' (dst + k) = buffer_byte w (buffer src) (offset + k).
Proof.
  intros w pinned src offset dst sz q [H|[H|H]].
  - apply buffer_read_mapped; exact H.
  - apply buffer_read_pinned; exact H.
  - apply buffer_read_staged; exact H.
Qed.

Lemma buffer_read_delivers_witness :
  (exists src' w' q',
     ggml_vk_buffer_read (snd example_mapped_buffer) []
       (fst example_mapped_buffer) 8 100 16 example_queue
     = Done (src', w', q')
     /\ buffer src' = buffer (fst example_mapped_buffer)
     /\ forall k, 0 <= k < 16 ->
          host_mem w' (100 + k)
          = buffer_byte (snd example_mapped_buffer)
              (buffer (fst example_mapped_buffer)) (8 + k))
  /\ (exists src' w' q',
        ggml_vk_buffer_read (snd (snd example_pinned_setting))
          (fst example_pinned_setting) (fst (snd example_pinned_setting))
          8 4100 16 example_queue
        = Done (src', w', q')
        /\ buffer src' = buffer (fst (snd example_pinned_setting))
        /\ forall k, 0 <= k < 16 ->
             host_mem w' (4100 + k)
             = buffer_byte (snd (snd example_pinned_setting))
                 (buffer (fst (snd example_pinned_setting))) (8 + k))
  /\ (exists src' w' q',
        ggml_vk_buffer_read (snd example_staged_dst) []
          (fst example_staged_dst) 8 100 16 example_queue
        = Done (src', w', q')
        /\ buffer src' = buffer (fst example_staged_dst)
        /\ forall k, 0 <= k < 16 ->
             host_mem w' (100 + k)
             = buffer_byte (snd example_staged_dst)
                 (buffer (fst example_staged_dst)) (8 + k)).
Proof.
  split; [|split].
  - apply (buffer_read_delivers (snd example_mapped_buffer) []
             (fst example_mapped_buffer) 8 100 16 example_queue).
    left. repeat split; try (vm_compute; reflexivity).
    left. vm_compute. congruence.
  - apply (buffer_read_delivers (snd (snd example_pinned_setting))
             (fst example_pinned_setting) (fst (snd example_pinned_setting))
             8 4100 16 example_queue).
    right; left. split; [vm_compute; reflexivity|].
    eexists _, _. split; vm_compute; reflexivity.
  - apply (buffer_read_delivers (snd example_staged_dst) []
             (fst example_staged_dst) 8 100 16 example_queue).
    right; right. split; [vm_compute; reflexivity|].
    split; [reflexivity|]. split; [vm_compute; reflexivity|].
    change (sb_read (fst example_staged_dst)) with (@None vk_buffer).
    split; vm_compute; congruence.
Defined.

Lemma write_rows_S n m p off src sp wd :
  write_rows (S n) m p off src sp wd
  = host_memcpy (write_rows n m p off src sp wd)
      (p + off + u64 (Z.of_nat n * wd)) (src + u64 (Z.of_nat n * sp)) wd.
Proof. reflexivity. Qed.

Lemma write_rows_shift n m p off src sp wd :
  write_rows n m p off src sp wd = write_rows n m (p + off) 0 src sp wd.
Proof.
  induction n as [|n IH]; [reflexivity|].
  rewrite !write_rows_S, IH. f_equal. lia.
Qed.

(** The rows of a 2-D write into a mapped buffer. *)
Lemma buffer_write_2d_mapped_rows w pinned dst offset src spitch width
      height q :
  has_flag (memory_property_flags dst) eHostVisible = true ->
  has_flag (memory_property_flags dst) eHostCoherent = true ->
  mapped w (buffer dst) = Some (ptr dst) ->
  0 <= width -> 0 <= height -> 0 <= spitch ->
  width * height < 2 ^ 63 -> spitch * height < 2 ^ 63 ->
  (src + spitch * height + width <= ptr dst + offset
   \/ ptr dst + offset + width * height <= src) ->
  exists w',
    ggml_vk_buffer_write_2d w pinned dst offset src spitch width height q
    = Done (dst, w', q)
    /\ mapped w' = mapped w /\ next_addr w' = next_addr w
    /\ (forall i j, 0 <= i < height -> 0 <= j < width ->
          buffer_byte w' (buffer dst) (offset + i * width + j)
          = host_mem w (src + i * spitch + j))
    /\ (forall a, a < ptr dst + offset
                  \/ ptr dst + offset + width * height <= a ->
                  host_mem w' a = host_mem w a).
Proof.
  intros Hv Hc Hm Hw Hh Hsp Hb1 Hb2 Hdisj.
  unfold ggml_vk_buffer_write_2d. rewrite Hv, Hc.
  cbn [GGML_ASSERT mbind result_bind rbind].
  eexists. split; [reflexivity|].
  split; [reflexivity|]. split; [reflexivity|].
  rewrite write_rows_shift.
  destruct (write_rows_spec (host_mem w) (ptr dst + offset) src spitch width
              (Z.to_nat height))
    as (Hrow & Hout);
    [ lia | lia | rewrite Z2Nat.id by lia; lia
    | rewrite Z2Nat.id by lia; lia
    | rewrite Z2Nat.id by lia;
      (destruct Hdisj as [Hd|Hd]; [left; apply rows_below_slack; [lia | exact Hd] | right; exact Hd]) | ].
  rewrite Z2Nat.id in Hrow, Hout by lia.
  split.
  - intros i j Hi Hj. unfold buffer_byte.
    cbn [with_host_mem mapped host_mem]. rewrite Hm.
    rewrite <- (Hrow i j Hi Hj). f_equal. lia.
  - intros a Ha. cbn [with_host_mem host_mem]. apply Hout. lia.
Qed.

(** X19: [ggml_vk_buffer_write_2d] into a host-visible buffer asserts that
    the buffer is host-coherent and aborts otherwise; into a mapped,
    coherent buffer it copies the rows at once: row [i] of the source,
    [spitch] bytes apart, is afterwards at byte [offset + i * width] of
    the buffer, and host memory outside the written region is
    unchanged. *)
Theorem buffer_write_2d_mapped :
  forall (w : vk_world) (pinned : list pinned_entry) (dst : vk_buffer)
         (offset src spitch width height : Z) (q : vk_queue),
    has_flag (memory_property_flags dst) eHostVisible = true ->
    (has_flag (memory_property_flags dst) eHostCoherent = false ->
     ggml_vk_buffer_write_2d w pinned dst offset src spitch width height q
     = Aborted)
    /\ (has_flag (memory_property_flags dst) eHostCoherent = true ->
        mapped w (buffer dst) = Some (ptr dst) ->
        0 <= width -> 0 <= height -> 0 <= spitch ->
        width * height < 2 ^ 63 -> spitch * height < 2 ^ 63 ->
        (src + spitch * height + width <= ptr dst + offset
         \/ ptr dst + offset + width * height <= src) ->
        exists w',
          ggml_vk_buffer_write_2d w pinned dst offset src spitch width
                                  height q = Done (dst, w', q)
          /\ (forall i j, 0 <= i < height -> 0 <= j < width ->
                buffer_byte w' (buffer dst) (offset + i * width + j)
                = host_mem w (src + i * spitch + j))
          /\ (forall a, a < ptr dst + offset
                        \/ ptr dst + offset + width * height <= a ->
                        host_mem w' a = host_mem w a)).
Proof.
  intros w pinned dst offset src spitch width height q Hv. split.
  - intros Hc. unfold ggml_vk_buffer_write_2d. rewrite Hv, Hc. reflexivity.
  - intros Hc Hm Hw Hh Hsp Hb1 Hb2 Hdisj.
    destruct (buffer_write_2d_mapped_rows w pinned dst offset src spitch
                width height q Hv Hc Hm Hw Hh Hsp Hb1 Hb2 Hdisj)
      as (w' & E & _ & _ & Hrows & Hout).
    exists w'. auto.
Qed.

Lemma buffer_write_2d_mapped_witness :
  (has_flag (memory_property_flags (fst example_mapped_buffer))
            eHostCoherent = false ->
   ggml_vk_buffer_write_2d (snd example_mapped_buffer) []
     (fst example_mapped_buffer) 8 100 5 3 2 example_queue = Aborted)
  /\ (has_flag (memory_property_flags (fst example_mapped_buffer))
               eHostCoherent = true ->
      mapped (snd example_mapped_buffer)
             (buffer (fst example_mapped_buffer))
      = Some (ptr (fst example_mapped_buffer)) ->
      0 <= 3 -> 0 <= 2 -> 0 <= 5 ->
      3 * 2 < 2 ^ 63 -> 5 * 2 < 2 ^ 63 ->
      (100 + 5 * 2 + 3 <= ptr (fst example_mapped_buffer) + 8
       \/ ptr (fst example_mapped_buffer) + 8 + 3 * 2 <= 100) ->
      exists w',
        ggml_vk_buffer_write_2d (snd example_mapped_buffer) []
          (fst example_mapped_buffer) 8 100 5 3 2 example_queue
        = Done (fst example_mapped_buffer, w', example_queue)
        /\ (forall i j, 0 <= i < 2 -> 0 <= j < 3 ->
              buffer_byte w' (buffer (fst example_mapped_buffer))
                          (8 + i * 3 + j)
              = host_mem (snd example_mapped_buffer) (100 + i * 5 + j))
        /\ (forall a, a < ptr (fst example_mapped_buffer) + 8
                      \/ ptr (fst example_mapped_buffer) + 8 + 3 * 2 <= a ->
                      host_mem w' a = host_mem (snd example_mapped_buffer) a)).
Proof.
  apply (buffer_write_2d_mapped (snd example_mapped_buffer) []
           (fst example_mapped_buffer) 8 100 5 3 2 example_queue).
  vm_compute. reflexivity.
Defined.

(** X20: writing [sz] bytes into a mapped, coherent buffer with
    [ggml_vk_buffer_write] and reading them back from the same offset
    with [ggml_vk_buffer_read] returns the bytes written. *)
Theorem buffer_write_then_read_mapped :
  forall (w : vk_world) (pinned : list pinned_entry) (buf : vk_buffer)
         (offset src dst sz : Z) (q : vk_queue),
    has_flag (memory_property_flags buf) eHostVisible = true ->
    has_flag (memory_property_flags buf) eHostCoherent = true ->
    mapped w (buffer buf) = Some (ptr buf) ->
    0 <= sz < 2 ^ 63 ->
    (src + sz <= ptr buf + offset \/ ptr buf + offset + sz <= src) ->
    (dst + sz <= ptr buf + offset \/ ptr buf + offset + sz <= dst) ->
    exists w1 w2,
      ggml_vk_buffer_write w pinned buf offset src sz q = Done (buf, w1, q)
      /\ ggml_vk_buffer_read w1 pinned buf offset dst sz q
         = Done (buf, w2, q)
      /\ forall k, 0 <= k < sz -> host_mem w2 (dst + k) = host_mem w (src + k).
Proof.
  intros w pinned buf offset src dst sz q Hv Hc Hm Hsz Hsrc Hdst.
  unfold ggml_vk_buffer_write.
  destruct (buffer_write_2d_mapped_rows w pinned buf offset src 0 sz 1 q
              Hv Hc Hm)
    as (w1 & -> & Hm1 & _ & Hrows & _); try lia.
  exists w1.
  unfold ggml_vk_buffer_read. rewrite Hv, Hc.
  cbn [GGML_ASSERT mbind result_bind rbind].
  eexists. split; [reflexivity|]. split; [reflexivity|].
  intros k Hk. cbn [with_host_mem host_mem]. unfold host_memcpy.
  rewrite in_range_true by lia.
  specialize (Hrows 0 k ltac:(lia) Hk).
  unfold buffer_byte in Hrows. rewrite Hm1, Hm in Hrows.
  replace (ptr buf + offset + (dst + k - dst))
    with (ptr buf + (offset + 0 * sz + k)) by lia.
  rewrite Hrows. f_equal. lia.
Qed.

Lemma buffer_write_then_read_mapped_witness :
  exists w1 w2,
    ggml_vk_buffer_write (snd example_mapped_buffer) []
      (fst example_mapped_buffer) 8 100 16 example_queue
    = Done (fst example_mapped_buffer, w1, example_queue)
    /\ ggml_vk_buffer_read w1 [] (fst example_mapped_buffer) 8 200 16
         example_queue
       = Done (fst example_mapped_buffer, w2, example_queue)
    /\ forall k, 0 <= k < 16 ->
         host_mem w2 (200 + k) = host_mem (snd example_mapped_buffer) (100 + k).
Proof.
  apply (buffer_write_then_read_mapped (snd example_mapped_buffer) []
           (fst example_mapped_buffer) 8 100 200 16 example_queue).
  - vm_compute. reflexivity.
  - vm_compute. reflexivity.
  - vm_compute. reflexivity.
  - lia.
  - left. vm_compute. congruence.
  - left. vm_compute. congruence.
Defined.

(** ** Plain 2-D writes at an offset *)

Lemma staging_flags_host_visible :
  has_flag (Z.lor eHostVisible eHostCoherent) eHostVisible = true.
Proof. vm_compute. reflexivity. Qed.

Lemma staging_or_new_shape w dst :
  mapped w (buffer dst) = None ->
  staging_ready w dst ->
  exists sb dst' w1,
    staging_or_new w dst = (sb, dst', w1)
    /\ ptr sb = staging_ptr w dst
    /\ buffer dst' = buffer dst
    /\ mapped w1 (buffer sb) = Some (ptr sb)
    /\ mapped w1 (buffer dst) = None
    /\ host_mem w1 = host_mem w.
Proof.
  intros Hmd Hready. unfold staging_or_new, staging_ptr, staging_ready in *.
  destruct (sb_write dst) as [sb|].
  - destruct Hready as [Hm Hne].
    exists sb, dst, w. repeat split; auto.
  - rewrite (create_host_visible _ _ _ staging_flags_host_visible).
    eexists _, _, _. split; [reflexivity|].
    cbn [ptr buffer with_sb_write mapped host_mem].
    split; [reflexivity|]. split; [reflexivity|].
    split; [apply fn_lookup_insert|].
    split; [rewrite fn_lookup_insert_ne by congruence; exact Hmd|].
    reflexivity.
Qed.

Lemma rows_within i j width height :
  0 <= width -> 0 <= i < height -> 0 <= j < width ->
  0 <= i * width + j < width * height.
Proof.
  intros Hw Hi Hj.
  assert (width * (i + 1) <= width * height)
    by (apply Z.mul_le_mono_nonneg_l; lia).
  assert (0 <= i * width) by (apply Z.mul_nonneg_nonneg; lia).
  lia.
Qed.

(** X21: on the pinned path [ggml_vk_buffer_write_2d_async] delivers the
    rows at any offset: the source rows lying in a pinned buffer (they
    may fill it to its last byte), once the device has executed the
    recorded copy, row [i] of the source is at byte [offset + i * width]
    of the destination; the call itself changes no memory. *)
Theorem write_2d_async_pinned_rows :
  forall (w : vk_world) (pinned : list pinned_entry) (dst : vk_buffer)
         (offset src spitch width height : Z) (q : vk_queue)
         (wait signal : list Z) (s : option vk_submission),
    has_flag (memory_property_flags dst) eHostVisible = false ->
    0 <= width -> 0 <= height -> 0 <= spitch -> 0 <= offset ->
    offset + width * height < 2 ^ 63 -> spitch * height < 2 ^ 63 ->
    mapped w (buffer dst) = None ->
    nothing_recorded s ->
    pinned_source w pinned dst src spitch width height ->
    exists sub q' w2,
      ggml_vk_buffer_write_2d_async w pinned dst offset src spitch width
        height q wait signal s = Done ([sub], dst, w, q')
      /\ exec_sequence w [sub] = Some w2
      /\ forall i j, 0 <= i < height -> 0 <= j < width ->
           buffer_byte w2 (buffer dst) (offset + i * width + j)
           = host_mem w (src + i * spitch + j).
Proof.
  intros w pinned dst offset src spitch width height q wait signal s
         Hflag Hw Hh Hsp Hoff Hb1 Hb2 Hmd Hs (k & e & Hfind & Hme & Hrows & Hsz).
  unfold ggml_vk_buffer_write_2d_async.
  rewrite Hflag. cbn [negb GGML_ASSERT mbind result_bind rbind].
  destruct (submission_or_new_empty s q wait signal Hs)
    as (sub0 & q' & -> & Hempty).
  pose proof (find_pinned_in_range _ _ _ _ _ Hfind) as Hin.
  unfold in_pinned_range in Hin. apply andb_prop in Hin as [Hlo Hhi].
  apply Z.leb_le in Hlo. apply Z.ltb_lt in Hhi.
  rewrite Hfind.
  destruct (sync_buffers_cmds sub0 [ggml_vk_subbuffer dst] q'
              eMemoryRead eMemoryWrite false) as (pre & -> & Hpre & _).
  rewrite Hempty. cbn [app].
  eexists _, _, _. split; [reflexivity|].
  unfold exec_sequence, record. cbn [s_cmds].
  rewrite exec_cmds_app, (exec_only_barriers w pre Hpre).
  unfold exec_cmds, exec_cmd.
  split; [reflexivity|].
  intros i j Hi Hj. pose proof (rows_within i j width height Hw Hi Hj) as Hrowb.
  destruct (width =? spitch) eqn:Esingle.
  - apply Z.eqb_eq in Esingle. cbn [fold_left].
    unfold copy_region. cbn [srcOffset dstOffset copy_size].
    rewrite (u64_small (width * height)) by nia.
    destruct (write_range_device w (buffer dst) offset (width * height)
                (fun k0 => buffer_byte w (buffer (pinned_buffer e))
                             (src - pinned_addr e + k0)) Hmd)
      as (_ & _ & _ & Wsame & _).
    rewrite Wsame. rewrite in_range_true by lia.
    unfold buffer_byte. rewrite Hme. f_equal. subst spitch. lia.
  - destruct (row_slices_exec w (buffer (pinned_buffer e)) (buffer dst)
                (pinned_addr e) (src - pinned_addr e) offset spitch width
                width (Z.to_nat height))
      as (_ & _ & Rrow & _);
      [ exact Hmd | exact Hme | lia | lia | lia | lia
      | rewrite Z2Nat.id by lia; nia | rewrite Z2Nat.id by lia; nia | ].
    rewrite Z2Nat.id in Rrow by lia.
    rewrite (Rrow i j Hi Hj). f_equal. lia.
Qed.

(** X22: on the staging path with [width <> spitch],
    [ggml_vk_buffer_write_2d_async] stores row [i] of the source in the
    staging buffer at byte [offset + i * width], while the copy it
    records reads the staging buffer from byte 0.  So every destination
    byte [offset + k] with [k < offset] receives what the staging buffer
    held at byte [k] before the call, not a byte of the source. *)
Theorem write_2d_async_staging_offset :
  forall (w : vk_world) (pinned : list pinned_entry) (dst : vk_buffer)
         (offset src spitch width height : Z) (q : vk_queue)
         (wait signal : list Z) (s : option vk_submission),
    has_flag (memory_property_flags dst) eHostVisible = false ->
    find_pinned src 0 pinned = None ->
    width <> spitch ->
    0 <= width -> 0 <= height -> 0 <= spitch -> 0 <= offset ->
    width * height < 2 ^ 63 -> spitch * height < 2 ^ 63 ->
    mapped w (buffer dst) = None ->
    nothing_recorded s ->
    staging_ready w dst ->
    (src + spitch * height + width <= staging_ptr w dst + offset
     \/ staging_ptr w dst + offset + width * height <= src) ->
    exists sub dst' w1 q' w2,
      ggml_vk_buffer_write_2d_async w pinned dst offset src spitch width
        height q wait signal s = Done ([sub], dst', w1, q')
      /\ exec_sequence w1 [sub] = Some w2
      /\ (forall i j, 0 <= i < height -> 0 <= j < width ->
            host_mem w1 (staging_ptr w dst + offset + i * width + j)
            = host_mem w (src + i * spitch + j))
      /\ (forall k, 0 <= k < width * height -> k < offset ->
            buffer_byte w2 (buffer dst) (offset + k)
            = host_mem w (staging_ptr w dst + k)).
Proof.
  intros w pinned dst offset src spitch width height q wait signal s
         Hflag Hfind Hne Hw Hh Hsp Hoff Hb1 Hb2 Hmd Hs Hready Hdisj.
  unfold ggml_vk_buffer_write_2d_async.
  rewrite Hflag. cbn [negb GGML_ASSERT mbind result_bind rbind].
  destruct (submission_or_new_empty s q wait signal Hs)
    as (sub0 & q' & -> & Hempty).
  rewrite Hfind.
  destruct (staging_or_new_shape w dst Hmd Hready)
    as (sb & dst' & w1 & -> & Hptr & Hbuf & Hmsb & Hmd1 & Hhost).
  destruct (sync_buffers_cmds sub0 [ggml_vk_subbuffer dst'] q'
              eMemoryRead eMemoryWrite false) as (pre & -> & Hpre & _).
  rewrite Hempty. cbn [app].
  rewrite (u64_small (width * height)) by nia.
  rewrite (proj2 (Z.eqb_neq width spitch) Hne).
  set (m := write_rows _ _ _ _ _ _ _).
  eexists _, _, _, _, _. split; [reflexivity|].
  unfold exec_sequence, record. cbn [s_cmds].
  rewrite exec_cmds_app, (exec_only_barriers _ pre Hpre).
  unfold exec_cmds, exec_cmd. cbn [fold_left].
  split; [reflexivity|].
  destruct (write_rows_spec (host_mem w1) (ptr sb + offset) src spitch width
              (Z.to_nat height))
    as (Zrow & Zout);
    [ lia | lia | rewrite Z2Nat.id by lia; lia
    | rewrite Z2Nat.id by lia; lia
    | rewrite Z2Nat.id by lia; rewrite Hptr;
      (destruct Hdisj as [Hd|Hd]; [left; apply rows_below_slack; [lia | exact Hd] | right; exact Hd]) | ].
  rewrite Z2Nat.id in Zrow, Zout by lia.
  rewrite <- write_rows_shift in Zrow, Zout. fold m in Zrow, Zout.
  split.
  - intros i j Hi Hj. cbn [with_host_mem host_mem].
    rewrite <- Hptr, (Zrow i j Hi Hj), Hhost. reflexivity.
  - intros k Hk Hlt.
    unfold copy_region. cbn [srcOffset dstOffset copy_size].
    set (w1m := with_host_mem w1 m).
    assert (Hmd1m : mapped w1m (buffer dst) = None) by exact Hmd1.
    destruct (write_range_device w1m (buffer dst) offset (width * height)
                (fun k0 => buffer_byte w1m (buffer sb) (0 + k0)) Hmd1m)
      as (_ & _ & _ & Wsame & _).
    rewrite Wsame. rewrite in_range_true by lia.
    unfold buffer_byte. subst w1m. cbn [mapped with_host_mem host_mem].
    rewrite Hmsb.
    replace (ptr sb + (0 + (offset + k - offset))) with (ptr sb + k) by lia.
    rewrite Zout by lia. rewrite Hhost, Hptr. reflexivity.
Qed.


Lemma write_2d_async_pinned_rows_witness :
  exists sub q' w2,
    ggml_vk_buffer_write_2d_async (snd (snd example_exact_pinned_setting))
      (fst example_exact_pinned_setting)
      (fst (snd example_exact_pinned_setting))
      8 4096 4 2 2 example_queue [] [] None
    = Done ([sub], fst (snd example_exact_pinned_setting),
            snd (snd example_exact_pinned_setting), q')
    /\ exec_sequence (snd (snd example_exact_pinned_setting)) [sub] = Some w2
    /\ forall i j, 0 <= i < 2 -> 0 <= j < 2 ->
         buffer_byte w2 (buffer (fst (snd example_exact_pinned_setting)))
                     (8 + i * 2 + j)
         = host_mem (snd (snd example_exact_pinned_setting))
                    (4096 + i * 4 + j).
Proof.
  apply (write_2d_async_pinned_rows (snd (snd example_exact_pinned_setting))
           (fst example_exact_pinned_setting)
           (fst (snd example_exact_pinned_setting))
           8 4096 4 2 2 example_queue [] [] None).
  - reflexivity.
  - lia.
  - lia.
  - lia.
  - lia.
  - lia.
  - lia.
  - reflexivity.
  - exact I.
  - eexists _, _. split; [vm_compute; reflexivity|].
    split; [reflexivity|].
    split; [|vm_compute; reflexivity].
    intros r c Hr Hc. change (4096 - 4096 + r * 4 + c < 6). lia.
Defined.

Lemma write_2d_async_staging_offset_witness :
  exists sub dst' w1 q' w2,
    ggml_vk_buffer_write_2d_async (snd example_staged_dst) []
      (fst example_staged_dst) 16 100 5 3 2 example_queue [] [] None
    = Done ([sub], dst', w1, q')
    /\ exec_sequence w1 [sub] = Some w2
    /\ (forall i j, 0 <= i < 2 -> 0 <= j < 3 ->
          host_mem w1 (staging_ptr (snd example_staged_dst)
                         (fst example_staged_dst) + 16 + i * 3 + j)
          = host_mem (snd example_staged_dst) (100 + i * 5 + j))
    /\ (forall k, 0 <= k < 3 * 2 -> k < 16 ->
          buffer_byte w2 (buffer (fst example_staged_dst)) (16 + k)
          = host_mem (snd example_staged_dst)
              (staging_ptr (snd example_staged_dst)
                 (fst example_staged_dst) + k)).
Proof.
  apply (write_2d_async_staging_offset (snd example_staged_dst) []
           (fst example_staged_dst) 16 100 5 3 2 example_queue [] [] None).
  - reflexivity.
  - reflexivity.
  - lia.
  - lia.
  - lia.
  - lia.
  - lia.
  - lia.
  - lia.
  - reflexivity.
  - exact I.
  - vm_compute. congruence.
  - left. vm_compute. congruence.
Defined.

(** The same write, evaluated: the six source bytes 100..102 and 105..107
    are asked to go to bytes 16..21 of the destination; they are stored
    at bytes 16..21 of the staging buffer, and the destination receives
    bytes 0..5 of the staging buffer instead. *)
Example write_2d_async_staging_offset_bytes :
  match ggml_vk_buffer_write_2d_async (snd example_staged_dst) []
          (fst example_staged_dst) 16 100 5 3 2 example_queue [] [] None with
  | Done (sq, dst', w1, _) =>
      option_map (fun w2 => buffer_bytes w2 (buffer dst') 16 6)
                 (exec_sequence w1 sq)
      = Some (map (fun k => (4096 + Z.of_nat k) mod 251) (seq 0 6))
      /\ map (fun k => host_mem w1 (4096 + 16 + Z.of_nat k)) (seq 0 6)
         = [100; 101; 102; 105; 106; 107]
  | _ => False
  end.
Proof. vm_compute. split; reflexivity. Qed.

(** ** What executing commands leaves alone *)

Lemma write_range_frame w h off n f :
  mapped (write_range w h off n f) = mapped w
  /\ live (write_range w h off n f) = live w
  /\ next_handle (write_range w h off n f) = next_handle w
  /\ next_addr (write_range w h off n f) = next_addr w.
Proof.
  unfold write_range. destruct (mapped w h); repeat split; reflexivity.
Qed.

Lemma copy_regions_frame src_h dst_h regions :
  forall w,
    mapped (fold_left (copy_region src_h dst_h) regions w) = mapped w
    /\ live (fold_left (copy_region src_h dst_h) regions w) = live w
    /\ next_handle (fold_left (copy_region src_h dst_h) regions w)
       = next_handle w
    /\ next_addr (fold_left (copy_region src_h dst_h) regions w)
       = next_addr w.
Proof.
  induction regions as [|r rest IH]; intros w; [repeat split; reflexivity|].
  cbn [fold_left].
  destruct (IH (copy_region src_h dst_h w r)) as (H1 & H2 & H3 & H4).
  destruct (write_range_frame w dst_h (dstOffset r) (copy_size r)
              (fun k => buffer_byte w src_h (srcOffset r + k)))
    as (G1 & G2 & G3 & G4).
  unfold copy_region in *.
  rewrite H1, H2, H3, H4. auto.
Qed.

Lemma exec_cmds_frame cmds :
  forall w w',
    exec_cmds w cmds = Some w' ->
    mapped w' = mapped w /\ live w' = live w
    /\ next_handle w' = next_handle w /\ next_addr w' = next_addr w.
Proof.
  induction cmds as [|c rest IH]; intros w w' H.
  - unfold exec_cmds in H. inversion H. repeat split; reflexivity.
  - change (exec_cmds w (c :: rest))
      with (match exec_cmd w c with
            | Some w1 => exec_cmds w1 rest
            | None => None
            end) in H.
    destruct (exec_cmd w c) as [w1|] eqn:E; [|discriminate].
    destruct (IH _ _ H) as (H1 & H2 & H3 & H4).
    assert (Hstep : mapped w1 = mapped w /\ live w1 = live w
                    /\ next_handle w1 = next_handle w
                    /\ next_addr w1 = next_addr w).
    { destruct c; cbn [exec_cmd] in E; inversion E; subst w1;
        try (repeat split; reflexivity).
      - apply write_range_frame.
      - apply copy_regions_frame. }
    destruct Hstep as (G1 & G2 & G3 & G4).
    rewrite H1, H2, H3, H4. auto.
Qed.

(** The staging path of a plain write on a buffer that has no write
    staging buffer yet: one is created and recorded in the buffer. *)
Lemma write_2d_async_new_staging w pinned dst offset src spitch width height
      q wait signal s seq dst' w1 q' :
  has_flag (memory_property_flags dst) eHostVisible = false ->
  find_pinned src 0 pinned = None ->
  sb_write dst = None ->
  ggml_vk_buffer_write_2d_async w pinned dst offset src spitch width height
    q wait signal s = Done (seq, dst', w1, q') ->
  let wa := snd (ggml_vk_create_buffer w (size dst)
                   (Z.lor eHostVisible eHostCoherent)) in
  sb_read dst' = sb_read dst
  /\ (exists sb, sb_write dst' = Some sb /\ buffer sb = next_handle w)
  /\ mapped w1 = mapped wa /\ next_handle w1 = next_handle wa
  /\ next_addr w1 = next_addr wa.
Proof.
  intros Hflag Hfind Hsbw H.
  unfold ggml_vk_buffer_write_2d_async in H.
  rewrite Hflag, Hfind in H.
  cbn [negb GGML_ASSERT mbind result_bind rbind] in H.
  unfold staging_or_new in H. rewrite Hsbw in H.
  rewrite (create_host_visible _ _ _ staging_flags_host_visible) in H |- *.
  destruct (submission_or_new s q wait signal) as [sub0 q0].
  inversion H; subst. cbn.
  split; [reflexivity|]. split; [eexists; split; reflexivity|].
  repeat split; reflexivity.
Qed.

(** The staging path of a read on a buffer that has no read staging
    buffer yet: one is created and recorded in the buffer. *)
Lemma buffer_read_new_staging w pinned src offset dst sz q src' w' q' :
  has_flag (memory_property_flags src) eHostVisible = false ->
  find_pinned dst 0 pinned = None ->
  sb_read src = None ->
  ggml_vk_buffer_read w pinned src offset dst sz q = Done (src', w', q') ->
  sb_write src' = sb_write src
  /\ exists sb, sb_read src' = Some sb /\ buffer sb = next_handle w.
Proof.
  intros Hflag Hfind Hsbr H.
  unfold ggml_vk_buffer_read in H. rewrite Hflag, Hfind in H.
  unfold staging_read_or_new in H. rewrite Hsbr in H.
  rewrite (create_host_visible _ _ _ pinned_flags_host_visible) in H.
  destruct (ggml_vk_create_cmd_buffer q) as [cb q0].
  destruct (submit_and_wait _ _) as [w2| |];
    cbn [mbind result_bind rbind] in H; inversion H; subst.
  split; [reflexivity|]. eexists. split; reflexivity.
Qed.

(** X23: a buffer in device memory that has no staging buffers yet, written
    at offset 0 with [ggml_vk_buffer_write] from unpinned memory and read
    back with [ggml_vk_buffer_read] into unpinned memory, returns the
    bytes written; the write goes through a write staging buffer and the
    read through a read staging buffer, both created on the way and kept
    in the buffer. *)
Theorem buffer_write_then_read_staged :
  forall (w : vk_world) (pinned : list pinned_entry) (buf : vk_buffer)
         (src dst sz : Z) (q : vk_queue),
    has_flag (memory_property_flags buf) eHostVisible = false ->
    sb_write buf = None -> sb_read buf = None ->
    mapped w (buffer buf) = None ->
    buffer buf < next_handle w ->
    find_pinned src 0 pinned = None -> find_pinned dst 0 pinned = None ->
    0 <= sz < 2 ^ 63 -> sz <= size buf ->
    src + sz <= next_addr w -> dst + sz <= next_addr w ->
    exists buf1 w1 q1 buf2 w2 q2,
      ggml_vk_buffer_write w pinned buf 0 src sz q = Done (buf1, w1, q1)
      /\ ggml_vk_buffer_read w1 pinned buf1 0 dst sz q1
         = Done (buf2, w2, q2)
      /\ (exists sb, sb_write buf1 = Some sb /\ buffer sb = next_handle w)
      /\ (exists sb, sb_read buf2 = Some sb /\ buffer sb = next_handle w + 1)
      /\ sb_write buf2 = sb_write buf1
      /\ (forall k, 0 <= k < sz ->
            host_mem w2 (dst + k) = host_mem w (src + k)).
Proof.
  intros w pinned buf src dst sz q Hflag Hsbw Hsbr Hmd Hlive Hps Hpd Hsz
         Hfit Hsrc Hdst.
  unfold ggml_vk_buffer_write, ggml_vk_buffer_write_2d. rewrite Hflag.
  destruct (write_2d_async_then_read w pinned buf src 0 sz 1 q [] [] None
              Hflag)
    as (sub & buf1 & w1 & q1 & w2 & E & Hbuf & Hfl & Hsize & Hexec & Hrows);
    try lia; try exact I; try exact Hmd.
  { right. split; [exact Hps|]. rewrite Hsbw, spec_pad_1.
    split; [lia|]. split; [lia|]. intros r c Hr Hc. lia. }
  rewrite E. cbn [mbind result_bind rbind].
  unfold submit_and_wait. rewrite Hexec. cbn [mbind result_bind rbind].
  destruct (write_2d_async_new_staging _ _ _ _ _ _ _ _ _ _ _ _ _ _ _ _
              Hflag Hps Hsbw E)
    as (Hsbr1 & Hsbw1 & Hm1 & Hn1 & Ha1).
  rewrite (create_host_visible _ _ _ staging_flags_host_visible)
    in Hm1, Hn1, Ha1.
  cbn [snd mapped next_handle next_addr] in Hm1, Hn1, Ha1.
  rewrite exec_sequence_single in Hexec.
  destruct (exec_cmds_frame _ _ _ Hexec) as (Hm2 & _ & Hn2 & Ha2).
  assert (Hst : read_staged w2 pinned buf1 dst sz).
  { split; [rewrite Hfl; exact Hflag|]. split; [exact Hpd|].
    split.
    - rewrite Hm2, Hm1, Hbuf.
      rewrite fn_lookup_insert_ne by lia. exact Hmd.
    - rewrite Hsbr1, Hsbr. rewrite Hn2, Hn1, Ha2, Ha1, Hbuf. split; lia. }
  destruct (buffer_read_staged w2 pinned buf1 0 dst sz q1 Hst)
    as (buf2 & w3 & q2 & Eread & _ & Hbytes).
  destruct (buffer_read_new_staging w2 pinned buf1 0 dst sz q1 buf2 w3 q2)
    as (Hkeepw & sbr & Hsbr2 & Hsbrh);
    [ rewrite Hfl; exact Hflag | exact Hpd | rewrite Hsbr1; exact Hsbr
    | exact Eread | ].
  exists buf1, w2, q1, buf2, w3, q2.
  split; [reflexivity|]. split; [exact Eread|]. split; [exact Hsbw1|].
  split; [exists sbr; split; [exact Hsbr2 | rewrite Hsbrh, Hn2, Hn1; reflexivity]|].
  split; [exact Hkeepw|].
  intros k Hk. rewrite (Hbytes k Hk), Hbuf.
  specialize (Hrows 0 k ltac:(lia) Hk).
  rewrite Z.mul_0_l, Z.add_0_l in Hrows. rewrite Z.add_0_l, Hrows.
  f_equal. lia.
Qed.

Lemma buffer_write_then_read_staged_witness :
  exists buf1 w1 q1 buf2 w2 q2,
    ggml_vk_buffer_write (snd example_staged_dst) []
      (fst example_staged_dst) 0 100 16 example_queue = Done (buf1, w1, q1)
    /\ ggml_vk_buffer_read w1 [] buf1 0 200 16 q1 = Done (buf2, w2, q2)
    /\ (exists sb, sb_write buf1 = Some sb
                   /\ buffer sb = next_handle (snd example_staged_dst))
    /\ (exists sb, sb_read buf2 = Some sb
                   /\ buffer sb = next_handle (snd example_staged_dst) + 1)
    /\ sb_write buf2 = sb_write buf1
    /\ (forall k, 0 <= k < 16 ->
          host_mem w2 (200 + k) = host_mem (snd example_staged_dst) (100 + k)).
Proof.
  apply (buffer_write_then_read_staged (snd example_staged_dst) []
           (fst example_staged_dst) 100 200 16 example_queue).
  - reflexivity.
  - reflexivity.
  - reflexivity.
  - reflexivity.
  - vm_compute. reflexivity.
  - reflexivity.
  - reflexivity.
  - lia.
  - vm_compute. congruence.
  - vm_compute. congruence.
  - vm_compute. congruence.
Defined.

(** ** Uploading a tensor and freeing it *)

Lemma exec_sequence_frame seq :
  forall w w',
    exec_sequence w seq = Some w' ->
    mapped w' = mapped w /\ live w' = live w
    /\ next_handle w' = next_handle w /\ next_addr w' = next_addr w.
Proof.
  induction seq as [|s rest IH]; intros w w' H.
  - unfold exec_sequence in H. inversion H. repeat split; reflexivity.
  - change (exec_sequence w (s :: rest))
      with (match exec_cmds w (s_cmds s) with
            | Some w1 => exec_sequence w1 rest
            | None => None
            end) in H.
    destruct (exec_cmds w (s_cmds s)) as [w1|] eqn:E; [|discriminate].
    destruct (IH _ _ H) as (H1 & H2 & H3 & H4).
    destruct (exec_cmds_frame _ _ _ E) as (G1 & G2 & G3 & G4).
    rewrite H1, H2, H3, H4. auto.
Qed.

(** What a plain 2-D write does to a buffer without write staging buffer
    and to the buffers of the device: nothing on the pinned path; on the
    staging path one buffer is created and recorded in the destination. *)
Lemma write_2d_async_result w pinned dst offset src spitch width height
      q wait signal s seq dst' w1 q' :
  sb_write dst = None ->
  ggml_vk_buffer_write_2d_async w pinned dst offset src spitch width height
    q wait signal s = Done (seq, dst', w1, q') ->
  buffer dst' = buffer dst /\ sb_read dst' = sb_read dst
  /\ ((sb_write dst' = None /\ live w1 = live w
       /\ next_handle w1 = next_handle w)
      \/ (exists sb,
            sb_write dst' = Some sb /\ buffer sb = next_handle w
            /\ live w1 = live w ++ [next_handle w]
            /\ next_handle w1 = next_handle w + 1)).
Proof.
  intros Hsbw H. unfold ggml_vk_buffer_write_2d_async in H.
  destruct (has_flag (memory_property_flags dst) eHostVisible);
    cbn [negb GGML_ASSERT mbind result_bind rbind] in H; [discriminate|].
  destruct (submission_or_new s q wait signal) as [sub0 q0].
  destruct (find_pinned src 0 pinned) as [[i e]|].
  - inversion H; subst. split; [reflexivity|]. split; [reflexivity|].
    left. auto.
  - unfold staging_or_new in H. rewrite Hsbw in H.
    rewrite (create_host_visible _ _ _ staging_flags_host_visible) in H.
    inversion H; subst. cbn.
    split; [reflexivity|]. split; [reflexivity|].
    right. eexists. repeat split; reflexivity.
Qed.

Lemma h2d_tensor_2d_result ts bs w pinned dst offset src i3 i2 q wait signal
      s seq dst' w1 q' :
  sb_write dst = None ->
  ggml_vk_h2d_tensor_2d ts bs w pinned dst offset src i3 i2 q wait signal s
  = Done (seq, dst', w1, q') ->
  buffer dst' = buffer dst /\ sb_read dst' = sb_read dst
  /\ ((sb_write dst' = None /\ live w1 = live w
       /\ next_handle w1 = next_handle w)
      \/ (exists sb,
            sb_write dst' = Some sb /\ buffer sb = next_handle w
            /\ live w1 = live w ++ [next_handle w]
            /\ next_handle w1 = next_handle w + 1)).
Proof.
  intros Hsbw H. unfold ggml_vk_h2d_tensor_2d in H.
  destruct (data src) as [addr|]; [|discriminate].
  destruct ((nb0 src =? ts (type src)) && (nb1 src =? row_length ts bs src)).
  - unfold ggml_vk_buffer_write_async in H.
    eapply write_2d_async_result; eassumption.
  - destruct (nb0 src =? ts (type src)); [|discriminate].
    eapply write_2d_async_result; eassumption.
Qed.

Lemma remove_two_fresh (hs : list Z) (h : Z) :
  Forall (fun x => x < h) hs ->
  remove_handle (h + 1) (remove_handle h (hs ++ [h; h + 1])) = hs.
Proof.
  intros H.
  replace (hs ++ [h; h + 1]) with ((hs ++ [h]) ++ [h + 1])
    by (rewrite <- app_assoc; reflexivity).
  assert (E : remove_handle h ((hs ++ [h]) ++ [h + 1]) = hs ++ [h + 1]).
  { unfold remove_handle at 1. rewrite list.filter_app.
    fold (remove_handle h (hs ++ [h])).
    rewrite (remove_fresh_handle hs h H).
    rewrite (list.filter_cons_True _ (h + 1)) by lia.
    rewrite list.filter_nil. reflexivity. }
  rewrite E. apply remove_fresh_handle.
  eapply Forall_impl; [|exact H]. intros x Hx. simpl in Hx. lia.
Qed.

(** X24: [ggml_vk_free_data] undoes [ggml_vk_transform_tensor]: whenever
    the upload of a tensor returns, freeing the tensor's data destroys the
    device buffer and the staging buffer the upload may have created, so
    that the buffers that exist afterwards are those that existed before
    the upload. *)
Theorem transform_then_free_data :
  forall (ggml_type_size ggml_blck_size : ggml_type -> Z) (w : vk_world)
         (pinned : list pinned_entry) (host_data : Z) (tensor : ggml_tensor)
         (tr0 : vk_queue) (tensor' : ggml_tensor) (w' : vk_world)
         (tr0' : vk_queue),
    world_wf w ->
    ggml_vk_transform_tensor ggml_type_size ggml_blck_size w pinned host_data
                             tensor tr0 = Done (tensor', w', tr0') ->
    In (next_handle w) (live w')
    /\ exists w'',
         ggml_vk_free_data w' tensor' = Done w''
         /\ live w'' = live w.
Proof.
  intros ts bs w pinned host_data tensor tr0 tensor' w' tr0' Hw H.
  unfold ggml_vk_transform_tensor in H.
  destruct ((ne2 tensor =? 1) && (ne3 tensor =? 1));
    cbn [GGML_ASSERT mbind result_bind rbind] in H; [|discriminate].
  rewrite create_device_local in H.
  set (dst := mk_vk_buffer (next_handle w) eDeviceLocal 0 _ None None _) in H.
  set (w1 := mk_world _ _ _ _ _ _ _) in H.
  destruct (ggml_vk_h2d_tensor_2d ts bs w1 pinned dst 0 _ 0 0 tr0 [] [] None)
    as [[[[seqs dst'] w2] tr1]| |] eqn:Eh2d; try discriminate.
  cbn [mbind result_bind rbind] in H.
  destruct (exec_sequence w2 seqs) as [w3|] eqn:Eexec;
    cbn [mbind result_bind rbind] in H; [|discriminate].
  destruct (bool_decide (backend (with_data (with_data tensor
              (HostData host_data)) (DeviceHandle dst')) = GGML_BACKEND_GPU))
    eqn:Eb; cbn [GGML_ASSERT mbind result_bind rbind] in H; [|discriminate].
  inversion H; subst tensor' w' tr0'. clear H.
  destruct (h2d_tensor_2d_result ts bs w1 pinned dst 0 _ 0 0 tr0 [] [] None
              seqs dst' w2 tr1 eq_refl Eh2d) as (Hbuf & Hsbr & Hcases).
  destruct (exec_sequence_frame _ _ _ Eexec) as (_ & Hlive3 & _ & _).
  unfold ggml_vk_free_data. rewrite Eb. cbn [negb data with_data].
  subst w1. cbn [live next_handle] in Hcases.
  split.
  - rewrite Hlive3.
    destruct Hcases as [(_ & -> & _)|(sb & _ & _ & -> & _)];
      rewrite ?in_app_iff; cbn [In]; tauto.
  - eexists. split; [reflexivity|].
    unfold ggml_vk_destroy_buffer. cbn [snd].
    rewrite Hsbr. cbn [dst sb_read free_staging].
    destruct Hcases as [(-> & Hl & _)|(sb & -> & Hsb & Hl & _)];
      cbn [free_staging free_handle live]; rewrite Hlive3, Hl, Hbuf;
      cbn [dst buffer].
    + apply remove_fresh_handle. exact Hw.
    + rewrite Hsb. cbn [next_handle]. rewrite <- app_assoc. cbn [app].
      apply remove_two_fresh. exact Hw.
Qed.

Lemma transform_then_free_data_witness :
  exists tensor' w' tr0',
    ggml_vk_transform_tensor example_type_size example_blck_size
      example_host_world [] 100 (example_weight GGML_BACKEND_GPU)
      example_queue = Done (tensor', w', tr0')
    /\ In (next_handle example_host_world) (live w')
    /\ exists w'',
         ggml_vk_free_data w' tensor' = Done w''
         /\ live w'' = live example_host_world.
Proof.
  destruct (ggml_vk_transform_tensor example_type_size example_blck_size
              example_host_world [] 100 (example_weight GGML_BACKEND_GPU)
              example_queue) as [[[tensor' w'] tr0']| |] eqn:E.
  - exists tensor', w', tr0'. split; [reflexivity|].
    apply (transform_then_free_data example_type_size example_blck_size
             example_host_world [] 100 (example_weight GGML_BACKEND_GPU)
             example_queue tensor' w' tr0').
    + constructor.
    + exact E.
  - vm_compute in E. discriminate E.
  - vm_compute in E. discriminate E.
Defined.

(** ** More on the dispatcher *)

(** X25: [ggml_vk_compute_forward] leaves every operator other than MUL
    and MUL_MAT to the CPU; and for a node it handles it returns true
    without running any orchestrator on every worker but the first and
    in the INIT and FINALIZE phases, whatever the orchestrators would
    do. *)
Theorem compute_forward_skips :
  forall (mul_mat_f32 mul_mat_vec_q_f16 mul_mat_q_f16 mul_f32 :
            ggml_tensor -> ggml_tensor -> ggml_tensor -> result unit)
         (params : ggml_compute_params) (tensor : ggml_tensor),
    let forward :=
      ggml_vk_compute_forward mul_mat_f32 mul_mat_vec_q_f16 mul_mat_q_f16
                              mul_f32 params tensor in
    let idle :=
      ith params <> 0 \/ task_type params = GGML_TASK_INIT
      \/ task_type params = GGML_TASK_FINALIZE in
    (op tensor <> GGML_OP_MUL -> op tensor <> GGML_OP_MUL_MAT ->
     forward = Done false)
    /\ (idle -> op tensor = GGML_OP_MUL \/ op tensor = GGML_OP_MUL_MAT ->
        any_on_device tensor = true -> forward = Done true)
    /\ (idle -> op tensor = GGML_OP_MUL_MAT ->
        forall s0 s1,
          src0 tensor = Some s0 -> src1 tensor = Some s1 ->
          ggml_vk_can_mul_mat s0 s1 tensor = true -> forward = Done true).
Proof.
  intros f32 vec qf mulf params tensor forward idle. subst forward idle.
  assert (Hidle : forall func,
             ith params <> 0 \/ task_type params = GGML_TASK_INIT
             \/ task_type params = GGML_TASK_FINALIZE ->
             run_func params tensor func = Done true).
  { intros func Hi. unfold run_func.
    destruct (ith params =? 0) eqn:E; cbn [negb]; [|reflexivity].
    destruct Hi as [Hi|[Hi|Hi]]; [lia| |]; rewrite Hi; reflexivity. }
  unfold ggml_vk_compute_forward.
  split; [|split].
  - intros H1 H2. destruct (op tensor); try reflexivity; congruence.
  - intros Hi [Hop|Hop] Hdev; rewrite Hop, Hdev; cbn [negb];
      apply Hidle; exact Hi.
  - intros Hi Hop s0 s1 H0 H1 Hcan. rewrite Hop.
    destruct (any_on_device tensor); cbn [negb]; [apply Hidle; exact Hi|].
    rewrite H0, H1. cbn [deref mbind result_bind rbind].
    rewrite Hcan. cbn [negb]. apply Hidle; exact Hi.
Qed.

(** X26: a MUL node, in the COMPUTE phase on the first worker, falls back
    to the CPU exactly when no tensor of the node is on the device; a MUL
    node with a tensor on the device is multiplied by
    [ggml_vk_mul_f32] when the three types are f32 and makes
    [ggml_vk_mul] abort otherwise: there is no CPU fallback for it. *)
Theorem mul_dispatch :
  forall (mul_mat_f32 mul_mat_vec_q_f16 mul_mat_q_f16 mul_f32 :
            ggml_tensor -> ggml_tensor -> ggml_tensor -> result unit)
         (params : ggml_compute_params) (tensor s0 s1 : ggml_tensor),
    op tensor = GGML_OP_MUL ->
    src0 tensor = Some s0 -> src1 tensor = Some s1 ->
    task_type params = GGML_TASK_COMPUTE -> ith params = 0 ->
    let forward :=
      ggml_vk_compute_forward mul_mat_f32 mul_mat_vec_q_f16 mul_mat_q_f16
                              mul_f32 params tensor in
    (forward = Done false <-> any_on_device tensor = false)
    /\ (any_on_device tensor = true ->
        type s0 = GGML_TYPE_F32 /\ type s1 = GGML_TYPE_F32
        /\ type tensor = GGML_TYPE_F32 ->
        forward = (_ ← mul_f32 s0 s1 tensor; Done true))
    /\ (any_on_device tensor = true ->
        ~ (type s0 = GGML_TYPE_F32 /\ type s1 = GGML_TYPE_F32
           /\ type tensor = GGML_TYPE_F32) ->
        forward = Aborted).
Proof.
  intros f32 vec qf mulf params tensor s0 s1 Hop H0 H1 Hphase Hith forward.
  subst forward. unfold ggml_vk_compute_forward. rewrite Hop.
  assert (Hrun : run_func params tensor (ggml_vk_mul mulf)
                 = (_ ← ggml_vk_mul mulf s0 s1 tensor; Done true)).
  { unfold run_func. rewrite Hith, Hphase, H0, H1. reflexivity. }
  destruct (any_on_device tensor) eqn:Hdev; cbn [negb].
  - rewrite Hrun. unfold ggml_vk_mul.
    split; [|split].
    + split; [|discriminate].
      destruct (bool_decide (type s0 = GGML_TYPE_F32)
                && bool_decide (type s1 = GGML_TYPE_F32)
                && bool_decide (type tensor = GGML_TYPE_F32));
        cbn [GGML_ASSERT mbind result_bind rbind]; [|discriminate].
      destruct (mulf s0 s1 tensor); cbn [mbind result_bind rbind];
        discriminate.
    + intros _ (T0 & T1 & T2).
      rewrite !bool_decide_eq_true_2 by assumption. reflexivity.
    + intros _ Hnot.
      destruct (bool_decide (type s0 = GGML_TYPE_F32)) eqn:E0;
        [|reflexivity].
      destruct (bool_decide (type s1 = GGML_TYPE_F32)) eqn:E1;
        [|reflexivity].
      destruct (bool_decide (type tensor = GGML_TYPE_F32)) eqn:E2;
        [|reflexivity].
      exfalso. apply Hnot.
      apply bool_decide_eq_true_1 in E0, E1, E2. auto.
  - split; [tauto|]. split; discriminate.
Qed.

Lemma mul_dispatch_witness :
  (ggml_vk_compute_forward orchestrator_returns orchestrator_returns
     orchestrator_returns orchestrator_returns
     (mk_params GGML_TASK_COMPUTE 0) example_mul_node = Done false
   <-> any_on_device example_mul_node = false)
  /\ (any_on_device example_mul_node = true ->
      type (example_operand GGML_BACKEND_CPU) = GGML_TYPE_F32
      /\ type (example_operand GGML_BACKEND_GPU) = GGML_TYPE_F32
      /\ type example_mul_node = GGML_TYPE_F32 ->
      ggml_vk_compute_forward orchestrator_returns orchestrator_returns
        orchestrator_returns orchestrator_returns
        (mk_params GGML_TASK_COMPUTE 0) example_mul_node
      = (_ ← orchestrator_returns (example_operand GGML_BACKEND_CPU)
               (example_operand GGML_BACKEND_GPU) example_mul_node;
         Done true))
  /\ (any_on_device example_mul_node = true ->
      ~ (type (example_operand GGML_BACKEND_CPU) = GGML_TYPE_F32
         /\ type (example_operand GGML_BACKEND_GPU) = GGML_TYPE_F32
         /\ type example_mul_node = GGML_TYPE_F32) ->
      ggml_vk_compute_forward orchestrator_returns orchestrator_returns
        orchestrator_returns orchestrator_returns
        (mk_params GGML_TASK_COMPUTE 0) example_mul_node = Aborted).
Proof.
  apply (mul_dispatch orchestrator_returns orchestrator_returns
           orchestrator_returns orchestrator_returns
           (mk_params GGML_TASK_COMPUTE 0) example_mul_node
           (example_operand GGML_BACKEND_CPU)
           (example_operand GGML_BACKEND_GPU));
    reflexivity.
Defined.

(** ** Quantized types the orchestrators accept *)

Lemma guess_matmul_pipeline_16_done y m n aligned :
  exists pv, ggml_vk_guess_matmul_pipeline true y m n aligned = Done pv.
Proof.
  unfold ggml_vk_guess_matmul_pipeline.
  destruct y, ((m <=? 32) || (n <=? 32)), ((m <=? 64) || (n <=? 64));
    cbn; eexists; reflexivity.
Qed.

(** X27: [ggml_vk_can_mul_mat] accepts a weight of any quantized type, but
    the orchestrators that [ggml_vk_mul_mat] routes such a node to only
    have pipelines for Q4_0: for a weight of any other quantized type the
    assertion on the dequantization pipeline fails, in
    [ggml_vk_mul_mat_vec_q_f16] when the activation has one row and in
    [ggml_vk_mul_mat_q_f16] otherwise, whatever follows the checks. *)
Theorem mul_mat_other_quantized_types_abort :
  forall (ggml_type_size ggml_blck_size : ggml_type -> Z)
         (st : pipeline_store) (dev : vk_device_state)
         (mul_mat_f32 : ggml_tensor -> ggml_tensor -> ggml_tensor -> result unit)
         (rest_vec : option pipeline_var * pipeline_var -> result unit)
         (rest_q : pipeline_var * option pipeline_var * option pipeline_var
                   -> result unit)
         (s0 s1 dst : ggml_tensor),
    ggml_is_quantized (type s0) = true ->
    type s0 <> GGML_TYPE_Q4_0 ->
    ggml_vk_can_mul_mat s0 s1 dst = true ->
    ggml_vk_mul_mat mul_mat_f32
      (fun src0 src1 _ =>
         c ← mul_mat_vec_q_f16_checks ggml_type_size ggml_blck_size dev
               src0 src1;
         rest_vec c)
      (fun src0 src1 _ =>
         c ← mul_mat_q_f16_checks ggml_type_size ggml_blck_size st dev
               src0 src1;
         rest_q c)
      s0 s1 dst = Aborted.
Proof.
  intros ts bs st dev f32 rest_vec rest_q s0 s1 dst Hq Hne Hcan.
  unfold ggml_vk_mul_mat. rewrite Hcan.
  cbn [GGML_ASSERT mbind result_bind rbind].
  assert (Hnf32 : bool_decide (type s0 = GGML_TYPE_F32) = false).
  { apply bool_decide_eq_false_2. intros E. rewrite E in Hq. discriminate. }
  assert (Hnf16 : bool_decide (type s0 = GGML_TYPE_F16) = false).
  { apply bool_decide_eq_false_2. intros E. rewrite E in Hq. discriminate. }
  assert (Hto : ggml_vk_get_to_fp16 (type s0) = None).
  { destruct (type s0); try reflexivity; try discriminate; congruence. }
  assert (Hdm : forall y,
             ggml_vk_get_dequantize_mul_mat_vec (type s0) y = None).
  { intros y. destruct (type s0); try reflexivity; try discriminate;
      congruence. }
  rewrite Hnf32, Hnf16, Hq. cbn [andb orb].
  rewrite andb_true_r.
  destruct (ne1 s1 =? 1) eqn:Erow.
  - unfold mul_mat_vec_q_f16_checks. rewrite Erow.
    cbn [GGML_ASSERT mbind result_bind rbind].
    rewrite Hdm.
    repeat match goal with
           | |- context [if ?c then _ else _] => destruct c
           end;
      cbn [GGML_ASSERT mbind result_bind rbind];
      repeat match goal with
             | |- context [GGML_ASSERT ?c] =>
                 destruct c; cbn [GGML_ASSERT mbind result_bind rbind]
             end; reflexivity.
  - unfold mul_mat_q_f16_checks, mul_mat_pipeline.
    destruct (guess_matmul_pipeline_16_done
                (negb (bool_decide (type s1 = GGML_TYPE_F32)))
                (s32 (ne1 s0)) (s32 (ne1 s1))
                (ne0 s1 =? mul_mat_kpad st (ne1 s0) (ne1 s1) (ne0 s1)))
      as [pv ->].
    cbn [mbind result_bind rbind].
    assert (Hnone : bool_decide (is_Some (@None pipeline_var)) = false)
      by reflexivity.
    rewrite Hnf16, Hto, Hnone. cbn [negb orb].
    cbn [GGML_ASSERT mbind result_bind rbind].
    destruct (negb (bool_decide (type s1 = GGML_TYPE_F16))
              && negb (bool_decide (type s1 = GGML_TYPE_F32)));
      cbn [GGML_ASSERT mbind result_bind rbind]; [reflexivity|].
    match goal with
    | |- context [GGML_ASSERT ?c] =>
        destruct c; cbn [GGML_ASSERT mbind result_bind rbind]
    end; reflexivity.
Qed.

Lemma mul_mat_other_quantized_types_abort_witness :
  ggml_vk_mul_mat orchestrator_returns
    (fun src0 src1 _ =>
       c ← mul_mat_vec_q_f16_checks example_type_size example_blck_size
             (init_dev true true 16) src0 src1;
       Done tt)
    (fun src0 src1 _ =>
       c ← mul_mat_q_f16_checks example_type_size example_blck_size
             (init_store true true 16) (init_dev true true 16) src0 src1;
       Done tt)
    example_q5_weight example_activation example_q5_node = Aborted.
Proof.
  apply (mul_mat_other_quantized_types_abort example_type_size
           example_blck_size (init_store true true 16)
           (init_dev true true 16) orchestrator_returns
           (fun _ => Done tt) (fun _ => Done tt)
           example_q5_weight example_activation example_q5_node).
  - reflexivity.
  - discriminate.
  - reflexivity.
Defined.

(** ** Every recorded sequence is submitted *)

Lemma submitted_app q evs1 evs2 :
  submitted q (evs1 ++ evs2) = (submitted q evs1 + submitted q evs2)%nat.
Proof.
  induction evs1 as [|e evs1 IH]; [reflexivity|].
  destruct e; cbn [app submitted]; rewrite IH; lia.
Qed.

Lemma submitted_submit q q' pending :
  submitted q (ggml_vk_submit q' pending)
  = if decide (q' = q) then pending else O.
Proof.
  unfold ggml_vk_submit. destruct pending; cbn [submitted].
  - destruct (decide (q' = q)); reflexivity.
  - destruct (decide (q' = q)); lia.
Qed.

(** Over a loop whose body adds [push] sequences to the vectors of a queue
    and submits some of them, the sequences submitted and the ones still
    pending add up to [push] per batch. *)
Lemma batches_submitted {St : Type} (q : queue_var) (pend : St -> nat)
    (push : nat) (body : nat -> St -> list queue_event * St) :
  (forall i s,
      (submitted q (body i s).1 + pend (body i s).2 = pend s + push)%nat) ->
  forall n i s,
    (submitted q (batches n i body s).1 + pend (batches n i body s).2
     = pend s + n * push)%nat.
Proof.
  intros Hbody. induction n as [|n IH]; intros i s.
  - cbn. lia.
  - cbn [batches]. specialize (Hbody i s).
    destruct (body i s) as [ev s1]. specialize (IH (S i) s1).
    destruct (batches n (S i) body s1) as [evs s2].
    cbn [fst snd] in *. rewrite submitted_app. lia.
Qed.

Lemma batches_state_invariant {St : Type} (P : St -> Prop)
    (body : nat -> St -> list queue_event * St) :
  (forall i s, P s -> P (body i s).2) ->
  forall n i s, P s -> P (batches n i body s).2.
Proof.
  intros Hbody. induction n as [|n IH]; intros i s Hs; [exact Hs|].
  cbn [batches]. specialize (Hbody i s Hs).
  destruct (body i s) as [ev s1]. specialize (IH (S i) s1 Hbody).
  destruct (batches n (S i) body s1) as [evs s2]. exact IH.
Qed.

Ltac count_submitted :=
  cbn [fst snd]; rewrite ?submitted_app, ?submitted_submit;
  cbn [submitted app];
  repeat match goal with
         | |- context [decide (?a = ?b)] =>
             destruct (decide (a = b)); try congruence
         end;
  try lia.

(** X28: none of the four orchestrators the dispatcher reaches drops a
    recorded sequence: over the whole call,
    the sequences handed to [queue.submit] on each queue are exactly the
    ones pushed on its vectors, one set per batch, also where
    [ggml_vk_mul_mat_q_f16] and [ggml_vk_mul_mat_vec_q_f16] hold
    submissions back until [VK_SUBMIT_BATCH] batches are recorded. *)
Theorem orchestrators_submit_every_sequence :
  forall (load_x load_y dq : bool) (ne02 ne03 : Z),
    let n := batch_count ne02 ne03 in
    let one (b : bool) := if b then 1%nat else 0%nat in
    let many := (1 <? ne03) || (1 <? ne02) in
    (submitted transfer_queue_0
       (mul_mat_q_f16_events load_x load_y dq ne02 ne03)
     = (n * (one load_x + 1))%nat
     /\ submitted transfer_queue_1
          (mul_mat_q_f16_events load_x load_y dq ne02 ne03)
        = (n * one load_y)%nat
     /\ submitted compute_queue
          (mul_mat_q_f16_events load_x load_y dq ne02 ne03)
        = (n * (one dq + 1))%nat)
    /\ (submitted compute_queue (mul_mat_vec_q_f16_events ne02 ne03) = n
        /\ submitted transfer_queue_0 (mul_mat_vec_q_f16_events ne02 ne03)
           = O
        /\ submitted transfer_queue_1 (mul_mat_vec_q_f16_events ne02 ne03)
           = O)
    /\ (submitted transfer_queue_0 (mul_mat_f32_events load_x ne02 ne03)
        = (n * (one load_x + 1))%nat
        /\ submitted transfer_queue_1 (mul_mat_f32_events load_x ne02 ne03)
           = n
        /\ submitted compute_queue (mul_mat_f32_events load_x ne02 ne03)
           = n)
    /\ (submitted compute_queue (mul_f32_events ne02 ne03) = n
        /\ submitted transfer_queue_0 (mul_f32_events ne02 ne03)
           = (n * one many)%nat
        /\ submitted transfer_queue_1 (mul_f32_events ne02 ne03)
           = (n * one many)%nat).
Proof.
  intros load_x load_y dq ne02 ne03 n one many.
  split; [|split; [|split]].
  - (* ggml_vk_mul_mat_q_f16 *)
    unfold mul_mat_q_f16_events. fold n.
    pose proof (batches_submitted transfer_queue_0
                  (fun s : nat * nat * nat * nat * nat =>
                     (s.1.1.1.2 + s.2)%nat)
                  (one load_x + 1) (mul_mat_q_f16_batch load_x load_y dq))
      as H0.
    pose proof (batches_submitted transfer_queue_1
                  (fun s : nat * nat * nat * nat * nat => s.1.1.2)
                  (one load_y) (mul_mat_q_f16_batch load_x load_y dq))
      as H1.
    pose proof (batches_submitted compute_queue
                  (fun s : nat * nat * nat * nat * nat => s.1.2)
                  (one dq + 1) (mul_mat_q_f16_batch load_x load_y dq))
      as Hc.
    specialize (H0 ltac:(intros i [[[[sc t0] t1] c] t2];
                         unfold mul_mat_q_f16_batch, one;
                         destruct ((i =? 0)%nat || (VK_SUBMIT_BATCH <=? S sc)%nat),
                           load_x, load_y, dq; count_submitted)
                   n O (O, O, O, O, O)).
    specialize (H1 ltac:(intros i [[[[sc t0] t1] c] t2];
                         unfold mul_mat_q_f16_batch, one;
                         destruct ((i =? 0)%nat || (VK_SUBMIT_BATCH <=? S sc)%nat),
                           load_x, load_y, dq; count_submitted)
                   n O (O, O, O, O, O)).
    specialize (Hc ltac:(intros i [[[[sc t0] t1] c] t2];
                         unfold mul_mat_q_f16_batch, one;
                         destruct ((i =? 0)%nat || (VK_SUBMIT_BATCH <=? S sc)%nat),
                           load_x, load_y, dq; count_submitted)
                   n O (O, O, O, O, O)).
    destruct (batches n 0 (mul_mat_q_f16_batch load_x load_y dq)
                (O, O, O, O, O)) as [evs [[[[sc t0] t1] c] t2]].
    cbn [fst snd] in H0, H1, Hc.
    split; [|split]; count_submitted.
  - (* ggml_vk_mul_mat_vec_q_f16 *)
    unfold mul_mat_vec_q_f16_events. fold n.
    pose proof (batches_submitted compute_queue
                  (fun s : nat * nat => s.2) 1 mul_mat_vec_q_f16_batch)
      as Hc.
    pose proof (batches_submitted transfer_queue_0
                  (fun s : nat * nat => O) 0 mul_mat_vec_q_f16_batch)
      as H0.
    pose proof (batches_submitted transfer_queue_1
                  (fun s : nat * nat => O) 0 mul_mat_vec_q_f16_batch)
      as H1.
    specialize (Hc ltac:(intros i [sc seqs]; unfold mul_mat_vec_q_f16_batch;
                         destruct ((i =? 0)%nat || (VK_SUBMIT_BATCH <=? S sc)%nat);
                         count_submitted)
                   n O (O, O)).
    specialize (H0 ltac:(intros i [sc seqs]; unfold mul_mat_vec_q_f16_batch;
                         destruct ((i =? 0)%nat || (VK_SUBMIT_BATCH <=? S sc)%nat);
                         count_submitted)
                   n O (O, O)).
    specialize (H1 ltac:(intros i [sc seqs]; unfold mul_mat_vec_q_f16_batch;
                         destruct ((i =? 0)%nat || (VK_SUBMIT_BATCH <=? S sc)%nat);
                         count_submitted)
                   n O (O, O)).
    destruct (batches n 0 mul_mat_vec_q_f16_batch (O, O))
      as [evs [sc seqs]].
    cbn [fst snd] in H0, H1, Hc.
    split; [|split]; count_submitted.
  - (* ggml_vk_mul_mat_f32 *)
    unfold mul_mat_f32_events. fold n.
    pose proof (batches_submitted transfer_queue_0
                  (fun s : nat * nat * nat => s.1.1)
                  (one load_x + 1) (mul_mat_f32_batch load_x)) as H0.
    pose proof (batches_submitted transfer_queue_1
                  (fun s : nat * nat * nat => s.1.2)
                  1 (mul_mat_f32_batch load_x)) as H1.
    pose proof (batches_submitted compute_queue
                  (fun s : nat * nat * nat => s.2)
                  1 (mul_mat_f32_batch load_x)) as Hc.
    specialize (H0 ltac:(intros i [[t0 t1] c]; unfold mul_mat_f32_batch, one;
                         destruct load_x; count_submitted)
                   n O (O, O, O)).
    specialize (H1 ltac:(intros i [[t0 t1] c]; unfold mul_mat_f32_batch, one;
                         destruct load_x; count_submitted)
                   n O (O, O, O)).
    specialize (Hc ltac:(intros i [[t0 t1] c]; unfold mul_mat_f32_batch, one;
                         destruct load_x; count_submitted)
                   n O (O, O, O)).
    pose proof (batches_state_invariant
                  (fun s : nat * nat * nat => s.1.2 = O /\ s.2 = O)
                  (mul_mat_f32_batch load_x)
                  ltac:(intros i [[t0 t1] c] _; split; reflexivity)
                  n O (O, O, O) ltac:(split; reflexivity)) as Hp.
    destruct (batches n 0 (mul_mat_f32_batch load_x) (O, O, O))
      as [evs [[t0 t1] c]].
    cbn [fst snd] in H0, H1, Hc, Hp. destruct Hp as [-> ->].
    split; [|split]; count_submitted.
  - (* ggml_vk_mul_f32 *)
    unfold mul_f32_events. fold n. fold many.
    pose proof (batches_submitted compute_queue
                  (fun s : nat * nat * nat => s.2)
                  1 (mul_f32_batch many)) as Hc.
    pose proof (batches_submitted transfer_queue_0
                  (fun s : nat * nat * nat => s.1.1)
                  (one many) (mul_f32_batch many)) as H0.
    pose proof (batches_submitted transfer_queue_1
                  (fun s : nat * nat * nat => s.1.2)
                  (one many) (mul_f32_batch many)) as H1.
    specialize (Hc ltac:(intros i [[t0 t1] c]; unfold mul_f32_batch, one;
                         destruct many; count_submitted)
                   n O (O, O, O)).
    specialize (H0 ltac:(intros i [[t0 t1] c]; unfold mul_f32_batch, one;
                         destruct many; count_submitted)
                   n O (O, O, O)).
    specialize (H1 ltac:(intros i [[t0 t1] c]; unfold mul_f32_batch, one;
                         destruct many; count_submitted)
                   n O (O, O, O)).
    pose proof (batches_state_invariant
                  (fun s : nat * nat * nat => s = (O, O, O))
                  (mul_f32_batch many)
                  ltac:(intros i s ->; unfold mul_f32_batch;
                        destruct many; reflexivity)
                  n O (O, O, O) eq_refl) as Hp.
    destruct (batches n 0 (mul_f32_batch many) (O, O, O))
      as [evs [[t0 t1] c]].
    cbn [fst snd] in H0, H1, Hc, Hp.
    injection Hp as -> -> ->.
    destruct many; split; [|split| |split]; count_submitted.
Qed.

(** ** Owners of pooled buffers and ownership barriers *)

Lemma pool_free_owners w pool buf :
  pool_owners_ignored pool ->
  pool_owners_ignored (ggml_vk_pool_free w pool buf).1.
Proof.
  intros Hown. unfold ggml_vk_pool_free.
  destruct (first_empty_slot 0 (take (Z.to_nat MAX_VK_BUFFERS) pool))
    as [i|]; cbn [fst]; [|exact Hown].
  intros j b Hj Hs.
  destruct (decide (i = j)) as [->|Hne].
  - assert (Hlt : (j < length pool)%nat).
    { apply lookup_lt_Some in Hj. rewrite length_insert in Hj. exact Hj. }
    rewrite list_lookup_insert_eq in Hj by exact Hlt.
    inversion Hj; subst b. reflexivity.
  - rewrite list_lookup_insert_ne in Hj by exact Hne.
    apply (Hown j b Hj Hs).
Qed.

Lemma owners_insert_empty pool i b :
  pool_owners_ignored pool -> size b = 0 ->
  pool_owners_ignored (<[i := b]> pool).
Proof.
  intros Hown Hz j b' Hj Hs.
  destruct (decide (i = j)) as [->|Hne].
  - assert (Hlt : (j < length pool)%nat).
    { apply lookup_lt_Some in Hj. rewrite length_insert in Hj. exact Hj. }
    rewrite list_lookup_insert_eq in Hj by exact Hlt.
    inversion Hj; subst b'. lia.
  - rewrite list_lookup_insert_ne in Hj by exact Hne.
    apply (Hown j b' Hj Hs).
Qed.

Lemma sync_ignored_owner buf offset sz q src_mask dst_mask force :
  qf_owner buf = VK_QUEUE_FAMILY_IGNORED ->
  sync_barriers [mk_vk_subbuffer buf offset sz] q src_mask dst_mask force
  = if force then
      [mk_barrier src_mask dst_mask VK_QUEUE_FAMILY_IGNORED
                  VK_QUEUE_FAMILY_IGNORED (buffer buf) offset sz]
    else [].
Proof.
  intros Hown. unfold sync_barriers.
  cbn [flat_map sub_buffer sub_offset sub_size app].
  rewrite Hown, Z.eqb_refl. cbn [negb andb].
  destruct force; reflexivity.
Qed.

(** X29: the buffers the pool hands out never change queue-family owner:
    a buffer from [ggml_vk_pool_malloc], reused or fresh, has the owner
    [VK_QUEUE_FAMILY_IGNORED], and so has every buffer parked by
    [ggml_vk_pool_free] afterwards.  For such a buffer
    [ggml_vk_sync_buffers] without [force_sync] records nothing, on any
    queue, and with [force_sync] its barrier transfers no ownership. *)
Theorem pool_buffers_need_no_ownership_barrier :
  forall (w : vk_world) (pool : list vk_buffer) (sz alloc_flags : Z),
    pool_wf pool -> pool_owners_ignored pool ->
    let '(buf, pool', w') := ggml_vk_pool_malloc w pool sz alloc_flags in
    qf_owner buf = VK_QUEUE_FAMILY_IGNORED
    /\ pool_owners_ignored pool'
    /\ (forall w2 given,
          pool_owners_ignored (ggml_vk_pool_free w2 pool' given).1)
    /\ (forall s offset sub_sz q src_mask dst_mask,
          ggml_vk_sync_buffers s [mk_vk_subbuffer buf offset sub_sz] q
                               src_mask dst_mask false = s
          /\ sync_barriers [mk_vk_subbuffer buf offset sub_sz] q
                           src_mask dst_mask true
             = [mk_barrier src_mask dst_mask VK_QUEUE_FAMILY_IGNORED
                           VK_QUEUE_FAMILY_IGNORED (buffer buf) offset
                           sub_sz]).
Proof.
  intros w pool sz alloc_flags Hwf Hown.
  assert (Hmain : forall buf pool' w',
             ggml_vk_pool_malloc w pool sz alloc_flags = (buf, pool', w') ->
             qf_owner buf = VK_QUEUE_FAMILY_IGNORED
             /\ pool_owners_ignored pool').
  { intros buf pool' w' E.
    destruct (pool_malloc_cases w pool sz alloc_flags Hwf)
      as [(i & b & Hi & Hfit & _ & E')
         |(_ & pool1 & w1 & Hpool1 & E')];
      rewrite E' in E; inversion E; subst buf pool' w'; clear E.
    - split.
      + apply (Hown i b Hi). apply Hfit.
      + apply owners_insert_empty; [exact Hown | reflexivity].
    - split; [apply create_buffer_facts|].
      destruct Hpool1 as [[-> _]|(i & b & Hi & _ & -> & _)];
        [exact Hown|].
      apply owners_insert_empty; [exact Hown|].
      apply destroy_buffer_live. }
  destruct (ggml_vk_pool_malloc w pool sz alloc_flags)
    as [[buf pool'] w'] eqn:E.
  destruct (Hmain buf pool' w' eq_refl) as [Hbuf Hpool'].
  split; [exact Hbuf|]. split; [exact Hpool'|].
  split.
  - intros w2 given. apply pool_free_owners. exact Hpool'.
  - intros s offset sub_sz q src_mask dst_mask. split.
    + unfold ggml_vk_sync_buffers.
      rewrite (sync_ignored_owner buf offset sub_sz q src_mask dst_mask
                 false Hbuf).
      reflexivity.
    + apply (sync_ignored_owner buf offset sub_sz q src_mask dst_mask true
               Hbuf).
Qed.

Lemma example_pool_owners : pool_owners_ignored example_pool.
Proof.
  intros [|i] b Hb Hs.
  - inversion Hb; subst b. reflexivity.
  - change (replicate 255 empty_slot !! i = Some b) in Hb.
    apply lookup_replicate in Hb as [-> _]. cbn in Hs. lia.
Qed.

Lemma pool_buffers_need_no_ownership_barrier_witness :
  let '(buf, pool', w') :=
    ggml_vk_pool_malloc (snd example_pool_world) example_pool 8 0 in
  qf_owner buf = VK_QUEUE_FAMILY_IGNORED
  /\ pool_owners_ignored pool'
  /\ (forall w2 given,
        pool_owners_ignored (ggml_vk_pool_free w2 pool' given).1)
  /\ (forall s offset sub_sz q src_mask dst_mask,
        ggml_vk_sync_buffers s [mk_vk_subbuffer buf offset sub_sz] q
                             src_mask dst_mask false = s
        /\ sync_barriers [mk_vk_subbuffer buf offset sub_sz] q
                         src_mask dst_mask true
           = [mk_barrier src_mask dst_mask VK_QUEUE_FAMILY_IGNORED
                         VK_QUEUE_FAMILY_IGNORED (buffer buf) offset
                         sub_sz]).
Proof.
  apply (pool_buffers_need_no_ownership_barrier (snd example_pool_world)
           example_pool 8 0).
  - exact example_pool_wf.
  - exact example_pool_owners.
Defined.

(** ** Descriptor sets of the conversion pipelines *)

Lemma allocate_descriptor_sets_exact dev p n :
  descriptor_set_mode dev <> VK_DEVICE_DESCRIPTOR_POOL_MODE_MULTI ->
  length (descriptor_pools p) = length (descriptor_sets p) ->
  exists p',
    ggml_vk_pipeline_allocate_descriptor_sets dev p n = Done p'
    /\ length (descriptor_sets p')
       = Nat.max (length (descriptor_sets p)) (Z.to_nat n)
    /\ length (descriptor_pools p') = length (descriptor_sets p')
    /\ descriptor_set_index p' = descriptor_set_index p
    /\ parameter_count p' = parameter_count p.
Proof.
  intros Hm Hlen. unfold ggml_vk_pipeline_allocate_descriptor_sets.
  destruct (n <=? Z.of_nat (length (descriptor_sets p))) eqn:En.
  - exists p. apply Z.leb_le in En.
    split; [reflexivity|]. split; [lia|]. auto.
  - apply Z.leb_gt in En.
    rewrite (proj2 (Z.eqb_neq _ _) Hm).
    destruct (allocate_single_loop_done
                (Z.to_nat (n - Z.of_nat (length (descriptor_sets p))))
                (descriptor_pools p) (descriptor_sets p) Hlen)
      as (pools' & sets' & E & Hs & Hp).
    rewrite E. cbn [mbind result_bind rbind].
    eexists. split; [reflexivity|]. cbn.
    split; [lia|]. auto.
Qed.

Lemma dispatch_too_few_buffers st s pv buffers pc_size pc elements :
  Z.of_nat (length buffers) < parameter_count (st pv) ->
  ggml_vk_dispatch_pipeline st s pv buffers pc_size pc elements = Undefined.
Proof.
  intros Hfew. unfold ggml_vk_dispatch_pipeline.
  destruct elements as [[e0 e1] e2].
  destruct (wg_denoms (st pv)) as [[d0 d1] d2].
  destruct (descriptor_sets (st pv)
              !! Z.to_nat (descriptor_set_index (st pv))); [|reflexivity].
  rewrite (proj2 (Z.ltb_lt _ _) Hfew). reflexivity.
Qed.

(** More dispatches than sets behind the cursor: one of them reads past
    [descriptor_sets]. *)
Lemma run_dispatches_overrun dev pv ds :
  forall rest st s,
    Forall is_dispatch ds ->
    0 <= descriptor_set_index (st pv)
      <= Z.of_nat (length (descriptor_sets (st pv))) ->
    Z.of_nat (length (descriptor_sets (st pv))) < 2 ^ 32 ->
    Z.of_nat (length (descriptor_sets (st pv)))
      < descriptor_set_index (st pv) + Z.of_nat (length ds) ->
    run_ops dev pv (ds ++ rest) (st, s) = Undefined.
Proof.
  induction ds as [|d ds IH]; intros rest st s Hall Hidx Hbound Hover.
  - cbn [length] in Hover. lia.
  - inversion Hall as [|d' ds' Hd Hds]; subst d' ds'.
    destruct d as [n|buffers pc_size pc elements|]; try contradiction.
    cbn [app run_ops run_op].
    destruct (descriptor_sets (st pv)
                !! Z.to_nat (descriptor_set_index (st pv))) as [set|] eqn:Hset.
    + destruct (Z_lt_le_dec (Z.of_nat (length buffers))
                            (parameter_count (st pv))) as [Hfew|Hpar].
      * rewrite dispatch_too_few_buffers by exact Hfew. reflexivity.
      * rewrite (dispatch_pipeline_done _ _ _ _ _ _ _ set Hset Hpar).
        cbn [mbind result_bind rbind].
        apply lookup_lt_Some in Hset.
        apply IH; [exact Hds| | |];
          rewrite fn_lookup_insert; unfold advance_cursor;
          cbn [descriptor_set_index descriptor_sets with_descriptors];
          rewrite ?u32_small by lia; cbn [length] in Hover; lia.
    + rewrite dispatch_pipeline_out_of_range by exact Hset. reflexivity.
Qed.

Lemma presized_one_dispatch_per_batch pcount hw (D : nat -> pipeline_op)
    (rest : list pipeline_op) :
  (forall it, exists buffers pc_size pc elements,
      D it = OpDispatch buffers pc_size pc elements
      /\ pcount <= Z.of_nat (length buffers)) ->
  presized pcount 0 hw rest ->
  forall k start used,
    used + Z.of_nat k <= hw ->
    presized pcount used hw
      (flat_map (fun it => [D it]) (seq start k) ++ OpCleanup :: rest).
Proof.
  intros HD Hrest. induction k as [|k IH]; intros start used Hle.
  - cbn. exact Hrest.
  - cbn [seq flat_map app].
    destruct (HD start) as (buffers & pc_size & pc & elements & -> & Hpc).
    cbn [presized]. split; [lia|]. split; [exact Hpc|].
    apply IH. lia.
Qed.

(** X30: in [ggml_vk_mul_mat_q_f16] the Q4_0 conversion pipeline gets one
    descriptor set per batch.  With a Q4_0 weight and an f32 or f16
    activation that is what its dispatches use: they all find their set
    and the cursor is back at zero after the cleanup.  With a Q4_0
    activation as well, both conversions are this one pipeline: the
    second pre-sizing adds nothing, each batch dispatches it twice, and
    unless an earlier call left twice the batch count of sets, a dispatch
    reads past [descriptor_sets]. *)
Theorem q4_0_conversion_descriptor_sets :
  forall (dev : vk_device_state) (st : pipeline_store) (s : vk_submission)
         (src0 src1 : ggml_tensor) (Qx X Qy Y : nat -> vk_subbuffer),
    let pv := vk_pipeline_dequant_q4_0 in
    let ops := mul_mat_q_f16_conversion_ops pv src0 src1 Qx X Qy Y in
    descriptor_set_mode dev <> VK_DEVICE_DESCRIPTOR_POOL_MODE_MULTI ->
    length (descriptor_pools (st pv)) = length (descriptor_sets (st pv)) ->
    descriptor_set_index (st pv) = 0 ->
    type src0 = GGML_TYPE_Q4_0 ->
    1 <= ne2 src0 -> 1 <= ne3 src0 -> 2 * (ne2 src0 * ne3 src0) <= 2 ^ 32 ->
    (type src1 = GGML_TYPE_F32 \/ type src1 = GGML_TYPE_F16 ->
     parameter_count (st pv) <= 2 ->
     exists st' s',
       run_ops dev pv ops (st, s) = Done (st', s')
       /\ descriptor_set_index (st' pv) = 0)
    /\ (type src1 = GGML_TYPE_Q4_0 ->
        Z.of_nat (length (descriptor_sets (st pv)))
          < 2 * (ne2 src0 * ne3 src0) ->
        run_ops dev pv ops (st, s) = Undefined).
Proof.
  intros dev st s src0 src1 Qx X Qy Y pv ops Hm Hlen Hidx H0 Hne2 Hne3 Hn.
  set (n := ne2 src0 * ne3 src0) in *.
  assert (Hnpos : 1 <= n) by (unfold n; nia).
  assert (Hbatch : Z.of_nat (batch_count (ne2 src0) (ne3 src0)) = n).
  { unfold batch_count, n. rewrite Nat2Z.inj_mul, !Z2Nat.id by lia. lia. }
  assert (Hu : u32 n = n) by (apply u32_small; lia).
  split.
  - (* the weight alone is converted *)
    intros H1 Hpc.
    set (D := fun it_idx : nat =>
                OpDispatch [Qx it_idx; X it_idx] (4 * 4)
                  [s32 (ne1 src0); s32 (ne0 src1); s32 (ne0 src1);
                   s32 (ne0 src1)]
                  (u32 (s32 (s64 (ne1 src0 * ne0 src0))), 1, 1)).
    assert (Hops : ops
                   = (OpAllocate (u32 n)
                      :: flat_map (fun it => [D it])
                           (seq 0 (batch_count (ne2 src0) (ne3 src0))))
                     ++ [OpCleanup]).
    { subst ops. unfold mul_mat_q_f16_conversion_ops.
      fold n. rewrite H0.
      assert (Hqy : negb (bool_decide (type src1 = GGML_TYPE_F16))
                    && negb (bool_decide (type src1 = GGML_TYPE_F32))
                    = false).
      { destruct H1 as [-> | ->]; reflexivity. }
      rewrite Hqy. unfold ops_on. cbn [andb app].
      change (negb (bool_decide (GGML_TYPE_Q4_0 = GGML_TYPE_F16))
              && bool_decide (ggml_vk_get_to_fp16 GGML_TYPE_Q4_0 = Some pv))
        with true.
      reflexivity. }
    rewrite Hops, run_ops_app.
    destruct (run_ops_invariant dev pv (parameter_count (st pv))
                (OpAllocate (u32 n)
                 :: flat_map (fun it => [D it])
                      (seq 0 (batch_count (ne2 src0) (ne3 src0))))
                [OpCleanup] st s 0 0 Hm)
      as (st1 & s1 & used1 & hw1 & E & Hinv & _).
    { unfold cursor_invariant. repeat split; auto; lia. }
    { cbn [app presized]. rewrite Hu. split; [lia|].
      apply presized_one_dispatch_per_batch.
      - intros it. eexists _, _, _, _. split; [reflexivity|].
        cbn [length]. lia.
      - exact I.
      - lia. }
    rewrite E. cbn [mbind result_bind rbind run_ops run_op].
    eexists _, _. split; [reflexivity|].
    rewrite fn_lookup_insert. reflexivity.
  - (* both operands are converted by this pipeline *)
    intros H1 Hhave.
    set (D0 := fun it_idx : nat =>
                 OpDispatch [Qx it_idx; X it_idx] (4 * 4)
                   [s32 (ne1 src0); s32 (ne0 src1); s32 (ne0 src1);
                    s32 (ne0 src1)]
                   (u32 (s32 (s64 (ne1 src0 * ne0 src0))), 1, 1)).
    set (D1 := fun it_idx : nat =>
                 OpDispatch [Qy it_idx; Y it_idx] (4 * 4)
                   [s32 (ne1 src1); s32 (ne0 src1); s32 (ne0 src1);
                    s32 (ne0 src1)]
                   (u32 (s32 (s64 (ne1 src1 * ne0 src1))), 1, 1)).
    assert (Hops : ops
                   = OpAllocate (u32 n) :: OpAllocate (u32 n)
                     :: flat_map (fun it => [D0 it; D1 it])
                          (seq 0 (batch_count (ne2 src0) (ne3 src0)))
                     ++ [OpCleanup; OpCleanup]).
    { subst ops. unfold mul_mat_q_f16_conversion_ops.
      fold n. rewrite H0, H1. reflexivity. }
    rewrite Hops. cbn [run_ops run_op]. unfold allocate_in.
    destruct (allocate_descriptor_sets_exact dev (st pv) (u32 n) Hm Hlen)
      as (p1 & E1 & Hs1 & Hp1 & Hi1 & Hc1).
    rewrite E1. cbn [mbind result_bind rbind run_ops run_op].
    unfold allocate_in. rewrite fn_lookup_insert.
    destruct (allocate_descriptor_sets_exact dev p1 (u32 n) Hm Hp1)
      as (p2 & E2 & Hs2 & Hp2 & Hi2 & Hc2).
    rewrite E2. cbn [mbind result_bind rbind].
    apply run_dispatches_overrun.
    + assert (Hall : forall l : list nat,
                 Forall is_dispatch (flat_map (fun it => [D0 it; D1 it]) l)).
      { induction l as [|it l IHl]; cbn [flat_map app]; [constructor|].
        constructor; [exact I|]. constructor; [exact I | exact IHl]. }
      apply Hall.
    + rewrite fn_lookup_insert. lia.
    + rewrite fn_lookup_insert. lia.
    + rewrite fn_lookup_insert.
      assert (Hlenflat : forall l : list nat,
                 length (flat_map (fun it => [D0 it; D1 it]) l)
                 = (2 * length l)%nat).
      { induction l as [|it l IHl]; cbn [flat_map app length];
          [reflexivity | lia]. }
      rewrite Hlenflat, length_seq. lia.
Qed.

Lemma q4_0_conversion_descriptor_sets_witness :
  run_ops (init_dev true true 16) vk_pipeline_dequant_q4_0
    (mul_mat_q_f16_conversion_ops vk_pipeline_dequant_q4_0
       example_q4_weight example_q4_activation
       (example_subbuffer 1) (example_subbuffer 2)
       (example_subbuffer 3) (example_subbuffer 4))
    (init_store true true 16, mk_vk_submission 0 [] [] [])
  = Undefined.
Proof.
  refine (proj2 (q4_0_conversion_descriptor_sets (init_dev true true 16)
                   (init_store true true 16) (mk_vk_submission 0 [] [] [])
                   example_q4_weight example_q4_activation
                   (example_subbuffer 1) (example_subbuffer 2)
                   (example_subbuffer 3) (example_subbuffer 4)
                   _ _ _ _ _ _ _) _ _).
  - vm_compute. congruence.
  - reflexivity.
  - reflexivity.
  - reflexivity.
  - vm_compute. congruence.
  - vm_compute. congruence.
  - vm_compute. congruence.
  - reflexivity.
  - vm_compute. reflexivity.
Defined.
